(* ===== verification/_CoqProject ===== *)
-Q . S2P
Prelude.v
Json.v
Cookie.v
Middleware.v
Session.v
JsNumber.v
Api.v
MegaMenu.v
RestServices.v
LoginPage.v
ProductForm.v
ProductSubmit.v
ProductInputs.v
ProductViews.v
Crud.v
Brands.v
Manufacturers.v
Categories.v
Slider.v
AdminLayout.v
AdminProducts.v
Header.v
Home.v
StaticPages.v
Dashboard.v
Backup.v
Routes.v
RootLayout.v
NextConfig.v
