(* ===== verification/Prelude.v ===== *)
(** * A verification development for the Ecom-Frontend storefront and back-office

    The repository is a Next.js front end of an e-commerce platform: a
    public storefront ([src/app/page.tsx], [src/app/products],
    [src/app/cart], the [Header], [MegaMenu], [HomeBannerSlider] and
    [Footer] components) and an admin back-office ([src/app/admin/...]:
    dashboard, products, categories, brands, manufacturers, orders,
    customers).  All business data lives behind a REST API that is not part
    of the repository; the front end fetches JSON, keeps it in React state,
    and posts forms back.  The parts that carry logic, and how they
    interact:

    - the route guard [src/middleware.ts] reads the [authToken] cookie and
      redirects between [/admin] and [/login]; it runs only on the paths its
      [config.matcher] selects;
    - the login page [src/app/login/page.tsx] writes the token into
      [localStorage] and into [document.cookie]; the admin layout
      [src/app/admin/layout.tsx] removes both on logout and builds its user
      badge from what the login stored.  The guard reads what these two
      wrote: they share the browser's cookie jar;
    - the admin pages read the token back from [localStorage] to build
      their [Authorization] headers, and post their forms to the endpoints
      of [src/lib/api-config.ts];
    - the storefront header fetches the category tree (or receives it from
      the root layout) and drives the mega menu and the mobile drawer.

    ** Files, in dependency order

    - [Prelude.v] (this file): the JavaScript string primitives the code
      relies on ([startsWith], [includes], ASCII [toLowerCase], truthiness
      of strings, the [||] default as [a ||s b] in [ecom_scope]), their
      lemmas, generic list lemmas, the hint databases [ecom] and
      [ecom_rw] and the tactics [arith_bools], [js_compute], [by_eval],
      [case_ifs].
    - [Json.v] ([Module Json]): [JSON.stringify] and [JSON.parse] on flat
      objects, with the round trip [parse_stringify].
    - [Cookie.v] ([Module Cookie]): the [document.cookie] setter (RFC 6265
      parsing, [Max-Age]), with the round trip of the login's cookie.
    - [Middleware.v] ([Module Middleware]): [middleware] and the matcher of
      [src/middleware.ts]; the spec's three-way decision [decide_access]
      is the abstract contract and [guard_refines_decide] the refinement.
    - [Session.v] ([Module Session]): the browser as a state
      ([localStorage], cookie jar, location, timer, the login page's
      state); the login's [handleSubmit], the layout's [handleLogout],
      navigations through the guard, the timer, the cookie's expiry, as a
      step function and a [reachable] relation.
    - [JsNumber.v] ([Module JsNumber]): [parseInt] and [parseFloat].
    - [Api.v] ([Module Api]): [API_BASE_URL], [API_ENDPOINTS], the
      environment variable as the storefront interpolates it, request
      bodies as JSON values, requests, the optional [Authorization]
      header and [getImageUrl].
    - [LoginPage.v] ([Module LoginPage]): the login page's own state (the
      form and the eye button), the browser's [required] and
      [type="email"] checks, the request of the submit and the render,
      with a step function over [Session]'s browser that refines it.
    - [MegaMenu.v] ([Module MegaMenu]): the mega menu's brand row and its
      fetch.
    - [RestServices.v] ([Module RestServices]): the four service objects
      of [src/lib/services] as the calls they make on [apiClient].
    - [ProductForm.v] and [ProductSubmit.v]: the product-creation page
      [src/app/admin/products/add/page.tsx], its state and every editor,
      then its [handleSubmit] and the body it posts.
    - [ProductInputs.v] ([Module ProductInputs]): the same page's JSX: the
      60 inputs that call [handleChange], tab by tab, with the conditions
      of their groups and the options of their selects, and the page with
      its active tab as a step function that refines [ProductForm]'s.
    - [ProductViews.v] ([Module ProductViews]): the lists that page renders
      from [formData]: the related and cross-sell pickers with their
      search results, the picture cards, the videos and the
      specifications.
    - [Crud.v]: [Class CrudEntity], the interface a CRUD page states about
      its entity, and [Section Crud], the page state and the handlers the
      category, brand and manufacturer pages share, with their invariant.
      [Brands.v] (brands, with a [PageConfig] of what the manufacturer
      page changes), [Manufacturers.v] (the manufacturer page, the brand
      page at its own configuration) and [Categories.v] instantiate it and
      add their own handlers.
    - [Slider.v] ([Module Slider]): [HomeBannerSlider] with explicit time:
      the interval, the clone-jump timeouts, the buttons and dots.
    - [AdminLayout.v]: navigation highlighting and the user badge.
    - [AdminProducts.v]: the admin product list: its fetch, rows, cards,
      edit links and delete dialog.
    - [Header.v]: the storefront header (scroll, messages, category fetch,
      hover, drawer, delivery bar, links), its mega menu, and the layouts
      that render it.
    - [Home.v] ([Module Home]): the home page [src/app/page.tsx]: its four
      fetches and their fallbacks, the stable insertion sort by a key
      ([Section Sort]) that the page's [Array.prototype.sort] calls are,
      and the rendered sections ([Section View]).
    - [StaticPages.v]: the pages that show constant or fetched data with
      little state: the storefront product listing ([Module ProductsPage]),
      the admin orders page and its search and status filter as a step
      function ([Module Orders]), the customers page ([Module Customers]),
      the footer's sections ([Module Footer]) and the cart page
      ([Module Cart]).
    - [Dashboard.v] ([Module Dashboard]): the admin dashboard's literals,
      cards, chart data, pie labels and the rows of its two lists.
    - [Backup.v] ([Module ProductBackup]): the earlier product form
      [page_old_backup.tsx]: its state, its header buttons, its tabs
      section by section, its submit compared with the current one, and
      its tab bar, whose first tab cannot be reopened.
    - [Routes.v] ([Module Routes]): the pages of the App Router (the
      directories of [src/app] holding a [page.tsx]), the browser's
      resolution of an [href] (path segments, dot segments, trailing
      slash), and the links of the other components checked against them.
    - [RootLayout.v] ([Module RootLayout]): the root layout of every route,
      its metadata and its server-side category fetch with the cases where
      it throws, and [ClientLayout], which shows the storefront header and
      footer on every route but the admin ones.
    - [NextConfig.v] ([Module NextConfig]): [images.remotePatterns] of
      [next.config.ts] and the remote-image check of [next/image], applied
      to the mega menu's brand logos.

    ** What the theorems show

    - the guard refines the spec's decision, redirects every unauthenticated
      admin path, and every navigation settles ([Middleware], [Session]);
    - the session's stores stay consistent (the cookie only with the
      stored token) in every reachable state; login reaches the admin area
      and logout locks it;
    - the login page refines the session ([login_refines_session]); what
      is typed is what the server parses ([login_sends_typed_credentials],
      through [Json]'s round trip); a form without [@] or password never
      leaves; each outcome renders its message and re-enables the button;
    - the product form keeps its pickers duplicate-free and within the
      catalogue, so they list every chosen product; a search result adds
      its product exactly when it shows "Add"; its submit guard, GUID check and payload are characterised
      field by field;
    - the CRUD pages keep "editing only while the modal is open" in every
      reachable state; their submits are characterised on every branch,
      errors included;
    - the slider's clone jump is always pending when a clone shows, and
      waiting fires every due event in finitely many steps;
    - the header's menus, message rotation and top bar are characterised;
    - the body the product form posts has, whatever the form holds, the
      JSON shape the API's DTO expects ([body_has_dto_shape], a typing
      judgement [Api.typed] on the wire value);
    - the product page's inputs show what they write, keep each member of
      [formData] at its kind in every reachable state, and every run of the
      rendered page is a run of the form model ([page_reachable_form]); no
      reachable form sends a category, and 33 inputs never reach the body;
    - [Home.sort_by] is equivalent to its specification: a list is the
      sort of [l] exactly when it is sorted and keeps every key's elements
      in their order ([sort_by_spec]); the home page's categories and
      brands are characterised by it, and its failures render empty;
    - the orders page's status filters partition the orders and its counts
      agree with them; the dashboard's trends match their signs, and its
      literals are compared with the catalogue and the order page;
    - every request of the manufacturer page targets the manufacturer
      endpoint; the REST services follow one REST layout;
    - the admin and checkout links reach pages of the application, and the
      storefront's category, brand, delivery, account and order links, the
      product-edit links and the password-reset link reach none, for every
      slug that is a plain path segment ([Routes.dead_links]);
    - a failure of the root layout's category fetch (an unset API variable,
      an unreachable API, a body that is not JSON, a success without data)
      takes down every route, the admin and login pages included
      ([RootLayout.layout_failure_takes_every_route]); the mega menu's
      logos load only from the two https origins the image configuration
      allows, not from the API's default URL
      ([NextConfig.brand_logos_need_https_origin]);
    - the findings: the product pages read an item no one writes ([token]),
      the category page posts without a token, uploads lose edits, a
      category can be given its own child as parent, the [/administrator]
      prefix is guarded but not matched, the login page ignores the API
      configuration, most storefront links and the product-edit link lead
      to missing routes, the storefront requests [undefined/api/...] when the
      API variable is unset, among others (the manifest lists them).

    ** Bounds and fuel

    [Session.follow] follows at most [max_redirects = 20] redirects, the
    limit of browsers; [follow_settles] shows one redirect is always
    enough.  [Slider.advance] takes fuel; [wait_fuel] gives one unit per
    pending timeout and four per 5 s interval tick of the span plus a
    margin, and [wait_total] shows it never runs out from a reachable
    state.  Times and scroll positions are integers ([Z]); banner indices
    and counters are [nat] or [Z] as the proofs need.

    ** Not modelled

    Rendering of markup and styles beyond the values that reach the page
    (the dashboard's charts, drawn by [recharts], CSS and icons), the
    font and [html]/[body] attributes of the root layout, the [apiClient]
    module the REST services import (it is not in the repository), the
    lint and type-check options of [next.config.ts] (they act on the build
    only),
    the network itself (a response is an input of the handler that
    receives it), and the external backend.  Where a
    browser function is outside the model ([toLocaleString], the JWT
    decoding of [atob]), it is a [Variable] of the section that uses it. *)

From Stdlib Require Import String Ascii ZArith.
From stdpp Require Import base list gmap strings.

Declare Scope ecom_scope.
Delimit Scope ecom_scope with ecom.
Open Scope string_scope.

Create HintDb ecom.
Create Rewrite HintDb ecom_rw.

(** ** JavaScript string primitives *)

(** [s.startsWith(p)] *)
Fixpoint startsWith (s p : string) {struct p} : bool :=
  match p, s with
  | EmptyString, _ => true
  | String c p', String d s' => Ascii.eqb c d && startsWith s' p'
  | String _ _, EmptyString => false
  end.

(** [s.includes(t)]: some suffix of [s] starts with [t]. *)
Fixpoint includes (s t : string) : bool :=
  startsWith s t ||
  match s with
  | EmptyString => false
  | String _ s' => includes s' t
  end.

(** [toLowerCase] on the ASCII letters [A]..[Z]. *)
Definition lower_ascii (c : ascii) : ascii :=
  let n := nat_of_ascii c in
  if (65 <=? n)%nat && (n <=? 90)%nat then ascii_of_nat (n + 32) else c.

(** [toUpperCase] on one character, for the ASCII letters. *)
Definition upper_ascii (c : ascii) : ascii :=
  let n := nat_of_ascii c in
  if (97 <=? n)%nat && (n <=? 122)%nat then ascii_of_nat (n - 32) else c.

Fixpoint toLowerCase (s : string) : string :=
  match s with
  | EmptyString => EmptyString
  | String c s' => String (lower_ascii c) (toLowerCase s')
  end.

(** Truthiness of a string: only [""] is falsy. *)
Definition truthy (s : string) : bool := negb (String.eqb s "").

(** Truthiness of a value that may be [undefined] or [null]. *)
Definition opt_truthy (o : option string) : bool :=
  match o with Some s => truthy s | None => false end.

(** [a || b] on strings. *)
Definition or_else (a b : string) : string := if truthy a then a else b.

(** [o || b] where [o] may be [undefined]. *)
Definition opt_or_else (o : option string) (b : string) : string :=
  match o with Some a => or_else a b | None => b end.

Notation "a '||s' b" := (or_else a b) (at level 50, left associativity) : ecom_scope.

(** ** Lemmas on the primitives *)

Lemma string_app_nil_l (s : string) : "" +:+ s = s.
Proof. reflexivity. Qed.

Lemma string_app_cons (c : ascii) (s t : string) : String c s +:+ t = String c (s +:+ t).
Proof. reflexivity. Qed.

Lemma string_app_nil_r (s : string) : s +:+ "" = s.
Proof. induction s as [|c s IH]; [done | by rewrite string_app_cons, IH]. Qed.

Lemma string_app_assoc (s t u : string) : s +:+ (t +:+ u) = (s +:+ t) +:+ u.
Proof. induction s as [|c s IH]; [done | by rewrite !string_app_cons, IH]. Qed.

Lemma string_length_app (s t : string) : String.length (s +:+ t) = String.length s + String.length t.
Proof. induction s as [|c s IH]; [done |]. rewrite string_app_cons. cbn. by rewrite IH. Qed.

Lemma list_ascii_of_string_app (s t : string) :
  list_ascii_of_string (s +:+ t) = (list_ascii_of_string s ++ list_ascii_of_string t)%list.
Proof. induction s as [|c s IH]; [done |]. rewrite string_app_cons. cbn. by rewrite IH. Qed.

Lemma string_app_inj_l (t s1 s2 : string) : t +:+ s1 = t +:+ s2 -> s1 = s2.
Proof. induction t as [|c t IH]; [done |]. rewrite !string_app_cons. intros H. injection H. exact IH. Qed.

(** Two texts with the same suffix are equal when what precedes it is. *)
Lemma string_app_inj_r (s1 s2 t : string) : s1 +:+ t = s2 +:+ t -> s1 = s2.
Proof.
  intros H. rewrite <- (string_of_list_ascii_of_string s1), <- (string_of_list_ascii_of_string s2).
  f_equal. apply (app_inv_tail (list_ascii_of_string t)). by rewrite <- !list_ascii_of_string_app, H.
Qed.

Lemma startsWith_spec (s p : string) :
  startsWith s p = true <-> exists r, s = p +:+ r.
Proof.
  revert s. induction p as [|c p IH]; intros s; simpl.
  - split; [intros _; by exists s | by intros _].
  - destruct s as [|d s]; simpl.
    + split; [discriminate | intros [r Hr]; discriminate].
    + rewrite andb_true_iff, Ascii.eqb_eq, IH. split.
      * intros [-> [r ->]]. by exists r.
      * intros [r Hr]. rewrite string_app_cons in Hr. injection Hr as -> ->. eauto.
Qed.

Lemma startsWith_app (p r : string) : startsWith (p +:+ r) p = true.
Proof. apply startsWith_spec. eauto. Qed.

Lemma startsWith_empty (s : string) : startsWith s "" = true.
Proof. by destruct s. Qed.

Lemma startsWith_refl (s : string) : startsWith s s = true.
Proof. rewrite <- (string_app_nil_r s) at 1. apply startsWith_app. Qed.

Lemma includes_spec (s t : string) :
  includes s t = true <-> exists a b, s = a +:+ t +:+ b.
Proof.
  induction s as [|c s IH]; simpl; rewrite orb_true_iff, startsWith_spec.
  - split.
    + intros [[r Hr] | ?]; [by exists "", r | discriminate].
    + intros [a [b Hab]]. left. destruct a; [by exists b | discriminate].
  - rewrite IH. split.
    + intros [[r Hr] | [a [b Hab]]].
      * by exists "", r.
      * exists (String c a), b. by rewrite Hab, string_app_cons.
    + intros [a [b Hab]]. destruct a as [|d a].
      * left. by exists b.
      * right. rewrite string_app_cons in Hab. injection Hab as -> ->. eauto.
Qed.

Lemma includes_empty (s : string) : includes s "" = true.
Proof. apply includes_spec. by exists "", s. Qed.

Lemma includes_refl (s : string) : includes s s = true.
Proof. apply includes_spec. exists "", "". by rewrite string_app_nil_l, string_app_nil_r. Qed.

Lemma includes_startsWith (s t : string) : startsWith s t = true -> includes s t = true.
Proof. destruct s; simpl; intros ->; reflexivity. Qed.

Lemma lower_ascii_idem (c : ascii) : lower_ascii (lower_ascii c) = lower_ascii c.
Proof. destruct c as [[] [] [] [] [] [] [] []]; reflexivity. Qed.

Lemma toLowerCase_idem (s : string) : toLowerCase (toLowerCase s) = toLowerCase s.
Proof. induction s as [|c s IH]; simpl; [done | by rewrite lower_ascii_idem, IH]. Qed.

Lemma toLowerCase_app (s t : string) : toLowerCase (s +:+ t) = toLowerCase s +:+ toLowerCase t.
Proof. induction s as [|c s IH]; [done | by rewrite string_app_cons; simpl; rewrite IH]. Qed.

Lemma truthy_false (s : string) : truthy s = false <-> s = "".
Proof.
  unfold truthy. rewrite negb_false_iff. apply String.eqb_eq.
Qed.

Lemma truthy_true (s : string) : truthy s = true <-> s <> "".
Proof.
  unfold truthy. rewrite negb_true_iff. apply String.eqb_neq.
Qed.

Lemma truthy_String (c : ascii) (s : string) : truthy (String c s) = true.
Proof. reflexivity. Qed.

Lemma opt_truthy_true (o : option string) :
  opt_truthy o = true <-> exists s, o = Some s /\ s <> "".
Proof.
  destruct o as [s|]; simpl; rewrite ?truthy_true.
  - split; [eauto | by intros [? [[= <-] ?]]].
  - split; [discriminate | by intros [? [? _]]].
Qed.

Lemma or_else_truthy (a b : string) : a <> "" -> or_else a b = a.
Proof. intros H. unfold or_else. apply truthy_true in H. by rewrite H. Qed.

Lemma or_else_empty (b : string) : or_else "" b = b.
Proof. reflexivity. Qed.

Lemma or_else_ne (a b : string) : b <> "" -> or_else a b <> "".
Proof. intros Hb. unfold or_else. destruct (truthy a) eqn:E; [by apply truthy_true | done]. Qed.

#[export] Hint Rewrite startsWith_app startsWith_empty startsWith_refl
  includes_empty includes_refl toLowerCase_idem or_else_empty
  string_app_nil_l string_app_cons string_app_nil_r : ecom_rw.
#[export] Hint Resolve startsWith_app startsWith_empty includes_empty
  includes_refl includes_startsWith or_else_ne : ecom.

(** ** Lists *)

(** [xs.filter(x => x !== y)] *)
Definition remove_eq `{EqDecision A} (y : A) (xs : list A) : list A :=
  filter (fun x => x <> y) xs.

Lemma remove_eq_not_elem `{EqDecision A} (y : A) (xs : list A) : y ∉ remove_eq y xs.
Proof. unfold remove_eq. rewrite list_elem_of_filter. naive_solver. Qed.

Lemma remove_eq_elem `{EqDecision A} (x y : A) (xs : list A) :
  x ∈ remove_eq y xs <-> x ∈ xs /\ x <> y.
Proof. unfold remove_eq. rewrite list_elem_of_filter. naive_solver. Qed.

Lemma remove_eq_NoDup `{EqDecision A} (y : A) (xs : list A) :
  NoDup xs -> NoDup (remove_eq y xs).
Proof. intros H. by apply NoDup_filter. Qed.

#[export] Hint Resolve remove_eq_not_elem remove_eq_NoDup : ecom.

(** A filter that every element passes keeps the list. *)
Lemma filter_all {A} (P : A -> Prop) `{!forall x, Decision (P x)} (l : list A) :
  (forall x, x ∈ l -> P x) -> filter P l = l.
Proof.
  induction l as [|x l IH]; intros Hl; [done |].
  rewrite filter_cons_True by (apply Hl; left). f_equal. apply IH. intros y Hy. apply Hl. by right.
Qed.

(** Every element a filter keeps passes it. *)
Lemma filter_Forall {A} (P : A -> Prop) `{!forall x, Decision (P x)} (l : list A) :
  Forall P (filter P l).
Proof. apply Forall_forall. intros x. rewrite list_elem_of_filter. naive_solver. Qed.

#[export] Hint Resolve filter_Forall : ecom.

(** [setOpen(s => ({...s, [k]: !s[k]}))] on a map of flags, read with a
    missing entry as [false]: the entry [k] flips, no other changes. *)
Lemma lookup_flip (k j : string) (m : gmap string bool) :
  default false (<[k := negb (default false (m !! k))]> m !! j) =
  if decide (j = k) then negb (default false (m !! k)) else default false (m !! j).
Proof.
  rewrite lookup_insert. destruct (decide (k = j)), (decide (j = k)); subst; done || congruence.
Qed.

(** ** Tactics *)

(** Turn the boolean comparisons of the hypotheses into propositions, for
    [lia]. *)
Ltac arith_bools :=
  repeat match goal with
  | H : Z.eqb _ _ = true |- _ => apply Z.eqb_eq in H
  | H : Z.eqb _ _ = false |- _ => apply Z.eqb_neq in H
  | H : Z.leb _ _ = true |- _ => apply Z.leb_le in H
  | H : Z.leb _ _ = false |- _ => apply Z.leb_gt in H
  | H : Z.ltb _ _ = true |- _ => apply Z.ltb_lt in H
  | H : Z.ltb _ _ = false |- _ => apply Z.ltb_ge in H
  | H : Nat.eqb _ _ = true |- _ => apply Nat.eqb_eq in H
  | H : Nat.eqb _ _ = false |- _ => apply Nat.eqb_neq in H
  | H : Nat.leb _ _ = true |- _ => apply Nat.leb_le in H
  | H : Nat.leb _ _ = false |- _ => apply Nat.leb_gt in H
  | H : Nat.ltb _ _ = true |- _ => apply Nat.ltb_lt in H
  | H : Nat.ltb _ _ = false |- _ => apply Nat.ltb_ge in H
  | H : andb _ _ = true |- _ => apply andb_true_iff in H as [? ?]
  | H : orb _ _ = false |- _ => apply orb_false_iff in H as [? ?]
  end.

(** Unfold the JavaScript primitives on closed arguments and compute. *)
Ltac js_compute := vm_compute; try reflexivity.

(** A decidable fact about concrete data, by evaluation of its decision. *)
Ltac by_eval := apply (bool_decide_unpack _); vm_compute; exact I.

(** Case on every boolean test of the goal's [if]s, simplifying as it goes. *)
Ltac case_ifs :=
  repeat match goal with
  | |- context [if ?b then _ else _] => destruct b eqn:?
  end; simplify_eq; try done.
