(* ===== verification/Json.v ===== *)
(** * JSON text of flat objects: [JSON.stringify] and [JSON.parse]

    The login page stores the signed-in user in [localStorage] as
    [JSON.stringify({id, email, firstName, lastName})]
    ([src/app/login/page.tsx], lines 44-49) and the admin layout reads it
    back with [JSON.parse] ([src/app/admin/layout.tsx], lines 46-53).
    [Module Json] models the two ECMAScript functions on the values that
    travel this way: flat objects whose fields are strings, [null] or
    [undefined].  Characters are 8-bit ([ascii]); a [\uXXXX] escape above
    [ÿ] is outside the model and is rejected by the parser.

    [stringify_object] omits [undefined] fields and escapes as the
    standard prescribes; [parse_object] accepts white space between
    tokens and rejects trailing text.  [parse_stringify] is the round
    trip. *)

From Stdlib Require Import String Ascii.
From stdpp Require Import base list strings.
From S2P Require Import Prelude.

Open Scope string_scope.

Module Json.

(** ** Values *)

Inductive jval :=
| JUndefined
| JNull
| JString (s : string).

#[export] Instance jval_eq_dec : EqDecision jval.
Proof. solve_decision. Defined.

(** [v || ''] for a field read from a parsed object. *)
Definition jval_or_empty (v : jval) : string :=
  match v with JString s => or_else s "" | _ => "" end.

(** ** Characters *)

Definition quote : ascii := ascii_of_nat 34.
Definition backslash : ascii := ascii_of_nat 92.

Definition hex_digit (n : nat) : ascii :=
  if (n <? 10)%nat then ascii_of_nat (48 + n) else ascii_of_nat (87 + n).

Definition hex_val (c : ascii) : option nat :=
  let n := nat_of_ascii c in
  if (48 <=? n)%nat && (n <=? 57)%nat then Some (n - 48)%nat
  else if (97 <=? n)%nat && (n <=? 102)%nat then Some (n - 87)%nat
  else if (65 <=? n)%nat && (n <=? 70)%nat then Some (n - 55)%nat
  else None.

(** The escape [JSON.stringify] writes for one character (QuoteJSONString). *)
Definition escape_char (c : ascii) : string :=
  let n := nat_of_ascii c in
  if (n =? 34)%nat then String backslash (String quote "")
  else if (n =? 92)%nat then String backslash (String backslash "")
  else if (n =? 8)%nat then String backslash "b"
  else if (n =? 12)%nat then String backslash "f"
  else if (n =? 10)%nat then String backslash "n"
  else if (n =? 13)%nat then String backslash "r"
  else if (n =? 9)%nat then String backslash "t"
  else if (n <? 32)%nat then
    String backslash ("u00" +:+ String (hex_digit (n / 16)) (String (hex_digit (n mod 16)) ""))
  else String c "".

Fixpoint escape (s : string) : string :=
  match s with
  | EmptyString => ""
  | String c s' => escape_char c +:+ escape s'
  end.

Definition stringify_string (s : string) : string :=
  String quote (escape s +:+ String quote "").

Definition stringify_value (v : jval) : option string :=
  match v with
  | JUndefined => None
  | JNull => Some "null"
  | JString s => Some (stringify_string s)
  end.

(** The text of one member [k:v]; an [undefined] member has none. *)
Definition member_text (kv : string * jval) : option string :=
  match stringify_value kv.2 with
  | Some t => Some (stringify_string kv.1 +:+ ":" +:+ t)
  | None => None
  end.

Definition stringify_members (fs : list (string * jval)) : list string :=
  omap member_text fs.

(** [JSON.stringify] of an object literal with the fields [fs], in order. *)
Definition stringify_object (fs : list (string * jval)) : string :=
  "{" +:+ String.concat "," (stringify_members fs) +:+ "}".

(** ** Parsing *)

Definition is_ws (c : ascii) : bool :=
  let n := nat_of_ascii c in (n =? 32)%nat || (n =? 9)%nat || (n =? 10)%nat || (n =? 13)%nat.

Fixpoint skip_ws (s : string) : string :=
  match s with
  | String c s' => if is_ws c then skip_ws s' else s
  | EmptyString => s
  end.

(** The character an escape sequence stands for, and the text after it. *)
Definition decode_escape (s : string) : option (ascii * string) :=
  match s with
  | String e r =>
      if Ascii.eqb e quote then Some (quote, r)
      else if Ascii.eqb e backslash then Some (backslash, r)
      else if Ascii.eqb e "/" then Some ("/"%char, r)
      else if Ascii.eqb e "b" then Some (ascii_of_nat 8, r)
      else if Ascii.eqb e "f" then Some (ascii_of_nat 12, r)
      else if Ascii.eqb e "n" then Some (ascii_of_nat 10, r)
      else if Ascii.eqb e "r" then Some (ascii_of_nat 13, r)
      else if Ascii.eqb e "t" then Some (ascii_of_nat 9, r)
      else if Ascii.eqb e "u" then
        match r with
        | String a (String b (String c (String d r'))) =>
            match hex_val a, hex_val b, hex_val c, hex_val d with
            | Some 0, Some 0, Some h, Some l => Some (ascii_of_nat (16 * h + l), r')
            | _, _, _, _ => None
            end
        | _ => None
        end
      else None
  | EmptyString => None
  end.

(** Prepend a decoded character to the result of the rest of the body. *)
Definition prepend (c : ascii) (o : option (string * string)) : option (string * string) :=
  match o with
  | Some (t, r) => Some (String c t, r)
  | None => None
  end.

(** The body of a string literal after its opening quote: the decoded
    text and what follows the closing quote.  [fuel] bounds the number of
    characters read; [String.length s] is enough. *)
Fixpoint parse_chars (fuel : nat) (s : string) : option (string * string) :=
  match fuel with
  | O => None
  | S fuel' =>
      match s with
      | EmptyString => None
      | String c rest =>
          if Ascii.eqb c quote then Some ("", rest)
          else if Ascii.eqb c backslash then
            match decode_escape rest with
            | Some (d, rest') => prepend d (parse_chars fuel' rest')
            | None => None
            end
          else if (nat_of_ascii c <? 32)%nat then None
          else prepend c (parse_chars fuel' rest)
      end
  end.

Definition parse_string (s : string) : option (string * string) :=
  match skip_ws s with
  | String c r => if Ascii.eqb c quote then parse_chars (String.length r) r else None
  | EmptyString => None
  end.

Definition parse_value (s : string) : option (jval * string) :=
  match skip_ws s with
  | String "n" (String "u" (String "l" (String "l" r))) => Some (JNull, r)
  | _ => match parse_string s with
         | Some (t, r) => Some (JString t, r)
         | None => None
         end
  end.

(** Members [k : v] separated by commas, up to the closing brace. *)
Fixpoint parse_members (fuel : nat) (s : string) : option (list (string * jval) * string) :=
  match fuel with
  | O => None
  | S fuel' =>
      match parse_string s with
      | None => None
      | Some (k, r1) =>
          match skip_ws r1 with
          | String ":" r2 =>
              match parse_value r2 with
              | None => None
              | Some (v, r3) =>
                  match skip_ws r3 with
                  | String "," r4 =>
                      match parse_members fuel' r4 with
                      | Some (ms, r5) => Some ((k, v) :: ms, r5)
                      | None => None
                      end
                  | String "}" r4 => Some ([(k, v)], r4)
                  | _ => None
                  end
              end
          | _ => None
          end
      end
  end.

(** [JSON.parse] of an object text, [None] where it throws. *)
Definition parse_object (s : string) : option (list (string * jval)) :=
  match skip_ws s with
  | String "{" r =>
      let body :=
        match skip_ws r with
        | String "}" r' => Some ([], r')
        | _ => parse_members (String.length r) r
        end in
      match body with
      | Some (ms, rest) => if String.eqb (skip_ws rest) "" then Some ms else None
      | None => None
      end
  | _ => None
  end.

(** Property access [obj.k] on a parsed object: the last member named [k]
    wins, a missing one is [undefined]. *)
Definition get (ms : list (string * jval)) (k : string) : jval :=
  fold_left (fun acc kv => if String.eqb kv.1 k then kv.2 else acc) ms JUndefined.

(** The members [JSON.stringify] keeps. *)
Definition defined_members (fs : list (string * jval)) : list (string * jval) :=
  filter (fun kv => kv.2 <> JUndefined) fs.


(** ** The round trip *)

Lemma escape_char_parse (c : ascii) (t : string) (fuel : nat) :
  parse_chars (S fuel) (escape_char c +:+ t) = prepend c (parse_chars fuel t).
Proof. destruct c as [[] [] [] [] [] [] [] []]; reflexivity. Qed.

Lemma escape_char_length (c : ascii) : 1 <= String.length (escape_char c).
Proof. destruct c as [[] [] [] [] [] [] [] []]; vm_compute; lia. Qed.

Lemma escape_length (s : string) : String.length s <= String.length (escape s).
Proof.
  induction s as [|c s IH]; simpl; [lia |].
  rewrite string_length_app. pose proof (escape_char_length c). lia.
Qed.

Lemma parse_chars_escape (s r : string) (fuel : nat) :
  String.length s < fuel ->
  parse_chars fuel (escape s +:+ String quote r) = Some (s, r).
Proof.
  revert fuel. induction s as [|c s IH]; intros [|fuel] Hf; simpl in Hf; try lia.
  - reflexivity.
  - simpl escape. rewrite <- string_app_assoc, escape_char_parse, IH by lia.
    reflexivity.
Qed.

Lemma skip_ws_quote (t : string) : skip_ws (String quote t) = String quote t.
Proof. reflexivity. Qed.

Lemma parse_string_stringify (s r : string) :
  parse_string (stringify_string s +:+ r) = Some (s, r).
Proof.
  unfold parse_string, stringify_string. rewrite string_app_cons, skip_ws_quote.
  simpl. rewrite <- string_app_assoc. simpl.
  apply parse_chars_escape.
  rewrite string_length_app. pose proof (escape_length s). simpl. lia.
Qed.

Lemma parse_value_stringify (v : jval) (t r : string) :
  stringify_value v = Some t -> parse_value (t +:+ r) = Some (v, r).
Proof.
  destruct v as [| |s]; simpl; intros [= <-]; [reflexivity |].
  unfold parse_value. unfold stringify_string at 1. rewrite string_app_cons, skip_ws_quote.
  by rewrite parse_string_stringify.
Qed.

(** The text of a member known to be defined. *)
Definition member_text_def (kv : string * jval) : string :=
  stringify_string kv.1 +:+ ":" +:+ match stringify_value kv.2 with Some t => t | None => "" end.

Lemma omap_member_text (ms : list (string * jval)) :
  Forall (fun kv => kv.2 <> JUndefined) ms ->
  omap member_text ms = map member_text_def ms.
Proof.
  induction 1 as [|[k v] ms Hv _ IH]; [done |].
  destruct v; [contradiction | |]; simpl; f_equal; exact IH.
Qed.

(** One defined member followed by [tail]. *)
Lemma parse_member_step (kv : string * jval) (tail : string) :
  kv.2 <> JUndefined ->
  exists r3, parse_string (member_text_def kv +:+ tail) = Some (kv.1, String ":" r3) /\
             parse_value r3 = Some (kv.2, tail).
Proof.
  destruct kv as [k v]. unfold member_text_def. simpl. intros Hv.
  destruct (stringify_value v) as [u|] eqn:Hsv; [| by destruct v].
  exists (u +:+ tail). split.
  - by rewrite <- !string_app_assoc, parse_string_stringify.
  - by apply parse_value_stringify.
Qed.

Lemma parse_members_stringify (ms : list (string * jval)) (r : string) (fuel : nat) :
  ms <> [] -> length ms <= fuel ->
  Forall (fun kv => kv.2 <> JUndefined) ms ->
  parse_members fuel (String.concat "," (map member_text_def ms) +:+ String "}" r) = Some (ms, r).
Proof.
  revert fuel. induction ms as [|kv ms IH]; intros fuel Hne Hf Hdef; [done |].
  inversion Hdef as [|? ? Hkv Hdef']; subst.
  destruct fuel as [|fuel]; simpl in Hf; [lia |].
  destruct ms as [|kv' ms].
  - destruct (parse_member_step kv (String "}" r) Hkv) as (r3 & H1 & H2).
    simpl. rewrite H1. simpl. rewrite H2. by destruct kv.
  - destruct (parse_member_step kv ("," +:+ String.concat "," (map member_text_def (kv' :: ms))
        +:+ String "}" r) Hkv) as (r3 & H1 & H2).
    change (String.concat "," (map member_text_def (kv :: kv' :: ms))) with
      (member_text_def kv +:+ "," +:+ String.concat "," (map member_text_def (kv' :: ms))).
    rewrite <- !string_app_assoc.
    remember (String.concat "," (map member_text_def (kv' :: ms)) +:+ String "}" r) as C eqn:HC.
    simpl. rewrite H1. simpl. rewrite H2. simpl. subst C.
    rewrite IH by (done || simpl in *; lia). by destruct kv.
Qed.

Lemma omap_member_text_defined (fs : list (string * jval)) :
  omap member_text fs = map member_text_def (defined_members fs).
Proof.
  unfold defined_members. induction fs as [|[k v] fs IH]; [done |].
  rewrite filter_cons. destruct v.
  - rewrite decide_False by naive_solver. exact IH.
  - rewrite decide_True by done. simpl. f_equal. exact IH.
  - rewrite decide_True by done. simpl. f_equal. exact IH.
Qed.

Lemma defined_members_Forall (fs : list (string * jval)) :
  Forall (fun kv => kv.2 <> JUndefined) (defined_members fs).
Proof.
  unfold defined_members. induction fs as [|kv fs IH]; [constructor |].
  rewrite filter_cons. case_decide; [by constructor | done].
Qed.

Lemma member_text_def_quote (kv : string * jval) :
  exists t, member_text_def kv = String quote t.
Proof. eexists. reflexivity. Qed.

Lemma member_text_def_length (kv : string * jval) : 1 <= String.length (member_text_def kv).
Proof. destruct (member_text_def_quote kv) as [t ->]. simpl. lia. Qed.

Lemma concat_quote (ms : list (string * jval)) :
  ms <> [] -> exists t, String.concat "," (map member_text_def ms) = String quote t.
Proof.
  destruct ms as [|kv [|kv' ms]]; [done | |]; intros _;
    destruct (member_text_def_quote kv) as [t Ht]; simpl; rewrite Ht; by eexists.
Qed.

Lemma concat_length (ms : list (string * jval)) :
  length ms <= String.length (String.concat "," (map member_text_def ms)).
Proof.
  induction ms as [|kv [|kv' ms] IH]; [simpl; lia | |].
  - simpl. pose proof (member_text_def_length kv). lia.
  - change (String.concat "," (map member_text_def (kv :: kv' :: ms))) with
      (member_text_def kv +:+ "," +:+ String.concat "," (map member_text_def (kv' :: ms))).
    rewrite !string_length_app. simpl in *. pose proof (member_text_def_length kv). lia.
Qed.

#[local] Arguments parse_members : simpl never.

Lemma parse_object_stringify (fs : list (string * jval)) :
  parse_object (stringify_object fs) = Some (defined_members fs).
Proof.
  unfold stringify_object, stringify_members. rewrite omap_member_text_defined.
  pose proof (defined_members_Forall fs) as Hdef.
  destruct (defined_members fs) as [|kv ms] eqn:Hms; [reflexivity |].
  destruct (concat_quote (kv :: ms)) as [t Ht]; [done |].
  pose proof (concat_length (kv :: ms)) as Hlen.
  rewrite Ht, !string_app_cons, string_app_nil_l.
  unfold parse_object. simpl. rewrite <- string_app_cons, <- Ht.
  rewrite parse_members_stringify; [reflexivity | done | | done].
  rewrite Ht in Hlen. simpl in Hlen |- *. rewrite string_length_app. simpl. lia.
Qed.

Lemma stringify_object_truthy (fs : list (string * jval)) : truthy (stringify_object fs) = true.
Proof. reflexivity. Qed.

(** C34: [JSON.parse(JSON.stringify(o))] gives back the members of [o]
    that are not [undefined], in order. *)
Theorem parse_stringify (fs : list (string * jval)) :
  parse_object (stringify_object fs) = Some (defined_members fs).
Proof. apply parse_object_stringify. Qed.

End Json.
