(* ===== verification/Cookie.v ===== *)
(** * The [document.cookie] setter

    The login page writes [document.cookie = `authToken=${token}; path=/;
    max-age=86400`] ([src/app/login/page.tsx], line 53) and the admin
    layout's logout writes [document.cookie = 'authToken=; path=/;
    max-age=0'] ([src/app/admin/layout.tsx], line 92).  [Module Cookie]
    models what the browser does with such a string (RFC 6265, section
    5.2): the name-value pair before the first [;], split at its first
    [=] and trimmed of spaces and tabs; the attributes after it, of which
    only [Max-Age] changes the jar here (every cookie of the code has
    [path=/]).  A [Max-Age] that is zero or negative deletes the cookie; a
    positive one keeps it until it expires, which [Session] models as a
    step of its own.

    [set_cookie_written] is the round trip the login relies on: a
    trimmed value with no [;] is read back unchanged. *)

From Stdlib Require Import String Ascii.
From stdpp Require Import base list gmap strings.
From S2P Require Import Prelude.

Open Scope string_scope.

Module Cookie.

(** ** Splitting and trimming *)

(** The text before the first [c], and the text after it if [c] occurs. *)
Fixpoint split_at (c : ascii) (s : string) : string * option string :=
  match s with
  | EmptyString => ("", None)
  | String d s' =>
      if Ascii.eqb d c then ("", Some s')
      else let (a, b) := split_at c s' in (String d a, b)
  end.

(** [s.split(c)]. *)
Fixpoint split_all (c : ascii) (s : string) : list string :=
  match s with
  | EmptyString => [""]
  | String d s' =>
      if Ascii.eqb d c then "" :: split_all c s'
      else match split_all c s' with
           | x :: xs => String d x :: xs
           | [] => [String d ""]
           end
  end.

(** White space of RFC 6265: space and horizontal tab. *)
Definition is_wsp (c : ascii) : bool :=
  Ascii.eqb c " " || Ascii.eqb c (ascii_of_nat 9).

Fixpoint trim_left (s : string) : string :=
  match s with
  | String c s' => if is_wsp c then trim_left s' else s
  | EmptyString => s
  end.

Fixpoint trim_right (s : string) : string :=
  match s with
  | String c s' =>
      let t := trim_right s' in
      if String.eqb t "" && is_wsp c then "" else String c t
  | EmptyString => s
  end.

Definition trim (s : string) : string := trim_left (trim_right s).

Fixpoint has_char (c : ascii) (s : string) : bool :=
  match s with
  | String d s' => Ascii.eqb d c || has_char c s'
  | EmptyString => false
  end.

(** ** Max-Age *)

Definition is_digit (c : ascii) : bool :=
  let n := nat_of_ascii c in (48 <=? n)%nat && (n <=? 57)%nat.

Fixpoint all_digits (s : string) : bool :=
  match s with
  | String c s' => is_digit c && all_digits s'
  | EmptyString => true
  end.

Fixpoint digits_value_acc (acc : nat) (s : string) : nat :=
  match s with
  | String c s' => digits_value_acc (10 * acc + (nat_of_ascii c - 48)) s'
  | EmptyString => acc
  end.

(** Whether a [Max-Age] value deletes the cookie: [Some true] when it is
    at most zero, [Some false] when positive, [None] when the attribute
    is ignored (not an integer). *)
Definition max_age_expires (v : string) : option bool :=
  match v with
  | String "-" rest =>
      if all_digits rest && negb (String.eqb rest "") then Some true else None
  | EmptyString => None
  | _ => if all_digits v then Some (Nat.eqb (digits_value_acc 0 v) 0) else None
  end.

(** The attributes in order; the last [Max-Age] that parses wins. *)
Definition attr_expiry (acc : option bool) (attr : string) : option bool :=
  let (an, av) := split_at "=" (trim attr) in
  if String.eqb (toLowerCase (trim an)) "max-age" then
    match av with
    | Some v => match max_age_expires (trim v) with Some e => Some e | None => acc end
    | None => acc
    end
  else acc.

Definition expiry (attrs : list string) : option bool := fold_left attr_expiry attrs None.

(** ** The setter *)

Definition set_cookie (jar : gmap string string) (s : string) : gmap string string :=
  let (pair, rest) := split_at ";" s in
  match split_at "=" pair with
  | (_, None) => jar
  | (n, Some v) =>
      let name := trim n in
      let value := trim v in
      let attrs := match rest with Some r => split_all ";" r | None => [] end in
      if String.eqb name "" then jar
      else if bool_decide (expiry attrs = Some true) then delete name jar
      else <[name := value]> jar
  end.


(** ** Lemmas *)

Lemma split_at_app (c : ascii) (a b : string) :
  has_char c a = false -> split_at c (a +:+ String c b) = (a, Some b).
Proof.
  induction a as [|d a IH]; simpl.
  - intros _. by rewrite Ascii.eqb_refl.
  - rewrite orb_false_iff. intros [Hd Ha].
    by rewrite Hd, IH.
Qed.

Lemma split_at_absent (c : ascii) (a : string) :
  has_char c a = false -> split_at c a = (a, None).
Proof.
  induction a as [|d a IH]; simpl; [done |].
  rewrite orb_false_iff. intros [Hd Ha]. by rewrite Hd, IH.
Qed.

Lemma has_char_app (c : ascii) (a b : string) :
  has_char c (a +:+ b) = has_char c a || has_char c b.
Proof. induction a as [|d a IH]; [done |]. rewrite string_app_cons. simpl. by rewrite IH, orb_assoc. Qed.

(** The attributes the login and the logout write. *)
Lemma expiry_login : expiry (split_all ";" " path=/; max-age=86400") = Some false.
Proof. vm_compute. reflexivity. Qed.

Lemma expiry_logout : expiry (split_all ";" " path=/; max-age=0") = Some true.
Proof. vm_compute. reflexivity. Qed.

Lemma split_at_prefix (c : ascii) (p v : string) :
  has_char c p = false ->
  split_at c (p +:+ v) = let (a, r) := split_at c v in (p +:+ a, r).
Proof.
  induction p as [|d p IH]; simpl; [intros _; rewrite string_app_nil_l; destruct (split_at c v); reflexivity |].
  rewrite orb_false_iff. intros [Hd Hp]. rewrite Hd, IH by done.
  by destruct (split_at c v).
Qed.

(** Whatever follows ["authToken="], the setter changes the jar at the
    key [authToken] only: it deletes it or sets it. *)
Lemma set_cookie_authToken (jar : gmap string string) (v : string) :
  set_cookie jar ("authToken=" +:+ v) = delete "authToken" jar \/
  exists w, set_cookie jar ("authToken=" +:+ v) = <["authToken" := w]> jar.
Proof.
  unfold set_cookie. rewrite split_at_prefix by reflexivity.
  destruct (split_at ";" v) as [a r].
  change ("authToken=" +:+ a) with ("authToken" +:+ String "=" a).
  rewrite split_at_app by reflexivity.
  cbn -[expiry split_all delete insert].
  case_bool_decide; [by left | right; eauto].
Qed.

(** ** Theorems *)

(** The cookie the login writes holds the token unchanged, provided
    the token has no [;] and no surrounding white space. *)
Lemma set_cookie_written (jar : gmap string string) (v : string) :
  has_char ";" v = false -> trim v = v ->
  set_cookie jar ("authToken=" +:+ v +:+ "; path=/; max-age=86400") = <["authToken" := v]> jar.
Proof.
  intros Hsemi Htrim. unfold set_cookie.
  change ("authToken=" +:+ v +:+ "; path=/; max-age=86400") with
    (("authToken=" +:+ v) +:+ String ";" " path=/; max-age=86400").
  rewrite split_at_app
    by (rewrite has_char_app; by rewrite Hsemi).
  change ("authToken=" +:+ v) with ("authToken" +:+ String "=" v).
  rewrite split_at_app by reflexivity.
  rewrite Htrim. cbn -[expiry split_all delete insert]. rewrite expiry_login. reflexivity.
Qed.

(** The logout's cookie string deletes the cookie, whatever the jar. *)
Lemma set_cookie_cleared_aux (jar : gmap string string) :
  set_cookie jar "authToken=; path=/; max-age=0" = delete "authToken" jar.
Proof.
  unfold set_cookie. cbn -[expiry split_all delete insert]. rewrite expiry_logout. reflexivity.
Qed.

(** A token containing [;] is cut at it: the cookie holds only what
    precedes the first [;]. *)
Theorem set_cookie_truncates :
  set_cookie ∅ ("authToken=" +:+ "ab;cd" +:+ "; path=/; max-age=86400") !! "authToken" = Some "ab".
Proof. vm_compute. reflexivity. Qed.

End Cookie.
