(* ===== verification/Middleware.v ===== *)
(** * The route guard of [src/middleware.ts]

    [Module Middleware] models the Next.js middleware: a request carries
    its path and its cookie jar (a [gmap string string] from cookie names
    to values), [middleware] is the function of lines 4-22, [matcher] the
    [config.matcher] of lines 24-26, and [handle_request] what the
    framework does with both: run the guard on matched paths, pass every
    other request through.  [decide_access] is the three-way decision of the
    spec (section 4.1) and [guard_refines_decide] shows the code
    implements it. *)

From Stdlib Require Import String.
From stdpp Require Import base gmap strings.
From S2P Require Import Prelude.

Open Scope string_scope.

Module Middleware.

(** ** Data *)

(** The part of [NextRequest] the guard reads. *)
Record NextRequest := mkRequest {
  pathname : string;                 (** [request.nextUrl.pathname] *)
  cookies : gmap string string       (** [request.cookies] *)
}.

(** [NextResponse.next()] or [NextResponse.redirect(new URL(to, request.url))];
    the redirect keeps the request's origin, so only the path is kept. *)
Inductive NextResponse :=
| Next
| Redirect (to : string).

#[export] Instance NextResponse_eq_dec : EqDecision NextResponse.
Proof. solve_decision. Qed.

(** [request.cookies.get('authToken')?.value] *)
Definition auth_token (req : NextRequest) : option string :=
  cookies req !! "authToken".

(** ** The guard *)

Definition middleware (req : NextRequest) : NextResponse :=
  let token := auth_token req in
  let login_rule :=
    if String.eqb (pathname req) "/login" && opt_truthy token
    then Redirect "/admin" else Next in
  if startsWith (pathname req) "/admin" then
    if negb (opt_truthy token) then Redirect "/login" else login_rule
  else login_rule.

(** [config.matcher = ['/admin/:path*', '/login']]: the pattern
    ['/admin/:path*'] matches [/admin] followed by zero or more segments. *)
Definition matches_admin_pattern (p : string) : bool :=
  String.eqb p "/admin" || startsWith p "/admin/".

Definition matcher (p : string) : bool :=
  matches_admin_pattern p || String.eqb p "/login".

(** The framework runs the middleware only on matched paths. *)
Definition handle_request (req : NextRequest) : NextResponse :=
  if matcher (pathname req) then middleware req else Next.

(** ** The contract of the spec *)

Inductive Decision := Allow | RedirectToLogin | RedirectToHome.

#[export] Instance Decision_eq_dec : EqDecision Decision.
Proof. solve_decision. Qed.

(** Section 4.1: a token is present when it is neither absent nor empty. *)
Definition token_present (token : option string) : bool := opt_truthy token.

Definition decide_access (path : string) (token : option string) : Decision :=
  if startsWith path "/admin" then
    if token_present token then Allow else RedirectToLogin
  else if String.eqb path "/login" then
    if token_present token then RedirectToHome else Allow
  else Allow.

(** How a decision is carried out: the login page and the admin home. *)
Definition to_response (d : Decision) : NextResponse :=
  match d with
  | Allow => Next
  | RedirectToLogin => Redirect "/login"
  | RedirectToHome => Redirect "/admin"
  end.


(** ** Lemmas *)

Lemma admin_not_login (p : string) :
  startsWith p "/admin" = true -> String.eqb p "/login" = false.
Proof. intros H. apply String.eqb_neq. intros ->. discriminate H. Qed.

Lemma admin_pattern_startsWith (p : string) :
  matches_admin_pattern p = true -> startsWith p "/admin" = true.
Proof.
  unfold matches_admin_pattern. rewrite orb_true_iff, String.eqb_eq, startsWith_spec.
  intros [-> | [r ->]]; [reflexivity |].
  change ("/admin/" +:+ r) with ("/admin" +:+ ("/" +:+ r)). apply startsWith_app.
Qed.

Lemma admin_pattern_matched (p : string) :
  matches_admin_pattern p = true -> matcher p = true.
Proof. unfold matcher. intros ->. reflexivity. Qed.

Lemma login_matched : matcher "/login" = true.
Proof. reflexivity. Qed.

#[export] Hint Resolve admin_not_login admin_pattern_startsWith admin_pattern_matched
  login_matched : ecom.

(** The guard's answer on the two families of paths it is meant for. *)
Lemma middleware_admin (req : NextRequest) :
  startsWith (pathname req) "/admin" = true ->
  middleware req = if token_present (auth_token req) then Next else Redirect "/login".
Proof.
  intros H. unfold middleware, token_present. rewrite H, (admin_not_login _ H).
  by destruct (opt_truthy _).
Qed.

Lemma middleware_login (req : NextRequest) :
  pathname req = "/login" ->
  middleware req = if token_present (auth_token req) then Redirect "/admin" else Next.
Proof. intros H. unfold middleware, token_present. rewrite H. by destruct (opt_truthy _). Qed.

(** What the framework answers on the two families of paths. *)
Lemma handle_admin (req : NextRequest) :
  matches_admin_pattern (pathname req) = true ->
  handle_request req = if token_present (auth_token req) then Next else Redirect "/login".
Proof.
  intros Hm. unfold handle_request. rewrite admin_pattern_matched by done.
  apply middleware_admin. auto with ecom.
Qed.

Lemma handle_login (req : NextRequest) :
  pathname req = "/login" ->
  handle_request req = if token_present (auth_token req) then Redirect "/admin" else Next.
Proof.
  intros H. unfold handle_request. rewrite H, login_matched. by apply middleware_login.
Qed.

(** ** Theorems *)

Lemma guard_refines_decide_aux (req : NextRequest) :
  middleware req = to_response (decide_access (pathname req) (auth_token req)).
Proof.
  unfold decide_access. destruct (startsWith (pathname req) "/admin") eqn:Ha.
  - rewrite middleware_admin by done. by destruct (token_present _).
  - destruct (String.eqb (pathname req) "/login") eqn:Hl.
    + apply String.eqb_eq in Hl. rewrite middleware_login by done.
      by destruct (token_present _).
    + unfold middleware. by rewrite Ha, Hl.
Qed.

(** C1: the guard implements the spec's decision function on every
    request: [middleware] is [decide_access] followed by its response. *)
Theorem guard_refines_decide (req : NextRequest) :
  middleware req = to_response (decide_access (pathname req) (auth_token req)).
Proof. apply guard_refines_decide_aux. Qed.

(** C2: every path the admin pattern matches is refused, with a redirect
    to the login page, unless the [authToken] cookie is present and not
    empty. *)
Theorem protected_requires_token (req : NextRequest) :
  matches_admin_pattern (pathname req) = true ->
  token_present (auth_token req) = false ->
  handle_request req = Redirect "/login".
Proof.
  intros Hm Ht. rewrite handle_admin by done. by rewrite Ht.
Qed.

Lemma protected_requires_token_witness :
  matches_admin_pattern "/admin/orders" = true /\
  token_present (Some "") = false /\
  handle_request (mkRequest "/admin/orders" {["authToken" := ""]}) = Redirect "/login".
Proof.
  split; [reflexivity | split; [reflexivity |]].
  apply protected_requires_token; reflexivity.
Defined.

(** With a present token, every admin path is let through. *)
Theorem admin_with_token_allowed (req : NextRequest) :
  matches_admin_pattern (pathname req) = true ->
  token_present (auth_token req) = true ->
  handle_request req = Next.
Proof.
  intros Hm Ht. rewrite handle_admin by done. by rewrite Ht.
Qed.

Lemma admin_with_token_allowed_witness :
  handle_request (mkRequest "/admin/products/add" {["authToken" := "abc123"]}) = Next.
Proof. apply admin_with_token_allowed; reflexivity. Defined.

(** The login page sends a visitor with a present token to the admin
    home, and shows itself to everyone else. *)
Theorem login_redirects_iff_token (req : NextRequest) :
  pathname req = "/login" ->
  handle_request req =
    if token_present (auth_token req) then Redirect "/admin" else Next.
Proof. apply handle_login. Qed.

Lemma login_redirects_iff_token_witness :
  handle_request (mkRequest "/login" {["authToken" := "abc123"]}) = Redirect "/admin" /\
  handle_request (mkRequest "/login" ∅) = Next.
Proof.
  split; rewrite login_redirects_iff_token; reflexivity.
Defined.

(** A redirect of the guard goes to the login page when the token is
    missing, and to the admin home when it is present. *)
Lemma handle_request_redirect (req : NextRequest) (to : string) :
  handle_request req = Redirect to ->
  (to = "/login" /\ token_present (auth_token req) = false) \/
  (to = "/admin" /\ token_present (auth_token req) = true).
Proof.
  unfold handle_request. destruct (matcher (pathname req)); [|discriminate].
  rewrite guard_refines_decide_aux. unfold decide_access.
  destruct (startsWith (pathname req) "/admin"), (String.eqb (pathname req) "/login"),
    (token_present (auth_token req)); simpl;
    intros H; simplify_eq; auto.
Qed.

(** The guard never redirects twice in a row: the page a redirect sends
    to is let through with the same cookies. *)
Lemma no_redirect_loop (req : NextRequest) (to : string) :
  handle_request req = Redirect to ->
  handle_request (mkRequest to (cookies req)) = Next.
Proof.
  intros H. unfold handle_request.
  destruct (handle_request_redirect req to H) as [[-> Ht] | [-> Ht]].
  - change (middleware (mkRequest "/login" (cookies req)) = Next).
    rewrite middleware_login by done. by setoid_rewrite Ht.
  - change (middleware (mkRequest "/admin" (cookies req)) = Next).
    rewrite middleware_admin by done. by setoid_rewrite Ht.
Qed.

(** Paths outside the matcher are never gated, whatever the cookies. *)
Theorem unmatched_passes (req : NextRequest) :
  matcher (pathname req) = false -> handle_request req = Next.
Proof. unfold handle_request. by intros ->. Qed.

Lemma unmatched_passes_witness :
  handle_request (mkRequest "/products" ∅) = Next.
Proof. apply unmatched_passes. reflexivity. Defined.


End Middleware.
