(* ===== verification/Session.v ===== *)
(** * The browser session: login, logout, navigation and the token store

    [Module Session] puts together what the browser keeps for the
    back-office: [localStorage] and the cookie jar (both
    [gmap string string]), the current location, the timer the login page
    arms before it navigates, and the login page's [error] and [loading]
    state.  The events are the handlers of the code:

    - [handleSubmit] of [src/app/login/page.tsx] (lines 18-75), on the
      four outcomes of its [fetch]: a JSON body with [response.ok], an
      [ok] body that is not JSON, an error status, a network failure;
    - [handleLogout] of [src/app/admin/layout.tsx] (lines 88-94);
    - a navigation, which the route guard of [Middleware] intercepts and
      the browser follows through its redirects;
    - the login's [setTimeout] firing (lines 58-60);
    - the expiry of the [authToken] cookie after its [max-age].

    [run] plays a list of events from [init]; [reachable] is the set of
    states it reaches.  The admin pages read the token back from
    [localStorage]: [products_auth_header] is the header of
    [src/app/admin/products/page.tsx] (lines 37-41) and
    [src/app/admin/products/add/page.tsx] (lines 246-251),
    [bearer_header] the one of the category, brand and manufacturer
    pages. *)

From Stdlib Require Import String Ascii.
From stdpp Require Import base list gmap strings.
From S2P Require Import Prelude Json Cookie Middleware.

Open Scope string_scope.

Module Session.

Import Json Cookie Middleware.

(** ** Data *)

(** The login form's state [formData]. *)
Record LoginForm := mkLoginForm { email : string; password : string }.

(** [result.user] of a successful login. *)
Record ApiUser := mkApiUser {
  user_id : jval; user_email : jval; user_firstName : jval; user_lastName : jval
}.

(** How the [fetch] of line 24 ends, and what [response.json()] gives. *)
Inductive LoginResponse :=
| RespOk (accessToken token : jval) (user : option ApiUser)
| RespOkNotJson
| RespError (message : option jval)   (** [None]: the body is not JSON *)
| NetworkFailure.

Record Browser := mkBrowser {
  storage : gmap string string;   (** [localStorage] *)
  jar : gmap string string;       (** the cookies of path [/] *)
  location : string;              (** [window.location] pathname *)
  timer : option string;          (** a pending [window.location.href = ...] *)
  login_error : string;           (** [error] of the login page *)
  login_loading : bool            (** [loading] of the login page *)
}.

Definition init : Browser := mkBrowser ∅ ∅ "/" None "" false.

(** ** JavaScript values of the handler *)

Definition jval_truthy (v : jval) : bool :=
  match v with JString s => truthy s | _ => false end.

(** [a || b] on values. *)
Definition jval_or (a b : jval) : jval := if jval_truthy a then a else b.

(** [a || b] where [b] is a string: the string [setItem] stores. *)
Definition jval_or_str (a : jval) (b : string) : string :=
  match a with JString s => if truthy s then s else b | _ => b end.

Definition user_fields (u : ApiUser) : list (string * jval) :=
  [("id", user_id u); ("email", user_email u);
   ("firstName", user_firstName u); ("lastName", user_lastName u)].

Definition login_cookie (t : string) : string :=
  "authToken=" +:+ t +:+ "; path=/; max-age=86400".

(** ** Handlers *)

Definition fail_with (msg : string) (b : Browser) : Browser :=
  mkBrowser (storage b) (jar b) (location b) (timer b) msg false.

Definition connect_error : string := "Failed to connect to server. Please try again.".

(** [handleSubmit] of the login page, from [setError('')] to the end of
    the [catch]. *)
Definition handleSubmit (form : LoginForm) (resp : LoginResponse) (b : Browser) : Browser :=
  let b := mkBrowser (storage b) (jar b) (location b) (timer b) "" true in
  match resp with
  | RespOk access tok user =>
      match jval_or access tok with
      | JString t =>
          if truthy t then
            let st := <["authToken" := t]> (storage b) in
            let email := match user with Some u => user_email u | None => JUndefined end in
            let st := <["userEmail" := jval_or_str email (Session.email form)]> st in
            let st := match user with
                      | Some u => <["userData" := stringify_object (user_fields u)]> st
                      | None => st
                      end in
            mkBrowser st (set_cookie (jar b) (login_cookie t)) (location b)
                      (Some "/admin") (login_error b) (login_loading b)
          else fail_with "Token not received from server" b
      | _ => fail_with "Token not received from server" b
      end
  | RespOkNotJson => fail_with connect_error b
  | RespError (Some m) => fail_with (jval_or_str m "Invalid email or password") b
  | RespError None => fail_with connect_error b
  | NetworkFailure => fail_with connect_error b
  end.

(** A full page load resets the page's React state. *)
(** The browser follows the guard's redirects, at most [fuel] of them. *)
Fixpoint follow (fuel : nat) (jar : gmap string string) (p : string) : option string :=
  match fuel with
  | O => None
  | S f =>
      match handle_request (mkRequest p jar) with
      | Next => Some p
      | Redirect q => follow f jar q
      end
  end.

(** Browsers give up after 20 redirects. *)
Definition max_redirects : nat := 20.

Definition navigate (p : string) (b : Browser) : Browser :=
  match follow max_redirects (jar b) p with
  | Some q => mkBrowser (storage b) (jar b) q None "" false
  | None => b
  end.

(** [handleLogout] of the admin layout. *)
Definition handleLogout (b : Browser) : Browser :=
  let st := delete "userData" (delete "userEmail" (delete "authToken" (storage b))) in
  navigate "/login"
    (mkBrowser st (set_cookie (jar b) "authToken=; path=/; max-age=0")
               (location b) (timer b) (login_error b) (login_loading b)).

Definition fire_timer (b : Browser) : Browser :=
  match timer b with
  | Some p => navigate p (mkBrowser (storage b) (jar b) (location b) None (login_error b) (login_loading b))
  | None => b
  end.

Definition expire_cookie (b : Browser) : Browser :=
  mkBrowser (storage b) (delete "authToken" (jar b)) (location b) (timer b)
            (login_error b) (login_loading b).

(** ** Events *)

Inductive event :=
| EvLogin (form : LoginForm) (resp : LoginResponse)
| EvLogout
| EvNavigate (p : string)
| EvTimer
| EvExpire.

(** The login form is on [/login] and its button is [disabled={loading}];
    the logout button is in the admin layout. *)
Definition enabled (b : Browser) (e : event) : bool :=
  match e with
  | EvLogin _ _ => String.eqb (location b) "/login" && negb (login_loading b)
  | EvLogout => startsWith (location b) "/admin"
  | _ => true
  end.

Definition step (b : Browser) (e : event) : Browser :=
  match e with
  | EvLogin f r => handleSubmit f r b
  | EvLogout => handleLogout b
  | EvNavigate p => navigate p b
  | EvTimer => fire_timer b
  | EvExpire => expire_cookie b
  end.

(** Play a trace of events; an event that is not enabled is ignored. *)
Fixpoint run (b : Browser) (es : list event) : Browser :=
  match es with
  | [] => b
  | e :: es' => run (if enabled b e then step b e else b) es'
  end.

Inductive reachable : Browser -> Prop :=
| reach_init : reachable init
| reach_step b e : reachable b -> enabled b e = true -> reachable (step b e).

(** ** What the admin pages send *)

(** [`Bearer ${localStorage.getItem('token')}`]: a missing item is [null]. *)
Definition products_auth_header (b : Browser) : string :=
  "Bearer " +:+ match storage b !! "token" with Some t => t | None => "null" end.

(** [...(token && { 'Authorization': `Bearer ${token}` })] with
    [token = localStorage.getItem('authToken')]. *)
Definition bearer_header (b : Browser) : option string :=
  match storage b !! "authToken" with
  | Some t => if truthy t then Some ("Bearer " +:+ t) else None
  | None => None
  end.


(** ** Lemmas *)

Lemma navigate_storage (p : string) (b : Browser) : storage (navigate p b) = storage b.
Proof. unfold navigate. by destruct (follow _ _ _). Qed.

Lemma navigate_jar (p : string) (b : Browser) : jar (navigate p b) = jar b.
Proof. unfold navigate. by destruct (follow _ _ _). Qed.

#[export] Hint Rewrite navigate_storage navigate_jar : ecom_rw.

Lemma follow_next (j : gmap string string) (p : string) (f : nat) :
  handle_request (mkRequest p j) = Next -> follow (S f) j p = Some p.
Proof. intros H. simpl. by rewrite H. Qed.

Lemma follow_redirect (j : gmap string string) (p q : string) (f : nat) :
  handle_request (mkRequest p j) = Redirect q -> follow (S f) j p = follow f j q.
Proof. intros H. simpl. by rewrite H. Qed.

#[local] Arguments follow : simpl never.

(** The browser settles after at most one redirect. *)
Lemma follow_settles_aux (j : gmap string string) (p : string) :
  exists q, follow max_redirects j p = Some q /\ handle_request (mkRequest q j) = Next.
Proof.
  unfold max_redirects. destruct (handle_request (mkRequest p j)) as [|to] eqn:H.
  - exists p. by rewrite follow_next.
  - pose proof (no_redirect_loop _ _ H) as Hto. simpl in Hto.
    exists to. by rewrite (follow_redirect _ _ _ _ H), follow_next.
Qed.

Lemma navigate_to (p q : string) (b : Browser) :
  follow max_redirects (jar b) p = Some q -> location (navigate p b) = q.
Proof. unfold navigate. by intros ->. Qed.

(** What a submit does to the two stores: nothing, or it writes the
    token into [localStorage] and the login cookie into the jar. *)
Lemma handleSubmit_store (f : LoginForm) (r : LoginResponse) (b : Browser) :
  (storage (handleSubmit f r b) = storage b /\ jar (handleSubmit f r b) = jar b) \/
  exists t, truthy t = true /\
    storage (handleSubmit f r b) !! "authToken" = Some t /\
    (forall k, k <> "authToken" -> k <> "userEmail" -> k <> "userData" ->
       storage (handleSubmit f r b) !! k = storage b !! k) /\
    jar (handleSubmit f r b) = set_cookie (jar b) (login_cookie t).
Proof.
  unfold handleSubmit.
  destruct r as [access tok user | | [m|] |]; try (left; split; reflexivity).
  destruct (jval_or access tok) as [| |t]; try (left; split; reflexivity).
  destruct (truthy t) eqn:Ht; [right | left; split; reflexivity].
  exists t. split; [done |]. simpl.
  destruct user; simpl; split_and!; try done; try (intros k ? ? ?); by simplify_map_eq.
Qed.

Lemma handleLogout_storage (b : Browser) (k : string) :
  storage (handleLogout b) !! k =
    if decide (k = "authToken" \/ k = "userEmail" \/ k = "userData") then None
    else storage b !! k.
Proof.
  unfold handleLogout. rewrite navigate_storage. simpl.
  case_decide as Hk; [destruct Hk as [-> | [-> | ->]] | ]; by simplify_map_eq.
Qed.

Lemma handleLogout_jar (b : Browser) : jar (handleLogout b) = delete "authToken" (jar b).
Proof. unfold handleLogout. rewrite navigate_jar. simpl. apply set_cookie_cleared_aux. Qed.

Lemma fire_timer_stores (b : Browser) :
  storage (fire_timer b) = storage b /\ jar (fire_timer b) = jar b.
Proof. unfold fire_timer. destruct (timer b); [by rewrite navigate_storage, navigate_jar | done]. Qed.

(** The two invariants of the stores, as one predicate. *)
Definition mirror (b : Browser) : Prop :=
  (forall k v, jar b !! k = Some v -> k = "authToken") /\
  (jar b !! "authToken" <> None -> storage b !! "authToken" <> None).

Lemma mirror_set_cookie_login (b : Browser) (t : string) (st : gmap string string) :
  mirror b -> st !! "authToken" <> None ->
  mirror (mkBrowser st (set_cookie (jar b) (login_cookie t)) (location b) (timer b)
                    (login_error b) (login_loading b)).
Proof.
  intros [Hk _] Hst. unfold mirror; simpl. split; [| done].
  intros k v. unfold login_cookie.
  destruct (set_cookie_authToken (jar b) (t +:+ "; path=/; max-age=86400")) as [-> | [w ->]];
    destruct (decide (k = "authToken")) as [-> | Hne]; try done;
    [rewrite lookup_delete_ne by done | rewrite lookup_insert_ne by done]; apply Hk.
Qed.

(** ** Theorems *)

(** C3: a successful login whose token is non-empty, has no [;] and no
    surrounding white space stores the token in [localStorage] and in the
    cookie, and when its timer fires the browser is on [/admin]: the
    guard lets it in. *)
Theorem login_reaches_admin (form : LoginForm) (access tok : jval) (user : option ApiUser)
    (t : string) (b : Browser) :
  jval_or access tok = JString t -> t <> "" -> has_char ";"%char t = false -> trim t = t ->
  let b' := fire_timer (handleSubmit form (RespOk access tok user) b) in
  location b' = "/admin" /\ storage b' !! "authToken" = Some t /\ jar b' !! "authToken" = Some t.
Proof.
  intros Hj Hne Hsemi Htrim. apply truthy_true in Hne.
  unfold handleSubmit. rewrite Hj, Hne. unfold fire_timer. simpl.
  unfold login_cookie. rewrite set_cookie_written by done.
  rewrite navigate_storage, navigate_jar. simpl. split; [| split].
  - apply navigate_to. simpl. unfold max_redirects. rewrite follow_next; [done |].
    rewrite handle_admin by reflexivity. unfold token_present, auth_token. simpl.
    rewrite lookup_insert_eq. simpl. by rewrite Hne.
  - destruct user; by simplify_map_eq.
  - by rewrite lookup_insert_eq.
Qed.

Lemma login_reaches_admin_witness :
  let b' := fire_timer (handleSubmit (mkLoginForm "a@b.c" "pw")
                         (RespOk (JString "abc.def") JUndefined None) init) in
  location b' = "/admin" /\ storage b' !! "authToken" = Some "abc.def" /\
  jar b' !! "authToken" = Some "abc.def".
Proof. apply login_reaches_admin; try reflexivity. discriminate. Defined.

(** C4: after a logout, every admin path sends the browser to [/login],
    and neither store holds the token. *)
Theorem logout_locks_admin (b : Browser) (p : string) :
  matches_admin_pattern p = true ->
  location (navigate p (handleLogout b)) = "/login" /\
  storage (handleLogout b) !! "authToken" = None /\
  jar (handleLogout b) !! "authToken" = None.
Proof.
  intros Hp. split; [| split].
  - apply navigate_to. rewrite handleLogout_jar. unfold max_redirects.
    rewrite (follow_redirect _ _ "/login"), follow_next; [done | |].
    + rewrite handle_login by done. unfold token_present, auth_token. simpl.
      by rewrite lookup_delete_eq.
    + rewrite handle_admin by done. unfold token_present, auth_token. simpl.
      by rewrite lookup_delete_eq.
  - rewrite handleLogout_storage. by rewrite decide_True by auto.
  - by rewrite handleLogout_jar, lookup_delete_eq.
Qed.

Lemma logout_locks_admin_witness :
  matches_admin_pattern "/admin/brands" = true /\
  location (navigate "/admin/brands" (handleLogout init)) = "/login".
Proof. split; [reflexivity |]. apply (logout_locks_admin init "/admin/brands"). reflexivity. Defined.

(** C5: in every reachable state the cookie jar holds no cookie but
    [authToken], and the cookie is only there when [localStorage] also
    holds a token. *)
Theorem mirror_invariant (b : Browser) : reachable b -> mirror b.
Proof.
  induction 1 as [|b e Hr IH He].
  - split; [intros ? ? Hk; simpl in Hk; by rewrite lookup_empty in Hk | done].
  - destruct e as [f r | | p | |]; simpl.
    + destruct (handleSubmit_store f r b) as [[Hs Hj] | (t & _ & Ht & _ & Hj)].
      * unfold mirror. by rewrite Hs, Hj.
      * destruct (handleSubmit f r b) as [st jr loc tm er ld] eqn:E. simpl in *. subst jr.
        pose proof (mirror_set_cookie_login b t st IH) as Hm. unfold mirror in Hm |- *.
        simpl in *. apply Hm. by rewrite Ht.
    + unfold mirror. rewrite handleLogout_jar, handleLogout_storage. split.
      * intros k v. destruct (decide (k = "authToken")) as [-> | Hne]; [done |].
        rewrite lookup_delete_ne by done. apply IH.
      * by rewrite lookup_delete_eq.
    + unfold mirror. by rewrite navigate_jar, navigate_storage.
    + unfold mirror. by destruct (fire_timer_stores b) as [-> ->].
    + unfold mirror, expire_cookie; simpl. split.
      * intros k v. destruct (decide (k = "authToken")) as [-> | Hne]; [done |].
        rewrite lookup_delete_ne by done. apply IH.
      * by rewrite lookup_delete_eq.
Qed.

Lemma reachable_logged_in :
  reachable (step (step (step init (EvNavigate "/login"))
    (EvLogin (mkLoginForm "a@b.c" "pw") (RespOk (JString "abc.def") JUndefined None))) EvTimer).
Proof. repeat (apply reach_step; [| reflexivity]). constructor. Qed.

Lemma mirror_invariant_witness :
  mirror (step (step (step init (EvNavigate "/login"))
    (EvLogin (mkLoginForm "a@b.c" "pw") (RespOk (JString "abc.def") JUndefined None))) EvTimer).
Proof. apply mirror_invariant. apply reachable_logged_in. Defined.

(** C25: no handler ever writes the [localStorage] item ['token'], so the
    product pages, which read that item instead of ['authToken'], always
    send [Authorization: Bearer null]. *)
Theorem products_header_null (b : Browser) :
  reachable b -> products_auth_header b = "Bearer null".
Proof.
  intros Hr. unfold products_auth_header. enough (storage b !! "token" = None) as -> by done.
  induction Hr as [|b e Hr IH He]; [done |].
  destruct e as [f r | | p | |]; simpl.
  - destruct (handleSubmit_store f r b) as [[-> _] | (t & _ & _ & Hk & _)]; [done |].
    by rewrite Hk.
  - rewrite handleLogout_storage. by case_decide.
  - by rewrite navigate_storage.
  - by destruct (fire_timer_stores b) as [-> _].
  - done.
Qed.

Lemma products_header_null_witness :
  products_auth_header (step (step (step init (EvNavigate "/login"))
    (EvLogin (mkLoginForm "a@b.c" "pw") (RespOk (JString "abc.def") JUndefined None))) EvTimer)
  = "Bearer null".
Proof. apply products_header_null. apply reachable_logged_in. Defined.

(** C32: a navigation always ends on a page the guard lets through, after
    at most one redirect. *)
Theorem follow_settles (j : gmap string string) (p : string) :
  exists q, follow max_redirects j p = Some q /\ handle_request (mkRequest q j) = Next.
Proof. apply follow_settles_aux. Qed.

(** C35: a submit that does not succeed leaves both stores and the timer as
    they were and ends the loading state. *)
Theorem login_failure_keeps_store (f : LoginForm) (r : LoginResponse) (b : Browser) :
  (forall access tok user, r = RespOk access tok user -> jval_truthy (jval_or access tok) = false) ->
  storage (handleSubmit f r b) = storage b /\ jar (handleSubmit f r b) = jar b /\
  timer (handleSubmit f r b) = timer b /\ login_loading (handleSubmit f r b) = false.
Proof.
  intros Hfail. unfold handleSubmit.
  destruct r as [access tok user | | [m|] |]; try done.
  specialize (Hfail access tok user eq_refl).
  destruct (jval_or access tok) as [| |t]; try done. simpl in Hfail. by rewrite Hfail.
Qed.

Lemma login_failure_keeps_store_witness :
  timer (handleSubmit (mkLoginForm "a" "b") (RespOk JNull (JString "") None) init) = None.
Proof.
  apply (login_failure_keeps_store (mkLoginForm "a" "b") (RespOk JNull (JString "") None) init).
  intros ? ? ? [= <- <- <-]. reflexivity.
Defined.

(** An error response whose body is not JSON is reported as a failure
    to reach the server, because [response.json()] throws inside the
    [try]. *)
Theorem error_body_reported_as_network (f : LoginForm) (b : Browser) :
  login_error (handleSubmit f (RespError None) b) = connect_error.
Proof. reflexivity. Qed.

(** When the cookie expires, the admin area sends the browser back to
    [/login] although [localStorage] still holds the token, which the
    admin pages keep sending. *)
Theorem expired_cookie_stale_storage :
  let b := run init [EvNavigate "/login";
                     EvLogin (mkLoginForm "a@b.c" "pw") (RespOk (JString "abc.def") JUndefined None);
                     EvTimer; EvExpire; EvNavigate "/admin/products"] in
  location b = "/login" /\ bearer_header b = Some "Bearer abc.def".
Proof. vm_compute. split; reflexivity. Qed.

End Session.
