(* ===== verification/JsNumber.v ===== *)
(** * [parseInt] and [parseFloat]

    The product form turns its text inputs into numbers with
    [parseInt(formData.displayOrder) || 1], [parseFloat(formData.price) || 0]
    and the like ([src/app/admin/products/add/page.tsx], lines 191-211;
    the same in [page_old_backup.tsx]).  [Module JsNumber] models the two
    ECMAScript functions (ECMA-262, sections 19.2.5 and 19.2.4) on 8-bit
    strings:

    - leading white space (tab, line feed, vertical tab, form feed,
      carriage return, space, no-break space) is skipped;
    - [parseInt] takes an optional sign, the [0x]/[0X] prefix that switches
      to radix 16, and the longest run of digits of the radix; no digit
      gives [NaN] ([None]);
    - [parseFloat] takes the longest prefix that is a decimal literal
      ([Infinity], digits with an optional fraction and exponent).

    A result is kept exact: [parseInt] returns an integer, [parseFloat] a
    decimal [m * 10^e].  The code only tests these numbers for
    truthiness and sends them to the API, so the rounding to a double is
    not modelled; [-0] is collapsed to [0], which has the same
    truthiness. *)

From Stdlib Require Import String Ascii ZArith.
From stdpp Require Import base list strings.
From S2P Require Import Prelude.

Open Scope string_scope.

Module JsNumber.

(** ** Characters *)

(** WhiteSpace and LineTerminator code points below 256. *)
Definition js_space (c : ascii) : bool :=
  let n := nat_of_ascii c in
  ((9 <=? n) && (n <=? 13))%nat || (n =? 32)%nat || (n =? 160)%nat.

Fixpoint trim_start (s : string) : string :=
  match s with
  | String c s' => if js_space c then trim_start s' else s
  | EmptyString => s
  end.

(** [String.prototype.trim] *)
Fixpoint trim_end (s : string) : string :=
  match s with
  | String c s' =>
      let t := trim_end s' in
      if String.eqb t "" && js_space c then "" else String c t
  | EmptyString => s
  end.

Definition js_trim (s : string) : string := trim_start (trim_end s).

(** The value of a digit in radix [r] (10 or 16). *)
Definition digit_value (r : nat) (c : ascii) : option nat :=
  let n := nat_of_ascii c in
  let v :=
    if ((48 <=? n) && (n <=? 57))%nat then Some (n - 48)%nat
    else if ((97 <=? n) && (n <=? 122))%nat then Some (n - 87)%nat
    else if ((65 <=? n) && (n <=? 90))%nat then Some (n - 55)%nat
    else None in
  match v with Some d => if (d <? r)%nat then Some d else None | None => None end.

(** The longest prefix of digits of radix [r]: its value, the number of
    digits, and the rest. *)
Fixpoint digits (r : nat) (acc : Z) (count : nat) (s : string) : Z * nat * string :=
  match s with
  | String c s' =>
      match digit_value r c with
      | Some d => digits r (Z.of_nat r * acc + Z.of_nat d)%Z (S count) s'
      | None => (acc, count, s)
      end
  | EmptyString => (acc, count, s)
  end.

(** The sign of a numeric literal and the text after it. *)
Definition take_sign (s : string) : Z * string :=
  match s with
  | String "-" s' => ((-1)%Z, s')
  | String "+" s' => (1%Z, s')
  | _ => (1%Z, s)
  end.

(** ** parseInt *)

Definition parseInt (s : string) : option Z :=
  let (sign, s) := take_sign (trim_start s) in
  let (r, s) :=
    match s with
    | String "0" (String x s') =>
        if Ascii.eqb x "x" || Ascii.eqb x "X" then (16, s') else (10, s)
    | _ => (10, s)
    end in
  match digits r 0 0 s with
  | (_, O, _) => None
  | (v, _, _) => Some (sign * v)%Z
  end.

(** [parseInt(s) || d]: [NaN] and [0] are falsy. *)
Definition parseInt_or (s : string) (d : Z) : Z :=
  match parseInt s with
  | Some v => if Z.eqb v 0 then d else v
  | None => d
  end.

(** ** parseFloat *)

Inductive num :=
| NaN
| PosInf
| NegInf
| Dec (m e : Z).   (** the value [m * 10^e] *)

#[export] Instance num_eq_dec : EqDecision num.
Proof. solve_decision. Defined.

Definition num_truthy (x : num) : bool :=
  match x with
  | NaN => false
  | Dec m _ => negb (Z.eqb m 0)
  | _ => true
  end.

(** [parseInt(s)] as a number: [NaN] when there is no digit. *)
Definition parseInt_num (s : string) : num :=
  match parseInt s with Some z => Dec z 0 | None => NaN end.

(** [parseFloat(s) || d] *)
Definition num_or (x : num) (d : num) : num := if num_truthy x then x else d.

Definition negate (x : num) : num :=
  match x with
  | Dec m e => Dec (- m) e
  | PosInf => NegInf
  | NegInf => PosInf
  | NaN => NaN
  end.

(** An optional exponent [e], [E] with an optional sign and digits; a
    marker with no digits is not part of the literal. *)
Definition exponent (s : string) : Z * string :=
  match s with
  | String e s' =>
      if Ascii.eqb e "e" || Ascii.eqb e "E" then
        let (sg, t) := take_sign s' in
        match digits 10 0 0 t with
        | (_, O, _) => (0%Z, s)
        | (v, _, rest) => ((sg * v)%Z, rest)
        end
      else (0%Z, s)
  | EmptyString => (0%Z, s)
  end.

Definition parseFloat (s : string) : num :=
  let (sign, t) := take_sign (trim_start s) in
  let apply_sign x := if Z.eqb sign (-1) then negate x else x in
  if startsWith t "Infinity" then apply_sign PosInf
  else
    let '(ip, ni, t1) := digits 10 0 0 t in
    let '(fp, nf, t2) :=
      match t1 with
      | String "." t1' => digits 10 0 0 t1'
      | _ => (0%Z, O, t1)
      end in
    match ni, nf with
    | O, O => NaN
    | _, _ =>
        let (ex, _) := exponent t2 in
        apply_sign (Dec (ip * 10 ^ Z.of_nat nf + fp) (ex - Z.of_nat nf))
    end.

(** ** Printing, for the round trips *)

Fixpoint digits_of_pos_nat (fuel n : nat) (acc : string) : string :=
  match fuel with
  | O => acc
  | S f =>
      let acc := String (ascii_of_nat (48 + n mod 10)) acc in
      if (n <? 10)%nat then acc else digits_of_pos_nat f (n / 10) acc
  end.

(** [String(n)] for a natural number. *)
Definition nat_to_string (n : nat) : string := digits_of_pos_nat (S n) n "".

End JsNumber.
