(* ===== verification/Api.v ===== *)
(** * The REST API as the pages call it

    [Module Api] holds what the admin pages share when they talk to the
    backend:

    - the base URL and the endpoint table of [src/lib/api-config.ts]
      ([API_BASE_URL], [API_ENDPOINTS]), with the build-time variable
      [NEXT_PUBLIC_API_URL] as an explicit input;
    - the JSON values the pages put in request bodies ([pval]; numbers are
      [JsNumber.num], so a [NaN] that [parseInt] produced can be
      represented; [JSON.stringify] writes it as [null], [json_number]);
    - a request as the pages issue it with [fetch]: its method, its URL,
      its [Authorization] header and its body;
    - the header [...(token && { Authorization: `Bearer ${token}` })] that
      the category, brand and manufacturer pages spread into their
      requests ([spread_auth]), and the [getImageUrl] helper they define. *)

From Stdlib Require Import String Ascii ZArith.
From stdpp Require Import base list strings.
From S2P Require Import Prelude JsNumber.

Open Scope string_scope.

Module Api.

Import JsNumber.

(** ** [src/lib/api-config.ts] *)

Definition default_api_url : string := "http://localhost:5285".

(** [process.env.NEXT_PUBLIC_API_URL || 'http://localhost:5285'] *)
Definition API_BASE_URL (env : option string) : string := opt_or_else env default_api_url.

(** [`${process.env.NEXT_PUBLIC_API_URL}`] without a fallback, as the
    storefront components write it: an unset variable is [undefined],
    which the template literal prints as the text ["undefined"]. *)
Definition env_text (env : option string) : string :=
  match env with Some s => s | None => "undefined" end.

Record Endpoints := mkEndpoints {
  ep_login : string;
  ep_register : string;
  ep_categories : string;
  ep_brands : string;
  ep_manufacturers : string;
  ep_products : string;
  ep_orders : string;
  ep_customers : string
}.

Definition API_ENDPOINTS (base : string) : Endpoints :=
  mkEndpoints (base +:+ "/api/auth/login") (base +:+ "/api/auth/register")
    (base +:+ "/api/categories") (base +:+ "/api/brands") (base +:+ "/api/manufacturers")
    (base +:+ "/api/products") (base +:+ "/api/orders") (base +:+ "/api/customers").

(** ** JSON values of request bodies *)

Inductive pval :=
| PStr (s : string)
| PNull
| PNum (x : num)
| PBool (b : bool)
| PArr (xs : list pval)
| PObj (fs : list (string * pval)).

Definition payload := list (string * pval).

(** [obj[k]] on an object literal: the first member of that name. *)
Definition field (p : payload) (k : string) : option pval :=
  match List.find (fun kv => String.eqb kv.1 k) p with
  | Some kv => Some kv.2
  | None => None
  end.

(** What [JSON.stringify] writes for a number: [NaN] and the infinities
    become [null]. *)
Definition json_number (x : num) : pval :=
  match x with Dec _ _ => PNum x | _ => PNull end.

(** [JSON.parse(JSON.stringify(v))] as a value: every number that is not
    finite becomes [null]. *)
Fixpoint to_json (v : pval) : pval :=
  match v with
  | PNum x => json_number x
  | PArr xs => PArr (map to_json xs)
  | PObj fs => PObj (map (fun kv => (kv.1, to_json kv.2)) fs)
  | _ => v
  end.

(** The shapes of JSON a body is checked against: a string, a finite
    number, a boolean, [null], one of two shapes, an object with these
    members in this order. *)
Inductive jty :=
| TStr
| TNum
| TBool
| TNull
| TOr (a b : jty)
| TObj (fs : list (string * jty)).

Fixpoint typed (t : jty) (v : pval) {struct t} : bool :=
  match t, v with
  | TStr, PStr _ | TBool, PBool _ | TNull, PNull => true
  | TNum, PNum (Dec _ _) => true
  | TOr a b, _ => typed a v || typed b v
  | TObj fs, PObj kvs =>
      (fix go (fs : list (string * jty)) (kvs : list (string * pval)) : bool :=
         match fs, kvs with
         | [], [] => true
         | (k, t') :: fs', (k', v') :: kvs' => String.eqb k k' && typed t' v' && go fs' kvs'
         | _, _ => false
         end) fs kvs
  | _, _ => false
  end.

(** ** Requests *)

Inductive Method := GET | POST | PUT | DELETE.

#[export] Instance method_eq_dec : EqDecision Method.
Proof. solve_decision. Defined.

Record Request := mkRequest {
  req_method : Method;
  req_url : string;
  req_auth : option string;      (** the [Authorization] header, if any *)
  req_body : option payload
}.

(** [...(token && { 'Authorization': `Bearer ${token}` })]: no header for
    a missing or empty token. *)
Definition spread_auth (token : option string) : option string :=
  match token with
  | Some t => if truthy t then Some ("Bearer " +:+ t) else None
  | None => None
  end.

(** [getImageUrl]: empty for no URL, absolute URLs as they are, and paths
    prefixed with the API's base URL. *)
Definition getImageUrl (base : string) (imageUrl : option string) : string :=
  match imageUrl with
  | Some u =>
      if negb (truthy u) then ""
      else if startsWith u "http" then u
      else base +:+ u
  | None => ""
  end.

(** ** Lemmas *)

Lemma typed_json_number (x : num) : typed (TOr TNum TNull) (json_number x) = true.
Proof. by destruct x. Qed.

Lemma typed_num_finite (m e : Z) : typed TNum (to_json (PNum (Dec m e))) = true.
Proof. reflexivity. Qed.

End Api.
