(* ===== verification/MegaMenu.v ===== *)
(** * The brand row of the mega menu

    [src/components/MegaMenu.tsx] loads, when it mounts, the brands of
    [`${process.env.NEXT_PUBLIC_API_URL}/api/Brands?includeUnpublished=false`]
    (lines 31-45) and shows them as a row of logos linked to
    [/brand/<slug>] (lines 107-122).  The rest of the component, the
    active subcategory and its links, is modelled in [Header.v].

    [Module MegaMenu] holds the [Brand] interface (lines 15-20), the URL,
    the effect's outcome on [brands] and the row.  The URL interpolates
    the environment variable directly, without the fallback of
    [src/lib/api-config.ts]: [unset_api_url_relative] shows what the menu
    requests and shows when the variable is unset. *)

From Stdlib Require Import String.
From stdpp Require Import base list strings.
From S2P Require Import Prelude Api.

Open Scope string_scope.

Module MegaMenu.

Import Api.

Record MenuBrand := mkMenuBrand {
  mb_id : string; mb_name : string; mb_slug : string; mb_logoUrl : string
}.

Definition brands_request_url (env : option string) : string :=
  env_text env +:+ "/api/Brands?includeUnpublished=false".

(** How [loadBrands] ends: [json.data] of the answer (whatever its
    status), or a throw of [fetch] or of [res.json()]. *)
Inductive BrandsAnswer :=
| BrandsData (data : option (list MenuBrand))
| BrandsThrow.

(** [setBrands(json.data || [])]; the [catch] only logs. *)
Definition loadBrands (r : BrandsAnswer) (brands : list MenuBrand) : list MenuBrand :=
  match r with
  | BrandsData d => default [] d
  | BrandsThrow => brands
  end.

Record BrandLink := mkBrandLink { bl_href : string; bl_src : string; bl_alt : string }.

(** [<Link href={`/brand/${brand.slug}`}>] around
    [<Image src={`${process.env.NEXT_PUBLIC_API_URL}${brand.logoUrl}`}>]. *)
Definition brand_link (env : option string) (b : MenuBrand) : BrandLink :=
  mkBrandLink ("/brand/" +:+ mb_slug b) (env_text env +:+ mb_logoUrl b) (mb_name b).

(** The row under the menu's columns; the menu mounts with [brands = []]. *)
Definition brand_row (env : option string) (r : BrandsAnswer) : list BrandLink :=
  brand_link env <$> loadBrands r [].

(** ** Properties *)

(** A failed load, or an answer without [data], leaves the row empty. *)
Lemma failed_load_empty_row (env : option string) :
  brand_row env BrandsThrow = [] /\ brand_row env (BrandsData None) = [].
Proof. split; reflexivity. Qed.

(** Without [NEXT_PUBLIC_API_URL] the mega menu requests the relative
    URL [undefined/api/Brands?...] and asks for every logo under
    [undefined], where the admin pages fall back to
    [http://localhost:5285]; with the variable set and not empty, the
    menu's URL is the configured base followed by the brand path. *)
Theorem unset_api_url_relative (b : MenuBrand) :
  brands_request_url None = "undefined/api/Brands?includeUnpublished=false" /\
  bl_src (brand_link None b) = "undefined" +:+ mb_logoUrl b /\
  API_BASE_URL None = "http://localhost:5285" /\
  (forall s, s <> "" ->
   brands_request_url (Some s) = API_BASE_URL (Some s) +:+ "/api/Brands?includeUnpublished=false").
Proof.
  split; [reflexivity | split; [reflexivity | split; [reflexivity |]]].
  intros s Hs. unfold brands_request_url, API_BASE_URL. cbn. by rewrite or_else_truthy.
Qed.

Lemma unset_api_url_relative_witness :
  brands_request_url (Some "https://api.shop") =
  API_BASE_URL (Some "https://api.shop") +:+ "/api/Brands?includeUnpublished=false".
Proof.
  apply (unset_api_url_relative (mkMenuBrand "1" "Acme" "acme" "/logo.png")). discriminate.
Defined.

End MegaMenu.
