(* ===== verification/RestServices.v ===== *)
(** * The REST service wrappers

    [src/lib/services] holds four objects, [productsService],
    [categoriesService], [customersService] and [ordersService], whose
    methods call an [apiClient] imported from [src/lib/api], a module
    that is not in the repository; no page imports them.  What the code
    fixes is the call each method makes: the client's method, the path
    and the body passed through.  [Module RestServices] models the
    interfaces of the files as records and each method as the [Call] it
    makes; the client itself is outside the model.

    [services_rest_shaped] shows that the services follow one REST
    layout: a collection path, [/<collection>/<id>] for one item.
    [service_paths_outside_config] compares their paths with those of
    [src/lib/api-config.ts]. *)

From Stdlib Require Import String ZArith.
From stdpp Require Import base list strings.
From S2P Require Import Prelude Api.

Open Scope string_scope.

Module RestServices.

Import Api.

(** [apiClient.get(path)], [post(path, data)], [put(path, data)] and
    [delete(path)], with the body of type [B]. *)
Inductive Call (B : Type) :=
| CGet (path : string)
| CPost (path : string) (body : B)
| CPut (path : string) (body : B)
| CDelete (path : string).

Arguments CGet {B} path.
Arguments CPost {B} path body.
Arguments CPut {B} path body.
Arguments CDelete {B} path.

Definition call_path {B} (c : Call B) : string :=
  match c with CGet p | CPost p _ | CPut p _ | CDelete p => p end.

(** ** [products.ts] *)

Record CreateProductDto := mkCreateProductDto {
  p_name : string; p_description : string; p_price : Z; p_imageUrl : string;
  p_categoryId : string; p_stock : Z
}.

(** [Partial<CreateProductDto>] *)
Record PartialProductDto := mkPartialProductDto {
  pp_name : option string; pp_description : option string; pp_price : option Z;
  pp_imageUrl : option string; pp_categoryId : option string; pp_stock : option Z
}.

Inductive ProductBody := ProductCreate (d : CreateProductDto) | ProductUpdate (d : PartialProductDto).

Module ProductsService.
Definition getAll : Call ProductBody := CGet "/products".
Definition getById (id : string) : Call ProductBody := CGet ("/products/" +:+ id).
Definition create (d : CreateProductDto) : Call ProductBody := CPost "/products" (ProductCreate d).
Definition update (id : string) (d : PartialProductDto) : Call ProductBody :=
  CPut ("/products/" +:+ id) (ProductUpdate d).
Definition delete (id : string) : Call ProductBody := CDelete ("/products/" +:+ id).
Definition getByCategory (categoryId : string) : Call ProductBody :=
  CGet ("/products/category/" +:+ categoryId).
End ProductsService.

(** ** [categories.ts] *)

Record CreateCategoryDto := mkCreateCategoryDto { c_name : string; c_description : string }.
Record PartialCategoryDto := mkPartialCategoryDto {
  pc_name : option string; pc_description : option string
}.

Inductive CategoryBody := CategoryCreate (d : CreateCategoryDto) | CategoryUpdate (d : PartialCategoryDto).

Module CategoriesService.
Definition getAll : Call CategoryBody := CGet "/categories".
Definition getById (id : string) : Call CategoryBody := CGet ("/categories/" +:+ id).
Definition create (d : CreateCategoryDto) : Call CategoryBody := CPost "/categories" (CategoryCreate d).
Definition update (id : string) (d : PartialCategoryDto) : Call CategoryBody :=
  CPut ("/categories/" +:+ id) (CategoryUpdate d).
Definition delete (id : string) : Call CategoryBody := CDelete ("/categories/" +:+ id).
End CategoriesService.

(** ** [customers.ts] *)

Record CreateCustomerDto := mkCreateCustomerDto {
  cu_name : string; cu_email : string; cu_phone : string; cu_address : string
}.
Record PartialCustomerDto := mkPartialCustomerDto {
  pcu_name : option string; pcu_email : option string; pcu_phone : option string;
  pcu_address : option string
}.

Inductive CustomerBody := CustomerCreate (d : CreateCustomerDto) | CustomerUpdate (d : PartialCustomerDto).

Module CustomersService.
Definition getAll : Call CustomerBody := CGet "/customers".
Definition getById (id : string) : Call CustomerBody := CGet ("/customers/" +:+ id).
Definition create (d : CreateCustomerDto) : Call CustomerBody := CPost "/customers" (CustomerCreate d).
Definition update (id : string) (d : PartialCustomerDto) : Call CustomerBody :=
  CPut ("/customers/" +:+ id) (CustomerUpdate d).
Definition delete (id : string) : Call CustomerBody := CDelete ("/customers/" +:+ id).
End CustomersService.

(** ** [orders.ts] *)

Record OrderItem := mkOrderItem { oi_productId : string; oi_quantity : Z; oi_price : Z }.

(** [Order['status']] *)
Inductive OrderStatus := Pending | Processing | Shipped | Delivered | Cancelled.

Record CreateOrderDto := mkCreateOrderDto { o_customerId : string; o_items : list OrderItem }.

Inductive OrderBody := OrderCreate (d : CreateOrderDto) | OrderStatusBody (status : OrderStatus).

Module OrdersService.
Definition getAll : Call OrderBody := CGet "/orders".
Definition getById (id : string) : Call OrderBody := CGet ("/orders/" +:+ id).
Definition create (d : CreateOrderDto) : Call OrderBody := CPost "/orders" (OrderCreate d).
(** [apiClient.put(`/orders/${id}/status`, { status })] *)
Definition updateStatus (id : string) (status : OrderStatus) : Call OrderBody :=
  CPut ("/orders/" +:+ id +:+ "/status") (OrderStatusBody status).
Definition delete (id : string) : Call OrderBody := CDelete ("/orders/" +:+ id).
Definition getByCustomer (customerId : string) : Call OrderBody :=
  CGet ("/orders/customer/" +:+ customerId).
End OrdersService.

(** ** The REST layout *)

(** A service laid out on the collection [col]: the list and the
    creation on [col], one item on [col/<id>], the creation body passed
    through. *)
Record rest_shaped {B C : Type} (col : string) (mk_create : C -> B)
    (getAll : Call B) (getById : string -> Call B) (create : C -> Call B)
    (delete : string -> Call B) : Prop := {
  rs_getAll : getAll = CGet col;
  rs_getById : forall id, getById id = CGet (col +:+ "/" +:+ id);
  rs_create : forall d, create d = CPost col (mk_create d);
  rs_delete : forall id, delete id = CDelete (col +:+ "/" +:+ id)
}.

(** Its [update] writes the item's path with the body passed through. *)
Definition updates_item {B U : Type} (col : string) (mk_update : U -> B)
    (update : string -> U -> Call B) : Prop :=
  forall id d, update id d = CPut (col +:+ "/" +:+ id) (mk_update d).

(** ** Properties *)

(** The product, category and customer services follow the REST
    layout on [/products], [/categories] and [/customers], [update]
    included; the order service follows it on [/orders], where
    [updateStatus] writes the status alone to [/orders/<id>/status]. *)
Theorem services_rest_shaped :
  rest_shaped "/products" ProductCreate ProductsService.getAll ProductsService.getById
    ProductsService.create ProductsService.delete /\
  updates_item "/products" ProductUpdate ProductsService.update /\
  rest_shaped "/categories" CategoryCreate CategoriesService.getAll CategoriesService.getById
    CategoriesService.create CategoriesService.delete /\
  updates_item "/categories" CategoryUpdate CategoriesService.update /\
  rest_shaped "/customers" CustomerCreate CustomersService.getAll CustomersService.getById
    CustomersService.create CustomersService.delete /\
  updates_item "/customers" CustomerUpdate CustomersService.update /\
  rest_shaped "/orders" OrderCreate OrdersService.getAll OrdersService.getById
    OrdersService.create OrdersService.delete /\
  (forall id s, OrdersService.updateStatus id s =
                CPut ("/orders" +:+ "/" +:+ id +:+ "/status") (OrderStatusBody s)).
Proof. repeat split; reflexivity. Qed.

(** The services' paths are not those of the configuration: a client
    that puts the configured base before them requests
    [<base>/products] where [API_ENDPOINTS.products] is
    [<base>/api/products], and likewise for the three other
    collections. *)
Lemma service_paths_outside_config (base : string) :
  base +:+ call_path ProductsService.getAll <> ep_products (API_ENDPOINTS base) /\
  base +:+ call_path CategoriesService.getAll <> ep_categories (API_ENDPOINTS base) /\
  base +:+ call_path CustomersService.getAll <> ep_customers (API_ENDPOINTS base) /\
  base +:+ call_path OrdersService.getAll <> ep_orders (API_ENDPOINTS base).
Proof. repeat split; intros H; apply string_app_inj_l in H; discriminate. Qed.

End RestServices.
