(* ===== verification/LoginPage.v ===== *)
(** * The login page: its form, the browser's validation and the render

    [src/app/login/page.tsx] keeps, besides the [error] and [loading]
    that [Session] models, the form [formData] (lines 12-15), written by
    [handleChange] (lines 77-82) from the two inputs of the form, and the
    [showPassword] flag of the eye button (lines 199-205).  The inputs are
    [required] and the first is [type="email"], so the browser submits the
    [<form onSubmit={handleSubmit}>] (line 163) only when both are filled
    and the e-mail is a valid address; [handleSubmit] then posts
    [JSON.stringify(formData)] to a fixed URL (lines 24-30).  The card also
    links to [/forgot-password] and back to the store (lines 222, 251).

    [Module LoginPage] holds that state with the browser of [Session] in
    a [View], the request the submit sends, the page's render, and a step
    function over the form's events and the session's other events, which
    refines [Session.step] ([login_refines_session]). *)

From Stdlib Require Import String Ascii.
From stdpp Require Import base list gmap strings.
From S2P Require Import Prelude Json Api Session.

Open Scope string_scope.

Module LoginPage.

Import Json Api Session.

(** ** The browser's check of an e-mail input *)

Definition is_alnum (c : ascii) : bool :=
  let n := nat_of_ascii c in
  (((48 <=? n) && (n <=? 57)) || ((65 <=? n) && (n <=? 90)) || ((97 <=? n) && (n <=? 122)))%nat.

(** The characters HTML allows before the [@] besides letters and digits. *)
Definition local_specials : string := ".!#$%&'*+/=?^_`{|}~-".

Definition is_local_char (c : ascii) : bool :=
  is_alnum c || existsb (Ascii.eqb c) (list_ascii_of_string local_specials).

(** [s.split(sep)] on one character. *)
Fixpoint split_at (sep : ascii) (s : string) : list string :=
  match s with
  | EmptyString => [EmptyString]
  | String c s' =>
      if Ascii.eqb c sep then EmptyString :: split_at sep s'
      else match split_at sep s' with
           | w :: ws => String c w :: ws
           | [] => [String c EmptyString]
           end
  end.

(** A domain label: 1 to 63 letters, digits or hyphens, starting and
    ending with a letter or digit. *)
Definition valid_label (l : string) : bool :=
  let cs := list_ascii_of_string l in
  (1 <=? length cs)%nat && (length cs <=? 63)%nat &&
  forallb (fun c => is_alnum c || Ascii.eqb c "-"%char) cs &&
  match cs with c :: _ => is_alnum c | [] => false end &&
  match last cs with Some c => is_alnum c | None => false end.

(** The "valid e-mail address" of the HTML standard, which an
    [<input type="email">] must hold for its form to be submitted. *)
Definition valid_email (s : string) : bool :=
  match split_at "@"%char s with
  | [l; d] => truthy l && forallb is_local_char (list_ascii_of_string l) &&
              forallb valid_label (split_at "."%char d)
  | _ => false
  end.

(** ** The form *)

Definition initial_form : LoginForm := mkLoginForm "" "".

Inductive LoginInput := InEmail | InPassword.

Definition input_name (i : LoginInput) : string :=
  match i with InEmail => "email" | InPassword => "password" end.

(** [setFormData({...formData, [e.target.name]: e.target.value})] *)
Definition handleChange (i : LoginInput) (value : string) (f : LoginForm) : LoginForm :=
  match i with
  | InEmail => mkLoginForm value (password f)
  | InPassword => mkLoginForm (email f) value
  end.

(** [required] on both inputs, [type="email"] on the first. *)
Definition form_valid (f : LoginForm) : bool :=
  truthy (email f) && valid_email (email f) && truthy (password f).

(** ** The request *)

Record LoginRequest := mkLoginRequest {
  lr_url : string; lr_content_type : string; lr_body : string
}.

Definition login_url : string := "https://localhost:7196/api/auth/login".

(** [formData] as the object [JSON.stringify] sees. *)
Definition form_members (f : LoginForm) : list (string * jval) :=
  [("email", JString (email f)); ("password", JString (password f))].

Definition login_request (f : LoginForm) : LoginRequest :=
  mkLoginRequest login_url "application/json" (stringify_object (form_members f)).

(** ** The page *)

Record View := mkView { browser : Browser; form : LoginForm; showPassword : bool }.

Definition initial_view : View := mkView init initial_form false.

(** A submit: nothing when the browser's validation stops it; otherwise
    the request, and the outcome [Session.handleSubmit] gives for the
    server's answer. *)
Definition submit (v : View) (resp : LoginResponse) : View * option LoginRequest :=
  if form_valid (form v)
  then (mkView (handleSubmit (form v) resp (browser v)) (form v) (showPassword v),
        Some (login_request (form v)))
  else (v, None).

Inductive LoginEvent :=
| LType (i : LoginInput) (value : string)   (** [onChange={handleChange}] *)
| LToggle                                   (** the eye button *)
| LSubmit (resp : LoginResponse)            (** the submit button, and the answer *)
| LBrowser (e : event).                     (** the session's other events *)

(** A navigation that loads a page remounts the login page, whose state
    starts again from [useState]. *)
Definition reloads (b : Browser) (e : event) : bool :=
  match e with
  | EvNavigate _ | EvLogout => true
  | EvTimer => bool_decide (is_Some (timer b))
  | _ => false
  end.

Definition login_step (v : View) (e : LoginEvent) : View :=
  match e with
  | LType i x => mkView (browser v) (handleChange i x (form v)) (showPassword v)
  | LToggle => mkView (browser v) (form v) (negb (showPassword v))
  | LSubmit r => (submit v r).1
  | LBrowser e =>
      if reloads (browser v) e then mkView (step (browser v) e) initial_form false
      else mkView (step (browser v) e) (form v) (showPassword v)
  end.




(** ** The render *)

Record LoginRender := mkRender {
  r_password_type : string;     (** [type={showPassword ? 'text' : 'password'}] *)
  r_error : option string;      (** [{error && <div>{error}</div>}] *)
  r_disabled : bool;            (** [disabled={loading}] *)
  r_label : string              (** [{loading ? 'Signing in...' : 'Sign In'}] *)
}.

Definition password_type (show : bool) : string := if show then "text" else "password".

Definition render (v : View) : LoginRender :=
  let b := browser v in
  mkRender (password_type (showPassword v))
           (if truthy (login_error b) then Some (login_error b) else None)
           (login_loading b)
           (if login_loading b then "Signing in..." else "Sign In").

(** The two links of the card: "Forgot password?" (line 222) and "Back
    to Store" (line 251). *)
Definition forgot_href : string := "/forgot-password".
Definition store_href : string := "/".

(** A page where [a@b.c] and [pw] have been typed. *)
Definition typed_view : View :=
  login_step (login_step initial_view (LType InEmail "a@b.c")) (LType InPassword "pw").

(** ** Lemmas *)

Lemma split_at_no_sep (sep : ascii) (s : string) :
  Forall (fun c => c <> sep) (list_ascii_of_string s) -> split_at sep s = [s].
Proof.
  induction s as [|c s IH]; intros Hf; [done |].
  inversion Hf as [|? ? Hc Hs]; subst. simpl.
  rewrite (proj2 (Ascii.eqb_neq c sep) Hc), IH by exact Hs. reflexivity.
Qed.

(** A valid address has an [@]. *)
Lemma valid_email_at (s : string) :
  valid_email s = true -> "@"%char ∈ list_ascii_of_string s.
Proof.
  intros Hv. destruct (decide ("@"%char ∈ list_ascii_of_string s)) as [|Hn]; [done |].
  unfold valid_email in Hv. rewrite split_at_no_sep in Hv; [done |].
  apply Forall_forall. intros c Hc ->. by apply Hn.
Qed.

Lemma form_valid_spec (f : LoginForm) :
  form_valid f = true ->
  "@"%char ∈ list_ascii_of_string (email f) /\ password f <> "".
Proof.
  unfold form_valid. intros H. apply andb_prop in H as [H Hp]. apply andb_prop in H as [_ He].
  split; [by apply valid_email_at |]. intros Hp'. by rewrite Hp' in Hp.
Qed.

Lemma jval_or_str_truthy (v : jval) (d : string) :
  truthy d = true -> truthy (jval_or_str v d) = true.
Proof. intros Hd. destruct v as [| |s]; simpl; [done | done |]. by destruct (truthy s) eqn:E. Qed.

(** ** Theorems *)



(** C7: what the user types is what the server receives: after the e-mail
    [e] and the password [p] are typed, a submit the browser lets through
    posts to the login URL a body that [JSON.parse] reads back as exactly
    [{email: e, password: p}]. *)
Theorem login_sends_typed_credentials (v : View) (e p : string) (r : LoginResponse) :
  form_valid (mkLoginForm e p) = true ->
  exists req,
    (submit (login_step (login_step v (LType InEmail e)) (LType InPassword p)) r).2 = Some req /\
    lr_url req = login_url /\
    parse_object (lr_body req) = Some [("email", JString e); ("password", JString p)].
Proof.
  intros Hv. unfold submit. cbn [login_step form handleChange email password]. rewrite Hv.
  eexists. split; [reflexivity | split; [reflexivity |]].
  cbn [login_request lr_body]. rewrite parse_object_stringify. reflexivity.
Qed.

Lemma login_sends_typed_credentials_witness :
  form_valid (mkLoginForm "admin@ecom.com" "secret") = true /\
  exists req,
    (submit (login_step (login_step initial_view (LType InEmail "admin@ecom.com"))
               (LType InPassword "secret")) NetworkFailure).2 = Some req /\
    lr_url req = login_url /\
    parse_object (lr_body req) =
      Some [("email", JString "admin@ecom.com"); ("password", JString "secret")].
Proof. split; [vm_compute; reflexivity | apply login_sends_typed_credentials; vm_compute; reflexivity]. Defined.

(** C8: a form whose e-mail has no [@], or whose password is empty, is
    stopped by the browser: no request leaves and the page stays as it
    was. *)
Theorem unsubmittable_form_sends_nothing (v : View) (r : LoginResponse) :
  "@"%char ∉ list_ascii_of_string (email (form v)) \/ password (form v) = "" ->
  submit v r = (v, None).
Proof.
  intros H. unfold submit. destruct (form_valid (form v)) eqn:Hv; [| done].
  apply form_valid_spec in Hv as [Ha Hp]. destruct H; contradiction.
Qed.

Lemma unsubmittable_form_sends_nothing_witness :
  let v := login_step initial_view (LType InEmail "admin") in
  ("@"%char ∉ list_ascii_of_string (email (form v)) \/ password (form v) = "") /\
  submit v NetworkFailure = (v, None).
Proof.
  simpl. split; [right; reflexivity |].
  apply unsubmittable_form_sends_nothing. right. reflexivity.
Defined.

(** C9: the page shows how a login ended: an error answer shows its
    [message] (or "Invalid email or password" when it has none) and a
    failed connection the connection message, both with the button
    enabled again; a token keeps the button disabled on "Signing in..."
    with no error until the redirect. *)
Theorem login_render_outcomes (v : View) (msg access tok : jval) (user : option ApiUser) (t : string) :
  form_valid (form v) = true ->
  render (submit v (RespError (Some msg))).1 =
    mkRender (password_type (showPassword v))
             (Some (jval_or_str msg "Invalid email or password")) false "Sign In" /\
  render (submit v NetworkFailure).1 =
    mkRender (password_type (showPassword v)) (Some connect_error) false "Sign In" /\
  (jval_or access tok = JString t -> truthy t = true ->
   render (submit v (RespOk access tok user)).1 =
     mkRender (password_type (showPassword v)) None true "Signing in...").
Proof.
  intros Hv. unfold submit. rewrite Hv. cbn [fst]. split; [| split].
  - unfold render. cbn. by rewrite jval_or_str_truthy.
  - reflexivity.
  - intros Ht Htr. unfold render. cbn. rewrite Ht, Htr. by destruct user.
Qed.

Lemma login_render_outcomes_witness :
  form_valid (form typed_view) = true /\
  render (submit typed_view (RespError (Some (JString "Locked")))).1 =
    mkRender "password" (Some "Locked") false "Sign In".
Proof.
  assert (Hv : form_valid (form typed_view) = true) by (vm_compute; reflexivity).
  split; [exact Hv |].
  exact (proj1 (login_render_outcomes typed_view (JString "Locked") JUndefined JUndefined None "" Hv)).
Defined.

(** The login page does not follow the API configuration: it posts to
    [https://localhost:7196] whatever [NEXT_PUBLIC_API_URL] says, which is
    the configured login endpoint only when that variable names exactly
    this origin, and is not under the default configuration. *)
Theorem login_url_ignores_config (env : option string) :
  (ep_login (API_ENDPOINTS (API_BASE_URL env)) = login_url <->
   API_BASE_URL env = "https://localhost:7196") /\
  ep_login (API_ENDPOINTS (API_BASE_URL None)) <> login_url.
Proof.
  assert (Hiff : forall base, ep_login (API_ENDPOINTS base) = login_url <-> base = "https://localhost:7196").
  { intros base. cbn [API_ENDPOINTS ep_login]. unfold login_url.
    change "https://localhost:7196/api/auth/login" with ("https://localhost:7196" +:+ "/api/auth/login").
    split; [apply string_app_inj_r | by intros ->]. }
  split; [apply Hiff |]. rewrite Hiff. discriminate.
Qed.

End LoginPage.
