(* ===== verification/ProductForm.v ===== *)
(** * The product-creation form: its state and its editors

    [src/app/admin/products/add/page.tsx] is one React component,
    [AddProductPage], whose state is [formData] (lines 35-160), the
    [attributes] list (line 20) and two search terms (lines 18-19).
    [Module ProductForm] models that state and every handler that changes
    it:

    - the scalar inputs of [formData] as a map from input names to values
      ([fields]), since [handleChange] (lines 301-307) writes them through
      a computed key; [initial_fields] is the literal of lines 37-158;
    - the related and cross-sell pickers (lines 309-351) over the fixed
      [availableProducts] (lines 24-33);
    - the attribute editor (lines 353-399) and the variation count of the
      info box (lines 1658-1666);
    - the image list (lines 401-428, 1785-1830), the video URLs
      (lines 1856-1890) and the specifications (lines 1933-2012).

    [Date.now()] is an input of the handlers that use it ([now]); an
    assignment [a[i] = v] past the end of an array extends it with holes,
    modelled as empty strings since every reader of these arrays treats a
    hole like [''] (falsy, rendered empty).  Submitting the form is in
    [ProductSubmit]. *)

From Stdlib Require Import String Ascii ZArith.
From stdpp Require Import base list gmap strings.
From S2P Require Import Prelude JsNumber.

Open Scope string_scope.

Module ProductForm.

Import JsNumber.

(** ** Data *)

(** The value of a form input: text, or the [checked] of a checkbox. *)
Inductive FieldVal := FStr (s : string) | FBool (b : bool).

#[export] Instance FieldVal_eq_dec : EqDecision FieldVal.
Proof. solve_decision. Qed.

Record ImageEntry := mkImage {
  img_id : string; img_url : string; img_altText : string; img_displayOrder : Z
}.

Record SpecEntry := mkSpec {
  spec_id : string; spec_name : string; spec_value : string; spec_displayOrder : Z
}.

Record Attribute := mkAttribute {
  attr_id : string; attr_name : string; attr_values : list string
}.

Record FormData := mkFormData {
  fields : gmap string FieldVal;
  relatedProducts : list string;
  crossSellProducts : list string;
  productImages : list ImageEntry;
  videoUrls : list string;
  specifications : list SpecEntry
}.

Record PageState := mkPage {
  formData : FormData;
  attributes : list Attribute;
  searchTerm : string;
  searchTermCross : string
}.

(** The scalar members of the [useState] literal, in order. *)
Definition initial_fields : list (string * FieldVal) := [
  ("name", FStr ""); ("shortDescription", FStr ""); ("fullDescription", FStr "");
  ("sku", FStr ""); ("categories", FStr ""); ("manufacturer", FStr "");
  ("published", FBool true); ("productType", FStr "simple");
  ("visibleIndividually", FBool true); ("customerRoles", FStr "all");
  ("limitedToStores", FBool false); ("vendorId", FStr "");
  ("requireOtherProducts", FBool false); ("requiredProductIds", FStr "");
  ("automaticallyAddProducts", FBool false); ("showOnHomepage", FBool false);
  ("displayOrder", FStr "1"); ("productTags", FStr ""); ("gtin", FStr "");
  ("manufacturerPartNumber", FStr ""); ("adminComment", FStr ""); ("price", FStr "");
  ("oldPrice", FStr ""); ("cost", FStr ""); ("disableBuyButton", FBool false);
  ("disableWishlistButton", FBool false); ("availableForPreOrder", FBool false);
  ("preOrderAvailabilityStartDate", FStr ""); ("callForPrice", FBool false);
  ("customerEntersPrice", FBool false); ("minimumCustomerEnteredPrice", FStr "");
  ("maximumCustomerEnteredPrice", FStr ""); ("basepriceEnabled", FBool false);
  ("basepriceAmount", FStr ""); ("basepriceUnit", FStr "");
  ("basepriceBaseAmount", FStr ""); ("basepriceBaseUnit", FStr "");
  ("markAsNew", FBool false); ("markAsNewStartDate", FStr "");
  ("markAsNewEndDate", FStr ""); ("hasDiscountsApplied", FBool false);
  ("availableStartDate", FStr ""); ("availableEndDate", FStr "");
  ("taxExempt", FBool false); ("taxCategoryId", FStr "");
  ("telecommunicationsBroadcastingElectronicServices", FBool false);
  ("metaTitle", FStr ""); ("metaKeywords", FStr ""); ("metaDescription", FStr "");
  ("searchEngineFriendlyPageName", FStr ""); ("manageInventory", FStr "track");
  ("stockQuantity", FStr ""); ("displayStockAvailability", FBool true);
  ("displayStockQuantity", FBool false); ("minStockQuantity", FStr "");
  ("lowStockActivity", FStr "nothing"); ("notifyAdminForQuantityBelow", FStr "");
  ("backorders", FStr "no-backorders"); ("allowBackInStockSubscriptions", FBool false);
  ("productAvailabilityRange", FStr ""); ("minCartQuantity", FStr "1");
  ("maxCartQuantity", FStr "10000"); ("allowedQuantities", FStr "");
  ("allowAddingOnlyExistingAttributeCombinations", FBool false);
  ("notReturnable", FBool false); ("isShipEnabled", FBool true);
  ("isFreeShipping", FBool false); ("shipSeparately", FBool false);
  ("additionalShippingCharge", FStr ""); ("deliveryDateId", FStr "");
  ("weight", FStr ""); ("length", FStr ""); ("width", FStr ""); ("height", FStr "");
  ("isGiftCard", FBool false); ("giftCardType", FStr "virtual");
  ("overriddenGiftCardAmount", FStr ""); ("isDownload", FBool false);
  ("downloadId", FStr ""); ("unlimitedDownloads", FBool true);
  ("maxNumberOfDownloads", FStr ""); ("downloadExpirationDays", FStr "");
  ("downloadActivationType", FStr "when-order-is-paid");
  ("hasUserAgreement", FBool false); ("userAgreementText", FStr "");
  ("hasSampleDownload", FBool false); ("sampleDownloadId", FStr "");
  ("isRecurring", FBool false); ("recurringCycleLength", FStr "");
  ("recurringCyclePeriod", FStr "days"); ("recurringTotalCycles", FStr "");
  ("isRental", FBool false); ("rentalPriceLength", FStr "");
  ("rentalPricePeriod", FStr "days")
].

Definition initial_form : FormData :=
  mkFormData (list_to_map initial_fields) [] [] [] [] [].

Definition initial_page : PageState := mkPage initial_form [] "" "".

Record AvailableProduct := mkAvailable {
  ap_id : string; ap_name : string; ap_sku : string; ap_price : string
}.

Definition availableProducts : list AvailableProduct := [
  mkAvailable "1" "Wireless Headphones" "WH-001" "$299";
  mkAvailable "2" "Smart Watch Pro" "SW-002" "$399";
  mkAvailable "3" "Laptop Stand" "LS-003" "$49";
  mkAvailable "4" "USB-C Hub" "UCH-004" "$79";
  mkAvailable "5" "Mechanical Keyboard" "MK-005" "$149";
  mkAvailable "6" "Wireless Mouse" "WM-006" "$59";
  mkAvailable "7" ("Monitor 27" +:+ String (ascii_of_nat 34) "") "MON-007" "$349";
  mkAvailable "8" "Webcam HD" "WC-008" "$89"
].

Definition avail_ids : list string := fmap ap_id availableProducts.

(** ** Array helpers *)

(** [a[i] = v] on a copy of [a]: past the end the array grows, the holes
    read as [''].*)
Definition js_set (a : list string) (i : nat) (v : string) : list string :=
  if decide (i < length a) then <[i := v]> a
  else a ++ replicate (i - length a) "" ++ [v].

(** [a.filter((_, idx) => idx !== i)] *)
Fixpoint remove_index {A} (a : list A) (i : nat) : list A :=
  match a, i with
  | [], _ => []
  | _ :: a', O => a'
  | x :: a', S i' => x :: remove_index a' i'
  end.

(** ** Field updates *)

(** [handleChange]: [{...formData, [name]: type === 'checkbox' ? checked : value}] *)
Definition handleChange (name value type : string) (checked : bool) (fd : FormData) : FormData :=
  mkFormData (<[name := if String.eqb type "checkbox" then FBool checked else FStr value]> (fields fd))
    (relatedProducts fd) (crossSellProducts fd) (productImages fd) (videoUrls fd) (specifications fd).

Definition get_str (fd : FormData) (k : string) : string :=
  match fields fd !! k with Some (FStr s) => s | _ => "" end.

Definition get_bool (fd : FormData) (k : string) : bool :=
  match fields fd !! k with Some (FBool b) => b | Some (FStr s) => truthy s | None => false end.

(** ** Related and cross-sell products *)

Definition set_related (l : list string) (fd : FormData) : FormData :=
  mkFormData (fields fd) l (crossSellProducts fd) (productImages fd) (videoUrls fd) (specifications fd).

Definition set_cross (l : list string) (fd : FormData) : FormData :=
  mkFormData (fields fd) (relatedProducts fd) l (productImages fd) (videoUrls fd) (specifications fd).

(** [if (!list.includes(id)) list = [...list, id]] *)
Definition add_unique (id : string) (l : list string) : list string :=
  if bool_decide (id ∈ l) then l else l ++ [id].

Definition addRelatedProduct (id : string) (st : PageState) : PageState :=
  mkPage (set_related (add_unique id (relatedProducts (formData st))) (formData st))
         (attributes st) "" (searchTermCross st).

Definition removeRelatedProduct (id : string) (st : PageState) : PageState :=
  mkPage (set_related (remove_eq id (relatedProducts (formData st))) (formData st))
         (attributes st) (searchTerm st) (searchTermCross st).

Definition addCrossSellProduct (id : string) (st : PageState) : PageState :=
  mkPage (set_cross (add_unique id (crossSellProducts (formData st))) (formData st))
         (attributes st) (searchTerm st) "".

Definition removeCrossSellProduct (id : string) (st : PageState) : PageState :=
  mkPage (set_cross (remove_eq id (crossSellProducts (formData st))) (formData st))
         (attributes st) (searchTerm st) (searchTermCross st).

(** [p.name.toLowerCase().includes(term.toLowerCase()) || p.sku...] *)
Definition matches_search (term : string) (p : AvailableProduct) : bool :=
  includes (toLowerCase (ap_name p)) (toLowerCase term) ||
  includes (toLowerCase (ap_sku p)) (toLowerCase term).

Definition filteredProducts (term : string) : list AvailableProduct :=
  filter (fun p => matches_search term p = true) availableProducts.


(** ** Attributes *)

Definition set_attributes (attrs : list Attribute) (st : PageState) : PageState :=
  mkPage (formData st) attrs (searchTerm st) (searchTermCross st).

(** [attributes.map(attr => attr.id === id ? f(attr) : attr)] *)
Definition map_attr (id : string) (f : Attribute -> Attribute) (attrs : list Attribute) : list Attribute :=
  fmap (fun a => if String.eqb (attr_id a) id then f a else a) attrs.

Definition addAttribute (now : nat) (st : PageState) : PageState :=
  set_attributes (attributes st ++ [mkAttribute (nat_to_string now) "" [""]]) st.

Definition removeAttribute (id : string) (st : PageState) : PageState :=
  set_attributes (filter (fun a => attr_id a <> id) (attributes st)) st.

Definition updateAttributeName (id name : string) (st : PageState) : PageState :=
  set_attributes (map_attr id (fun a => mkAttribute (attr_id a) name (attr_values a)) (attributes st)) st.

Definition updateAttributeValue (id : string) (i : nat) (v : string) (st : PageState) : PageState :=
  set_attributes
    (map_attr id (fun a => mkAttribute (attr_id a) (attr_name a) (js_set (attr_values a) i v))
       (attributes st)) st.

Definition addAttributeValue (id : string) (st : PageState) : PageState :=
  set_attributes
    (map_attr id (fun a => mkAttribute (attr_id a) (attr_name a) (attr_values a ++ [""]))
       (attributes st)) st.

Definition removeAttributeValue (id : string) (i : nat) (st : PageState) : PageState :=
  set_attributes
    (map_attr id (fun a => mkAttribute (attr_id a) (attr_name a) (remove_index (attr_values a) i))
       (attributes st)) st.

(** [attributes.reduce((acc, attr) => acc * attr.values.filter(v => v).length, 1)] *)
Definition variation_count (attrs : list Attribute) : nat :=
  fold_left (fun acc a => acc * length (filter (fun v => truthy v = true) (attr_values a))) attrs 1.

(** ** Images *)

Definition set_form (fd : FormData) (st : PageState) : PageState :=
  mkPage fd (attributes st) (searchTerm st) (searchTermCross st).

Definition set_images (l : list ImageEntry) (fd : FormData) : FormData :=
  mkFormData (fields fd) (relatedProducts fd) (crossSellProducts fd) l (videoUrls fd) (specifications fd).

(** The entries [handleImageUpload] makes for the chosen files, given as
    their object URLs. *)
Definition new_images (now : nat) (base : nat) (urls : list string) : list ImageEntry :=
  imap (fun index url =>
          mkImage (nat_to_string now +:+ "-" +:+ nat_to_string index) url ""
                  (Z.of_nat (base + index + 1))) urls.

Definition handleImageUpload (now : nat) (urls : list string) (st : PageState) : PageState :=
  match urls with
  | [] => st
  | _ =>
      let fd := formData st in
      set_form (set_images (productImages fd ++ new_images now (length (productImages fd)) urls) fd) st
  end.

Definition removeImage (id : string) (st : PageState) : PageState :=
  let fd := formData st in
  set_form (set_images (filter (fun i => img_id i <> id) (productImages fd)) fd) st.

Definition updateImageAltText (id alt : string) (st : PageState) : PageState :=
  let fd := formData st in
  set_form (set_images (fmap (fun i => if String.eqb (img_id i) id
                                       then mkImage (img_id i) (img_url i) alt (img_displayOrder i)
                                       else i) (productImages fd)) fd) st.

(** [displayOrder: parseInt(e.target.value) || 0] *)
Definition updateImageDisplayOrder (id text : string) (st : PageState) : PageState :=
  let fd := formData st in
  set_form (set_images (fmap (fun i => if String.eqb (img_id i) id
                                       then mkImage (img_id i) (img_url i) (img_altText i) (parseInt_or text 0)
                                       else i) (productImages fd)) fd) st.

(** ** Video URLs *)

Definition set_videos (l : list string) (fd : FormData) : FormData :=
  mkFormData (fields fd) (relatedProducts fd) (crossSellProducts fd) (productImages fd) l (specifications fd).

Definition addVideoUrl (st : PageState) : PageState :=
  let fd := formData st in set_form (set_videos (videoUrls fd ++ [""]) fd) st.

Definition updateVideoUrl (index : nat) (v : string) (st : PageState) : PageState :=
  let fd := formData st in set_form (set_videos (js_set (videoUrls fd) index v) fd) st.

Definition removeVideoUrl (index : nat) (st : PageState) : PageState :=
  let fd := formData st in set_form (set_videos (remove_index (videoUrls fd) index) fd) st.

(** ** Specifications *)

Definition set_specs (l : list SpecEntry) (fd : FormData) : FormData :=
  mkFormData (fields fd) (relatedProducts fd) (crossSellProducts fd) (productImages fd) (videoUrls fd) l.

Definition addSpecification (now : nat) (st : PageState) : PageState :=
  let fd := formData st in
  set_form (set_specs (specifications fd ++
    [mkSpec (nat_to_string now) "" "" (Z.of_nat (length (specifications fd) + 1))]) fd) st.

Definition map_spec (id : string) (f : SpecEntry -> SpecEntry) (st : PageState) : PageState :=
  let fd := formData st in
  set_form (set_specs (fmap (fun s => if String.eqb (spec_id s) id then f s else s)
                           (specifications fd)) fd) st.

Definition updateSpecName (id name : string) (st : PageState) : PageState :=
  map_spec id (fun s => mkSpec (spec_id s) name (spec_value s) (spec_displayOrder s)) st.

Definition updateSpecValue (id value : string) (st : PageState) : PageState :=
  map_spec id (fun s => mkSpec (spec_id s) (spec_name s) value (spec_displayOrder s)) st.

Definition updateSpecDisplayOrder (id text : string) (st : PageState) : PageState :=
  map_spec id (fun s => mkSpec (spec_id s) (spec_name s) (spec_value s) (parseInt_or text 0)) st.

Definition removeSpecification (id : string) (st : PageState) : PageState :=
  let fd := formData st in
  set_form (set_specs (filter (fun s => spec_id s <> id) (specifications fd)) fd) st.



(** ** Lemmas *)

Lemma add_unique_NoDup (id : string) (l : list string) : NoDup l -> NoDup (add_unique id l).
Proof.
  unfold add_unique. case_bool_decide; [done |]. intros Hl.
  apply NoDup_app. split_and!; [done | set_solver | apply NoDup_singleton].
Qed.

Lemma add_unique_elem (x id : string) (l : list string) : x ∈ add_unique id l <-> x = id \/ x ∈ l.
Proof. unfold add_unique. case_bool_decide; set_solver. Qed.

Lemma filteredProducts_avail (t id : string) : id ∈ fmap ap_id (filteredProducts t) -> id ∈ avail_ids.
Proof.
  unfold avail_ids, filteredProducts. rewrite !list_elem_of_fmap.
  intros [p [-> Hp]]. exists p. split; [done |]. by apply list_elem_of_filter in Hp as [_ ?].
Qed.

Lemma remove_index_length {A} (l : list A) (i : nat) :
  i < length l -> length (remove_index l i) = pred (length l).
Proof.
  revert i. induction l as [|x l IH]; intros [|i] Hi; simpl in *; try lia.
  rewrite IH by lia. destruct l; simpl in *; lia.
Qed.

Lemma js_set_length (a : list string) (i : nat) (v : string) :
  length (js_set a i v) = Nat.max (length a) (S i).
Proof.
  unfold js_set. case_decide.
  - rewrite length_insert. lia.
  - rewrite !length_app, length_replicate. simpl. lia.
Qed.

Lemma js_set_lookup (a : list string) (i : nat) (v : string) : js_set a i v !! i = Some v.
Proof.
  unfold js_set. case_decide.
  - by apply list_lookup_insert_eq.
  - rewrite lookup_app_r by lia. rewrite lookup_app_r; rewrite length_replicate; [|lia].
    by replace (i - length a - (i - length a)) with 0 by lia.
Qed.

Lemma map_attr_ids (id : string) (f : Attribute -> Attribute) (attrs : list Attribute) :
  (forall a, attr_id (f a) = attr_id a) ->
  attr_id <$> map_attr id f attrs = attr_id <$> attrs.
Proof.
  intros Hf. unfold map_attr. rewrite <- list_fmap_compose.
  apply list_fmap_ext. intros _ a _. simpl. by destruct (String.eqb _ _).
Qed.

(** With distinct ids, [map_attr] changes the one attribute with that id. *)
Lemma map_attr_Forall (P : Attribute -> Prop) (id : string) (f : Attribute -> Attribute)
    (attrs : list Attribute) :
  NoDup (attr_id <$> attrs) -> Forall P attrs ->
  (forall a, a ∈ attrs -> attr_id a = id -> P (f a)) ->
  Forall P (map_attr id f attrs).
Proof.
  unfold map_attr. intros _ HP Hf. apply Forall_fmap, Forall_forall.
  intros a Ha. simpl. destruct (String.eqb (attr_id a) id) eqn:E.
  - apply String.eqb_eq in E. by apply Hf.
  - rewrite Forall_forall in HP. by apply HP.
Qed.

Lemma handleImageUpload_attributes (now : nat) (urls : list string) (st : PageState) :
  attributes (handleImageUpload now urls st) = attributes st.
Proof. by destruct urls. Qed.

Lemma handleImageUpload_related (now : nat) (urls : list string) (st : PageState) :
  relatedProducts (formData (handleImageUpload now urls st)) = relatedProducts (formData st).
Proof. by destruct urls. Qed.

Lemma handleImageUpload_cross (now : nat) (urls : list string) (st : PageState) :
  crossSellProducts (formData (handleImageUpload now urls st)) = crossSellProducts (formData st).
Proof. by destruct urls. Qed.

#[export] Hint Rewrite handleImageUpload_attributes handleImageUpload_related
  handleImageUpload_cross : ecom_rw.

Lemma NoDup_fmap_same {A B} (f : A -> B) (l : list A) (a b : A) :
  NoDup (f <$> l) -> a ∈ l -> b ∈ l -> f a = f b -> a = b.
Proof.
  intros Hnd Ha Hb Hab. apply list_elem_of_lookup in Ha as [i Hi], Hb as [j Hj].
  assert (i = j) as <-; [| congruence].
  eapply NoDup_lookup; [exact Hnd | |]; rewrite list_lookup_fmap; [rewrite Hi | rewrite Hj];
    simpl; [reflexivity | by rewrite Hab].
Qed.

Lemma NoDup_fmap_filter {A B} (f : A -> B) (P : A -> Prop) `{!forall x, Decision (P x)} (l : list A) :
  NoDup (f <$> l) -> NoDup (f <$> filter P l).
Proof. intros Hnd. eapply sublist_NoDup; [exact Hnd |]. apply fmap_sublist, sublist_filter. Qed.

(** ** Events *)

Inductive FormEvent :=
| EChange (name value type : string) (checked : bool)
| ESearch (term : string) | ESearchCross (term : string)
| EAddRelated (id : string) | ERemoveRelated (id : string)
| EAddCross (id : string) | ERemoveCross (id : string)
| EAddAttribute (now : nat) | ERemoveAttribute (id : string)
| EAttrName (id name : string) | EAttrValue (id : string) (i : nat) (v : string)
| EAddAttrValue (id : string) | ERemoveAttrValue (id : string) (i : nat)
| EUpload (now : nat) (urls : list string) | ERemoveImage (id : string)
| EImageAlt (id alt : string) | EImageOrder (id text : string)
| EAddVideo | EVideo (index : nat) (v : string) | ERemoveVideo (index : nat)
| EAddSpec (now : nat) | ESpecName (id name : string) | ESpecValue (id v : string)
| ESpecOrder (id text : string) | ERemoveSpec (id : string).

Definition set_search (t : string) (st : PageState) : PageState :=
  mkPage (formData st) (attributes st) t (searchTermCross st).

Definition set_search_cross (t : string) (st : PageState) : PageState :=
  mkPage (formData st) (attributes st) (searchTerm st) t.

Definition form_step (st : PageState) (e : FormEvent) : PageState :=
  match e with
  | EChange n v t c => set_form (handleChange n v t c (formData st)) st
  | ESearch t => set_search t st
  | ESearchCross t => set_search_cross t st
  | EAddRelated id => addRelatedProduct id st
  | ERemoveRelated id => removeRelatedProduct id st
  | EAddCross id => addCrossSellProduct id st
  | ERemoveCross id => removeCrossSellProduct id st
  | EAddAttribute now => addAttribute now st
  | ERemoveAttribute id => removeAttribute id st
  | EAttrName id n => updateAttributeName id n st
  | EAttrValue id i v => updateAttributeValue id i v st
  | EAddAttrValue id => addAttributeValue id st
  | ERemoveAttrValue id i => removeAttributeValue id i st
  | EUpload now urls => handleImageUpload now urls st
  | ERemoveImage id => removeImage id st
  | EImageAlt id a => updateImageAltText id a st
  | EImageOrder id t => updateImageDisplayOrder id t st
  | EAddVideo => addVideoUrl st
  | EVideo i v => updateVideoUrl i v st
  | ERemoveVideo i => removeVideoUrl i st
  | EAddSpec now => addSpecification now st
  | ESpecName id n => updateSpecName id n st
  | ESpecValue id v => updateSpecValue id v st
  | ESpecOrder id t => updateSpecDisplayOrder id t st
  | ERemoveSpec id => removeSpecification id st
  end.

(** The controls the page renders, and the clock: [Date.now()] has moved
    on since the last attribute was added, so its id is new
    ([same_millisecond_ids] shows what happens otherwise).  An add button only for a product of
    the search results, shown while the search term is not empty
    (lines 1421-1428); the buttons of an attribute value only for an
    index of [attribute.values], and its remove button only while there
    are two values or more (lines 1624-1640). *)
Definition form_enabled (st : PageState) (e : FormEvent) : Prop :=
  match e with
  | EAddRelated id =>
      truthy (searchTerm st) = true /\ id ∈ fmap ap_id (filteredProducts (searchTerm st))
  | EAddCross id =>
      truthy (searchTermCross st) = true /\ id ∈ fmap ap_id (filteredProducts (searchTermCross st))
  | EAttrValue id i _ =>
      exists a, a ∈ attributes st /\ attr_id a = id /\ i < length (attr_values a)
  | EAddAttribute now => nat_to_string now ∉ attr_id <$> attributes st
  | ERemoveAttrValue id i =>
      exists a, a ∈ attributes st /\ attr_id a = id /\ i < length (attr_values a) /\
                1 < length (attr_values a)
  | EVideo i _ | ERemoveVideo i => i < length (videoUrls (formData st))
  | _ => True
  end.

Inductive form_reachable : PageState -> Prop :=
| form_init : form_reachable initial_page
| form_next st e : form_reachable st -> form_enabled st e -> form_reachable (form_step st e).

(** The invariant of the page: the picked products are distinct products
    of the catalogue, and every attribute keeps at least one value. *)
Definition form_inv (st : PageState) : Prop :=
  NoDup (relatedProducts (formData st)) /\ NoDup (crossSellProducts (formData st)) /\
  (forall id, id ∈ relatedProducts (formData st) -> id ∈ avail_ids) /\
  (forall id, id ∈ crossSellProducts (formData st) -> id ∈ avail_ids) /\
  NoDup (attr_id <$> attributes st) /\
  Forall (fun a => attr_values a <> []) (attributes st).


(** ** Theorems *)

(** The initial state satisfies the invariant. *)
Lemma form_inv_init : form_inv initial_page.
Proof. unfold form_inv; simpl. split_and!; try constructor; set_solver. Qed.

(** Every control the page renders preserves the invariant. *)
Lemma form_inv_step (st : PageState) (e : FormEvent) :
  form_inv st -> form_enabled st e -> form_inv (form_step st e).
Proof.
  intros IH He. destruct IH as (Hr1 & Hc1 & Hr2 & Hc2 & Hids & Hvals).
  destruct e; simpl in He; unfold form_inv; simpl; autorewrite with ecom_rw;
    split_and!; try assumption.
  - by apply add_unique_NoDup.
  - intros x Hx. apply add_unique_elem in Hx as [-> | Hx];
      [eapply filteredProducts_avail, He | auto].
  - by apply remove_eq_NoDup.
  - intros x Hx. apply remove_eq_elem in Hx as [Hx _]. auto.
  - by apply add_unique_NoDup.
  - intros x Hx. apply add_unique_elem in Hx as [-> | Hx];
      [eapply filteredProducts_avail, He | auto].
  - by apply remove_eq_NoDup.
  - intros x Hx. apply remove_eq_elem in Hx as [Hx _]. auto.
  - rewrite fmap_app. apply NoDup_app. split_and!; [done | set_solver | apply NoDup_singleton].
  - apply Forall_app. split; [done |]. constructor; [discriminate | constructor].
  - by apply NoDup_fmap_filter.
  - rewrite Forall_forall in Hvals |- *. intros a Ha. apply list_elem_of_filter in Ha as [_ Ha]. auto.
  - by rewrite map_attr_ids.
  - apply map_attr_Forall; [done | done |]. intros a Ha _. simpl.
    rewrite Forall_forall in Hvals. by apply Hvals.
  - by rewrite map_attr_ids.
  - apply map_attr_Forall; [done | done |]. intros a _ _. simpl.
    intros Hnil. apply (f_equal length) in Hnil. rewrite js_set_length in Hnil. simpl in Hnil. lia.
  - by rewrite map_attr_ids.
  - apply map_attr_Forall; [done | done |]. intros a _ _. simpl.
    intros Hnil. apply (f_equal length) in Hnil. rewrite length_app in Hnil. simpl in Hnil. lia.
  - by rewrite map_attr_ids.
  - destruct He as (a0 & Ha0 & Hid & Hi & Hlen).
    apply map_attr_Forall; [done | done |]. intros a Ha Haid. simpl.
    assert (a = a0) as -> by (eapply NoDup_fmap_same; [exact Hids | exact Ha | exact Ha0 | congruence]).
    intros Hnil. apply (f_equal length) in Hnil. rewrite remove_index_length in Hnil by done.
    simpl in Hnil. lia.
Qed.

(** C10: in every state the page reaches, the related and the cross-sell
    lists hold distinct products of the catalogue, the attributes have
    distinct ids, and every attribute keeps at least one value. *)
Theorem form_invariant (st : PageState) : form_reachable st -> form_inv st.
Proof.
  induction 1 as [|st e _ IH He]; [exact form_inv_init | exact (form_inv_step st e IH He)].
Qed.

Lemma form_invariant_witness :
  form_reachable (form_step (form_step initial_page (ESearch "lap")) (EAddRelated "3")) /\
  form_inv (form_step (form_step initial_page (ESearch "lap")) (EAddRelated "3")).
Proof.
  assert (R : form_reachable (form_step (form_step initial_page (ESearch "lap")) (EAddRelated "3"))).
  { apply form_next; [apply form_next; [apply form_init | exact I] |].
    split; [reflexivity | vm_compute; constructor]. }
  split; [exact R | apply (form_invariant _ R)].
Defined.

(** The number of non-empty values of an attribute. *)
Definition filled (a : Attribute) : nat := length (filter (fun v => truthy v = true) (attr_values a)).

Lemma variation_count_fold (attrs : list Attribute) (k : nat) :
  fold_left (fun acc a => acc * filled a) attrs k = k * foldr (fun a acc => filled a * acc) 1 attrs.
Proof.
  revert k. induction attrs as [|a attrs IH]; intros k; simpl; [lia |].
  rewrite IH. lia.
Qed.

Lemma filled_zero (a : Attribute) : filled a = 0 <-> Forall (fun v => v = "") (attr_values a).
Proof.
  unfold filled. induction (attr_values a) as [|v vs IH]; [split; [constructor | done] |].
  rewrite filter_cons, Forall_cons. case_decide as Ht.
  - simpl. split; [lia | intros [Hv _]; rewrite Hv in Ht; discriminate].
  - rewrite IH. split; [| tauto]. intros H. split; [| done].
    by apply truthy_false, not_true_is_false.
Qed.

(** The info box announces zero variations exactly when some
    attribute has no non-empty value, as a freshly added one (whose only
    value is [''])) has. *)
Theorem variation_count_zero (attrs : list Attribute) :
  variation_count attrs = 0 <-> exists a, a ∈ attrs /\ Forall (fun v => v = "") (attr_values a).
Proof.
  unfold variation_count. change (fun acc a => acc * length (filter (fun v => truthy v = true)
    (attr_values a))) with (fun acc a => acc * filled a).
  rewrite variation_count_fold, Nat.mul_1_l.
  induction attrs as [|a attrs IH]; simpl.
  - split; [lia | intros [a [Ha _]]; set_solver].
  - rewrite Nat.mul_eq_0, IH, filled_zero. set_solver.
Qed.

(** Two attributes added in the same millisecond get the same id, and
    removing one of them removes both. *)
Theorem same_millisecond_ids :
  let st := addAttribute 1234 (addAttribute 1234 initial_page) in
  attr_id <$> attributes st = ["1234"; "1234"] /\
  attributes (removeAttribute "1234" st) = [].
Proof. vm_compute. split; reflexivity. Qed.

Lemma imap_orders (base : nat) (l : list string) :
  imap (fun n _ => Z.of_nat (base + n + 1)) l = Z.of_nat <$> seq (S base) (length l).
Proof.
  revert base. induction l as [|u l IH]; intros base; [done |].
  rewrite imap_cons. simpl. rewrite <- IH. f_equal; [f_equal; lia |].
  apply imap_ext. intros i x _. simpl. f_equal. lia.
Qed.

Lemma new_images_orders (now base : nat) (urls : list string) :
  img_displayOrder <$> new_images now base urls = Z.of_nat <$> seq (S base) (length urls).
Proof. unfold new_images. rewrite fmap_imap. apply imap_orders. Qed.

(** Uploading [k] files to a list numbered [1..n] numbers the new
    images [n+1..n+k], in the order of the files. *)
Theorem upload_display_orders (now : nat) (urls : list string) (st : PageState) :
  img_displayOrder <$> productImages (formData st) = Z.of_nat <$> seq 1 (length (productImages (formData st))) ->
  img_displayOrder <$> productImages (formData (handleImageUpload now urls st)) =
    Z.of_nat <$> seq 1 (length (productImages (formData st)) + length urls).
Proof.
  intros H. destruct urls as [|u urls]; simpl; [by rewrite H, Nat.add_0_r |].
  rewrite fmap_app, H, new_images_orders, seq_app, fmap_app. done.
Qed.

Lemma upload_display_orders_witness :
  img_displayOrder <$> productImages (formData (handleImageUpload 7 ["blob:a"; "blob:b"] initial_page)) =
    [1%Z; 2%Z].
Proof. apply (upload_display_orders 7 ["blob:a"; "blob:b"] initial_page). reflexivity. Defined.

(** The product search ignores case: a term and its lower-case form
    find the same products, and the empty term finds them all. *)
Theorem search_case_insensitive (t : string) :
  filteredProducts (toLowerCase t) = filteredProducts t /\ filteredProducts "" = availableProducts.
Proof.
  split.
  - unfold filteredProducts, matches_search. by rewrite toLowerCase_idem.
  - reflexivity.
Qed.

End ProductForm.
