(* ===== verification/ProductSubmit.v ===== *)
(** * Submitting the product form

    [Module ProductSubmit] models [handleSubmit] of
    [src/app/admin/products/add/page.tsx] (lines 162-299), called with
    [isDraft = true] by the "Save as Draft" button (line 451) and
    [false] by "Save & Continue" (line 466), beside a back link and a
    "Cancel" button to the list ([header_action], lines 430-474):

    - the required-field check (lines 167-170), which alerts and sends
      nothing;
    - the category id, kept only when its trimmed text matches the GUID
      pattern of line 173 ([is_guid]);
    - the [productData] object literal (lines 184-240), field by field and
      in order, as a list of JSON values ([pval]); numbers come from
      [JsNumber.parseInt] and [JsNumber.parseFloat];
    - the handling of the response (lines 257-294): the alert shown and
      whether the router moves to [/admin/products].

    The previous version, [page_old_backup.tsx] (lines 156-220), is
    modelled alongside ([productData_old]) to compare what the two send. *)

From Stdlib Require Import String Ascii ZArith.
From stdpp Require Import base list gmap strings.
From S2P Require Import Prelude Json Cookie JsNumber Api ProductForm.

Open Scope string_scope.

Module ProductSubmit.

Import JsNumber Api ProductForm.

(** ** String helpers *)

Definition is_hex (c : ascii) : bool :=
  match digit_value 16 c with Some _ => true | None => false end.

(** Exactly [n] hex digits, and what follows them. *)
Fixpoint hex_run (n : nat) (s : string) : option string :=
  match n, s with
  | O, _ => Some s
  | S n', String c s' => if is_hex c then hex_run n' s' else None
  | S _, EmptyString => None
  end.

Fixpoint guid_groups (gs : list nat) (s : string) : bool :=
  match gs with
  | [] => false
  | [n] => match hex_run n s with Some EmptyString => true | _ => false end
  | n :: gs' =>
      match hex_run n s with
      | Some (String "-" r) => guid_groups gs' r
      | _ => false
      end
  end.

(** [/^[0-9a-f]{8}-[0-9a-f]{4}-[0-9a-f]{4}-[0-9a-f]{4}-[0-9a-f]{12}$/i.test(s)] *)
Definition is_guid (s : string) : bool := guid_groups [8; 4; 4; 4; 12] s.

(** [l.join(',')] *)
Definition join (sep : string) (l : list string) : string := String.concat sep l.

(** ** The payload *)

(** [s || null] *)
Definition str_or_null (s : string) : pval := if truthy s then PStr s else PNull.

(** [s ? parseFloat(s) : null] *)
Definition float_or_null (s : string) : pval := if truthy s then PNum (parseFloat s) else PNull.

(** [Array.isArray(l) && l.length > 0 ? l.join(',') : null] *)
Definition ids_or_null (l : list string) : pval :=
  match l with [] => PNull | _ => PStr (join "," l) end.

(** Lines 176-182. *)
Definition category_id (fd : FormData) : option string :=
  let c := get_str fd "categories" in
  if truthy c then
    let t := js_trim c in
    if negb (String.eqb t "") && is_guid t then Some t else None
  else None.

Definition productData (isDraft : bool) (fd : FormData) : payload :=
  let s := get_str fd in
  [("name", PStr (s "name"));
   ("description", PStr (s "fullDescription" ||s s "shortDescription" ||s s "name"
                          ||s "Product description")%ecom);
   ("shortDescription", PStr (s "shortDescription" ||s "")%ecom);
   ("sku", PStr (s "sku"));
   ("gtin", str_or_null (s "gtin"));
   ("manufacturerPartNumber", str_or_null (s "manufacturerPartNumber"));
   ("displayOrder", PNum (Dec (parseInt_or (s "displayOrder") 1) 0));
   ("adminComment", str_or_null (s "adminComment"));
   ("price", PNum (num_or (parseFloat (s "price")) (Dec 0 0)));
   ("oldPrice", float_or_null (s "oldPrice"));
   ("compareAtPrice", float_or_null (s "oldPrice"));
   ("costPrice", float_or_null (s "cost"));
   ("weight", PNum (num_or (parseFloat (s "weight")) (Dec 0 0)));
   ("length", float_or_null (s "length"));
   ("width", float_or_null (s "width"));
   ("height", float_or_null (s "height"));
   ("requiresShipping", PBool true);
   ("stockQuantity", PNum (Dec (parseInt_or (s "stockQuantity") 0) 0));
   ("trackQuantity", PBool true);
   ("categoryId", match category_id fd with Some t => PStr t | None => PNull end);
   ("availableStartDate", str_or_null (s "availableStartDate"));
   ("availableEndDate", str_or_null (s "availableEndDate"));
   ("isPublished", PBool (if isDraft then false else get_bool fd "published"));
   ("status", PNum (Dec (if isDraft then 1 else 2) 0));
   ("visibleIndividually", PBool (get_bool fd "visibleIndividually"));
   ("showOnHomepage", PBool (get_bool fd "showOnHomepage" || false));
   ("metaTitle", str_or_null (s "metaTitle"));
   ("metaDescription", str_or_null (s "metaDescription"));
   ("metaKeywords", str_or_null (s "metaKeywords"));
   ("brandId", PNull);
   ("manufacturerId", PNull);
   ("manufacturer", str_or_null (s "manufacturer"));
   ("vendor", str_or_null (s "manufacturer"));
   ("tags", str_or_null (s "productTags"));
   ("relatedProductIds", ids_or_null (relatedProducts fd));
   ("crossSellProductIds", ids_or_null (crossSellProducts fd))].



Inductive SubmitResult :=
| SAlert (msg : string)          (** an alert, and no request *)
| SPost (body : payload).        (** [POST /api/Products] with this body *)

Definition required_alert : string := "Please fill in required fields: Product Name and SKU".

Definition handleSubmit (isDraft : bool) (fd : FormData) : SubmitResult :=
  if negb (truthy (get_str fd "name")) || negb (truthy (get_str fd "sku"))
  then SAlert required_alert
  else SPost (productData isDraft fd).

(** ** The response *)

Inductive ProductResponse :=
| ROk                                                  (** [response.ok] *)
| RValidation (errors : list (string * list string))   (** a JSON body with [errors] *)
| RMessage (message title : Json.jval)                 (** a JSON body without [errors] *)
| RText (text : string) (status : nat)                 (** a body that is not JSON *)
| RNetwork.                                            (** [fetch] rejects *)

(** [s.replace(a, b)] with a one-character pattern: the first occurrence. *)
Fixpoint replace_first (a : ascii) (b : string) (s : string) : string :=
  match s with
  | String c s' => if Ascii.eqb c a then b +:+ s' else String c (replace_first a b s')
  | EmptyString => EmptyString
  end.

Definition field_name (f : string) : string := replace_first "." " " (replace_first "$" "" f).

Definition newline : string := String (ascii_of_nat 10) "".

Definition validation_message (errors : list (string * list string)) : string :=
  fold_left (fun acc kv => acc +:+ newline +:+ field_name kv.1 +:+ ": " +:+ join ", " kv.2)
    errors ("Validation errors:" +:+ newline).

(** The alert shown, and whether the router moves to the products list. *)
Definition after_post (isDraft : bool) (r : ProductResponse) : string * bool :=
  match r with
  | ROk => (if isDraft then "Product saved as draft!" else "Product created successfully!", true)
  | RValidation errs => (validation_message errs, false)
  | RMessage m t =>
      ("Error creating product: " +:+
         (Json.jval_or_empty m ||s (Json.jval_or_empty t ||s "Unknown error")), false)%ecom
  | RText text status =>
      ("Error creating product: " +:+ (text ||s ("Status: " +:+ nat_to_string status)), false)%ecom
  | RNetwork => ("Error submitting form. Please check console for details.", false)
  end.

(** ** The page header (lines 430-474)

    A back link and a "Cancel" button ([router.push('/admin/products')])
    lead to the list; "Save as Draft" and "Save & Continue" call
    [handleSubmit] with [isDraft] [true] and [false]. *)
Definition list_href : string := "/admin/products".

Inductive HeaderButton := HBack | HDraft | HCancel | HSave.

Inductive HeaderAction := HNavigate (path : string) | HSubmit (r : SubmitResult).

Definition header_action (b : HeaderButton) (fd : FormData) : HeaderAction :=
  match b with
  | HBack | HCancel => HNavigate list_href
  | HDraft => HSubmit (handleSubmit true fd)
  | HSave => HSubmit (handleSubmit false fd)
  end.

(** ** The previous version *)

(** [parseFloat(s) || null] *)
Definition float_or_null_old (s : string) : pval :=
  let x := parseFloat s in if num_truthy x then PNum x else PNull.

Definition productData_old (fd : FormData) (attrs : list Attribute) : payload :=
  let s := get_str fd in
  [("name", PStr (s "name"));
   ("description", PStr (s "fullDescription" ||s s "shortDescription")%ecom);
   ("shortDescription", PStr (s "shortDescription"));
   ("price", PNum (num_or (parseFloat (s "price")) (Dec 0 0)));
   ("sku", PStr (s "sku"));
   ("stockQuantity", PNum (Dec (parseInt_or (s "stockQuantity") 0) 0));
   ("categoryId", str_or_null (s "categories"));
   ("images", PArr []);
   ("isPublished", PBool (get_bool fd "published"));
   ("isFeatured", PBool (get_bool fd "showOnHomepage"));
   ("oldPrice", float_or_null_old (s "oldPrice"));
   ("cost", float_or_null_old (s "cost"));
   ("weight", float_or_null_old (s "weight"));
   ("length", float_or_null_old (s "length"));
   ("width", float_or_null_old (s "width"));
   ("height", float_or_null_old (s "height"));
   ("manufacturer", PStr (s "manufacturer"));
   ("tags", PStr (s "productTags"));
   ("metaTitle", PStr (s "metaTitle"));
   ("metaDescription", PStr (s "metaDescription"));
   ("metaKeywords", PStr (s "metaKeywords"));
   ("relatedProductIds", PArr (PStr <$> relatedProducts fd));
   ("crossSellProductIds", PArr (PStr <$> crossSellProducts fd));
   ("attributes", PArr ((fun a => PObj [("name", PStr (attr_name a));
                                       ("values", PArr (PStr <$> filter (fun v => truthy v = true)
                                                                    (attr_values a)))]) <$> attrs))].

(** ** Properties *)

(** Keys that the form events cannot change the payload of: the payload
    reads the scalar fields and the two product lists only. *)
Definition touches_payload (e : FormEvent) : bool :=
  match e with
  | EChange _ _ _ _ | EAddRelated _ | ERemoveRelated _ | EAddCross _ | ERemoveCross _ => true
  | _ => false
  end.

Lemma productData_ext (b : bool) (fd fd' : FormData) :
  fields fd' = fields fd -> relatedProducts fd' = relatedProducts fd ->
  crossSellProducts fd' = crossSellProducts fd -> productData b fd' = productData b fd.
Proof. destruct fd, fd'; simpl; intros -> -> ->. reflexivity. Qed.

Lemma field_agree (p q : payload) (ks : list string) (k : string) :
  Forall2 (fun a b => a.1 = b.1 /\ (a.1 ∉ ks -> a.2 = b.2)) p q -> k ∉ ks -> field p k = field q k.
Proof.
  intros H Hk. unfold field.
  induction H as [|[x v] [y w] p q [Hxy Hv] _ IH]; simpl in *; [done|]. subst y.
  destruct (String.eqb_spec x k) as [->|]; [by rewrite Hv | done].
Qed.

Lemma is_guid_empty : is_guid "" = false.
Proof. reflexivity. Qed.

Lemma category_id_spec (fd : FormData) (t : string) :
  category_id fd = Some t <-> is_guid t = true /\ t = js_trim (get_str fd "categories").
Proof.
  unfold category_id. split.
  - destruct (truthy _) eqn:Hc; [|done].
    destruct (negb _ && is_guid _) eqn:Hg; [|done]. intros [= <-].
    by apply andb_true_iff in Hg as [_ Hg].
  - intros [Hg ->]. destruct (truthy (get_str fd "categories")) eqn:Hc.
    + rewrite Hg. destruct (String.eqb_spec (js_trim (get_str fd "categories")) "") as [E|E].
      * by rewrite E, is_guid_empty in Hg.
      * done.
    + apply truthy_false in Hc. rewrite Hc in Hg. by vm_compute in Hg.
Qed.

Lemma split_all_no (c : ascii) (a : string) : Cookie.has_char c a = false -> Cookie.split_all c a = [a].
Proof.
  induction a as [|d a IH]; simpl; [done|].
  intros [Hd Ha]%orb_false_iff. by rewrite Hd, IH.
Qed.

Lemma split_all_app (c : ascii) (a b : string) :
  Cookie.has_char c a = false -> Cookie.split_all c (a +:+ String c b) = a :: Cookie.split_all c b.
Proof.
  induction a as [|d a IH]; intros Ha.
  - rewrite string_app_nil_l. simpl. by rewrite Ascii.eqb_refl.
  - rewrite string_app_cons. simpl in *. apply orb_false_iff in Ha as [Hd Ha].
    by rewrite Hd, IH.
Qed.

Lemma split_all_join (c : ascii) (l : list string) :
  l <> [] -> Forall (fun x => Cookie.has_char c x = false) l ->
  Cookie.split_all c (join (String c "") l) = l.
Proof.
  unfold join. induction l as [|x [|y l] IH]; intros Hne Hl; [done| |].
  - inversion Hl; subst. simpl. by apply split_all_no.
  - inversion Hl as [|? ? Hx Hl']; subst.
    change (String.concat (String c "") (x :: y :: l))
      with (x +:+ (String c "" +:+ String.concat (String c "") (y :: l))).
    rewrite string_app_cons, string_app_nil_l, split_all_app by done.
    by rewrite IH.
Qed.

Lemma parseInt_or_nonzero (s : string) (d : Z) : d <> 0%Z -> parseInt_or s d <> 0%Z.
Proof. unfold parseInt_or. destruct (parseInt s) as [v|]; [|done]. by destruct (Z.eqb_spec v 0). Qed.

(** C11: "Save" and "Save as Draft" send nothing and show the alert when the
    product name or the SKU is empty, and otherwise post [productData]. *)
Theorem submit_guard (b : bool) (fd : FormData) :
  (handleSubmit b fd = SAlert required_alert /\ (get_str fd "name" = "" \/ get_str fd "sku" = ""))
  \/ (handleSubmit b fd = SPost (productData b fd) /\ get_str fd "name" <> "" /\ get_str fd "sku" <> "").
Proof.
  unfold handleSubmit.
  pose proof (truthy_true (get_str fd "name")). pose proof (truthy_false (get_str fd "name")).
  pose proof (truthy_true (get_str fd "sku")). pose proof (truthy_false (get_str fd "sku")).
  destruct (truthy (get_str fd "name")), (truthy (get_str fd "sku")); simpl;
    [right | left..]; intuition congruence.
Qed.

(** C12: the request carries a category id only when the trimmed category
    text is a GUID, and then that trimmed text. *)
Theorem category_sent_is_guid (b : bool) (fd : FormData) (t : string) :
  field (productData b fd) "categoryId" = Some (PStr t) <->
  is_guid t = true /\ t = js_trim (get_str fd "categories").
Proof.
  rewrite <- category_id_spec.
  change (field (productData b fd) "categoryId")
    with (Some (match category_id fd with Some t => PStr t | None => PNull end)).
  destruct (category_id fd); split; congruence.
Qed.

(** A draft is sent unpublished with status 1, "Save Product" sends the
    [published] checkbox with status 2, and the two requests agree on every
    other key. *)
Theorem draft_payload (fd : FormData) :
  field (productData true fd) "isPublished" = Some (PBool false) /\
  field (productData true fd) "status" = Some (PNum (Dec 1 0)) /\
  field (productData false fd) "isPublished" = Some (PBool (get_bool fd "published")) /\
  field (productData false fd) "status" = Some (PNum (Dec 2 0)) /\
  forall k, k ∉ ["isPublished"; "status"] -> field (productData true fd) k = field (productData false fd) k.
Proof.
  split_and!; [reflexivity.. |]. intros k. apply field_agree. unfold productData.
  repeat (apply List.Forall2_cons; [split; [reflexivity | intros H] |]); [..|apply List.Forall2_nil].
  all: first [reflexivity | exfalso; apply H; set_solver].
Qed.

(** Attributes, images, videos and specifications never reach the
    request: every form event other than a field change or a change of the
    related or cross-sell lists leaves the payload as it was. *)
Theorem media_not_submitted (b : bool) (st : PageState) (e : FormEvent) :
  touches_payload e = false ->
  productData b (formData (form_step st e)) = productData b (formData st).
Proof.
  intros H. apply productData_ext; destruct e; try discriminate H.
  all: try reflexivity. all: cbn [form_step]; unfold handleImageUpload; case_match; reflexivity.
Qed.

Lemma media_not_submitted_witness :
  touches_payload EAddVideo = false /\
  productData false (formData (form_step initial_page EAddVideo)) = productData false (formData initial_page).
Proof. split; [reflexivity | apply (media_not_submitted false initial_page EAddVideo); reflexivity]. Defined.

(** The comma-joined related-product ids split back into the list
    selected, when no id contains a comma (the catalogue's ids do not). *)
Theorem related_ids_roundtrip (b : bool) (fd : FormData) (s : string) :
  Forall (fun x => Cookie.has_char "," x = false) (relatedProducts fd) ->
  field (productData b fd) "relatedProductIds" = Some (PStr s) ->
  Cookie.split_all "," s = relatedProducts fd.
Proof.
  intros Hl. change (field (productData b fd) "relatedProductIds")
    with (Some (ids_or_null (relatedProducts fd))).
  unfold ids_or_null. destruct (relatedProducts fd) as [|x l] eqn:E; [done|].
  intros Hs. assert (s = join "," (x :: l)) as -> by congruence. by apply split_all_join.
Qed.

Lemma related_ids_roundtrip_witness :
  Forall (fun x => Cookie.has_char "," x = false) (relatedProducts (set_related ["1"; "3"] initial_form)) /\
  field (productData false (set_related ["1"; "3"] initial_form)) "relatedProductIds" = Some (PStr "1,3") /\
  Cookie.split_all "," "1,3" = ["1"; "3"].
Proof.
  split_and!; [repeat constructor | reflexivity |].
  apply (related_ids_roundtrip false (set_related ["1"; "3"] initial_form) "1,3");
    [repeat constructor | reflexivity].
Defined.

(** The display order sent is never 0: an empty, non-numeric or zero
    entry becomes 1. *)
Theorem display_order_nonzero (b : bool) (fd : FormData) :
  exists z, field (productData b fd) "displayOrder" = Some (PNum (Dec z 0)) /\ z <> 0%Z.
Proof. eexists. split; [reflexivity | by apply parseInt_or_nonzero]. Qed.

(** The page moves to the product list exactly when the API accepted
    the product; every failure leaves the form, with its data, on screen. *)
Theorem navigates_iff_ok (b : bool) (r : ProductResponse) :
  (after_post b r).2 = true <-> r = ROk.
Proof. destruct r; simpl; split; congruence. Qed.

(** *** The body on the wire *)







(** An infinite price text ("Infinity", "1e999") passes [parseFloat(...) || 0]
    and is sent as [null]. *)
Lemma infinite_price_sent_null (b : bool) (fd : FormData) :
  parseFloat (get_str fd "price") = PosInf ->
  option_map to_json (field (productData b fd) "price") = Some PNull.
Proof. intros H. cbn -[get_str parseFloat]. rewrite H. reflexivity. Qed.

(** "Save as Draft" checks the form as "Save & Continue" does: a draft
    without a name or a SKU is refused with the same alert, and each
    button posts exactly when the other would. *)
Lemma draft_checks_like_save (fd : FormData) :
  (header_action HDraft fd = HSubmit (SAlert required_alert) <->
   header_action HSave fd = HSubmit (SAlert required_alert)) /\
  ((exists body, header_action HDraft fd = HSubmit (SPost body)) <->
   (exists body, header_action HSave fd = HSubmit (SPost body))).
Proof.
  unfold header_action, handleSubmit.
  destruct (negb (truthy (get_str fd "name")) || negb (truthy (get_str fd "sku"))).
  - split; [tauto | split; intros [b H]; discriminate].
  - split; [split; discriminate | split; intros _; by eexists].
Qed.

End ProductSubmit.
