(* ===== verification/ProductInputs.v ===== *)
(** * The inputs of the product-creation form

    The JSX of [src/app/admin/products/add/page.tsx] (lines 481-1740)
    renders, in ten tabs of a [Tabs] component whose first tab is
    [product-info] ([defaultValue], line 481), the controlled inputs
    of [formData]: each has a [name], shows [formData.<field>] through
    [value] or [checked], and calls [handleChange] on a change.  Some
    groups are rendered only while a field allows it
    ([{formData.markAsNew && (...)}], [{formData.manageInventory ===
    'track' && (...)}], ...).  The related-product, attribute, picture,
    video and specification tabs hold the controls of
    [ProductForm.FormEvent] and no [handleChange] input.

    [Module ProductInputs] holds the table of these inputs, tab by tab
    and, within a tab, one definition per commented JSX section
    ([basic_info_inputs], [publishing_inputs], ..., [cart_settings_inputs]),
    with their conditions and the options of their [select]s, the change
    an input sends ([input_event]), and the page with its active tab as a step
    function whose input changes come only from rendered inputs.  The
    theorems: every input shows the value it writes ([input_roundtrip]),
    the form keeps the kind of each member of its literal in every
    reachable state ([fields_keep_kind]), every run of this page is a run
    of [ProductForm]'s model ([page_reachable_form]), no option of the
    category select passes the GUID check of [handleSubmit], so no
    reachable form sends a category ([categoryId_always_null]), and the
    33 inputs whose member [productData] does not read leave the body
    unchanged ([unsent_inputs_ignored]). *)

From Stdlib Require Import String ZArith.
From stdpp Require Import base list gmap strings.
From S2P Require Import Prelude JsNumber Api ProductForm ProductSubmit.

Open Scope string_scope.

Module ProductInputs.

Import JsNumber Api ProductForm ProductSubmit.

(** ** The inputs *)

(** An element that calls [handleChange], by what it is: its
    [e.target.type] follows. *)
Inductive Control :=
| CText | CNumber | CDateTime | CTextArea | CCheckbox
| CSelect (options : list string).

#[export] Instance Control_eq_dec : EqDecision Control.
Proof. solve_decision. Defined.

(** [<input name=... value={formData.field} onChange={handleChange} />],
    or [checked={formData.field}] for a checkbox. *)
Record Input := mkInput { in_name : string; in_field : string; in_control : Control }.

#[export] Instance Input_eq_dec : EqDecision Input.
Proof. solve_decision. Defined.

Definition target_type (c : Control) : string :=
  match c with
  | CText => "text" | CNumber => "number" | CDateTime => "datetime-local"
  | CTextArea => "textarea" | CCheckbox => "checkbox" | CSelect _ => "select-one"
  end.

(** [inp c n f]: the element [c] with [name="n"] that shows [formData.f]. *)
Definition inp (c : Control) (n f : string) : Input := mkInput n f c.

(** [{cond && (...)}]: the group is rendered when [cond] is truthy. *)
Definition shown_if {A} (cond : bool) (l : list A) : list A := if cond then l else [].

Definition category_options : list string :=
  [""; "electronics"; "fashion"; "sports"; "home"; "books"; "toys"].

(** The sections of the [product-info] tab. *)
Definition basic_info_inputs : list Input := [
  inp CText "name" "name"; inp CTextArea "shortDescription" "shortDescription";
  inp CTextArea "fullDescription" "fullDescription";
  inp CText "sku" "sku"; inp (CSelect category_options) "categories" "categories";
  inp CText "manufacturer" "manufacturer";
  inp (CSelect ["simple"; "grouped"]) "productType" "productType";
  inp CText "gtin" "gtin"; inp CText "manufacturerPartNumber" "manufacturerPartNumber";
  inp CNumber "displayOrder" "displayOrder";
  inp CText "productTags" "productTags"].

Definition publishing_inputs : list Input := [
  inp CCheckbox "published" "published"; inp CCheckbox "visibleIndividually" "visibleIndividually";
  inp CCheckbox "showOnHomepage" "showOnHomepage";
  inp CDateTime "availableStartDate" "availableStartDate";
  inp CDateTime "availableEndDate" "availableEndDate"].

Definition admin_comment_inputs : list Input := [inp CTextArea "adminComment" "adminComment"].

Definition product_info_inputs : list Input :=
  basic_info_inputs ++ publishing_inputs ++ admin_comment_inputs.

Definition customer_price_inputs : list Input :=
  [inp CNumber "minimumCustomerEnteredPrice" "minimumCustomerEnteredPrice";
   inp CNumber "maximumCustomerEnteredPrice" "maximumCustomerEnteredPrice"].
Definition pre_order_inputs : list Input :=
  [inp CDateTime "preOrderAvailabilityStartDate" "preOrderAvailabilityStartDate"].
Definition mark_as_new_inputs : list Input :=
  [inp CDateTime "markAsNewStartDate" "markAsNewStartDate";
   inp CDateTime "markAsNewEndDate" "markAsNewEndDate"].

(** The sections of the [prices] tab. *)
Definition price_section (fd : FormData) : list Input :=
  [inp CNumber "price" "price"; inp CNumber "oldPrice" "oldPrice"; inp CNumber "cost" "cost";
   inp CCheckbox "disableBuyButton" "disableBuyButton";
   inp CCheckbox "disableWishlistButton" "disableWishlistButton";
   inp CCheckbox "callForPrice" "callForPrice";
   inp CCheckbox "customerEntersPrice" "customerEntersPrice"] ++
  shown_if (get_bool fd "customerEntersPrice") customer_price_inputs.

Definition pre_order_section (fd : FormData) : list Input :=
  [inp CCheckbox "availableForPreOrder" "availableForPreOrder"] ++
  shown_if (get_bool fd "availableForPreOrder") pre_order_inputs.

Definition mark_as_new_section (fd : FormData) : list Input :=
  [inp CCheckbox "markAsNew" "markAsNew"] ++
  shown_if (get_bool fd "markAsNew") mark_as_new_inputs.

Definition tax_section : list Input :=
  [inp CCheckbox "taxExempt" "taxExempt";
   inp (CSelect [""; "1"; "2"; "3"; "4"]) "taxCategoryId" "taxCategoryId"].

Definition prices_inputs (fd : FormData) : list Input :=
  price_section fd ++ pre_order_section fd ++ mark_as_new_section fd ++ tax_section.

Definition stock_inputs : list Input := [
  inp CNumber "stockQuantity" "stockQuantity"; inp CNumber "minStockQuantity" "minStockQuantity";
  inp (CSelect ["nothing"; "disable-buy"; "unpublish"]) "lowStockActivity" "lowStockActivity";
  inp CNumber "notifyAdminForQuantityBelow" "notifyAdminForQuantityBelow";
  inp (CSelect ["no-backorders"; "allow-qty-below-zero"; "allow-qty-below-zero-and-notify"]) "backorders" "backorders";
  inp CCheckbox "displayStockAvailability" "displayStockAvailability";
  inp CCheckbox "displayStockQuantity" "displayStockQuantity";
  inp CCheckbox "allowBackInStockSubscriptions" "allowBackInStockSubscriptions";
  inp (CSelect [""; "1-2-days"; "3-5-days"; "1-week"; "2-weeks"]) "productAvailabilityRange" "productAvailabilityRange"].

(** The sections of the [inventory] tab. *)
Definition inventory_method_inputs : list Input :=
  [inp (CSelect ["dont-track"; "track"; "track-by-attributes"]) "manageInventory" "manageInventory"].

Definition cart_settings_inputs : list Input :=
  [inp CNumber "minCartQuantity" "minCartQuantity"; inp CNumber "maxCartQuantity" "maxCartQuantity";
   inp CText "allowedQuantities" "allowedQuantities";
   inp CCheckbox "notReturnable" "notReturnable"].

Definition inventory_inputs (fd : FormData) : list Input :=
  inventory_method_inputs ++
  shown_if (String.eqb (get_str fd "manageInventory") "track") stock_inputs ++
  cart_settings_inputs.

Definition ship_options_inputs : list Input := [
  inp CCheckbox "isFreeShipping" "isFreeShipping"; inp CCheckbox "shipSeparately" "shipSeparately";
  inp CNumber "additionalShippingCharge" "additionalShippingCharge";
  inp (CSelect [""; "1"; "2"; "3"; "4"]) "deliveryDateId" "deliveryDateId"].
Definition dimension_inputs : list Input :=
  [inp CNumber "weight" "weight"; inp CNumber "length" "length"; inp CNumber "width" "width";
  inp CNumber "height" "height"].

Definition shipping_inputs (fd : FormData) : list Input :=
  [inp CCheckbox "isShipEnabled" "isShipEnabled"] ++
  shown_if (get_bool fd "isShipEnabled") ship_options_inputs ++
  shown_if (get_bool fd "isShipEnabled") dimension_inputs.

Definition seo_inputs : list Input := [
  inp CText "metaTitle" "metaTitle"; inp CTextArea "metaDescription" "metaDescription";
  inp CText "metaKeywords" "metaKeywords";
  inp CText "searchEngineFriendlyPageName" "searchEngineFriendlyPageName"].

(** The tabs, in the order of their triggers (lines 484-523). *)
Inductive Tab :=
| ProductInfo | Prices | Inventory | Shipping | RelatedProducts
| AttributesTab | Seo | Pictures | Videos | Specifications.

#[export] Instance Tab_eq_dec : EqDecision Tab.
Proof. solve_decision. Defined.

Definition tabs : list Tab :=
  [ProductInfo; Prices; Inventory; Shipping; RelatedProducts; AttributesTab; Seo;
   Pictures; Videos; Specifications].

(** The [handleChange] inputs of the mounted [TabsContent]. *)
Definition inputs (t : Tab) (fd : FormData) : list Input :=
  match t with
  | ProductInfo => product_info_inputs
  | Prices => prices_inputs fd
  | Inventory => inventory_inputs fd
  | Shipping => shipping_inputs fd
  | Seo => seo_inputs
  | RelatedProducts | AttributesTab | Pictures | Videos | Specifications => []
  end.

(** Every input the page can render: those of the first render, and the
    groups that render hides. *)
Definition all_inputs : list Input :=
  product_info_inputs ++ prices_inputs initial_form ++
  customer_price_inputs ++ pre_order_inputs ++ mark_as_new_inputs ++
  inventory_inputs initial_form ++ shipping_inputs initial_form ++ seo_inputs.

(** ** The page with its active tab *)

(** What an input shows: [checked] for a checkbox, [value] otherwise. *)
Definition display (fd : FormData) (i : Input) : FieldVal :=
  match in_control i with
  | CCheckbox => FBool (get_bool fd (in_field i))
  | _ => FStr (get_str fd (in_field i))
  end.

(** The change event of input [i] when the user enters [value]: a click
    on a checkbox delivers the negation of what it shows as [checked]. *)
Definition input_event (fd : FormData) (i : Input) (value : string) : FormEvent :=
  EChange (in_name i) value (target_type (in_control i))
    (match in_control i with CCheckbox => negb (get_bool fd (in_field i)) | _ => false end).

(** A select only delivers one of its options. *)
Definition allowed (i : Input) (value : string) : Prop :=
  match in_control i with CSelect os => value ∈ os | _ => True end.

Record View := mkView { page : PageState; active : Tab }.

Definition initial_view : View := mkView initial_page ProductInfo.

Inductive PageEvent :=
| ETab (t : Tab)                      (** a [TabsTrigger] *)
| EInput (i : Input) (value : string) (** a [handleChange] input *)
| EOther (e : FormEvent).             (** the other controls *)

Definition is_change (e : FormEvent) : bool :=
  match e with EChange _ _ _ _ => true | _ => false end.

Definition page_step (v : View) (e : PageEvent) : View :=
  match e with
  | ETab t => mkView (page v) t
  | EInput i x => mkView (form_step (page v) (input_event (formData (page v)) i x)) (active v)
  | EOther e => mkView (form_step (page v) e) (active v)
  end.

(** An input changes only while its tab is mounted and its group
    rendered; the other controls are those of [ProductForm]. *)
Definition page_enabled (v : View) (e : PageEvent) : Prop :=
  match e with
  | ETab _ => True
  | EInput i x => i ∈ inputs (active v) (formData (page v)) /\ allowed i x
  | EOther e => is_change e = false /\ form_enabled (page v) e
  end.

Inductive page_reachable : View -> Prop :=
| page_init : page_reachable initial_view
| page_next v e : page_reachable v -> page_enabled v e -> page_reachable (page_step v e).

(** The kind of a member: a checkbox holds a boolean, the others text. *)
Inductive Kind := KText | KBool.

#[export] Instance Kind_eq_dec : EqDecision Kind.
Proof. solve_decision. Defined.

Definition kind (v : FieldVal) : Kind := match v with FStr _ => KText | FBool _ => KBool end.

Definition control_kind (c : Control) : Kind :=
  match c with CCheckbox => KBool | _ => KText end.

(** The members of [formData] that [productData] reads (lines 184-240). *)
Definition productData_reads : list string := [
  "name"; "fullDescription"; "shortDescription"; "sku"; "gtin"; "manufacturerPartNumber";
  "displayOrder"; "adminComment"; "price"; "oldPrice"; "cost"; "weight"; "length";
  "width"; "height"; "stockQuantity"; "categories"; "availableStartDate";
  "availableEndDate"; "published"; "visibleIndividually"; "showOnHomepage";
  "metaTitle"; "metaDescription"; "metaKeywords"; "manufacturer"; "productTags"].

(** The inputs whose edits never reach the request body. *)
Definition unsent_inputs : list Input :=
  filter (fun i => in_field i ∉ productData_reads) all_inputs.

(** ** Lemmas *)


Lemma inputs_all (t : Tab) (fd : FormData) : inputs t fd ⊆ all_inputs.
Proof.
  destruct t; cbn [inputs]; unfold prices_inputs, price_section, pre_order_section, mark_as_new_section,
      inventory_inputs, shipping_inputs, shown_if;
    repeat case_match; by_eval.
Qed.

Lemma all_inputs_named : Forall (fun i => in_name i = in_field i) all_inputs.
Proof. by_eval. Qed.

Lemma all_inputs_kind :
  Forall (fun i => kind <$> fields initial_form !! in_field i = Some (control_kind (in_control i)))
    all_inputs.
Proof. by_eval. Qed.

Lemma all_inputs_categories :
  Forall (fun i => in_name i = "categories" -> in_control i = CSelect category_options) all_inputs.
Proof. by_eval. Qed.

Lemma input_named (t : Tab) (fd : FormData) (i : Input) :
  i ∈ inputs t fd -> in_name i = in_field i.
Proof. intros Hi. pose proof all_inputs_named as H. rewrite Forall_forall in H. by apply H, (inputs_all t fd). Qed.

(** What [handleChange] leaves in a member, read as text and as a flag. *)
Lemma get_str_change (k n x ty : string) (c : bool) (fd : FormData) :
  get_str (handleChange n x ty c fd) k =
  if decide (k = n) then (if String.eqb ty "checkbox" then "" else x) else get_str fd k.
Proof.
  unfold get_str, handleChange; cbn [fields]. rewrite lookup_insert.
  destruct (decide (n = k)), (decide (k = n)); subst; try congruence.
  by destruct (String.eqb ty "checkbox").
Qed.

Lemma get_bool_change (k n x ty : string) (c : bool) (fd : FormData) :
  get_bool (handleChange n x ty c fd) k =
  if decide (k = n) then (if String.eqb ty "checkbox" then c else truthy x) else get_bool fd k.
Proof.
  unfold get_bool, handleChange; cbn [fields]. rewrite lookup_insert.
  destruct (decide (n = k)), (decide (k = n)); subst; try congruence.
  by destruct (String.eqb ty "checkbox").
Qed.

Lemma form_step_fields (st : PageState) (e : FormEvent) :
  is_change e = false -> fields (formData (form_step st e)) = fields (formData st).
Proof. destruct e; intros H; try discriminate; simpl; try (unfold handleImageUpload; case_match); reflexivity. Qed.

Lemma input_event_data (st : PageState) (i : Input) (x : string) :
  formData (form_step st (input_event (formData st) i x)) =
  handleChange (in_name i) x (target_type (in_control i))
    (match in_control i with CCheckbox => negb (get_bool (formData st) (in_field i)) | _ => false end)
    (formData st).
Proof. reflexivity. Qed.

Lemma input_in_all (t : Tab) (fd : FormData) (i : Input) : i ∈ inputs t fd -> i ∈ all_inputs.
Proof. apply inputs_all. Qed.

Lemma input_keeps_kinds (t : Tab) (st : PageState) (i : Input) (x : string) :
  i ∈ inputs t (formData st) ->
  kind <$> fields (formData st) = kind <$> fields initial_form ->
  kind <$> fields (formData (form_step st (input_event (formData st) i x))) =
  kind <$> fields initial_form.
Proof.
  intros Hi Hk. rewrite input_event_data. cbn [handleChange fields].
  rewrite fmap_insert, <- Hk. apply insert_id.
  rewrite Hk, lookup_fmap, (input_named t _ i Hi).
  pose proof all_inputs_kind as H. rewrite Forall_forall in H.
  rewrite (H i (input_in_all t _ i Hi)). by destruct (in_control i).
Qed.

(** No option of the category select is a GUID. *)
Lemma category_options_no_id (fd : FormData) :
  get_str fd "categories" ∈ category_options -> category_id fd = None.
Proof.
  unfold category_id, category_options. intros H.
  repeat (rewrite elem_of_cons in H; destruct H as [H|H]; [rewrite H; reflexivity |]).
  by apply elem_of_nil in H.
Qed.

Lemma categories_offered (v : View) :
  page_reachable v -> get_str (formData (page v)) "categories" ∈ category_options.
Proof.
  induction 1 as [|v e Hr IH He]; [by_eval |].
  destruct e as [t | i x | e]; cbn [page_step page active page_enabled] in *.
  - exact IH.
  - destruct He as [Hi Hx]. rewrite input_event_data, get_str_change.
    destruct (decide ("categories" = in_name i)) as [Hn|Hn]; [|exact IH].
    pose proof all_inputs_categories as H. rewrite Forall_forall in H.
    specialize (H i (input_in_all _ _ i Hi) (eq_sym Hn)).
    unfold allowed in Hx. rewrite H in Hx |- *. exact Hx.
  - destruct He as [Hc _]. unfold get_str. by rewrite form_step_fields.
Qed.

Lemma productData_change_other (b : bool) (n x ty : string) (c : bool) (fd : FormData) :
  n ∉ productData_reads -> productData b (handleChange n x ty c fd) = productData b fd.
Proof.
  intros Hn. unfold productData, category_id. cbv beta zeta.
  rewrite !get_str_change, !get_bool_change, !decide_False by (intros E; subst n; apply Hn; by_eval).
  reflexivity.
Qed.

(** The inputs the body ignores, by name. *)
Lemma unsent_input_names :
  in_name <$> unsent_inputs =
  ["productType"; "disableBuyButton"; "disableWishlistButton"; "callForPrice";
   "customerEntersPrice"; "availableForPreOrder"; "markAsNew"; "taxExempt"; "taxCategoryId";
   "minimumCustomerEnteredPrice"; "maximumCustomerEnteredPrice";
   "preOrderAvailabilityStartDate"; "markAsNewStartDate"; "markAsNewEndDate";
   "manageInventory"; "minStockQuantity"; "lowStockActivity"; "notifyAdminForQuantityBelow";
   "backorders"; "displayStockAvailability"; "displayStockQuantity";
   "allowBackInStockSubscriptions"; "productAvailabilityRange"; "minCartQuantity";
   "maxCartQuantity"; "allowedQuantities"; "notReturnable"; "isShipEnabled";
   "isFreeShipping"; "shipSeparately"; "additionalShippingCharge"; "deliveryDateId";
   "searchEngineFriendlyPageName"].
Proof. vm_compute. reflexivity. Qed.

(** A run of the page: the prices tab, then "Mark as new" ticked. *)
Definition mark_as_new : Input := inp CCheckbox "markAsNew" "markAsNew".

Definition demo_view : View :=
  page_step (page_step initial_view (ETab Prices)) (EInput mark_as_new "on").

Lemma demo_reachable : page_reachable demo_view.
Proof.
  apply page_next; [apply page_next; [constructor | exact I] |].
  split; [by_eval | exact I].
Qed.

(** ** Theorems *)

(** C17: every input of the form shows what its change wrote: after the
    user enters [x] in a text, number, date, textarea or select input,
    the input shows [x]; a click on a checkbox shows the negation of what
    it showed.  The [name] of each input is the member it displays. *)
Theorem input_roundtrip (t : Tab) (st : PageState) (i : Input) (x : string) :
  i ∈ inputs t (formData st) ->
  display (formData (form_step st (input_event (formData st) i x))) i =
  match in_control i with
  | CCheckbox => FBool (negb (get_bool (formData st) (in_field i)))
  | _ => FStr x
  end.
Proof.
  intros Hi. rewrite input_event_data. unfold display.
  rewrite (input_named t (formData st) i Hi), get_str_change, get_bool_change, !decide_True by done.
  by destruct (in_control i).
Qed.

Lemma input_roundtrip_witness :
  mark_as_new ∈ inputs Prices (formData initial_page) /\
  display (formData (form_step initial_page (input_event (formData initial_page) mark_as_new "on")))
    mark_as_new = FBool true.
Proof. split; [by_eval | apply (input_roundtrip Prices initial_page mark_as_new "on"); by_eval]. Defined.

(** C15: in every state the page reaches, [formData] has the members of its
    literal and no other, each of the kind it started with: a checkbox
    member stays a flag and every other member stays text. *)
Theorem fields_keep_kind (v : View) :
  page_reachable v -> kind <$> fields (formData (page v)) = kind <$> fields initial_form.
Proof.
  induction 1 as [|v e Hr IH He]; [done |].
  destruct e as [t | i x | e]; cbn [page_step page active page_enabled] in *.
  - exact IH.
  - destruct He as [Hi _]. by apply (input_keeps_kinds (active v)).
  - destruct He as [Hc _]. by rewrite form_step_fields.
Qed.

Lemma fields_keep_kind_witness :
  page_reachable demo_view /\
  kind <$> fields (formData (page demo_view)) = kind <$> fields initial_form.
Proof. split; [apply demo_reachable | apply fields_keep_kind, demo_reachable]. Defined.



(** C14: no product the page creates has a category: the category select
    offers slugs ([electronics], [fashion], ...) and none passes the GUID
    test of [handleSubmit], so in every reachable state the body sends
    [categoryId: null]. *)
Theorem categoryId_always_null (v : View) (b : bool) :
  page_reachable v -> field (productData b (formData (page v))) "categoryId" = Some PNull.
Proof.
  intros Hr. change (field (productData b (formData (page v))) "categoryId")
    with (Some (match category_id (formData (page v)) with Some t => PStr t | None => PNull end)).
  by rewrite category_options_no_id by (by apply categories_offered).
Qed.

Lemma categoryId_always_null_witness :
  page_reachable demo_view /\
  field (productData false (formData (page demo_view))) "categoryId" = Some PNull.
Proof. split; [apply demo_reachable | apply categoryId_always_null, demo_reachable]. Defined.

(** C18: 33 of the 60 inputs never reach the request ([unsent_input_names]:
    the product type, the price options, tax, pre-order, "mark as new",
    the inventory settings but the stock, the shipping settings but the
    dimensions, and the page slug): a change of one of them leaves the
    body [handleSubmit] posts as it was. *)
Theorem unsent_inputs_ignored (b : bool) (st : PageState) (i : Input) (x : string) :
  i ∈ unsent_inputs ->
  productData b (formData (form_step st (input_event (formData st) i x))) =
  productData b (formData st).
Proof.
  intros Hi. apply list_elem_of_filter in Hi as [Hr Hi].
  rewrite input_event_data. apply productData_change_other.
  pose proof all_inputs_named as H. rewrite Forall_forall in H. by rewrite H.
Qed.

Lemma unsent_inputs_ignored_witness :
  mark_as_new ∈ unsent_inputs /\
  productData false (formData (form_step initial_page (input_event (formData initial_page) mark_as_new "on"))) =
  productData false (formData initial_page).
Proof. split; [by_eval | apply unsent_inputs_ignored; by_eval]. Defined.

End ProductInputs.
