(* ===== verification/ProductViews.v ===== *)
(** * The rendered lists of the product form

    Besides its [handleChange] inputs ([ProductInputs.v]), the
    product-creation page [src/app/admin/products/add/page.tsx] renders the
    lists of [formData] that its other controls edit:

    - the related-product picker (lines 1361-1458) and the cross-sell
      picker (lines 1460-1556): the "Selected Products" block, one row per
      chosen id that [availableProducts.find] finds, with its remove
      button, and, while the search box holds text, the matching products
      of the catalogue, each marked "Added" or with an "Add" button, or
      "No products found";
    - the pictures tab (lines 1743-1843): a card per image with its
      preview, its alt-text and display-order inputs and its delete button,
      or "No images uploaded yet";
    - the videos tab (lines 1845-1921) and the specifications tab (lines
      1923-2041): a row per entry, or an empty-state panel.

    [Module ProductViews] models these views as functions of the page
    state of [ProductForm].  The theorems show that the pickers list every
    chosen product, in the order chosen, in every state that keeps
    [ProductForm.form_inv] (every reachable one, by [form_inv_init] and
    [form_inv_step]), and that a click on a search result adds the product
    exactly when it is marked "Add", closing the results. *)

From Stdlib Require Import String List ZArith.
From stdpp Require Import base list strings.
From S2P Require Import Prelude JsNumber ProductForm.

Open Scope string_scope.

Module ProductViews.

Import JsNumber ProductForm.

(** ** The product pickers *)

(** A product as its rows show it: name, then ["SKU: {sku} • {price}"]. *)
Record ProductLine := mkLine { pl_name : string; pl_sku : string; pl_price : string }.

Definition product_line (p : AvailableProduct) : ProductLine :=
  mkLine (ap_name p) (ap_sku p) (ap_price p).

(** [availableProducts.find(p => p.id === productId)] *)
Definition find_product (id : string) : option AvailableProduct :=
  List.find (fun p => String.eqb (ap_id p) id) availableProducts.

(** [{ids.length > 0 && ids.map(id => product ? <row/> : null)}]: a row
    and the id its remove button removes. *)
Definition selected_rows (ids : list string) : option (list (ProductLine * string)) :=
  match ids with
  | [] => None
  | _ => Some (omap (fun id => (fun p => (product_line p, id)) <$> find_product id) ids)
  end.

Inductive Mark := Added | AddButton.

(** A search result: the product, the id its click adds, and its mark
    ([ids.includes(product.id) ? "Added" : <button>Add</button>]). *)
Definition result_row (ids : list string) (p : AvailableProduct) : ProductLine * string * Mark :=
  (product_line p, ap_id p, if bool_decide (ap_id p ∈ ids) then Added else AddButton).

(** [{term && (filtered.length > 0 ? filtered.map(...) : "No products found")}] *)
Definition search_results (term : string) (ids : list string)
    : option (list (ProductLine * string * Mark) + string) :=
  if truthy term then
    Some (match filteredProducts term with
          | [] => inr "No products found"
          | ps => inl (result_row ids <$> ps)
          end)
  else None.

Record PickerView := mkPicker {
  pv_selected : option (list (ProductLine * string));
  pv_results : option (list (ProductLine * string * Mark) + string)
}.

Definition related_view (st : PageState) : PickerView :=
  mkPicker (selected_rows (relatedProducts (formData st)))
    (search_results (searchTerm st) (relatedProducts (formData st))).

Definition cross_view (st : PageState) : PickerView :=
  mkPicker (selected_rows (crossSellProducts (formData st)))
    (search_results (searchTermCross st) (crossSellProducts (formData st))).

(** The ids the "Selected Products" rows remove, [[]] when the block is
    hidden. *)
Definition shown_ids (v : PickerView) : list string :=
  match pv_selected v with Some rows => snd <$> rows | None => [] end.

(** ** The media tabs *)

(** A picture card: the preview ([image.url ? <img src alt/> : icon], the
    alt falling back to ['Product image']), the values of its two inputs
    and the id its delete button removes. *)
Record ImageCard := mkImageCard {
  ic_preview : option (string * string);
  ic_alt_value : string;
  ic_order_value : Z;
  ic_remove : string
}.

Definition image_card (i : ImageEntry) : ImageCard :=
  mkImageCard (if truthy (img_url i) then Some (img_url i, or_else (img_altText i) "Product image") else None)
    (img_altText i) (img_displayOrder i) (img_id i).

Definition pictures_view (fd : FormData) : (string * list ImageCard) + string :=
  match productImages fd with
  | [] => inr "No images uploaded yet"
  | imgs => inl ("Uploaded Images (" +:+ nat_to_string (length imgs) +:+ ")", image_card <$> imgs)
  end.

(** A video row: the index its input writes and its remove button
    removes, and the URL it shows. *)
Definition videos_view (fd : FormData) : list (nat * string) + string :=
  match videoUrls fd with
  | [] => inr "No Videos Added"
  | us => inl (imap pair us)
  end.

Definition specs_view (fd : FormData) : list SpecEntry + string :=
  match specifications fd with
  | [] => inr "No Specifications Added"
  | ss => inl ss
  end.

(** ** Properties *)

Lemma find_product_avail (id : string) :
  id ∈ avail_ids -> exists p, find_product id = Some p /\ ap_id p = id.
Proof.
  unfold avail_ids. cbn. intros H.
  repeat (apply elem_of_cons in H as [-> | H]; [eexists; split; reflexivity |]).
  by apply elem_of_nil in H.
Qed.

Lemma selected_rows_ids (ids : list string) :
  Forall (fun id => id ∈ avail_ids) ids ->
  snd <$> omap (fun id => (fun p => (product_line p, id)) <$> find_product id) ids = ids.
Proof.
  induction 1 as [|id ids Hid _ IH]; [reflexivity |].
  destruct (find_product_avail id Hid) as (p & Hf & _). cbn -[find_product]. rewrite Hf.
  cbn -[find_product]. by rewrite IH.
Qed.

Lemma shown_selected (ids : list string) :
  Forall (fun id => id ∈ avail_ids) ids ->
  match selected_rows ids with Some rows => snd <$> rows | None => [] end = ids.
Proof. intros H. destruct ids as [|id ids']; [reflexivity |]. exact (selected_rows_ids _ H). Qed.

(** Both pickers list every chosen product, once and in the order it was
    chosen, with a remove button for its id, in every state that keeps the
    form's invariant ([ProductForm.form_inv], which every reachable state
    keeps). *)
Theorem pickers_show_selection (st : PageState) :
  form_inv st ->
  shown_ids (related_view st) = relatedProducts (formData st) /\
  shown_ids (cross_view st) = crossSellProducts (formData st).
Proof.
  intros (_ & _ & Hr & Hc & _). unfold shown_ids. cbn [related_view cross_view pv_selected].
  split; apply shown_selected, Forall_forall; assumption.
Qed.

Lemma pickers_show_selection_witness :
  form_inv (form_step (form_step initial_page (ESearch "lap")) (EAddRelated "3")) /\
  shown_ids (related_view (form_step (form_step initial_page (ESearch "lap")) (EAddRelated "3"))) =
    relatedProducts (formData (form_step (form_step initial_page (ESearch "lap")) (EAddRelated "3"))) /\
  shown_ids (cross_view (form_step (form_step initial_page (ESearch "lap")) (EAddRelated "3"))) =
    crossSellProducts (formData (form_step (form_step initial_page (ESearch "lap")) (EAddRelated "3"))).
Proof.
  assert (I1 : form_inv (form_step initial_page (ESearch "lap")))
    by exact (form_inv_step initial_page (ESearch "lap") form_inv_init I).
  assert (I2 : form_inv (form_step (form_step initial_page (ESearch "lap")) (EAddRelated "3"))).
  { apply form_inv_step; [exact I1 |]. split; [reflexivity | vm_compute; constructor]. }
  split; [exact I2 | exact (pickers_show_selection _ I2)].
Defined.

(** A search result's click: it is an enabled control, and it appends the
    product exactly when the row shows "Add". *)
Lemma result_click (term : string) (ids : list string) rows (line : ProductLine) (id : string) (m : Mark) :
  search_results term ids = Some (inl rows) -> (line, id, m) ∈ rows ->
  truthy term = true /\ id ∈ ap_id <$> filteredProducts term /\
  add_unique id ids = match m with Added => ids | AddButton => (ids ++ [id])%list end.
Proof.
  unfold search_results. destruct (truthy term) eqn:Ht; [| discriminate].
  destruct (filteredProducts term) as [|p0 ps] eqn:Hf; intros [= <-].
  intros Hin. change ((line, id, m) ∈ result_row ids <$> p0 :: ps) in Hin.
  apply list_elem_of_fmap in Hin as (p & Hp & Hpin).
  unfold result_row in Hp. injection Hp as -> -> ->.
  split; [done | split].
  - by apply list_elem_of_fmap_2.
  - unfold add_unique. by case_bool_decide.
Qed.

(** A click on a row of the related-product results adds that product
    when the row shows "Add" and leaves the list as it is when it shows
    "Added"; either way it clears the search box, which hides the
    results. *)
Theorem related_result_click (st : PageState) rows (line : ProductLine) (id : string) (m : Mark) :
  pv_results (related_view st) = Some (inl rows) -> (line, id, m) ∈ rows ->
  form_enabled st (EAddRelated id) /\
  relatedProducts (formData (form_step st (EAddRelated id))) =
    match m with Added => relatedProducts (formData st)
               | AddButton => (relatedProducts (formData st) ++ [id])%list end /\
  pv_results (related_view (form_step st (EAddRelated id))) = None.
Proof.
  intros Hr Hin. destruct (result_click _ _ _ _ _ _ Hr Hin) as (Ht & Hid & Hadd).
  split; [by split |]. split; [exact Hadd | reflexivity].
Qed.

Lemma related_result_click_witness :
  pv_results (related_view (form_step initial_page (ESearch "lap"))) =
    Some (inl [(mkLine "Laptop Stand" "LS-003" "$49", "3", AddButton)]) /\
  (mkLine "Laptop Stand" "LS-003" "$49", "3", AddButton) ∈ [(mkLine "Laptop Stand" "LS-003" "$49", "3", AddButton)] /\
  relatedProducts (formData (form_step (form_step initial_page (ESearch "lap")) (EAddRelated "3"))) =
    (relatedProducts (formData (form_step initial_page (ESearch "lap"))) ++ ["3"])%list.
Proof.
  assert (H1 : pv_results (related_view (form_step initial_page (ESearch "lap"))) =
    Some (inl [(mkLine "Laptop Stand" "LS-003" "$49", "3", AddButton)])) by (vm_compute; reflexivity).
  assert (H2 : (mkLine "Laptop Stand" "LS-003" "$49", "3", AddButton) ∈
    [(mkLine "Laptop Stand" "LS-003" "$49", "3", AddButton)]) by constructor.
  split; [exact H1 | split; [exact H2 |]].
  exact (proj1 (proj2 (related_result_click _ _ _ _ _ H1 H2))).
Defined.

(** The same for the cross-sell results, which clear their own search
    box. *)
Theorem cross_result_click (st : PageState) rows (line : ProductLine) (id : string) (m : Mark) :
  pv_results (cross_view st) = Some (inl rows) -> (line, id, m) ∈ rows ->
  form_enabled st (EAddCross id) /\
  crossSellProducts (formData (form_step st (EAddCross id))) =
    match m with Added => crossSellProducts (formData st)
               | AddButton => (crossSellProducts (formData st) ++ [id])%list end /\
  pv_results (cross_view (form_step st (EAddCross id))) = None.
Proof.
  intros Hr Hin. destruct (result_click _ _ _ _ _ _ Hr Hin) as (Ht & Hid & Hadd).
  split; [by split |]. split; [exact Hadd | reflexivity].
Qed.

End ProductViews.
