(* ===== verification/Crud.v ===== *)
(** * What the admin CRUD pages share

    The category, brand and manufacturer pages
    ([src/app/admin/categories/page.tsx], [src/app/admin/brands/page.tsx],
    [src/app/admin/manufacturers/page.tsx]) are one design written three
    times: a list fetched from the API, a search box, a modal form that
    creates or edits an entry, a details view, and a full-size image view.

    [Class CrudEntity] is what a page states about its entity: the form
    [resetForm] restores, the form [handleEdit] fills from an entry, and
    the entry's id.  The [Section Crud] defines, once, the page state (the
    [useState] hooks of the three pages) and the handlers that are the same
    on all three ([resetForm], [handleEdit], the buttons that open and
    close the modal, the details and the image views, the list fetch), and
    proves the invariant those handlers keep: an entry is being edited only
    while the modal is open.  The page files instantiate the class and add
    their own submit, delete, search and upload handlers. *)

From Stdlib Require Import String Ascii ZArith.
From stdpp Require Import base list strings.
From S2P Require Import Prelude JsNumber Api.

Open Scope string_scope.

Module Crud.

Import Api.

Class CrudEntity (E F : Type) := {
  empty_form : F;          (** the object [resetForm] and the initial [useState] hold *)
  form_of : E -> F;        (** the object [handleEdit] builds from an entry *)
  entity_id : E -> string
}.

(** The outcome of [fetch] on the list endpoint: the [data] member of an
    [ok] response, or a failure. *)
Inductive FetchResult (E : Type) :=
| FetchOk (data : option (list E))
| FetchFailed.

Arguments FetchOk {E} data.
Arguments FetchFailed {E}.

(** The outcome of a create, update or delete request. *)
Inductive Response :=
| Status (code : nat)
| NetworkError.

Definition response_ok (r : Response) : bool :=
  match r with Status c => (200 <=? c)%nat && (c <=? 299)%nat | NetworkError => false end.

Section Crud.

Context {E F : Type} `{CrudEntity E F}.

Record CrudState := mkCrud {
  items : list E;
  loading : bool;
  searchTerm : string;
  showModal : bool;
  editing : option E;
  selectedImageUrl : option string;
  viewing : option E;
  formData : F;
  uploads : list F      (** image uploads in flight, with the form their handler captured *)
}.

Definition initial : CrudState := mkCrud [] true "" false None None None empty_form [].

Definition set_form (f : F) (st : CrudState) : CrudState :=
  mkCrud (items st) (loading st) (searchTerm st) (showModal st) (editing st)
    (selectedImageUrl st) (viewing st) f (uploads st).

Definition set_modal (b : bool) (st : CrudState) : CrudState :=
  mkCrud (items st) (loading st) (searchTerm st) b (editing st)
    (selectedImageUrl st) (viewing st) (formData st) (uploads st).

Definition set_editing (e : option E) (st : CrudState) : CrudState :=
  mkCrud (items st) (loading st) (searchTerm st) (showModal st) e
    (selectedImageUrl st) (viewing st) (formData st) (uploads st).

Definition set_search (t : string) (st : CrudState) : CrudState :=
  mkCrud (items st) (loading st) t (showModal st) (editing st)
    (selectedImageUrl st) (viewing st) (formData st) (uploads st).

Definition set_image (u : option string) (st : CrudState) : CrudState :=
  mkCrud (items st) (loading st) (searchTerm st) (showModal st) (editing st)
    u (viewing st) (formData st) (uploads st).

Definition set_viewing (v : option E) (st : CrudState) : CrudState :=
  mkCrud (items st) (loading st) (searchTerm st) (showModal st) (editing st)
    (selectedImageUrl st) v (formData st) (uploads st).

Definition set_uploads (u : list F) (st : CrudState) : CrudState :=
  mkCrud (items st) (loading st) (searchTerm st) (showModal st) (editing st)
    (selectedImageUrl st) (viewing st) (formData st) u.

(** [fetchItems]: an [ok] response replaces the list by [result.data || []];
    a failed one leaves it; [loading] is cleared in the [finally]. *)
Definition fetchItems (r : FetchResult E) (st : CrudState) : CrudState :=
  let st := match r with
            | FetchOk d => mkCrud (default [] d) (loading st) (searchTerm st) (showModal st)
                             (editing st) (selectedImageUrl st) (viewing st) (formData st) (uploads st)
            | FetchFailed => st
            end in
  mkCrud (items st) false (searchTerm st) (showModal st) (editing st)
    (selectedImageUrl st) (viewing st) (formData st) (uploads st).

Definition resetForm (st : CrudState) : CrudState :=
  set_editing None (set_form empty_form st).

Definition handleEdit (e : E) (st : CrudState) : CrudState :=
  set_modal true (set_form (form_of e) (set_editing (Some e) st)).

(** The "Add" button: [resetForm(); setShowModal(true)]. *)
Definition openCreate (st : CrudState) : CrudState := set_modal true (resetForm st).

(** The modal's close and Cancel buttons: [setShowModal(false); resetForm()]. *)
Definition closeModal (st : CrudState) : CrudState := resetForm (set_modal false st).

(** The details view's "Edit" button. *)
Definition editFromView (st : CrudState) : CrudState :=
  match viewing st with
  | Some e => set_viewing None (handleEdit e st)
  | None => st
  end.

(** After a successful create, update: [await fetchItems(); setShowModal(false); resetForm()]. *)
Definition after_save (r : FetchResult E) (st : CrudState) : CrudState :=
  resetForm (set_modal false (fetchItems r st)).

(** The request of a create or an update: [PUT endpoint/id] while editing,
    [POST endpoint] otherwise. *)
Definition save_target (endpoint : string) (editing : option E) : Method * string :=
  match editing with
  | Some e => (PUT, endpoint +:+ "/" +:+ entity_id e)
  | None => (POST, endpoint)
  end.

(** ** The modal invariant *)

Definition modal_inv (st : CrudState) : Prop := is_Some (editing st) -> showModal st = true.

Lemma resetForm_editing (st : CrudState) : editing (resetForm st) = None.
Proof. reflexivity. Qed.

Lemma modal_inv_resetForm (st : CrudState) : modal_inv (resetForm st).
Proof. intros [e He]. discriminate. Qed.

Lemma modal_inv_handleEdit (e : E) (st : CrudState) : modal_inv (handleEdit e st).
Proof. intros _. reflexivity. Qed.

Lemma modal_inv_openCreate (st : CrudState) : modal_inv (openCreate st).
Proof. intros _. reflexivity. Qed.

Lemma modal_inv_closeModal (st : CrudState) : modal_inv (closeModal st).
Proof. apply modal_inv_resetForm. Qed.

Lemma modal_inv_after_save (r : FetchResult E) (st : CrudState) : modal_inv (after_save r st).
Proof. apply modal_inv_resetForm. Qed.

(** The handlers that touch neither [editing] nor [showModal] keep it. *)
Lemma modal_inv_frame (st st' : CrudState) :
  editing st' = editing st -> showModal st' = showModal st -> modal_inv st -> modal_inv st'.
Proof. unfold modal_inv. intros -> ->. done. Qed.

Lemma modal_inv_editFromView (st : CrudState) : modal_inv st -> modal_inv (editFromView st).
Proof. unfold editFromView. destruct (viewing st); [intros _ _; reflexivity | done]. Qed.

Lemma modal_inv_fetchItems (r : FetchResult E) (st : CrudState) : modal_inv st -> modal_inv (fetchItems r st).
Proof. apply modal_inv_frame; by destruct r. Qed.

End Crud.

#[export] Hint Resolve modal_inv_resetForm modal_inv_handleEdit modal_inv_openCreate
  modal_inv_closeModal modal_inv_after_save modal_inv_editFromView modal_inv_fetchItems : ecom.

End Crud.
