(* ===== verification/Brands.v ===== *)
(** * The brand and manufacturer pages

    [src/app/admin/brands/page.tsx] and
    [src/app/admin/manufacturers/page.tsx] are the same component with the
    words "brand" and "manufacturer" exchanged.  [Module Brands] models it
    once, with a [PageConfig] that holds what differs: the endpoint of
    [API_ENDPOINTS] and the noun of the messages.  The entity and the form
    are the [Brand] interface (lines 7-24) and the [formData] state (lines
    35-45), an instance of [Crud.CrudEntity]; the handlers are
    [handleSubmit] (lines 75-118), [handleDelete] (lines 136-157), the
    search filter (lines 174-177), the inputs of the modal form, the logo
    upload (lines 416-439) and the table row (lines 250-335).  Dates are
    shown with [toLocaleString], which is a parameter of the row view.
    [brands_page] is the brand page's configuration; the manufacturer
    page's is in [Manufacturers.v]. *)

From Stdlib Require Import String Ascii ZArith.
From stdpp Require Import base list strings.
From S2P Require Import Prelude JsNumber Api Crud.

Open Scope string_scope.

Module Brands.

Import JsNumber Api Crud.

(** ** Data *)

Record Brand := mkBrand {
  b_id : string;
  b_name : string;
  b_description : string;
  b_slug : string;
  b_logoUrl : option string;
  b_isPublished : bool;
  b_showOnHomepage : bool;
  b_displayOrder : Z;
  b_productCount : Z;
  b_metaTitle : option string;
  b_metaDescription : option string;
  b_metaKeywords : option string;
  b_createdAt : option string;
  b_updatedAt : option string;
  b_createdBy : option string;
  b_updatedBy : option string
}.

Record BrandForm := mkForm {
  f_name : string;
  f_description : string;
  f_logoUrl : string;
  f_isPublished : bool;
  f_showOnHomepage : bool;
  f_displayOrder : num;       (** [parseInt] of the input: [NaN] when it is cleared *)
  f_metaTitle : string;
  f_metaDescription : string;
  f_metaKeywords : string
}.

Definition empty_brand_form : BrandForm := mkForm "" "" "" true false (Dec 1 0) "" "" "".

(** [x || ""] on an optional string member. *)
Definition opt_str (o : option string) : string := opt_or_else o "".

Definition brand_form_of (b : Brand) : BrandForm :=
  mkForm (b_name b) (b_description b) (opt_str (b_logoUrl b)) (b_isPublished b)
    (b_showOnHomepage b) (Dec (b_displayOrder b) 0) (opt_str (b_metaTitle b))
    (opt_str (b_metaDescription b)) (opt_str (b_metaKeywords b)).

#[export] Instance brand_entity : CrudEntity Brand BrandForm :=
  { empty_form := empty_brand_form; form_of := brand_form_of; entity_id := b_id }.

(** What differs between the brand and the manufacturer page. *)
Record PageConfig := mkConfig {
  endpoint : Endpoints -> string;
  noun : string;              (** in the messages *)
  title : string              (** in the headings *)
}.

Definition brands_page : PageConfig := mkConfig ep_brands "brand" "Brand".

Definition State : Type := @CrudState Brand BrandForm.

(** ** Requests *)

(** [{...formData, ...(editingBrand && { id: editingBrand.id })}], as
    [JSON.stringify] writes it. *)
Definition brand_payload (editing : option Brand) (f : BrandForm) : payload :=
  ([("name", PStr (f_name f)); ("description", PStr (f_description f));
   ("logoUrl", PStr (f_logoUrl f)); ("isPublished", PBool (f_isPublished f));
   ("showOnHomepage", PBool (f_showOnHomepage f)); ("displayOrder", json_number (f_displayOrder f));
   ("metaTitle", PStr (f_metaTitle f)); ("metaDescription", PStr (f_metaDescription f));
   ("metaKeywords", PStr (f_metaKeywords f))] ++
  match editing with Some b => [("id", PStr (b_id b))] | None => [] end)%list.

(** [fetchBrands]'s request. *)
Definition list_request (cfg : PageConfig) (base : string) (token : option string) : Request :=
  mkRequest GET (endpoint cfg (API_ENDPOINTS base) +:+ "?includeUnpublished=true")
    (spread_auth token) None.

(** The requests a handler issues, the state it leaves and the alert it
    shows. *)
Record Outcome := mkOutcome {
  out_state : State;
  out_requests : list Request;
  out_alert : option string
}.

Definition handleSubmit (cfg : PageConfig) (base : string) (token : option string)
    (resp : Response) (refetch : FetchResult Brand) (st : State) : Outcome :=
  match token with
  | Some t =>
      if negb (truthy t) then mkOutcome st [] (Some "Please login first") else
      let '(m, url) := save_target (endpoint cfg (API_ENDPOINTS base)) (editing st) in
      let req := mkRequest m url (Some ("Bearer " +:+ t))
                   (Some (brand_payload (editing st) (formData st))) in
      let failed := mkOutcome st [req] (Some ("Failed to save " +:+ noun cfg)) in
      match resp with
      | Status c =>
          if response_ok resp || (c =? 201)%nat
          then mkOutcome (after_save refetch st) [req; list_request cfg base token] None
          else if (c =? 401)%nat then mkOutcome st [req] (Some "Unauthorized. Please login again.")
          else failed
      | NetworkError => failed
      end
  | None => mkOutcome st [] (Some "Please login first")
  end.

(** [handleDelete]: nothing unless the [confirm] dialog is accepted. *)
Definition handleDelete (cfg : PageConfig) (base : string) (token : option string)
    (id : string) (confirmed : bool) (resp : Response) (refetch : FetchResult Brand)
    (st : State) : Outcome :=
  if negb confirmed then mkOutcome st [] None else
  let req := mkRequest DELETE (endpoint cfg (API_ENDPOINTS base) +:+ "/" +:+ id)
               (spread_auth token) None in
  if response_ok resp
  then mkOutcome (fetchItems refetch st) [req; list_request cfg base token] None
  else mkOutcome st [req] (Some ("Failed to delete " +:+ noun cfg)).

Definition matches (term : string) (b : Brand) : bool :=
  includes (toLowerCase (b_name b)) (toLowerCase term) ||
  includes (toLowerCase (b_description b)) (toLowerCase term).

Definition filteredBrands (st : State) : list Brand := filter (fun b => matches (searchTerm st) b = true) (items st).

(** [{n} brand{n !== 1 ? 's' : ''}] above the table. *)
Definition count_label (cfg : PageConfig) (n : nat) : string :=
  nat_to_string n +:+ " " +:+ noun cfg +:+ (if (n =? 1)%nat then "" else "s").

(** ** The modal form *)

Inductive BrandInput :=
| IName (v : string) | IDisplayOrder (v : string) | IDescription (v : string)
| ILogoUrl (v : string) | IMetaTitle (v : string) | IMetaDescription (v : string)
| IMetaKeywords (v : string) | IPublished (c : bool) | IShowOnHomepage (c : bool).

Definition apply_input (i : BrandInput) (f : BrandForm) : BrandForm :=
  let 'mkForm n d l p h o t md mk := f in
  match i with
  | IName v => mkForm v d l p h o t md mk
  | IDisplayOrder v => mkForm n d l p h (parseInt_num v) t md mk
  | IDescription v => mkForm n v l p h o t md mk
  | ILogoUrl v => mkForm n d v p h o t md mk
  | IMetaTitle v => mkForm n d l p h o v md mk
  | IMetaDescription v => mkForm n d l p h o t v mk
  | IMetaKeywords v => mkForm n d l p h o t md v
  | IPublished c => mkForm n d l c h o t md mk
  | IShowOnHomepage c => mkForm n d l p c o t md mk
  end.

Definition set_logo (url : string) (f : BrandForm) : BrandForm :=
  let 'mkForm n d _ p h o t md mk := f in mkForm n d url p h o t md mk.

(** The logo upload: [POST endpoint/upload-logo] without an
    [Authorization] header; on success
    [setFormData(prev => ({...prev, logoUrl: result.data}))], applied to
    the form as it is when the response arrives. *)
Definition upload_request (cfg : PageConfig) (base : string) : Request :=
  mkRequest POST (endpoint cfg (API_ENDPOINTS base) +:+ "/upload-logo") None None.

Definition uploadDone (r : option string) (st : State) : State * option string :=
  match r with
  | Some url => (set_form (set_logo url (formData st)) st, None)
  | None => (st, Some "Failed to upload logo")
  end.

(** ** The table row *)

Record BrandRow := mkRow {
  row_logo : option string;         (** the [src] of the logo, or the placeholder icon *)
  row_name : string;
  row_slug : string;
  row_products : Z;
  row_status : string;
  row_homepage : string;
  row_order : Z;
  row_created : string;
  row_updated : string;
  row_updatedBy : string
}.

Section Row.

Variable toLocaleString : string -> string.

(** [d ? new Date(d).toLocaleString() : dflt] *)
Definition date_or (dflt : string) (d : option string) : string :=
  match d with Some s => if truthy s then toLocaleString s else dflt | None => dflt end.

Definition date_cell : option string -> string := date_or "-".

Definition brand_row (base : string) (b : Brand) : BrandRow :=
  mkRow (if opt_truthy (b_logoUrl b) then Some (getImageUrl base (b_logoUrl b)) else None)
    (b_name b) (b_slug b) (b_productCount b)
    (if b_isPublished b then "Published" else "Unpublished")
    (if b_showOnHomepage b then "Yes" else "No")
    (b_displayOrder b) (date_cell (b_createdAt b)) (date_cell (b_updatedAt b))
    (opt_or_else (b_updatedBy b) "-").

(** The details view (lines 573-738). *)
Record BrandDetails := mkDetails {
  d_name : string;
  d_slug : string;
  d_description : string;
  d_order : Z;
  d_metaTitle : string;
  d_metaDescription : string;
  d_metaKeywords : string;
  d_logo : option string;
  d_products : Z;
  d_status : string;
  d_created : string;
  d_createdBy : string;
  d_updated : string;
  d_updatedBy : string
}.

Definition brand_details (base : string) (b : Brand) : BrandDetails :=
  mkDetails (b_name b) (b_slug b) (b_description b ||s "No description")%ecom (b_displayOrder b)
    (opt_or_else (b_metaTitle b) "Not set") (opt_or_else (b_metaDescription b) "Not set")
    (opt_or_else (b_metaKeywords b) "Not set")
    (if opt_truthy (b_logoUrl b) then Some (getImageUrl base (b_logoUrl b)) else None)
    (b_productCount b) (if b_isPublished b then "Published" else "Unpublished")
    (date_or "N/A" (b_createdAt b)) (opt_or_else (b_createdBy b) "N/A")
    (date_or "N/A" (b_updatedAt b)) (opt_or_else (b_updatedBy b) "N/A").

End Row.

(** What the page shows over the list: the modal form with its title and
    button, the details view, the full-size image. *)
Record Overlays := mkOverlays {
  modal : option (string * string);
  details : option Brand;
  image : option string
}.

Definition overlays (cfg : PageConfig) (st : State) : Overlays :=
  mkOverlays
    (if showModal st then
       Some (match editing st with
             | Some _ => ("✏️ Edit " +:+ title cfg, "✓ Update " +:+ title cfg)
             | None => ("➕ Create New " +:+ title cfg, "+ Create " +:+ title cfg)
             end)
     else None)
    (viewing st) (selectedImageUrl st).

(** ** The page as a state machine *)

Inductive BrandEvent :=
| EFetched (r : FetchResult Brand)
| EOpenCreate
| ESearch (t : string)
| EEdit (b : Brand)
| ECloseModal
| EInput (i : BrandInput)
| ESubmit (token : option string) (resp : Response) (refetch : FetchResult Brand)
| EDelete (token : option string) (id : string) (confirmed : bool) (resp : Response)
          (refetch : FetchResult Brand)
| EView (b : Brand)
| ECloseView
| EEditFromView
| ESelectImage (url : string)
| ECloseImage
| EUploadDone (r : option string).

Definition step (cfg : PageConfig) (base : string) (st : State) (ev : BrandEvent) : State :=
  match ev with
  | EFetched r => fetchItems r st
  | EOpenCreate => openCreate st
  | ESearch t => set_search t st
  | EEdit b => handleEdit b st
  | ECloseModal => closeModal st
  | EInput i => set_form (apply_input i (formData st)) st
  | ESubmit tok r rf => out_state (handleSubmit cfg base tok r rf st)
  | EDelete tok id c r rf => out_state (handleDelete cfg base tok id c r rf st)
  | EView b => set_viewing (Some b) st
  | ECloseView => set_viewing None st
  | EEditFromView => editFromView st
  | ESelectImage u => set_image (Some u) st
  | ECloseImage => set_image None st
  | EUploadDone r => (uploadDone r st).1
  end.

Inductive reachable (cfg : PageConfig) (base : string) : State -> Prop :=
| reach_init : reachable cfg base initial
| reach_step st ev : reachable cfg base st -> reachable cfg base (step cfg base st ev).

(** ** Properties *)

Lemma field_app_l (p q : payload) (k : string) (v : pval) :
  field p k = Some v -> field (p ++ q)%list k = Some v.
Proof.
  unfold field. induction p as [|[k' v'] p IH]; simpl; [done|].
  destruct (String.eqb k' k); [done | apply IH].
Qed.

Lemma field_app_r (p q : payload) (k : string) :
  field p k = None -> field (p ++ q)%list k = field q k.
Proof.
  unfold field. induction p as [|[k' v'] p IH]; simpl; [done|].
  destruct (String.eqb k' k); [discriminate | apply IH].
Qed.

Lemma brand_payload_id (e : option Brand) (f : BrandForm) :
  field (brand_payload e f) "id" = (fun b => PStr (b_id b)) <$> e.
Proof. unfold brand_payload. rewrite field_app_r by reflexivity. by destruct e. Qed.

Lemma handleSubmit_modal_inv (cfg : PageConfig) (base : string) (tok : option string)
    (r : Response) (rf : FetchResult Brand) (st : State) :
  modal_inv st -> modal_inv (out_state (handleSubmit cfg base tok r rf st)).
Proof.
  intros Hi. unfold handleSubmit. destruct tok as [t|]; [|done].
  destruct (truthy t); [|done]. simpl. destruct (save_target _ _).
  destruct r as [c|]; [|done]. repeat case_match; simpl; auto with ecom.
Qed.

Lemma handleDelete_modal_inv (cfg : PageConfig) (base : string) (tok : option string) (id : string)
    (c : bool) (r : Response) (rf : FetchResult Brand) (st : State) :
  modal_inv st -> modal_inv (out_state (handleDelete cfg base tok id c r rf st)).
Proof. intros Hi. unfold handleDelete. destruct c; simpl; [|done]. case_match; simpl; auto with ecom. Qed.

(** C19: without a (non-empty) token in [localStorage], Save shows "Please
    login first", sends nothing and leaves the page as it is. *)
Theorem submit_requires_token (cfg : PageConfig) (base : string) (token : option string)
    (r : Response) (rf : FetchResult Brand) (st : State) :
  opt_truthy token = false ->
  handleSubmit cfg base token r rf st = mkOutcome st [] (Some "Please login first").
Proof. destruct token as [t|]; simpl; [intros ->|]; reflexivity. Qed.

Lemma submit_requires_token_witness :
  opt_truthy (Some "") = false /\
  handleSubmit brands_page default_api_url (Some "") (Status 200) (FetchOk None) initial =
    mkOutcome initial [] (Some "Please login first").
Proof. split; [reflexivity | apply submit_requires_token; reflexivity]. Defined.

(** C26: with a token, Save first sends the form with that bearer token: an
    update ([PUT endpoint/id], the body carrying the same [id]) while an
    entry is being edited, a create ([POST endpoint], no [id]) otherwise. *)
Theorem submit_targets_edited (cfg : PageConfig) (base t : string) (r : Response)
    (rf : FetchResult Brand) (st : State) :
  truthy t = true ->
  exists req rest,
    out_requests (handleSubmit cfg base (Some t) r rf st) = req :: rest /\
    req_auth req = Some ("Bearer " +:+ t) /\
    req_body req = Some (brand_payload (editing st) (formData st)) /\
    field (brand_payload (editing st) (formData st)) "id" = (fun b => PStr (b_id b)) <$> editing st /\
    match editing st with
    | Some b => req_method req = PUT /\ req_url req = endpoint cfg (API_ENDPOINTS base) +:+ "/" +:+ b_id b
    | None => req_method req = POST /\ req_url req = endpoint cfg (API_ENDPOINTS base)
    end.
Proof.
  intros Ht. unfold handleSubmit. rewrite Ht. simpl.
  destruct (editing st) as [b|] eqn:He; simpl; destruct r as [c|]; repeat case_match; simpl.
  all: eexists _, _; split; [reflexivity |]; rewrite brand_payload_id; simpl; auto.
Qed.

Lemma submit_targets_edited_witness :
  truthy "tok" = true /\
  out_requests (handleSubmit brands_page default_api_url (Some "tok") (Status 201) (FetchOk None) initial) =
    [mkRequest POST "http://localhost:5285/api/brands" (Some "Bearer tok")
       (Some (brand_payload None empty_brand_form));
     mkRequest GET "http://localhost:5285/api/brands?includeUnpublished=true" (Some "Bearer tok") None].
Proof.
  split; [reflexivity |].
  destruct (submit_targets_edited brands_page default_api_url "tok" (Status 201) (FetchOk None) initial
              eq_refl) as (req & rest & Hreq & _).
  rewrite Hreq. vm_compute in Hreq. injection Hreq as <- <-. reflexivity.
Defined.

(** C27: on both pages, an entry is being edited only while the modal form
    is open, in every state the page reaches. *)
Theorem modal_invariant (cfg : PageConfig) (base : string) (st : State) :
  reachable cfg base st -> modal_inv st.
Proof.
  induction 1 as [|st ev _ IH]; [by intros [? ?] |].
  destruct ev; simpl; auto using handleSubmit_modal_inv, handleDelete_modal_inv with ecom;
    try (apply (modal_inv_frame st); [reflexivity | reflexivity | exact IH]).
  destruct r; simpl; [apply (modal_inv_frame st) | ]; auto.
Qed.

Lemma modal_invariant_witness :
  reachable brands_page default_api_url (step brands_page default_api_url initial (EEdit
    (mkBrand "b1" "Acme" "" "acme" None true false 1 0 None None None None None None None))) /\
  modal_inv (step brands_page default_api_url initial (EEdit
    (mkBrand "b1" "Acme" "" "acme" None true false 1 0 None None None None None None None))).
Proof.
  assert (R : reachable brands_page default_api_url (step brands_page default_api_url initial (EEdit
    (mkBrand "b1" "Acme" "" "acme" None true false 1 0 None None None None None None None))))
    by (apply reach_step, reach_init).
  split; [exact R | exact (modal_invariant _ _ _ R)].
Defined.

(** C37: clearing the display-order input (or typing no digit) makes it
    [parseInt]'s [NaN], which the saved body carries as [null]. *)
Theorem cleared_order_sent_null (v : string) (e : option Brand) (f : BrandForm) :
  parseInt v = None ->
  field (brand_payload e (apply_input (IDisplayOrder v) f)) "displayOrder" = Some PNull.
Proof.
  intros Hv. destruct f. unfold brand_payload. apply field_app_l. simpl.
  unfold parseInt_num. by rewrite Hv.
Qed.

Lemma cleared_order_sent_null_witness :
  parseInt "" = None /\
  field (brand_payload None (apply_input (IDisplayOrder "") empty_brand_form)) "displayOrder" = Some PNull.
Proof. split; [reflexivity | apply cleared_order_sent_null; reflexivity]. Defined.

(** Edits typed while a logo upload is in flight are kept: the upload
    sets the logo on the form as it is when the response arrives. *)
Theorem upload_keeps_edits (cfg : PageConfig) (base url : string) (inputs : list BrandInput) (st : State) :
  formData (uploadDone (Some url)
              (fold_left (fun s i => step cfg base s (EInput i)) inputs st)).1 =
  set_logo url (fold_left (fun f i => apply_input i f) inputs (formData st)).
Proof. revert st. induction inputs as [|i inputs IH]; intros st; simpl; [done | apply IH]. Qed.

(** The search keeps the entries whose name or description contains
    the term, ignoring case, and an empty term shows every entry. *)
Theorem search_filter (st : State) (b : Brand) :
  (b ∈ filteredBrands st <-> matches (searchTerm st) b = true /\ b ∈ items st) /\
  filteredBrands (set_search "" st) = items st.
Proof.
  split; [unfold filteredBrands; by rewrite list_elem_of_filter |].
  unfold filteredBrands. simpl. apply filter_all. intros x _.
  unfold matches. by rewrite includes_empty.
Qed.

End Brands.
