(* ===== verification/Manufacturers.v ===== *)
(** * The manufacturer admin page

    [src/app/admin/manufacturers/page.tsx] is, line for line, the brand
    page with [API_ENDPOINTS.manufacturers] for [API_ENDPOINTS.brands],
    "manufacturer" for "brand" in its names and messages, and the
    [Factory] icon for the [Tag] icon (lines 4, 230 and 263): every
    handler sits at the same lines as in [src/app/admin/brands/page.tsx].
    [Module Manufacturers] gives the page its configuration
    [manufacturers_page] and names each of its operations after the
    source: each is the definition of [Brands] at that configuration.
    [manufacturer_requests_target_endpoint] shows that every request the
    page sends goes to the manufacturer endpoint. *)

From Stdlib Require Import String.
From stdpp Require Import base list strings.
From S2P Require Import Prelude JsNumber Api Crud Brands.

Open Scope string_scope.

Module Manufacturers.

Import Api Crud Brands.

(** [API_ENDPOINTS.manufacturers] and the noun of the messages. *)
Definition manufacturers_page : PageConfig :=
  mkConfig ep_manufacturers "manufacturer" "Manufacturer".

(** ** The operations of [ManufacturersPage] *)

Definition fetchManufacturers (base : string) (token : option string) : Request :=
  list_request manufacturers_page base token.

Definition handleSubmit (base : string) (token : option string) (resp : Response)
    (refetch : FetchResult Brand) (st : State) : Outcome :=
  Brands.handleSubmit manufacturers_page base token resp refetch st.

Definition handleEdit (m : Brand) (st : State) : State := Crud.handleEdit m st.

Definition handleDelete (base : string) (token : option string) (id : string) (confirmed : bool)
    (resp : Response) (refetch : FetchResult Brand) (st : State) : Outcome :=
  Brands.handleDelete manufacturers_page base token id confirmed resp refetch st.

Definition resetForm (st : State) : State := Crud.resetForm st.

Definition filteredManufacturers (st : State) : list Brand := filteredBrands st.

Definition manufacturer_count_label (n : nat) : string := count_label manufacturers_page n.

Definition handleInput (i : BrandInput) (st : State) : State :=
  set_form (apply_input i (formData st)) st.

Definition upload_logo_request (base : string) : Request := upload_request manufacturers_page base.

Definition uploadLogoDone (r : option string) (st : State) : State * option string := uploadDone r st.

Definition manufacturer_row (toLocaleString : string -> string) (base : string) (m : Brand) : BrandRow :=
  brand_row toLocaleString base m.

Definition manufacturer_details (toLocaleString : string -> string) (base : string) (m : Brand)
    : BrandDetails :=
  brand_details toLocaleString base m.

Definition manufacturer_overlays (st : State) : Overlays := overlays manufacturers_page st.

Definition manufacturer_step (base : string) (st : State) (ev : BrandEvent) : State :=
  step manufacturers_page base st ev.

(** ** Properties *)

Lemma manufacturer_url (base r : string) :
  startsWith ((base +:+ "/api/manufacturers") +:+ r) (base +:+ "/api/manufacturers") = true.
Proof. apply startsWith_app. Qed.

Ltac all_urls :=
  repeat first [apply Forall_nil_2 | apply Forall_cons_2; [
    cbn [req_url list_request upload_request endpoint manufacturers_page API_ENDPOINTS
         ep_manufacturers fetchManufacturers upload_logo_request];
    first [apply manufacturer_url | apply startsWith_refl] |]].

(** C20: every request of the manufacturer page goes to the manufacturer
    endpoint: the save ([POST] or [PUT /id]), the delete, the list fetch
    that follows them and the logo upload; none reaches the brand
    endpoint the page was copied from. *)
Theorem manufacturer_requests_target_endpoint (base : string) (token : option string)
    (resp : Response) (refetch : FetchResult Brand) (st : State) (id : string) (confirmed : bool) :
  Forall (fun r => startsWith (req_url r) (base +:+ "/api/manufacturers") = true)
    (out_requests (handleSubmit base token resp refetch st) ++
     out_requests (handleDelete base token id confirmed resp refetch st) ++
     [fetchManufacturers base token; upload_logo_request base]).
Proof.
  rewrite !Forall_app. split; [| split].
  - unfold handleSubmit, Brands.handleSubmit, save_target.
    repeat case_match; simplify_eq; cbn [out_requests]; all_urls.
  - unfold handleDelete, Brands.handleDelete.
    repeat case_match; cbn [out_requests]; all_urls.
  - all_urls.
Qed.

End Manufacturers.
