(* ===== verification/Categories.v ===== *)
(** * The category page

    [src/app/admin/categories/page.tsx] follows the design of the brand
    page ([Brands.v]) with a different entity and three differences that
    matter:

    - [handleSubmit] (lines 77-119) sends the request whatever the token,
      with an [Authorization] header only when there is one;
    - the image upload (lines 448-471) ends with
      [setFormData({...formData, imageUrl: result.data})], where
      [formData] is the object the handler captured when the file was
      chosen: the state keeps the captured forms of the uploads in flight
      ([Crud.uploads]) and the completion writes back the captured one;
    - a category has a parent, chosen among [getParentCategoryOptions()]
      (lines 176-182) and shown in the table as the parent's name, "-" for
      an unknown parent or "Root Category" (lines 285-293).

    [Module Categories] models the entity (lines 7-24), the form (lines
    34-44), the handlers and the list view (lines 223-347). *)

From Stdlib Require Import String Ascii ZArith.
From stdpp Require Import base list sets strings.
From S2P Require Import Prelude JsNumber Api Crud.

Open Scope string_scope.

Module Categories.

Import JsNumber Api Crud.

(** ** Data *)

Record Category := mkCategory {
  c_id : string;
  c_name : string;
  c_description : string;
  c_slug : string;
  c_imageUrl : option string;
  c_isActive : bool;
  c_sortOrder : Z;
  c_productCount : Z;
  c_metaTitle : option string;
  c_metaDescription : option string;
  c_metaKeywords : option string;
  c_parentCategoryId : option string;
  c_createdAt : option string;
  c_updatedAt : option string;
  c_createdBy : option string;
  c_updatedBy : option string
}.

Record CategoryForm := mkForm {
  f_name : string;
  f_description : string;
  f_imageUrl : string;
  f_isActive : bool;
  f_sortOrder : num;          (** [parseInt] of the input: [NaN] when it is cleared *)
  f_metaTitle : string;
  f_metaDescription : string;
  f_metaKeywords : string;
  f_parentCategoryId : string
}.

Definition empty_category_form : CategoryForm := mkForm "" "" "" true (Dec 1 0) "" "" "" "".

Definition opt_str (o : option string) : string := opt_or_else o "".

Definition category_form_of (c : Category) : CategoryForm :=
  mkForm (c_name c) (c_description c) (opt_str (c_imageUrl c)) (c_isActive c)
    (Dec (c_sortOrder c) 0) (opt_str (c_metaTitle c)) (opt_str (c_metaDescription c))
    (opt_str (c_metaKeywords c)) (opt_str (c_parentCategoryId c)).

#[export] Instance category_entity : CrudEntity Category CategoryForm :=
  { empty_form := empty_category_form; form_of := category_form_of; entity_id := c_id }.

Definition State : Type := @CrudState Category CategoryForm.

(** ** Requests *)

(** [{...formData, parentCategoryId: formData.parentCategoryId || null}],
    then [payload.id = editingCategory.id] while editing. *)
Definition category_payload (editing : option Category) (f : CategoryForm) : payload :=
  ([("name", PStr (f_name f)); ("description", PStr (f_description f));
    ("imageUrl", PStr (f_imageUrl f)); ("isActive", PBool (f_isActive f));
    ("sortOrder", json_number (f_sortOrder f)); ("metaTitle", PStr (f_metaTitle f));
    ("metaDescription", PStr (f_metaDescription f)); ("metaKeywords", PStr (f_metaKeywords f));
    ("parentCategoryId", if truthy (f_parentCategoryId f) then PStr (f_parentCategoryId f) else PNull)] ++
   match editing with Some c => [("id", PStr (c_id c))] | None => [] end)%list.

Definition list_request (base : string) (token : option string) : Request :=
  mkRequest GET (ep_categories (API_ENDPOINTS base) +:+ "?includeInactive=true&includeSubCategories=false")
    (spread_auth token) None.

Record Outcome := mkOutcome {
  out_state : State;
  out_requests : list Request;
  out_alert : option string
}.

Definition handleSubmit (base : string) (token : option string) (resp : Response)
    (refetch : FetchResult Category) (st : State) : Outcome :=
  let '(m, url) := save_target (ep_categories (API_ENDPOINTS base)) (editing st) in
  let req := mkRequest m url (spread_auth token)
               (Some (category_payload (editing st) (formData st))) in
  if response_ok resp
  then mkOutcome (after_save refetch st) [req; list_request base token] None
  else mkOutcome st [req]
         (Some ("Failed to " +:+ (match editing st with Some _ => "update" | None => "create" end) +:+ " category")).

Definition handleDelete (base : string) (token : option string) (id : string) (confirmed : bool)
    (resp : Response) (refetch : FetchResult Category) (st : State) : Outcome :=
  if negb confirmed then mkOutcome st [] None else
  let req := mkRequest DELETE (ep_categories (API_ENDPOINTS base) +:+ "/" +:+ id)
               (spread_auth token) None in
  if response_ok resp
  then mkOutcome (fetchItems refetch st) [req; list_request base token] None
  else mkOutcome st [req] (Some "Failed to delete category").


Definition filteredCategories (st : State) : list Category :=
  filter (fun c => includes (toLowerCase (c_name c)) (toLowerCase (searchTerm st)) = true) (items st).

(** ** The modal form *)

Inductive CategoryInput :=
| IName (v : string) | IParent (v : string) | IDescription (v : string)
| IImageUrl (v : string) | IMetaTitle (v : string) | IMetaDescription (v : string)
| IMetaKeywords (v : string) | IActive (c : bool) | ISortOrder (v : string).

Definition apply_input (i : CategoryInput) (f : CategoryForm) : CategoryForm :=
  let 'mkForm n d u a o t md mk p := f in
  match i with
  | IName v => mkForm v d u a o t md mk p
  | IParent v => mkForm n d u a o t md mk v
  | IDescription v => mkForm n v u a o t md mk p
  | IImageUrl v => mkForm n d v a o t md mk p
  | IMetaTitle v => mkForm n d u a o v md mk p
  | IMetaDescription v => mkForm n d u a o t v mk p
  | IMetaKeywords v => mkForm n d u a o t md v p
  | IActive c => mkForm n d u c o t md mk p
  | ISortOrder v => mkForm n d u a (parseInt_num v) t md mk p
  end.

Definition set_image_url (url : string) (f : CategoryForm) : CategoryForm :=
  let 'mkForm n d _ a o t md mk p := f in mkForm n d url a o t md mk p.

Definition upload_request (base : string) (token : option string) : Request :=
  mkRequest POST (ep_categories (API_ENDPOINTS base) +:+ "/upload-image") (spread_auth token) None.

(** A file is chosen: the handler starts with the form of this render. *)
Definition uploadStart (st : State) : State := set_uploads (uploads st ++ [formData st])%list st.

(** The oldest upload completes: on success the form becomes the captured
    one with the new image URL. *)
Definition uploadDone (r : option string) (st : State) : State * option string :=
  match uploads st with
  | captured :: rest =>
      match r with
      | Some url => (set_uploads rest (set_form (set_image_url url captured) st), None)
      | None => (set_uploads rest st, Some "Failed to upload image")
      end
  | [] => (st, None)
  end.

(** ** The list *)

Section Views.

Variable toLocaleString : string -> string.

(** [d ? new Date(d).toLocaleString() : dflt] *)
Definition date_or (dflt : string) (d : option string) : string :=
  match d with Some s => if truthy s then toLocaleString s else dflt | None => dflt end.

Definition date_cell : option string -> string := date_or "-".

(** The parent column. *)
Definition parent_cell (cats : list Category) (c : Category) : string :=
  if opt_truthy (c_parentCategoryId c) then
    match List.find (fun p => String.eqb (c_id p) (opt_str (c_parentCategoryId c))) cats with
    | Some p => c_name p ||s "-"
    | None => "-"
    end%ecom
  else "Root Category".

Record CategoryRow := mkRow {
  row_image : option string;
  row_name : string;
  row_slug : string;
  row_parent : string;
  row_products : Z;
  row_status : string;
  row_order : Z;
  row_created : string;
  row_updated : string;
  row_updatedBy : string
}.

Definition category_row (base : string) (cats : list Category) (c : Category) : CategoryRow :=
  mkRow (if opt_truthy (c_imageUrl c) then Some (getImageUrl base (c_imageUrl c)) else None)
    (c_name c) (c_slug c) (parent_cell cats c) (c_productCount c)
    (if c_isActive c then "Active" else "Inactive") (c_sortOrder c)
    (date_cell (c_createdAt c)) (date_cell (c_updatedAt c)) (opt_or_else (c_updatedBy c) "-").

Inductive ListView :=
| VLoading
| VEmpty
| VTable (rows : list CategoryRow).

Definition list_view (base : string) (st : State) : ListView :=
  if loading st then VLoading
  else match filteredCategories st with
       | [] => VEmpty
       | cs => VTable (category_row base (items st) <$> cs)
       end.

(** The details view (lines 610-760). *)
Record CategoryDetails := mkDetails {
  d_image : option string;
  d_name : string;
  d_slug : string;
  d_order : Z;
  d_description : string;
  d_metaTitle : string;
  d_metaDescription : string;
  d_metaKeywords : string;
  d_products : Z;
  d_status : string;
  d_created : string;
  d_createdBy : string;
  d_updated : string;
  d_updatedBy : string
}.

Definition category_details (base : string) (c : Category) : CategoryDetails :=
  mkDetails (if opt_truthy (c_imageUrl c) then Some (getImageUrl base (c_imageUrl c)) else None)
    (c_name c) (c_slug c) (c_sortOrder c) (c_description c ||s "No description")%ecom
    (opt_or_else (c_metaTitle c) "Not set") (opt_or_else (c_metaDescription c) "Not set")
    (opt_or_else (c_metaKeywords c) "Not set") (c_productCount c)
    (if c_isActive c then "Active" else "Inactive")
    (date_or "N/A" (c_createdAt c)) (opt_or_else (c_createdBy c) "N/A")
    (date_or "N/A" (c_updatedAt c)) (opt_or_else (c_updatedBy c) "N/A").

End Views.

(** The modal's title, subtitle and submit button (lines 359-362, 579),
    the details view and the full-size image (lines 588-604). *)
Record Overlays := mkOverlays {
  modal : option (string * string * string);
  details : option Category;
  image : option string
}.

Definition overlays (st : State) : Overlays :=
  mkOverlays
    (if showModal st then
       Some (match editing st with
             | Some _ => ("Edit Category", "Update category information", "‚úì Update Category")
             | None => ("Create New Category", "Add a new category to your store", "+ Create Category")
             end)
     else None)
    (viewing st) (selectedImageUrl st).

(** ** The page as a state machine *)

Inductive CategoryEvent :=
| EFetched (r : FetchResult Category)
| EOpenCreate
| ESearch (t : string)
| EEdit (c : Category)
| ECloseModal
| EInput (i : CategoryInput)
| ESubmit (token : option string) (resp : Response) (refetch : FetchResult Category)
| EDelete (token : option string) (id : string) (confirmed : bool) (resp : Response)
          (refetch : FetchResult Category)
| EView (c : Category)
| ECloseView
| EEditFromView
| ESelectImage (url : string)
| ECloseImage
| EUploadStart
| EUploadDone (r : option string).

Definition step (base : string) (st : State) (ev : CategoryEvent) : State :=
  match ev with
  | EFetched r => fetchItems r st
  | EOpenCreate => openCreate st
  | ESearch t => set_search t st
  | EEdit c => handleEdit c st
  | ECloseModal => closeModal st
  | EInput i => set_form (apply_input i (formData st)) st
  | ESubmit tok r rf => out_state (handleSubmit base tok r rf st)
  | EDelete tok id c r rf => out_state (handleDelete base tok id c r rf st)
  | EView c => set_viewing (Some c) st
  | ECloseView => set_viewing None st
  | EEditFromView => editFromView st
  | ESelectImage u => set_image (Some u) st
  | ECloseImage => set_image None st
  | EUploadStart => uploadStart st
  | EUploadDone r => (uploadDone r st).1
  end.

Inductive reachable (base : string) : State -> Prop :=
| reach_init : reachable base initial
| reach_step st ev : reachable base st -> reachable base (step base st ev).

(** ** Properties *)

Lemma inputs_keep_uploads (base : string) (inputs : list CategoryInput) (st : State) :
  uploads (fold_left (fun s i => step base s (EInput i)) inputs st) = uploads st.
Proof. revert st. induction inputs as [|i inputs IH]; intros st; simpl; [done | by rewrite IH]. Qed.

Lemma category_submit_modal_inv (base : string) (tok : option string) (r : Response)
    (rf : FetchResult Category) (st : State) :
  modal_inv st -> modal_inv (out_state (handleSubmit base tok r rf st)).
Proof. intros Hi. unfold handleSubmit. destruct (save_target _ _). case_match; simpl; auto with ecom. Qed.

Lemma category_delete_modal_inv (base : string) (tok : option string) (id : string) (c : bool)
    (r : Response) (rf : FetchResult Category) (st : State) :
  modal_inv st -> modal_inv (out_state (handleDelete base tok id c r rf st)).
Proof. intros Hi. unfold handleDelete. destruct c; simpl; [|done]. case_match; simpl; auto with ecom. Qed.

Lemma uploadDone_modal_inv (r : option string) (st : State) :
  modal_inv st -> modal_inv (uploadDone r st).1.
Proof. unfold uploadDone. repeat case_match; simpl; apply modal_inv_frame; reflexivity. Qed.

(** C21: the category page sends the save request whatever the token: the
    request carries no [Authorization] header exactly when the token is
    missing or empty. *)
Theorem submit_ignores_token (base : string) (token : option string) (r : Response)
    (rf : FetchResult Category) (st : State) :
  exists req rest,
    out_requests (handleSubmit base token r rf st) = req :: rest /\
    req_body req = Some (category_payload (editing st) (formData st)) /\
    (req_auth req = None <-> opt_truthy token = false).
Proof.
  unfold handleSubmit. destruct (save_target _ _) as [m url].
  case_match; (eexists _, _; split; [reflexivity |]); (split; [reflexivity |]); simpl;
    (destruct token as [t|]; simpl; [|done]); destruct (truthy t); split; congruence.
Qed.

(** C28: an image upload throws away what was typed while it was in flight:
    when it completes, the form is the one of the moment the file was
    chosen, with the new image URL. *)
Theorem upload_loses_edits (base url : string) (inputs : list CategoryInput) (st : State) :
  uploads st = [] ->
  formData (uploadDone (Some url)
              (fold_left (fun s i => step base s (EInput i)) inputs (uploadStart st))).1 =
  set_image_url url (formData st).
Proof.
  intros Hu. unfold uploadDone at 1. rewrite inputs_keep_uploads. simpl. by rewrite Hu.
Qed.

Lemma upload_loses_edits_witness :
  uploads initial = [] /\
  f_name (formData (uploadDone (Some "/img/a.png")
    (fold_left (fun s i => step default_api_url s (EInput i)) [IName "Shoes"]
       (uploadStart initial))).1) = "".
Proof.
  split; [reflexivity |].
  rewrite (upload_loses_edits default_api_url "/img/a.png" [IName "Shoes"] initial) by reflexivity.
  reflexivity.
Defined.




(** An entry is being edited only while the modal form is open, in
    every state the category page reaches. *)
Theorem category_modal_invariant (base : string) (st : State) : reachable base st -> modal_inv st.
Proof.
  induction 1 as [|st ev _ IH]; [by intros [? ?] |].
  destruct ev; simpl;
    auto using category_submit_modal_inv, category_delete_modal_inv, uploadDone_modal_inv with ecom;
    try (apply (modal_inv_frame st); [reflexivity | reflexivity | exact IH]).
Qed.

Lemma category_modal_invariant_witness :
  reachable default_api_url (step default_api_url initial EOpenCreate) /\
  modal_inv (step default_api_url initial EOpenCreate).
Proof.
  assert (R : reachable default_api_url (step default_api_url initial EOpenCreate))
    by (apply reach_step, reach_init).
  split; [exact R | exact (category_modal_invariant _ _ R)].
Defined.

End Categories.
