(* ===== verification/Slider.v ===== *)
(** * The home page banner slider

    [src/components/HomeBannerSlider.tsx] shows [n >= 1] banners in a
    strip [extended = [last; b1; ...; bn; first]] moved to slide [index]
    (line 63).  The state is [index] (initially 1) and [animate]; the
    handlers are an interval that adds one every 5 s (lines 30-35), the
    previous and next buttons (lines 82-94), the dots (lines 97-111), and
    the effect on [index] (lines 38-49) that, when [index] reaches a clone
    ([n+1] or [0]), schedules three timeouts: animation off after 690 ms,
    the jump to the real slide ([1] or [n]) after 700 ms, animation on
    after 710 ms.

    [Module Slider] makes time explicit: the state holds the clock, the
    next interval tick and the pending timeouts with their due times.  A
    user event happens at the current time; [wait d] lets [d] ms pass,
    firing the ticks and the timeouts that fall due, in order of due time
    (timeouts first on a tie), through [advance], which takes fuel;
    [wait_total] shows the fuel [wait] gives is enough for every
    reachable state.  A [setIndex] to the value [index] already has does
    not re-render, so the effect does not run ([set_index]). *)

From Stdlib Require Import ZArith Lia Sorted.
From stdpp Require Import base list sets.
From S2P Require Import Prelude.

Module Slider.

Inductive action := AnimOff | SetIndex (k : Z) | AnimOn.

Record Slider := mkSlider {
  n : Z;                              (** [banners.length] *)
  index : Z;
  animate : bool;
  now : Z;
  next_tick : Z;                      (** the next firing of the interval *)
  timers : list (Z * action)          (** pending timeouts, by due time *)
}.

Definition initial (n : Z) : Slider := mkSlider n 1 true 0 5000 [].

(** Insert a timeout after those due at the same time or earlier. *)
Fixpoint schedule (t : Z * action) (ts : list (Z * action)) : list (Z * action) :=
  match ts with
  | [] => [t]
  | u :: ts' => if (t.1 <? u.1)%Z then t :: ts else u :: schedule t ts'
  end.

Definition with_index (k : Z) (s : Slider) : Slider :=
  mkSlider (n s) k (animate s) (now s) (next_tick s) (timers s).

Definition with_animate (b : bool) (s : Slider) : Slider :=
  mkSlider (n s) (index s) b (now s) (next_tick s) (timers s).

Definition with_timers (ts : list (Z * action)) (s : Slider) : Slider :=
  mkSlider (n s) (index s) (animate s) (now s) (next_tick s) ts.

Definition jump (target : Z) (s : Slider) : Slider :=
  with_timers (schedule (now s + 710, AnimOn)%Z
                 (schedule (now s + 700, SetIndex target)%Z
                    (schedule (now s + 690, AnimOff)%Z (timers s)))) s.

(** The effect on [index]: [extended.length - 1 = n + 1]. *)
Definition effect (s : Slider) : Slider :=
  let s := if Z.eqb (index s) (n s + 1) then jump 1 s else s in
  if Z.eqb (index s) 0 then jump (n s) s else s.

Definition set_index (k : Z) (s : Slider) : Slider :=
  if Z.eqb k (index s) then s else effect (with_index k s).

Definition prev (s : Slider) : Slider := set_index (index s - 1) s.
Definition next (s : Slider) : Slider := set_index (index s + 1) s.
Definition dot (idx : nat) (s : Slider) : Slider := set_index (Z.of_nat idx + 1) s.

Definition fire (a : action) (s : Slider) : Slider :=
  match a with
  | AnimOff => with_animate false s
  | SetIndex k => set_index k s
  | AnimOn => with_animate true s
  end.

Definition tick (s : Slider) : Slider :=
  let s := mkSlider (n s) (index s) (animate s) (next_tick s) (next_tick s + 5000)%Z (timers s) in
  set_index (index s + 1) s.

(** Let time run up to [target], firing what falls due in order. *)
Fixpoint advance (fuel : nat) (target : Z) (s : Slider) : option Slider :=
  match fuel with
  | O => None
  | S f =>
      match timers s with
      | (due, a) :: rest =>
          if (due <=? target)%Z && (due <=? next_tick s)%Z then
            advance f target (fire a (mkSlider (n s) (index s) (animate s) due (next_tick s) rest))
          else if (next_tick s <=? target)%Z then advance f target (tick s)
          else Some (mkSlider (n s) (index s) (animate s) target (next_tick s) (timers s))
      | [] =>
          if (next_tick s <=? target)%Z then advance f target (tick s)
          else Some (mkSlider (n s) (index s) (animate s) target (next_tick s) (timers s))
      end
  end.

(** Each tick schedules at most three timeouts, and there is at most one
    tick per 5 s. *)
Definition wait_fuel (d : Z) (s : Slider) : nat := length (timers s) + 4 * (Z.to_nat (d / 5000) + 2) + 1.

Definition wait (d : Z) (s : Slider) : option Slider := advance (wait_fuel d s) (now s + d)%Z s.

(** The slide on screen: a cell of [extended], or none past its ends. *)
Definition extended {A} (banners : list A) : list A :=
  match banners with
  | [] => []
  | b :: _ => (match last banners with Some l => [l] | None => [] end) ++ banners ++ [b]
  end.

Definition shown {A} (banners : list A) (s : Slider) : option A :=
  if (index s <? 0)%Z then None else extended banners !! Z.to_nat (index s).

(** The dot drawn white. *)
Definition active_dot (s : Slider) : option Z :=
  if (1 <=? index s)%Z && (index s <=? n s)%Z then Some (index s - 1)%Z else None.

Inductive event := EPrev | ENext | EDot (idx : nat) | EWait (d : Z).

Definition step (s : Slider) (e : event) : option Slider :=
  match e with
  | EPrev => Some (prev s)
  | ENext => Some (next s)
  | EDot idx => if (Z.of_nat idx <? n s)%Z then Some (dot idx s) else None
  | EWait d => if (0 <=? d)%Z then wait d s else None
  end.

Inductive reachable (n0 : Z) : Slider -> Prop :=
| reach_init : reachable n0 (initial n0)
| reach_step s e s' : reachable n0 s -> step s e = Some s' -> reachable n0 s'.

(** ** Well-formed states *)

(** The banners are there, every pending jump goes to a real slide, and
    the clock has not passed the next tick. *)
Definition wf (s : Slider) : Prop :=
  (1 <= n s)%Z /\ (now s <= next_tick s)%Z /\
  Forall (fun t => match t.2 with SetIndex k => (1 <= k <= n s)%Z | _ => True end) (timers s).

Definition out_of_range (s : Slider) : Prop := (index s < 1)%Z \/ (n s < index s)%Z.

Definition jump_pending (s : Slider) : Prop := exists due k, (due, SetIndex k) ∈ timers s.

(** The invariant: well-formed, and a jump back is pending whenever the
    strip is on a clone or past it. *)
Definition inv (s : Slider) : Prop := wf s /\ (out_of_range s -> jump_pending s).

Lemma schedule_elem (x t : Z * action) (ts : list (Z * action)) :
  x ∈ schedule t ts <-> x = t \/ x ∈ ts.
Proof.
  induction ts as [|u ts IH]; simpl; [set_solver |].
  destruct (t.1 <? u.1)%Z; rewrite ?elem_of_cons, ?IH; tauto.
Qed.

Lemma schedule_length (t : Z * action) (ts : list (Z * action)) :
  length (schedule t ts) = S (length ts).
Proof. induction ts as [|u ts IH]; simpl; [done |]. destruct (t.1 <? u.1)%Z; simpl; auto. Qed.

Lemma schedule_Forall (P : Z * action -> Prop) (t : Z * action) (ts : list (Z * action)) :
  P t -> Forall P ts -> Forall P (schedule t ts).
Proof. rewrite !Forall_forall. intros Ht Hts x. rewrite schedule_elem. naive_solver. Qed.

Ltac slider_simpl := unfold set_index, effect, jump, with_index, with_timers, with_animate in *; cbn -[schedule] in *.

Lemma set_index_fields (k : Z) (s : Slider) :
  n (set_index k s) = n s /\ now (set_index k s) = now s /\ next_tick (set_index k s) = next_tick s /\
  animate (set_index k s) = animate s.
Proof. slider_simpl. repeat case_match; simpl; auto. Qed.

(** The effect on a real slide schedules nothing. *)
Lemma set_index_in_range (k : Z) (s : Slider) :
  (1 <= n s)%Z -> (1 <= k <= n s)%Z -> set_index k s = with_index k s.
Proof.
  intros Hn Hk. slider_simpl. destruct (Z.eqb_spec k (index s)) as [->|].
  - by destruct s.
  - destruct (Z.eqb_spec k (n s + 1)); [lia |]. cbn. destruct (Z.eqb_spec k 0); [lia | reflexivity].
Qed.

Lemma set_index_wf (k : Z) (s : Slider) : wf s -> wf (set_index k s).
Proof.
  intros (Hn & Hnow & Hts). unfold wf. destruct (set_index_fields k s) as (-> & -> & -> & _).
  split_and!; [done | done |]. slider_simpl.
  repeat case_match; simpl in *; arith_bools; repeat apply schedule_Forall; simpl; auto with lia.
Qed.

Lemma set_index_length (k : Z) (s : Slider) :
  (1 <= n s)%Z -> length (timers (set_index k s)) <= length (timers s) + 3.
Proof.
  intros Hn. slider_simpl. repeat case_match; simpl in *; arith_bools; rewrite ?schedule_length; simpl; lia.
Qed.

(** Moving by one, or onto a real slide, keeps a jump pending when the
    strip leaves the real slides. *)
Lemma set_index_inv (k : Z) (s : Slider) :
  inv s -> (k = index s - 1 \/ k = index s + 1 \/ 1 <= k <= n s)%Z -> inv (set_index k s).
Proof.
  intros [Hwf Hp] Hk. split; [by apply set_index_wf |].
  destruct Hwf as (Hn & _ & _). unfold out_of_range, jump_pending in *. slider_simpl.
  destruct (Z.eqb_spec k (index s)) as [->|]; [done |].
  destruct (Z.eqb_spec k (n s + 1)); cbn -[schedule]; destruct (Z.eqb_spec k 0); cbn -[schedule]; try lia.
  - intros _. do 2 eexists. rewrite !schedule_elem. right; left. reflexivity.
  - intros _. do 2 eexists. rewrite !schedule_elem. right; left. reflexivity.
  - intros Hout. apply Hp. lia.
Qed.

Lemma fire_inv (due : Z) (a : action) (rest : list (Z * action)) (s : Slider) :
  inv s -> timers s = (due, a) :: rest -> (due <= next_tick s)%Z ->
  inv (fire a (mkSlider (n s) (index s) (animate s) due (next_tick s) rest)).
Proof.
  intros [(Hn & Hnow & Hts) Hp] Ht Hdue. unfold jump_pending in *. rewrite Ht in Hts, Hp. apply Forall_cons in Hts as [Ha Hrest].
  assert (Hs1 : wf (mkSlider (n s) (index s) (animate s) due (next_tick s) rest)) by (split_and!; done).
  destruct a as [|k|]; simpl in Ha; cbn [fire].
  - split; [done |]. intros Hout. destruct (Hp Hout) as (d & k & Hk).
    apply elem_of_cons in Hk as [Hk | Hk]; [discriminate | by exists d, k].
  - rewrite set_index_in_range by done. split; [done |]. unfold out_of_range. simpl. lia.
  - split; [done |]. intros Hout. destruct (Hp Hout) as (d & k & Hk).
    apply elem_of_cons in Hk as [Hk | Hk]; [discriminate | by exists d, k].
Qed.

Lemma tick_inv (s : Slider) : inv s -> inv (tick s).
Proof.
  intros [(Hn & Hnow & Hts) Hp]. unfold tick. apply set_index_inv; [| simpl; lia].
  split; [split_and!; simpl; auto with lia | exact Hp].
Qed.

Lemma stop_inv (target : Z) (s : Slider) :
  inv s -> (target < next_tick s)%Z -> inv (mkSlider (n s) (index s) (animate s) target (next_tick s) (timers s)).
Proof. intros [(Hn & Hnow & Hts) Hp] Ht. split; [split_and!; simpl; auto with lia | exact Hp]. Qed.

Lemma advance_inv (f : nat) (target : Z) (s s' : Slider) :
  inv s -> advance f target s = Some s' -> inv s'.
Proof.
  revert s. induction f as [|f IH]; intros s Hi; simpl; [discriminate |].
  destruct (timers s) as [|[due a] rest] eqn:Ht.
  - destruct (next_tick s <=? target)%Z eqn:E; [by apply IH, tick_inv |].
    intros [= <-]. pose proof (stop_inv target s Hi) as Hs. rewrite Ht in Hs. apply Hs; lia.
  - destruct ((due <=? target)%Z && (due <=? next_tick s)%Z) eqn:E1.
    + apply andb_true_iff in E1 as [_ E1]. apply IH. apply (fire_inv due); auto with lia.
    + destruct (next_tick s <=? target)%Z eqn:E; [by apply IH, tick_inv |].
      intros [= <-]. pose proof (stop_inv target s Hi) as Hs. rewrite Ht in Hs. apply Hs; lia.
Qed.

Lemma step_inv (s s' : Slider) (e : event) : inv s -> step s e = Some s' -> inv s'.
Proof.
  intros Hi. destruct e as [| | idx | d]; simpl.
  - intros [= <-]. apply set_index_inv; [done | lia].
  - intros [= <-]. apply set_index_inv; [done | lia].
  - case_match; [| discriminate]. intros [= <-]. apply set_index_inv; [done | lia].
  - case_match; [| discriminate]. apply advance_inv, Hi.
Qed.

Lemma reachable_inv (n0 : Z) (s : Slider) : (1 <= n0)%Z -> reachable n0 s -> inv s.
Proof.
  intros Hn. induction 1 as [|s e s' _ IH Hs]; [| by eapply step_inv].
  split; [split_and!; simpl; auto with lia | unfold out_of_range; simpl; lia].
Qed.

(** ** Termination of [wait] *)

(** The ticks of the interval still to come before [target]. *)
Definition ticks_left (target : Z) (s : Slider) : nat :=
  if (next_tick s <=? target)%Z then S (Z.to_nat ((target - next_tick s) / 5000)) else O.

Lemma tick_fields (s : Slider) :
  n (tick s) = n s /\ next_tick (tick s) = (next_tick s + 5000)%Z /\ now (tick s) = next_tick s.
Proof.
  unfold tick; cbv zeta.
  match goal with |- context [set_index ?k ?t] => destruct (set_index_fields k t) as (-> & -> & -> & _) end.
  done.
Qed.

Lemma ticks_left_tick (target : Z) (s : Slider) :
  (next_tick s <= target)%Z -> ticks_left target s = S (ticks_left target (tick s)).
Proof.
  intros H. unfold ticks_left. destruct (tick_fields s) as (_ & -> & _).
  destruct (Z.leb_spec (next_tick s) target) as [_|]; [| lia].
  destruct (Z.leb_spec (next_tick s + 5000) target).
  - f_equal. replace (target - next_tick s)%Z with ((target - (next_tick s + 5000)) + 1 * 5000)%Z by lia.
    rewrite Z.div_add by lia. rewrite Z2Nat.inj_add; [lia | | lia]. apply Z.div_pos; lia.
  - f_equal. rewrite Z.div_small by lia. done.
Qed.

Lemma fire_timers (a : action) (s : Slider) :
  (1 <= n s)%Z -> (forall k, a = SetIndex k -> 1 <= k <= n s)%Z -> timers (fire a s) = timers s.
Proof.
  intros Hn Ha. destruct a as [|k|]; simpl; [done | | done].
  rewrite set_index_in_range; auto.
Qed.

Lemma fire_next (a : action) (s : Slider) : next_tick (fire a s) = next_tick s.
Proof. destruct a; simpl; [done | apply set_index_fields | done]. Qed.

Lemma tick_length (s : Slider) : (1 <= n s)%Z -> length (timers (tick s)) <= length (timers s) + 3.
Proof.
  intros Hn. unfold tick; cbv zeta.
  exact (set_index_length _ (mkSlider (n s) (index s) (animate s) (next_tick s) (next_tick s + 5000) (timers s)) Hn).
Qed.

Lemma advance_some (f : nat) (target : Z) (s : Slider) :
  inv s -> length (timers s) + 4 * ticks_left target s < f -> is_Some (advance f target s).
Proof.
  revert s. induction f as [|f IH]; intros s Hi Hf; [lia |]. simpl.
  pose proof Hi as [(Hn & Hnow & Hts) _].
  assert (Htick : (next_tick s <= target)%Z -> is_Some (advance f target (tick s))).
  { intros Hle. apply IH; [by apply tick_inv |]. pose proof (tick_length s Hn).
    rewrite (ticks_left_tick target s Hle) in Hf. lia. }
  destruct (timers s) as [|[due a] rest] eqn:Ht.
  - destruct (Z.leb_spec (next_tick s) target); [by apply Htick | by eexists].
  - destruct ((due <=? target)%Z && (due <=? next_tick s)%Z) eqn:E1.
    + arith_bools. apply IH; [apply (fire_inv due); auto |].
      apply Forall_cons in Hts as [Ha _].
      rewrite fire_timers; simpl; [| done | intros k ->; exact Ha].
      match goal with |- context [ticks_left target ?t] =>
        assert (E : ticks_left target t = ticks_left target s)
          by (unfold ticks_left; rewrite fire_next; reflexivity) end.
      rewrite E. simpl in Hf. lia.
    + destruct (Z.leb_spec (next_tick s) target); [by apply Htick | by eexists].
Qed.

Lemma ticks_left_bound (d : Z) (s : Slider) :
  (0 <= d)%Z -> (now s <= next_tick s)%Z -> ticks_left (now s + d) s <= Z.to_nat (d / 5000) + 1.
Proof.
  intros Hd Hnow. unfold ticks_left. destruct (Z.leb_spec (next_tick s) (now s + d)); [| lia].
  enough ((now s + d - next_tick s) / 5000 <= d / 5000)%Z by (apply (f_equal Z.to_nat) in H0 || idtac; lia).
  apply Z.div_le_mono; lia.
Qed.

(** ** Sorted timeouts *)






Lemma reach_next (n0 : Z) (s : Slider) : reachable n0 s -> reachable n0 (next s).
Proof. intros H. by apply (reach_step n0 s ENext). Qed.

(** ** Properties *)

(** C39: waiting always completes: from every state the slider reaches, the
    ticks and timeouts due in any span of time are fired in finitely many
    steps (the fuel [wait] gives is enough). *)
Theorem wait_total (n0 : Z) (s : Slider) (d : Z) :
  (1 <= n0)%Z -> reachable n0 s -> (0 <= d)%Z -> is_Some (wait d s).
Proof.
  intros Hn Hr Hd. pose proof (reachable_inv n0 s Hn Hr) as Hi.
  apply advance_some; [done |]. unfold wait_fuel.
  pose proof (ticks_left_bound d s Hd (proj1 (proj2 (proj1 Hi)))). lia.
Qed.

Lemma wait_total_witness :
  (1 <= 3)%Z /\ reachable 3 (initial 3) /\ (0 <= 20000)%Z /\ is_Some (wait 20000 (initial 3)).
Proof.
  split_and!; [lia | constructor | lia |]. apply (wait_total 3 (initial 3) 20000); [lia | constructor | lia].
Defined.

(** C38: whenever the strip shows a clone or runs past the ends, a jump back
    to a real slide is pending. *)
Theorem jump_back_pending (n0 : Z) (s : Slider) :
  (1 <= n0)%Z -> reachable n0 s -> out_of_range s ->
  exists due k, (due, SetIndex k) ∈ timers s /\ (1 <= k <= n s)%Z.
Proof.
  intros Hn Hr Hout. destruct (reachable_inv n0 s Hn Hr) as [(_ & _ & Hts) Hp].
  destruct (Hp Hout) as (due & k & Hk). exists due, k. split; [done |].
  rewrite Forall_forall in Hts. apply (Hts _ Hk).
Qed.

Lemma jump_back_pending_witness :
  (1 <= 3)%Z /\ reachable 3 (next (next (next (initial 3)))) /\ out_of_range (next (next (next (initial 3)))) /\
  exists due k, (due, SetIndex k) ∈ timers (next (next (next (initial 3)))) /\ (1 <= k <= 3)%Z.
Proof.
  assert (R : reachable 3 (next (next (next (initial 3)))))
    by (repeat apply reach_next; apply reach_init).
  assert (O : out_of_range (next (next (next (initial 3))))) by (right; reflexivity).
  split_and!; [lia | exact R | exact O | exact (jump_back_pending 3 _ ltac:(lia) R O)].
Defined.



(** Clicks near the clone misbehave.  Two quick clicks on "next" at
    the last banner move the strip past its end, so that no banner is
    shown until the pending jump brings back the first one; going back from
    the clone within 700 ms leaves the strip on the last banner, and the
    jump, which is never cancelled, then moves it to the first one. *)
Theorem clone_clicks_glitch :
  (let s := next (next (next (next (initial 3)))) in
   index s = 5%Z /\ shown [10; 20; 30] s = None /\ option_map index (wait 700 s) = Some 1%Z) /\
  (let s := prev (next (next (next (initial 3)))) in
   shown [10; 20; 30] s = Some 30 /\ option_map (shown [10; 20; 30]) (wait 700 s) = Some (Some 10)).
Proof. vm_compute. auto. Qed.

End Slider.
