(* ===== verification/AdminLayout.v ===== *)
(** * The admin layout: navigation and user badge

    [src/app/admin/layout.tsx] wraps every admin page.  [Module AdminLayout]
    models:

    - the navigation list (lines 26-34) and the highlighting of its
      entries, [pathname === item.href || pathname?.startsWith(item.href + '/')]
      (line 128);
    - the user badge that the mount effect (lines 43-86) computes from
      [localStorage]: the e-mail ([userEmail], or [admin@ecom.com]), the
      name read from [JSON.parse(userData)] or, when a name is missing,
      from the payload of the JWT in [authToken], and the initial.  The
      JWT payload is [token.split('.')[1]] with [-] and [_] turned into
      [+] and [/] (modelled); the decoding of that text ([atob],
      [decodeURIComponent], [JSON.parse]) is a parameter [decode_payload]
      of the section, [None] when it throws;
    - the sidebar toggle (lines 135, 194, 208).

    Characters are upper-cased as ASCII letters ([upper_ascii]).
    [login_badge] joins this file with [Session.v] and [Json.v]: after a
    successful login the badge shows the names the API returned. *)

From Stdlib Require Import String Ascii.
From stdpp Require Import base list gmap strings.
From S2P Require Import Prelude Json Cookie Middleware Session JsNumber.

Open Scope string_scope.

Module AdminLayout.

Import Json JsNumber.

(** ** Navigation *)

Definition navigation : list (string * string) :=
  [("Dashboard", "/admin"); ("Products", "/admin/products"); ("Categories", "/admin/categories");
   ("Brands", "/admin/brands"); ("Manufacturers", "/admin/manufacturers");
   ("Orders", "/admin/orders"); ("Customers", "/admin/customers")].

Definition isActive (pathname href : string) : bool :=
  String.eqb pathname href || startsWith pathname (href +:+ "/").

(** The names of the highlighted entries. *)
Definition active_items (pathname : string) : list string :=
  fst <$> filter (fun it => isActive pathname it.2 = true) navigation.

(** The sidebar's bottom section (lines 153-167): "View Store" links to
    the storefront; "Settings" is a button without handler. *)
Definition store_href : string := "/".

(** The sidebar: the menu button toggles it, a link or the overlay closes it. *)
Inductive SidebarEvent := EToggle | ELink | EOverlay.

Definition sidebar_step (open_ : bool) (e : SidebarEvent) : bool :=
  match e with EToggle => negb open_ | ELink | EOverlay => false end.

(** ** The user badge *)

Record Badge := mkBadge { userName : string; userInitial : string; userEmail : string }.

(** [s[0].toUpperCase()] *)
Definition initial_of (s : string) : string :=
  match s with String c _ => String (upper_ascii c) "" | EmptyString => "" end.

(** [base64Url.replace(/-/g, '+').replace(/_/g, '/')] *)
Definition b64url_to_b64 (s : string) : string :=
  string_of_list_ascii (map (fun c => if Ascii.eqb c "-" then "+"%char
                                      else if Ascii.eqb c "_" then "/"%char else c)
                            (list_ascii_of_string s)).

Section Badge.

Variable decode_payload : string -> option (list (string * jval)).

(** Lines 57-72: the names completed from the token, when one is missing. *)
Definition from_token (storage : gmap string string) (firstName lastName : string) : string * string :=
  if truthy firstName && truthy lastName then (firstName, lastName) else
  match storage !! "authToken" with
  | Some token =>
      if negb (truthy token) then (firstName, lastName) else
      match Cookie.split_all "." token with
      | _ :: base64Url :: _ =>
          match decode_payload (b64url_to_b64 base64Url) with
          | Some td => (firstName ||s jval_or_empty (get td "firstName"),
                        lastName ||s jval_or_empty (get td "lastName"))%ecom
          | None => (firstName, lastName)
          end
      | _ => (firstName, lastName)    (** [undefined.replace] throws *)
      end
  | None => (firstName, lastName)
  end.

Definition badge (storage : gmap string string) : Badge :=
  let email := opt_or_else (storage !! "userEmail") "admin@ecom.com" in
  let fallback := mkBadge "Admin User" (initial_of email) email in
  match storage !! "userData" with
  | Some stored =>
      if negb (truthy stored) then fallback else
      match parse_object stored with
      | Some userData =>
          let '(firstName, lastName) :=
            from_token storage (jval_or_empty (get userData "firstName"))
                               (jval_or_empty (get userData "lastName")) in
          mkBadge (js_trim (firstName +:+ " " +:+ lastName) ||s "Admin User")%ecom
                  (if truthy firstName then initial_of firstName else initial_of email) email
      | None => fallback
      end
  | None => fallback
  end.

End Badge.

(** ** Properties *)

Lemma initial_of_length (s : string) : s <> "" -> String.length (initial_of s) = 1.
Proof. by destruct s. Qed.

Lemma opt_or_else_ne (o : option string) (b : string) : b <> "" -> opt_or_else o b <> "".
Proof. destruct o; simpl; [apply or_else_ne | done]. Qed.

Lemma get_user_fields (u : Session.ApiUser) :
  get (defined_members (Session.user_fields u)) "firstName" = Session.user_firstName u /\
  get (defined_members (Session.user_fields u)) "lastName" = Session.user_lastName u.
Proof. destruct u as [[| |?] [| |?] [| |?] [| |?]]; split; reflexivity. Qed.

Lemma jval_or_empty_truthy (f : string) : truthy f = true -> jval_or_empty (JString f) = f.
Proof. intros H. simpl. unfold or_else. by rewrite H. Qed.

(** On every admin page but the dashboard two entries are highlighted:
    [Dashboard], whose [/admin] prefixes every admin path, and the page's
    own section. *)
Theorem dashboard_always_active (r : string) :
  Forall (fun it => it.2 <> "/admin" -> active_items (it.2 +:+ "/" +:+ r) = ["Dashboard"; it.1])
    navigation /\
  "Dashboard" ∈ active_items ("/admin/" +:+ r).
Proof.
  split; [repeat constructor; intros H; [by contradiction H | ..]; vm_compute; reflexivity |].
  unfold active_items, navigation. rewrite filter_cons_True; [left |].
  unfold isActive. change ("/admin" +:+ "/") with "/admin/". rewrite startsWith_app. apply orb_true_r.
Qed.

(** The badge always has a one-letter initial, a name and an e-mail,
    whatever [localStorage] holds. *)
Theorem badge_complete (decode_payload : string -> option (list (string * jval)))
    (storage : gmap string string) :
  String.length (userInitial (badge decode_payload storage)) = 1 /\
  userName (badge decode_payload storage) <> "" /\ userEmail (badge decode_payload storage) <> "".
Proof.
  assert (He : opt_or_else (storage !! "userEmail") "admin@ecom.com" <> "") by (apply opt_or_else_ne; done).
  unfold badge. repeat case_match; simpl; split_and!; auto using initial_of_length with ecom.
  all: try (apply initial_of_length; by apply truthy_true).
Qed.

(** After a successful login whose user has a first and a last name,
    the admin layout shows that name, its initial and the e-mail the login
    stored: the layout reads back what the login page wrote, through
    [JSON.stringify] and [JSON.parse]. *)
Theorem login_badge (decode_payload : string -> option (list (string * jval)))
    (form : Session.LoginForm) (access tok : jval) (u : Session.ApiUser) (b : Session.Browser)
    (t f l : string) :
  Session.jval_or access tok = JString t -> truthy t = true ->
  Session.user_firstName u = JString f -> Session.user_lastName u = JString l ->
  truthy f = true -> truthy l = true ->
  badge decode_payload (Session.storage (Session.handleSubmit form (Session.RespOk access tok (Some u)) b)) =
    mkBadge (js_trim (f +:+ " " +:+ l) ||s "Admin User")%ecom (initial_of f)
      (Session.jval_or_str (Session.user_email u) (Session.email form) ||s "admin@ecom.com")%ecom.
Proof.
  intros Hj Ht Hf Hl Hft Hlt. unfold Session.handleSubmit. simpl. rewrite Hj, Ht. simpl.
  unfold badge. simplify_map_eq. rewrite parse_object_stringify. destruct (get_user_fields u) as [-> ->]. rewrite Hf, Hl.
  rewrite !jval_or_empty_truthy by done. unfold from_token. rewrite Hft, Hlt. simpl. by rewrite Hft.
Qed.

Lemma login_badge_witness :
  Session.jval_or (JString "tok") JUndefined = JString "tok" /\ truthy "tok" = true /\
  truthy "Ada" = true /\ truthy "Lovelace" = true /\
  badge (fun _ => None) (Session.storage (Session.handleSubmit (Session.mkLoginForm "ada@x.io" "pw")
    (Session.RespOk (JString "tok") JUndefined
       (Some (Session.mkApiUser (JString "1") (JString "ada@x.io") (JString "Ada") (JString "Lovelace"))))
    Session.init)) = mkBadge "Ada Lovelace" "A" "ada@x.io".
Proof.
  split_and!; [reflexivity | reflexivity | reflexivity | reflexivity |].
  rewrite (login_badge (fun _ => None) (Session.mkLoginForm "ada@x.io" "pw") (JString "tok") JUndefined
    (Session.mkApiUser (JString "1") (JString "ada@x.io") (JString "Ada") (JString "Lovelace"))
    Session.init "tok" "Ada" "Lovelace"); reflexivity.
Defined.

End AdminLayout.
