(* ===== verification/AdminProducts.v ===== *)
(** * The admin product list

    [src/app/admin/products/page.tsx] fetches [GET {apiUrl}/api/Products]
    (lines 35-71), turns each item of [data.data.items] into a row
    (lines 49-63), counts the rows in low stock and out of stock (lines
    73-74), and shows a table (lines 193-270), a details view (lines
    278-383) and a delete confirmation (lines 385-419).

    [Module AdminProducts] models the API item ([ApiProduct]: a missing
    member is [None]), the row the page builds from it ([format]), the
    counts, the three cards, the table rows with their edit links, the
    delete dialog, and the page state with its events.  The two date formats
    ([toLocaleDateString('en-US', ...)]) are parameters of the section.
    The delete button of the confirmation only closes it (line 406-409):
    the model has the same step, and [delete_keeps_products] states it. *)

From Stdlib Require Import String ZArith Lia.
From stdpp Require Import base list strings.
From S2P Require Import Prelude JsNumber.

Open Scope string_scope.

Module AdminProducts.

Import JsNumber.

(** ** Data *)

Record ApiProduct := mkApiProduct {
  a_id : string;
  a_name : string;
  a_categoryName : option string;
  a_price : option num;
  a_stockQuantity : option Z;
  a_shortDescription : option string;
  a_sku : option string;
  a_createdAt : option string;
  a_updatedAt : option string;
  a_updatedBy : option string
}.

Record Product := mkProduct {
  id : string;
  name : string;
  categoryName : string;
  price : num;
  stock : Z;
  status : string;
  image : string;
  sales : Z;
  shortDescription : string;
  sku : string;
  createdAt : string;
  updatedAt : string;
  updatedBy : string;
  description : option string;   (** never set by the page *)
  category : option string       (** never set by the page *)
}.

(** [p.stockQuantity > 10 ? 'In Stock' : p.stockQuantity > 0 ? 'Low Stock'
    : 'Out of Stock']: a missing quantity compares false. *)
Definition stock_status (q : option Z) : string :=
  match q with
  | Some n => if (10 <? n)%Z then "In Stock" else if (0 <? n)%Z then "Low Stock" else "Out of Stock"
  | None => "Out of Stock"
  end.

(** [p.stockQuantity || 0] *)
Definition stock_or_zero (q : option Z) : Z :=
  match q with Some n => n | None => 0%Z end.

(** [p.price || 0] *)
Definition price_or_zero (p : option num) : num :=
  match p with Some x => num_or x (Dec 0 0) | None => Dec 0 0 end.

Section Format.

Variable toLocaleDateString : option string -> string.

Definition format (p : ApiProduct) : Product :=
  mkProduct (a_id p) (a_name p) (opt_or_else (a_categoryName p) "Uncategorized")
    (price_or_zero (a_price p)) (stock_or_zero (a_stockQuantity p)) (stock_status (a_stockQuantity p))
    "📦" 0 (opt_or_else (a_shortDescription p) "") (opt_or_else (a_sku p) "")
    (toLocaleDateString (a_createdAt p))
    (if opt_truthy (a_updatedAt p) then toLocaleDateString (a_updatedAt p) else "")
    (opt_or_else (a_updatedBy p) "N/A") None None.

(** The response of the list request: [response.ok], and then
    [data.success] and [data.data?.items]. *)
Inductive FetchResponse :=
| FOk (success : bool) (items : option (list ApiProduct))
| FNotOk
| FError.

Record State := mkState {
  products : list Product;
  loading : bool;
  viewingProduct : option Product;
  deleteConfirm : option string
}.

Definition initial : State := mkState [] true None None.

Definition fetchProducts (r : FetchResponse) (st : State) : State :=
  let ps := match r with
            | FOk true (Some items) => format <$> items
            | _ => products st
            end in
  mkState ps false (viewingProduct st) (deleteConfirm st).

Inductive event :=
| EFetched (r : FetchResponse)
| EView (p : Product)
| ECloseView
| EAskDelete (id : string)
| ECancelDelete
| EConfirmDelete.

Definition step (st : State) (e : event) : State :=
  match e with
  | EFetched r => fetchProducts r st
  | EView p => mkState (products st) (loading st) (Some p) (deleteConfirm st)
  | ECloseView => mkState (products st) (loading st) None (deleteConfirm st)
  | EAskDelete i => mkState (products st) (loading st) (viewingProduct st) (Some i)
  | ECancelDelete | EConfirmDelete => mkState (products st) (loading st) (viewingProduct st) None
  end.

End Format.

(** ** The counts and the table *)

Definition count_status (s : string) (ps : list Product) : nat :=
  length (filter (fun p => status p = s) ps).

Definition lowStockCount (ps : list Product) : nat := count_status "Low Stock" ps.
Definition outOfStockCount (ps : list Product) : nat := count_status "Out of Stock" ps.

(** [{n} product{n !== 1 ? 's' : ''}] *)
Definition count_label (n : nat) : string :=
  nat_to_string n +:+ " product" +:+ (if (n =? 1)%nat then "" else "s").

(** The badge colour of a status (lines 227-231). *)
Inductive Badge := Green | Orange | Red.

Definition status_badge (s : string) : Badge :=
  if String.eqb s "In Stock" then Green else if String.eqb s "Low Stock" then Orange else Red.

(** The details view (lines 278-383): the fields it prints. *)
Record Details := mkDetails {
  d_image : string; d_name : string; d_description : option string; d_category : option string;
  d_status : string; d_sku : string; d_price : num; d_stock : Z; d_sales : Z;
  d_created : string; d_updated : string; d_updatedBy : string
}.

Definition details (p : Product) : Details :=
  mkDetails (image p) (name p) (description p) (category p) (status p) (sku p) (price p)
    (stock p) (sales p) (createdAt p) (updatedAt p) (updatedBy p).

(** The header's "Add Product" link (lines 87-92). *)
Definition add_href : string := "/admin/products/add".

(** The three cards (lines 95-144): a title, a number and a caption. *)
Definition stat_cards (ps : list Product) : list (string * nat * string) := [
  ("Total Products", length ps, "All Categories");
  ("Low Stock", lowStockCount ps, "Need Restocking");
  ("Out of Stock", outOfStockCount ps, "Urgent Attention")].

(** A row of the table (lines 193-270): its cells, the badge of its
    status and the target of its edit link
    ([`/admin/products/edit/${product.id}`], line 253). *)
Record ProductRow := mkProductRow {
  r_image : string; r_name : string; r_category : string; r_sku : string; r_price : num;
  r_stock : Z; r_sales : Z; r_status : string; r_badge : Badge; r_updatedAt : string;
  r_updatedBy : string; r_edit_href : string
}.

Definition edit_href (p : Product) : string := "/admin/products/edit/" +:+ id p.

Definition product_row (p : Product) : ProductRow :=
  mkProductRow (image p) (name p) (categoryName p) (sku p) (price p) (stock p) (sales p)
    (status p) (status_badge (status p)) (updatedAt p) (updatedBy p) (edit_href p).

Definition table (st : State) : list ProductRow := product_row <$> products st.

(** [{deleteConfirm && (...)}] (line 385): the confirmation is shown while
    [deleteConfirm] holds an id, and a [''] id is falsy. *)
Definition delete_dialog_open (st : State) : bool := opt_truthy (deleteConfirm st).

(** The controls: a row's view and delete buttons exist for the rows of
    the table only. *)
Definition enabled (st : State) (e : event) : Prop :=
  match e with
  | EView p => p ∈ products st
  | EAskDelete i => i ∈ id <$> products st
  | _ => True
  end.

Inductive reachable (f : option string -> string) : State -> Prop :=
| reach_init : reachable f initial
| reach_step st e : reachable f st -> enabled st e -> reachable f (step f st e).

(** ** Properties *)

(** The status that the stock number shown next to it implies. *)
Definition class_of (n : Z) : string :=
  if (10 <? n)%Z then "In Stock" else if (0 <? n)%Z then "Low Stock" else "Out of Stock".

Lemma format_status (f : option string -> string) (p : ApiProduct) :
  status (format f p) = class_of (stock (format f p)).
Proof. destruct p as [? ? ? ? [q|] ? ? ? ? ?]; reflexivity. Qed.

Lemma status_cases (f : option string -> string) (p : ApiProduct) :
  status (format f p) = "In Stock" \/ status (format f p) = "Low Stock" \/ status (format f p) = "Out of Stock".
Proof. rewrite format_status. unfold class_of. repeat case_match; auto. Qed.

Lemma count_status_cons (s : string) (p : Product) (ps : list Product) :
  count_status s (p :: ps) = (if decide (status p = s) then 1 else 0) + count_status s ps.
Proof. unfold count_status. rewrite filter_cons. by case_decide. Qed.

(** Every row is in stock, low or out: the three counts add up to the
    number of rows, and each row's status agrees with the stock number it
    shows. *)
Theorem stock_counts_partition (f : option string -> string) (items : list ApiProduct) :
  count_status "In Stock" (format f <$> items) + lowStockCount (format f <$> items) +
    outOfStockCount (format f <$> items) = length items /\
  Forall (fun p => status p = class_of (stock p)) (format f <$> items).
Proof.
  split.
  - unfold lowStockCount, outOfStockCount. induction items as [|a items IH]; [done |].
    rewrite fmap_cons, !count_status_cons. cbn [length].
    destruct (status_cases f a) as [E | [E | E]]; rewrite E; repeat case_decide; simplify_eq; lia.
  - apply Forall_fmap, Forall_forall. intros a _. apply format_status.
Qed.

(** The confirmation's delete button deletes nothing: no event but a new
    fetch changes the list. *)
Theorem delete_keeps_products (f : option string -> string) (st : State) (e : event) :
  (forall r, e <> EFetched r) -> products (step f st e) = products st.
Proof. destruct e; simpl; try done. intros H. by destruct (H r). Qed.

Lemma delete_keeps_products_witness :
  (forall r, EConfirmDelete <> EFetched r) /\
  products (step (fun _ => "") (mkState [] false None (Some "p1")) EConfirmDelete) = [].
Proof.
  split; [discriminate |].
  apply (delete_keeps_products (fun _ => "") (mkState [] false None (Some "p1")) EConfirmDelete).
  discriminate.
Defined.

(** The details view never has a description or a category: the rows the
    page builds from the API leave them out. *)
Theorem details_blank (f : option string -> string) (st : State) :
  reachable f st ->
  Forall (fun p => description p = None /\ category p = None) (products st) /\
  forall p, viewingProduct st = Some p -> d_description (details p) = None /\ d_category (details p) = None.
Proof.
  induction 1 as [|st e _ [IHp IHv] He]; [split; [constructor | discriminate] |].
  destruct e as [r | p | | i | |]; simpl in *.
  - split; [| exact IHv]. destruct r as [[] [items|] | |]; try exact IHp.
    apply Forall_fmap, Forall_forall. intros a _. split; reflexivity.
  - split; [exact IHp |]. intros q [= <-]. rewrite Forall_forall in IHp. by apply IHp.
  - split; [exact IHp | discriminate].
  - split; [exact IHp | exact IHv].
  - split; [exact IHp | exact IHv].
  - split; [exact IHp | exact IHv].
Qed.

Lemma details_blank_witness :
  reachable (fun _ => "") (step (fun _ => "") initial
    (EFetched (FOk true (Some [mkApiProduct "p1" "Lamp" None None (Some 3%Z) None None None None None])))) /\
  Forall (fun p => description p = None /\ category p = None)
    (products (step (fun _ => "") initial
      (EFetched (FOk true (Some [mkApiProduct "p1" "Lamp" None None (Some 3%Z) None None None None None]))))).
Proof.
  assert (R : reachable (fun _ => "") (step (fun _ => "") initial
    (EFetched (FOk true (Some [mkApiProduct "p1" "Lamp" None None (Some 3%Z) None None None None None])))))
    by (apply reach_step; [apply reach_init | exact I]).
  split; [exact R | exact (proj1 (details_blank _ _ R))].
Defined.

(** Every row of a reachable state was built by [format], so its status
    is the class of its stock. *)
Lemma rows_formatted (f : option string -> string) (st : State) :
  reachable f st -> Forall (fun p => status p = class_of (stock p)) (products st).
Proof.
  induction 1 as [|st e _ IH _]; [constructor |].
  destruct e as [r | p | | i | |]; try exact IH. simpl.
  destruct r as [[] [items|] | |]; try exact IH.
  apply Forall_fmap, Forall_forall. intros a _. apply format_status.
Qed.

(** The badge of every row of the table agrees with the stock number the
    row shows: green above 10, orange from 1 to 10, red at 0 or below. *)
Theorem row_badge_matches_stock (f : option string -> string) (st : State) :
  reachable f st ->
  Forall (fun r => r_badge r = if (10 <? r_stock r)%Z then Green
                               else if (0 <? r_stock r)%Z then Orange else Red) (table st).
Proof.
  intros Hr. apply Forall_fmap. eapply Forall_impl; [exact (rows_formatted f st Hr) |].
  intros p Hp. simpl. rewrite Hp. unfold class_of.
  by repeat case_match.
Qed.

Lemma row_badge_matches_stock_witness :
  reachable (fun _ => "") (step (fun _ => "") initial
    (EFetched (FOk true (Some [mkApiProduct "p1" "Lamp" None None (Some 7%Z) None None None None None])))) /\
  Forall (fun r => r_badge r = if (10 <? r_stock r)%Z then Green
                               else if (0 <? r_stock r)%Z then Orange else Red)
    (table (step (fun _ => "") initial
      (EFetched (FOk true (Some [mkApiProduct "p1" "Lamp" None None (Some 7%Z) None None None None None]))))).
Proof.
  assert (R : reachable (fun _ => "") (step (fun _ => "") initial
    (EFetched (FOk true (Some [mkApiProduct "p1" "Lamp" None None (Some 7%Z) None None None None None])))))
    by (apply reach_step; [apply reach_init | exact I]).
  split; [exact R | exact (row_badge_matches_stock _ _ R)].
Defined.

(** The cards of the page: the rows in neither stock card are exactly
    those in stock, so the "Total Products" card is the sum of the two
    stock cards and the rows in stock. *)
Lemma stat_cards_add_up (f : option string -> string) (items : list ApiProduct) :
  match stat_cards (format f <$> items) with
  | [total; low; out] =>
      total.1.2 = count_status "In Stock" (format f <$> items) + low.1.2 + out.1.2
  | _ => False
  end.
Proof.
  cbn [stat_cards fst snd]. rewrite length_fmap.
  pose proof (proj1 (stock_counts_partition f items)). lia.
Qed.

End AdminProducts.
