(* ===== verification/Header.v ===== *)
(** * The storefront header and its mega menu

    [src/components/Header.tsx] is the header of every storefront page.
    [Module Header] models its state (lines 22-29, 58, 72-73) and its
    handlers:

    - the scroll handler (lines 76-97) that hides the top information bar
      when the page scrolls down and shows it again when it scrolls up,
      with the scroll position, the page's scrollable height and the
      direction kept between calls;
    - the interval that rotates the four mobile messages every 3 s
      (lines 60-66);
    - the category fetch (lines 103-124), which keeps only top-level
      categories, unless the server passed them;
    - the desktop category bar and its hover logic (lines 299-333), and the
      mega menu it opens ([src/components/MegaMenu.tsx]: the default
      subcategory of lines 47-55, the hover of line 68, the links of lines
      66 and 87);
    - the mobile drawer and its nested accordions (lines 141-144,
      338-440);
    - [handleSearch] (lines 126-130), which only logs;
    - the links it renders: the desktop delivery bar (lines 187-223), the
      logo (lines 242, 351), the category bar (lines 301-319) and the
      drawer's quick links (lines 444-455), whose targets [Routes.v]
      checks against the application's pages. *)

From Stdlib Require Import String ZArith Lia.
From stdpp Require Import base list gmap strings.
From S2P Require Import Prelude.

Open Scope string_scope.

Module Header.

(** ** Data *)

Inductive Category := mkCategory {
  cat_id : string;
  cat_name : string;
  cat_slug : string;
  cat_parent : option string;
  cat_subs : list Category        (** [subCategories], [] when absent *)
}.

(** Structural equality of categories, by a nested recursion on the
    subcategory lists. *)
Fixpoint cat_eq_dec (a b : Category) {struct a} : {a = b} + {a <> b}.
Proof.
  refine (match a, b with mkCategory i n s p xs, mkCategory i' n' s' p' ys =>
    match decide (i = i'), decide (n = n'), decide (s = s'), decide (p = p'),
      ((fix go (xs ys : list Category) {struct xs} : {xs = ys} + {xs <> ys} :=
         match xs, ys with
         | [], [] => left eq_refl
         | x :: xs', y :: ys' =>
             match cat_eq_dec x y with
             | left e1 => match go xs' ys' with left e2 => left _ | right e2 => right _ end
             | right e1 => right _
             end
         | _, _ => right _
         end) xs ys) with
    | left e1, left e2, left e3, left e4, left e5 => left _
    | right e, _, _, _, _ | _, right e, _, _, _ | _, _, right e, _, _ | _, _, _, right e, _
    | _, _, _, _, right e => right _
    end end); try congruence.
  Unshelve. all: congruence.
Defined.

#[export] Instance category_eq_dec : EqDecision Category := cat_eq_dec.

Inductive Dir := Up | Down.

Record State := mkState {
  menuOpen : bool;
  searchValue : string;
  categories : list Category;
  activeCategory : option Category;
  hovered : bool;
  showTopBar : bool;
  lastScroll : Z;
  scrollDirection : option Dir;
  currentMsg : nat;
  openParents : gmap string bool;
  openChildren : gmap string bool
}.

Definition initial (ssrCategories : list Category) : State :=
  mkState false "" ssrCategories None false true 0 None 0 ∅ ∅.

(** The four mobile messages: title, subtitle, link. *)
Definition mobileTopMessages : list (string * string * string) :=
  [("NEXT DAY DELIVERY", "GET IT JUST FOR £4.49", "/delivery/next-day");
   ("STANDARD DELIVERY", "FREE SHIPPING OVER £35", "/delivery/standard");
   ("CLICK & COLLECT", "FREE ON ORDERS OVER £30", "/delivery/click-and-collect");
   ("SPECIAL DELIVERY GUARANTEED-1PM", "ROYAL MAIL SPECIAL DELIVERY FOR £18.99", "/delivery/special")].

(** The message the mobile top bar shows: [mobileTopMessages[currentMsg]]
    (lines 160-178), [None] where JavaScript would read [undefined]. *)
Definition currentMessage (st : State) : option (string * string * string) :=
  mobileTopMessages !! currentMsg st.

(** ** Handlers *)

Definition with_scroll (last : Z) (dir : option Dir) (bar : bool) (st : State) : State :=
  mkState (menuOpen st) (searchValue st) (categories st) (activeCategory st) (hovered st) bar
    last dir (currentMsg st) (openParents st) (openChildren st).

(** [handleScroll] with [window.scrollY = current] and
    [scrollHeight - innerHeight = maxScroll]. *)
Definition handleScroll (current maxScroll : Z) (st : State) : State :=
  let dir := if (lastScroll st + 1 <? current)%Z then Some Down
             else if (current <? lastScroll st - 8)%Z then Some Up
             else scrollDirection st in
  let dir := if (maxScroll - 2 <=? current)%Z then Some Down else dir in
  let bar := match dir with
             | Some Down => if (5 <? current)%Z then false else showTopBar st
             | Some Up => if (current <? maxScroll - 80)%Z then true else showTopBar st
             | None => showTopBar st
             end in
  with_scroll current dir bar st.

Definition tickMsg (st : State) : State :=
  mkState (menuOpen st) (searchValue st) (categories st) (activeCategory st) (hovered st)
    (showTopBar st) (lastScroll st) (scrollDirection st) ((currentMsg st + 1) mod length mobileTopMessages)
    (openParents st) (openChildren st).

(** The fetch runs only when the server passed no category; a [success]
    response keeps the categories without a parent. *)
Definition fetchCategories (ssr : list Category) (resp : option (bool * list Category)) (st : State) : State :=
  match ssr, resp with
  | [], Some (true, data) =>
      mkState (menuOpen st) (searchValue st) (filter (fun c => opt_truthy (cat_parent c) = false) data)
        (activeCategory st) (hovered st) (showTopBar st) (lastScroll st) (scrollDirection st)
        (currentMsg st) (openParents st) (openChildren st)
  | _, _ => st
  end.

Definition set_menu (active : option Category) (hov : bool) (st : State) : State :=
  mkState (menuOpen st) (searchValue st) (categories st) active hov (showTopBar st)
    (lastScroll st) (scrollDirection st) (currentMsg st) (openParents st) (openChildren st).

Definition openMenu (c : Category) (st : State) : State := set_menu (Some c) true st.
Definition closeMenu (st : State) : State := set_menu None false st.

(** [onMouseEnter] of a category of the bar. *)
Definition enterCategory (c : Category) (st : State) : State :=
  match cat_subs c with [] => set_menu None false st | _ => openMenu c st end.

(** [onMouseEnter] of the open mega menu. *)
Definition enterMegaMenu (st : State) : State := set_menu (activeCategory st) true st.

(** The mega menu is rendered for a hovered category with subcategories. *)
Definition megaMenuFor (st : State) : option Category :=
  if hovered st then
    match activeCategory st with
    | Some c => match cat_subs c with [] => None | _ => Some c end
    | None => None
    end
  else None.

(** [setOpen(s => ({...s, [id]: !s[id]}))]: a missing entry is falsy. *)
Definition toggle (id : string) (m : gmap string bool) : gmap string bool :=
  <[id := negb (default false (m !! id))]> m.

Definition toggleParent (id : string) (st : State) : State :=
  mkState (menuOpen st) (searchValue st) (categories st) (activeCategory st) (hovered st)
    (showTopBar st) (lastScroll st) (scrollDirection st) (currentMsg st) (toggle id (openParents st))
    (openChildren st).

Definition toggleChild (id : string) (st : State) : State :=
  mkState (menuOpen st) (searchValue st) (categories st) (activeCategory st) (hovered st)
    (showTopBar st) (lastScroll st) (scrollDirection st) (currentMsg st) (openParents st)
    (toggle id (openChildren st)).

Definition set_drawer (b : bool) (st : State) : State :=
  mkState b (searchValue st) (categories st) (activeCategory st) (hovered st) (showTopBar st)
    (lastScroll st) (scrollDirection st) (currentMsg st) (openParents st) (openChildren st).

Definition set_search (v : string) (st : State) : State :=
  mkState (menuOpen st) v (categories st) (activeCategory st) (hovered st) (showTopBar st)
    (lastScroll st) (scrollDirection st) (currentMsg st) (openParents st) (openChildren st).

(** [handleSearch] logs the value and does nothing else. *)
Definition handleSearch (st : State) : State := st.

Inductive event :=
| EScroll (current maxScroll : Z)
| ETick
| EFetched (ssr : list Category) (resp : option (bool * list Category))
| EEnter (c : Category)
| ELeave
| EEnterMegaMenu
| EOpenDrawer
| ECloseDrawer                      (** the overlay, the close button or a link *)
| EToggleParent (id : string)
| EToggleChild (id : string)
| ESearchInput (v : string)
| ESearch.

Definition step (st : State) (e : event) : State :=
  match e with
  | EScroll c m => handleScroll c m st
  | ETick => tickMsg st
  | EFetched ssr r => fetchCategories ssr r st
  | EEnter c => enterCategory c st
  | ELeave => closeMenu st
  | EEnterMegaMenu => enterMegaMenu st
  | EOpenDrawer => set_drawer true st
  | ECloseDrawer => set_drawer false st
  | EToggleParent id => toggleParent id st
  | EToggleChild id => toggleChild id st
  | ESearchInput v => set_search v st
  | ESearch => handleSearch st
  end.

(** ** The mega menu *)

(** The subcategory whose children the middle column shows: the first
    one when the menu opens on a category, then the one last hovered. *)
Definition defaultSubCategory (main : Category) : option Category := head (cat_subs main).

Definition subLink (main sub : Category) : string := "/category/" +:+ cat_slug main +:+ "/" +:+ cat_slug sub.

Definition childLink (main sub child : Category) : string :=
  "/category/" +:+ cat_slug main +:+ "/" +:+ cat_slug sub +:+ "/" +:+ cat_slug child.

(** The middle column: the links to the children of the active
    subcategory, or the hint. *)
Definition middleColumn (main : Category) (active : option Category) : list string + string :=
  match active with
  | Some sub => match cat_subs sub with
                | [] => inr "Hover a subcategory →"
                | cs => inl (childLink main sub <$> cs)
                end
  | None => inr "Hover a subcategory →"
  end.

(** ** The two components together

    The mega menu is a component of its own, mounted while [megaMenuFor]
    is [Some]: its [activeSubCategory] is reset to the first subcategory
    whenever it mounts or its [activeMainCategory] prop changes (the
    effect of lines 47-54; the prop is compared by identity, which the
    model takes as structural equality), and set by hovering a
    subcategory (line 69). *)
Definition megaSync (before after : State) (sub : option Category) : option Category :=
  match megaMenuFor after with
  | None => None
  | Some c =>
      match megaMenuFor before with
      | Some c' => if decide (c' = c) then sub else defaultSubCategory c
      | None => defaultSubCategory c
      end
  end.

Inductive uevent :=
| EHeader (e : event)
| EEnterSub (sub : Category).

Definition ustep (s : State * option Category) (e : uevent) : State * option Category :=
  match e with
  | EHeader e => let st' := step s.1 e in (st', megaSync s.1 st' s.2)
  | EEnterSub sub => (s.1, Some sub)
  end.

(** A subcategory can be hovered only in the open mega menu. *)
Definition uenabled (s : State * option Category) (e : uevent) : Prop :=
  match e with
  | EEnterSub sub => exists main, megaMenuFor s.1 = Some main /\ sub ∈ cat_subs main
  | EHeader _ => True
  end.

Inductive ureachable (ssr : list Category) : State * option Category -> Prop :=
| ureach_init : ureachable ssr (initial ssr, None)
| ureach_step s e : ureachable ssr s -> uenabled s e -> ureachable ssr (ustep s e).

(** ** The mobile drawer *)

Inductive DrawerItem :=
| DButton (label : string) (expanded : bool)
| DLink (href label : string).

Definition is_open (m : gmap string bool) (id : string) : bool := default false (m !! id).

Definition catLink (c : Category) : DrawerItem := DLink ("/category/" +:+ cat_slug c) (cat_name c).

Definition sub_items (openC : gmap string bool) (sub : Category) : list DrawerItem :=
  match cat_subs sub with
  | [] => [catLink sub]
  | cs => DButton (cat_name sub) (is_open openC (cat_id sub)) ::
            (if is_open openC (cat_id sub) then catLink <$> cs else [])
  end.

Definition parent_items (openP openC : gmap string bool) (parent : Category) : list DrawerItem :=
  match cat_subs parent with
  | [] => [catLink parent]
  | subs => DButton (cat_name parent) (is_open openP (cat_id parent)) ::
              (if is_open openP (cat_id parent) then mjoin (sub_items openC <$> subs) else [])
  end.

(** The items of the drawer's category accordion (lines 363-438). *)
Definition drawer (st : State) : list DrawerItem :=
  mjoin (parent_items (openParents st) (openChildren st) <$> categories st).

(** The desktop bar of delivery offers (lines 187-223): four anchors with
    a title, a subtitle and a target.  The last title differs from the
    mobile message of [mobileTopMessages]. *)
Definition desktopTopLinks : list (string * string * string) :=
  [("NEXT DAY DELIVERY", "GET IT JUST FOR £4.49", "/delivery/next-day");
   ("STANDARD DELIVERY", "FREE SHIPPING OVER £35", "/delivery/standard");
   ("CLICK & COLLECT", "FREE ON ORDERS OVER £30", "/delivery/click-and-collect");
   ("SPECIAL DELIVERY 1PM", "ROYAL MAIL SPECIAL DELIVERY FOR £18.99", "/delivery/special")].

(** The logo links of the header row and of the drawer (lines 242, 351). *)
Definition logo_href : string := "/".

(** The desktop category bar (lines 301-319): one link per category. *)
Definition nav_links (st : State) : list (string * string) :=
  (fun c => ("/category/" +:+ cat_slug c, cat_name c)) <$> categories st.

(** The drawer's quick links (lines 444-449); its social icons link to ["#"]
    (lines 450-454). *)
Definition drawer_footer_links : list (string * string) :=
  [("/account", "My Account"); ("/orders", "Orders"); ("/cart", "Cart")].

(** ** The layout that renders the header

    [src/app/layout.tsx] (lines 25-33) fetches the categories on the server
    and keeps the top-level ones, as [src/components/HeaderServer.tsx]
    (lines 4-13) does; [src/app/ClientLayout.tsx] renders the header on
    every route but the admin ones (lines 15-19). *)
Definition top_level (c : Category) : Prop := opt_truthy (cat_parent c) = false.

Definition ssrCategories (resp : option (bool * list Category)) : list Category :=
  match resp with
  | Some (true, data) => filter top_level data
  | _ => []
  end.

Definition isAdminRoute (pathname : string) : bool := startsWith pathname "/admin".

(** The headers a route renders: the layout's, and the one the cart page
    renders itself ([src/app/cart/page.tsx] line 7). *)
Definition headers_rendered (pathname : string) : nat :=
  (if isAdminRoute pathname then 0 else 1) + (if String.eqb pathname "/cart" then 1 else 0).

(** ** Properties *)

(** [handleScroll] on every branch of the direction and the bar. *)
Lemma handleScroll_spec (c m : Z) (st : State) :
  lastScroll (handleScroll c m st) = c /\
  ((lastScroll st + 1 < c)%Z \/ (m - 2 <= c)%Z -> scrollDirection (handleScroll c m st) = Some Down) /\
  ((c < lastScroll st - 8)%Z -> (c < m - 2)%Z -> scrollDirection (handleScroll c m st) = Some Up) /\
  (scrollDirection (handleScroll c m st) = Some Down ->
     showTopBar (handleScroll c m st) = if (5 <? c)%Z then false else showTopBar st) /\
  (scrollDirection (handleScroll c m st) = Some Up ->
     showTopBar (handleScroll c m st) = if (c <? m - 80)%Z then true else showTopBar st) /\
  (scrollDirection (handleScroll c m st) = None -> showTopBar (handleScroll c m st) = showTopBar st).
Proof.
  unfold handleScroll, with_scroll; cbn [lastScroll scrollDirection showTopBar].
  repeat split; intros; repeat case_match; simplify_eq; arith_bools; try done; lia.
Qed.

(** Scrolling down past 5 px hides the top bar; scrolling up by more than
    8 px shows it again when the position is more than 80 px above the
    bottom of the page. *)
Theorem scroll_hides_and_shows (c m : Z) (st : State) :
  ((lastScroll st + 1 < c)%Z -> (5 < c)%Z -> showTopBar (handleScroll c m st) = false) /\
  ((c < lastScroll st - 8)%Z -> (c < m - 80)%Z -> showTopBar (handleScroll c m st) = true).
Proof.
  destruct (handleScroll_spec c m st) as (_ & Hd & Hu & Bd & Bu & _). split; intros H1 H2.
  - rewrite Bd by auto. by rewrite (proj2 (Z.ltb_lt _ _) H2).
  - rewrite Bu by (apply Hu; lia). by rewrite (proj2 (Z.ltb_lt _ _) H2).
Qed.

Lemma scroll_short_keeps_hidden (c m : Z) (st : State) :
  showTopBar st = false -> (0 <= c)%Z -> (m <= 80)%Z -> showTopBar (handleScroll c m st) = false.
Proof.
  intros Hb Hc Hm. destruct (handleScroll_spec c m st) as (_ & _ & _ & Bd & Bu & Bn).
  destruct (scrollDirection (handleScroll c m st)) as [[|]|].
  - rewrite Bu by done. destruct (c <? m - 80)%Z eqn:E; arith_bools; [lia | exact Hb].
  - rewrite Bd by done. destruct (5 <? c)%Z; [done | exact Hb].
  - by rewrite Bn.
Qed.

Lemma step_showTopBar (st : State) (e : event) :
  (forall c m, e <> EScroll c m) -> showTopBar (step st e) = showTopBar st.
Proof.
  intros H. destruct e; simpl; try done;
    try (unfold fetchCategories; by repeat case_match); try (unfold enterCategory; by case_match).
  by destruct (H current maxScroll).
Qed.

Definition short_page_event (e : event) : Prop :=
  match e with EScroll c m => (0 <= c /\ m <= 80)%Z | _ => True end.

Lemma step_short_keeps_hidden (st : State) (e : event) :
  short_page_event e -> showTopBar st = false -> showTopBar (step st e) = false.
Proof.
  intros He Hb. destruct e as [c m | | | | | | | | | | |];
    try (rewrite step_showTopBar by congruence; exact Hb).
  destruct He. by apply scroll_short_keeps_hidden.
Qed.

(** C31: On a page that scrolls by at most 80 px, the top bar never comes back
    once hidden: the upward branch needs a position below [maxScroll - 80],
    which is negative. *)
Theorem topbar_stuck_short_page (es : list event) (st : State) :
  showTopBar st = false -> Forall short_page_event es -> showTopBar (fold_left step es st) = false.
Proof.
  intros Hb Hes. induction Hes as [|e es He _ IH] in st, Hb |- *; [exact Hb |].
  apply IH. by apply step_short_keeps_hidden.
Qed.

Lemma topbar_stuck_short_page_witness :
  showTopBar (handleScroll 40 60 (initial [])) = false /\
  Forall short_page_event [EScroll 0 60; ETick; EScroll 10 60] /\
  showTopBar (fold_left step [EScroll 0 60; ETick; EScroll 10 60] (handleScroll 40 60 (initial []))) = false.
Proof.
  assert (F : Forall short_page_event [EScroll 0 60; ETick; EScroll 10 60])
    by (repeat constructor; cbn; lia).
  split; [reflexivity | split; [exact F |]].
  apply topbar_stuck_short_page; [reflexivity | exact F].
Defined.

(** *** The rotating message *)

Fixpoint ticks (es : list event) : nat :=
  match es with
  | [] => 0
  | ETick :: es => S (ticks es)
  | _ :: es => ticks es
  end.

Lemma step_currentMsg (st : State) (e : event) :
  e <> ETick -> currentMsg (step st e) = currentMsg st.
Proof.
  intros H. destruct e; simpl; try done;
    try (unfold fetchCategories; by repeat case_match); try (unfold enterCategory; by case_match).
Qed.

Lemma fold_currentMsg (es : list event) (st : State) :
  currentMsg st < 4 -> currentMsg (fold_left step es st) = (currentMsg st + ticks es) mod 4.
Proof.
  induction es as [|e es IH] in st |- *; intros H; cbn [fold_left ticks].
  - rewrite Nat.add_0_r. symmetry. by apply Nat.mod_small.
  - assert (e = ETick \/ (e <> ETick /\ ticks (e :: es) = ticks es)) as [-> | [He Ht]]
      by (destruct e; try (left; reflexivity); right; split; try discriminate; reflexivity).
    + rewrite IH by (apply Nat.mod_upper_bound; lia). cbn [tickMsg currentMsg length mobileTopMessages].
      change (currentMsg (step st ETick)) with ((currentMsg st + 1) mod 4).
      rewrite Nat.Div0.add_mod_idemp_l. f_equal. lia.
    + simpl in Ht. rewrite IH by (rewrite step_currentMsg; auto). rewrite step_currentMsg by done.
      destruct e; simpl in *; congruence.
Qed.

(** The mobile top bar shows message [k mod 4] after [k] ticks of the
    interval, whatever else happens in between: the index is always one of
    the four messages. *)
Theorem msg_rotation (ssr : list Category) (es : list event) :
  currentMsg (fold_left step es (initial ssr)) = ticks es mod length mobileTopMessages /\
  is_Some (currentMessage (fold_left step es (initial ssr))).
Proof.
  unfold currentMessage. rewrite fold_currentMsg by (simpl; lia). split; [reflexivity |].
  apply lookup_lt_is_Some_2. apply Nat.mod_upper_bound. simpl. lia.
Qed.

(** *** The accordions *)

(** A toggle flips the entry it names and no other. *)
Theorem toggle_flips (id j : string) (m : gmap string bool) :
  is_open (toggle id m) j = if decide (j = id) then negb (is_open m id) else is_open m j.
Proof.
  unfold is_open, toggle. apply lookup_flip.
Qed.

Lemma toggle_twice (id j : string) (m : gmap string bool) :
  is_open (toggle id (toggle id m)) j = is_open m j.
Proof.
  rewrite !toggle_flips. destruct (decide (j = id)) as [-> | E]; [| done].
  rewrite decide_True by done. apply negb_involutive.
Qed.

(** *** The categories of the bar *)

Lemma step_categories (st : State) (e : event) :
  categories (step st e) = categories st \/
  exists ssr data, e = EFetched ssr (Some (true, data)) /\ categories (step st e) = filter top_level data.
Proof.
  destruct e; simpl; try (left; reflexivity);
    try (unfold enterCategory; case_match; left; reflexivity).
  unfold fetchCategories. destruct ssr, resp as [[[] data]|]; try (left; reflexivity).
  right. eauto.
Qed.

(** The category bar and the drawer list top-level categories only,
    whether they came from the server render or from the header's own
    fetch. *)
Theorem categories_top_level (resp : option (bool * list Category)) (es : list event) :
  Forall top_level (categories (fold_left step es (initial (ssrCategories resp)))).
Proof.
  assert (H0 : Forall top_level (categories (initial (ssrCategories resp)))).
  { simpl. destruct resp as [[[] data]|]; try constructor. apply filter_Forall. }
  revert H0. generalize (initial (ssrCategories resp)).
  induction es as [|e es IH]; intros st H; simpl; [exact H |].
  apply IH. destruct (step_categories st e) as [-> | (? & ? & _ & ->)]; [exact H | apply filter_Forall].
Qed.

(** *** The mega menu *)

Lemma megaMenuFor_subs (st : State) (c : Category) :
  megaMenuFor st = Some c -> exists x xs, cat_subs c = x :: xs.
Proof.
  unfold megaMenuFor. destruct (hovered st); [| discriminate].
  destruct (activeCategory st) as [c'|]; [| discriminate].
  destruct (cat_subs c') as [|x xs] eqn:E; [discriminate |]. intros [= <-]. eauto.
Qed.

(** Hovering a category of the bar opens the mega menu on it exactly when
    it has subcategories. *)
Lemma enterCategory_megaMenu (c : Category) (st : State) :
  megaMenuFor (enterCategory c st) = match cat_subs c with [] => None | _ => Some c end.
Proof. unfold enterCategory, openMenu. destruct (cat_subs c) eqn:E; cbn; rewrite ?E; reflexivity. Qed.

(** C30: While the mega menu is open on a category, its middle column follows
    one of that category's subcategories (the first one until another is
    hovered); while it is closed it holds none. *)
Theorem mega_sub_invariant (ssr : list Category) (s : State * option Category) :
  ureachable ssr s ->
  match megaMenuFor s.1 with
  | Some main => exists sub, s.2 = Some sub /\ sub ∈ cat_subs main
  | None => s.2 = None
  end.
Proof.
  induction 1 as [|s e _ IH He]; [reflexivity |].
  destruct e as [e | sub]; cbn [ustep fst snd].
  - unfold megaSync. destruct (megaMenuFor (step s.1 e)) as [c|] eqn:Ec; [| reflexivity].
    destruct (megaMenuFor_subs _ _ Ec) as (x & xs & Hx).
    assert (Hd : exists sub, defaultSubCategory c = Some sub /\ sub ∈ cat_subs c)
      by (exists x; unfold defaultSubCategory; rewrite Hx; split; [reflexivity | left]).
    destruct (megaMenuFor s.1) as [c'|]; [| exact Hd].
    case_decide; [subst; exact IH | exact Hd].
  - destruct He as (main & Hm & Hs). cbn in Hm |- *. rewrite Hm. eauto.
Qed.

Definition lamp : Category := mkCategory "c3" "Lamps" "lamps" (Some "c2") [].
Definition lighting : Category := mkCategory "c2" "Lighting" "lighting" (Some "c1") [lamp].
Definition home : Category := mkCategory "c1" "Home" "home" None [lighting].

Lemma mega_sub_invariant_witness :
  ureachable [home] (ustep (initial [home], None) (EHeader (EEnter home))) /\
  exists sub, (ustep (initial [home], None) (EHeader (EEnter home))).2 = Some sub /\ sub ∈ cat_subs home.
Proof.
  assert (R : ureachable [home] (ustep (initial [home], None) (EHeader (EEnter home))))
    by (apply ureach_step; [apply ureach_init | exact I]).
  split; [exact R | exact (mega_sub_invariant _ _ R)].
Defined.

(** *** The links *)

(** The drawer links a subcategory without children to
    [/category/<sub>], the mega menu to [/category/<main>/<sub>]: the two
    menus never agree on a subcategory's address. *)
Theorem drawer_and_mega_links_differ (openP openC : gmap string bool) (main sub : Category) :
  sub ∈ cat_subs main -> cat_subs sub = [] -> is_open openP (cat_id main) = true ->
  DLink ("/category/" +:+ cat_slug sub) (cat_name sub) ∈ parent_items openP openC main /\
  subLink main sub <> "/category/" +:+ cat_slug sub.
Proof.
  intros Hin Hleaf Hopen. split.
  - unfold parent_items. destruct (cat_subs main) as [|y ys] eqn:Hm; [by apply elem_of_nil in Hin |].
    rewrite Hopen. right. apply list_elem_of_join. exists (sub_items openC sub).
    split; [unfold sub_items, catLink; rewrite Hleaf; apply list_elem_of_singleton; reflexivity |].
    apply list_elem_of_fmap_2. exact Hin.
  - unfold subLink. intros E. apply (f_equal String.length) in E.
    rewrite !string_length_app in E. cbn in E. lia.
Qed.

Lemma drawer_and_mega_links_differ_witness :
  lamp ∈ cat_subs lighting /\ cat_subs lamp = [] /\ is_open {[ "c2" := true ]} (cat_id lighting) = true /\
  subLink lighting lamp <> "/category/" +:+ cat_slug lamp.
Proof.
  assert (H1 : lamp ∈ cat_subs lighting) by left.
  split; [exact H1 | split; [reflexivity | split; [reflexivity |]]].
  exact (proj2 (drawer_and_mega_links_differ {[ "c2" := true ]} ∅ lighting lamp H1 eq_refl eq_refl)).
Defined.

(** The cart page renders a second header under the layout's. *)
Lemma cart_renders_two_headers : headers_rendered "/cart" = 2.
Proof. reflexivity. Qed.

(** *** The depth of the menus *)

(** A category tree cut below depth [n]. *)
Fixpoint prune (n : nat) (c : Category) : Category :=
  match n with
  | 0 => mkCategory (cat_id c) (cat_name c) (cat_slug c) (cat_parent c) []
  | S n => mkCategory (cat_id c) (cat_name c) (cat_slug c) (cat_parent c) (prune n <$> cat_subs c)
  end.

Lemma catLink_prune (n : nat) (c : Category) : catLink (prune n c) = catLink c.
Proof. by destruct n. Qed.

Lemma catLinks_prune (n : nat) (cs : list Category) : catLink <$> (prune n <$> cs) = catLink <$> cs.
Proof. rewrite <- list_fmap_compose. apply list_fmap_ext. intros. apply catLink_prune. Qed.

Lemma prune_fields (n : nat) (c : Category) :
  cat_id (prune n c) = cat_id c /\ cat_name (prune n c) = cat_name c.
Proof. by destruct n. Qed.

Lemma cat_subs_prune (n : nat) (c : Category) : cat_subs (prune (S n) c) = prune n <$> cat_subs c.
Proof. reflexivity. Qed.

Lemma sub_items_prune (openC : gmap string bool) (c : Category) :
  sub_items openC (prune 1 c) = sub_items openC c.
Proof.
  unfold sub_items. rewrite cat_subs_prune, !(proj1 (prune_fields _ _)), !(proj2 (prune_fields _ _)).
  destruct (cat_subs c) as [|x xs]; [by rewrite catLink_prune |].
  rewrite fmap_cons. by rewrite <- (catLinks_prune 0 (x :: xs)).
Qed.

(** The drawer shows three levels of categories and ignores the deeper
    ones: it is the same for the trees cut below the third level. *)
Lemma drawer_three_levels (openP openC : gmap string bool) (c : Category) :
  parent_items openP openC (prune 2 c) = parent_items openP openC c.
Proof.
  unfold parent_items. rewrite cat_subs_prune, !(proj1 (prune_fields _ _)), !(proj2 (prune_fields _ _)).
  destruct (cat_subs c) as [|x xs]; [by rewrite catLink_prune |].
  rewrite fmap_cons. f_equal. destruct (is_open openP (cat_id c)); [| done].
  rewrite <- fmap_cons, <- list_fmap_compose. f_equal.
  apply list_fmap_ext. intros. apply sub_items_prune.
Qed.

End Header.
