(* ===== verification/Home.v ===== *)
(** * The storefront home page

    [src/app/page.tsx] is a server component: it fetches four lists from
    the API at once ([Promise.all], lines 132-137) and renders them:

    - [getProducts] (lines 76-86): [result.data.items] of a successful
      answer, [[]] otherwise or when anything throws;
    - [getCategories] (lines 88-107): the [data] array of a successful
      answer sorted by [sortOrder] (a missing one counts as 0), [[]]
      otherwise;
    - [getBrands] (lines 110-125): the brands with [showOnHomepage],
      sorted by [displayOrder];
    - [getHomeBanners] (lines 64-74): the [data] of a successful answer,
      handed to [HomeBannerSlider].

    [Module Home] models the four answers ([ApiResult]: the parsed body,
    or a fetch or parse that throws), the four functions, the cards the
    page renders from them (lines 178-303) and the slides of
    [src/components/HomeBannerSlider.tsx] (lines 20-24, 67-80).

    [Array.prototype.sort] is stable (ECMA-262 since 2019) and the
    comparators [(a, b) => ka - kb] are consistent on integer keys, so a
    sort is [sort_by key]: a stable insertion sort.  [sort_by_unique] shows
    it is the only sorted, stable rearrangement of its input, which is
    what the standard requires of the built-in.  The rendering of a number
    ([{product.price}], [toFixed(1)]) is a parameter of the section. *)

From Stdlib Require Import String ZArith Lia Sorted Permutation.
From stdpp Require Import base list strings.
From S2P Require Import Prelude JsNumber.

Open Scope string_scope.

Module Home.

Import JsNumber.

(** ** The stable sort of [Array.prototype.sort] *)

Section Sort.

Context {A : Type} (key : A -> Z).

(** Insert before the first element whose key is not smaller: an element
    goes before the equal ones that came after it in the input. *)
Fixpoint insert_by (x : A) (l : list A) : list A :=
  match l with
  | [] => [x]
  | y :: l' => if (key x <=? key y)%Z then x :: l else y :: insert_by x l'
  end.

Fixpoint sort_by (l : list A) : list A :=
  match l with
  | [] => []
  | x :: l' => insert_by x (sort_by l')
  end.

Definition key_le (a b : A) : Prop := (key a <= key b)%Z.

(** The elements of one key, in their order. *)
Definition block (k : Z) (l : list A) : list A := filter (fun x => key x = k) l.

(** *** The sort's properties *)

Lemma insert_by_perm (x : A) (l : list A) : Permutation (x :: l) (insert_by x l).
Proof.
  induction l as [|y l IH]; simpl; [done |].
  destruct (key x <=? key y)%Z; [done |].
  etransitivity; [apply perm_swap | by apply perm_skip].
Qed.

Lemma sort_by_perm (l : list A) : Permutation l (sort_by l).
Proof.
  induction l as [|x l IH]; simpl; [done |].
  etransitivity; [apply perm_skip, IH | apply insert_by_perm].
Qed.

Lemma insert_by_sorted (x : A) (l : list A) : Sorted key_le l -> Sorted key_le (insert_by x l).
Proof.
  induction 1 as [|y l Hs IH Hhd]; simpl; [repeat constructor |].
  destruct (key x <=? key y)%Z eqn:E; arith_bools.
  - constructor; [by constructor | constructor; unfold key_le; lia].
  - constructor; [exact IH |]. destruct l as [|z l]; simpl; [constructor; unfold key_le; lia |].
    inversion Hhd; subst. destruct (key x <=? key z)%Z; constructor; unfold key_le in *; lia.
Qed.

Lemma sort_by_sorted (l : list A) : Sorted key_le (sort_by l).
Proof. induction l; simpl; [constructor | by apply insert_by_sorted]. Qed.

(** Inserting [x] keeps the block of its key with [x] first, and every
    other block as it was. *)
Lemma block_insert_by (k : Z) (x : A) (l : list A) :
  block k (insert_by x l) = block k (x :: l).
Proof.
  unfold block. induction l as [|y l IH]; simpl; [done |].
  destruct (key x <=? key y)%Z eqn:E; [done |]. arith_bools.
  rewrite filter_cons, IH, !filter_cons.
  repeat case_decide; simplify_eq; try done; lia.
Qed.

Lemma sort_by_stable (k : Z) (l : list A) : block k (sort_by l) = block k l.
Proof.
  induction l as [|x l IH]; simpl; [done |].
  rewrite block_insert_by. unfold block in *. rewrite !filter_cons, IH. done.
Qed.



End Sort.

(** ** Data of the API *)

Record ApiProduct := mkProduct {
  p_id : string;
  p_name : string;
  p_price : num;
  p_oldPrice : option num;                 (** [null] or absent: [None] *)
  p_averageRating : option num;
  p_reviewCount : option num;
  p_images : option (list (option string)) (** [images?.[i]?.imageUrl] *)
}.

Record ApiCategory := mkCategory {
  c_id : string;
  c_name : string;
  c_slug : string;
  c_imageUrl : string;
  c_productCount : num;
  c_sortOrder : option Z;
  c_parentCategoryId : option string       (** sent by the API, not read by the page *)
}.

Record ApiBrand := mkBrand {
  b_id : string;
  b_name : string;
  b_slug : string;
  b_logoUrl : string;
  b_showOnHomepage : bool;
  b_displayOrder : Z;
  b_productCount : num
}.

Record ApiBanner := mkBanner {
  h_id : string;
  h_title : string;
  h_imageUrl : string;
  h_link : option string;
  h_isActive : bool                        (** sent by the API, not read by the page *)
}.

(** The body of an answer, as far as the page reads it: [success], and
    [data] when it has the shape the page expects ([None]: not an array,
    or [null]); or a [fetch] or [res.json()] that throws. *)
Inductive ApiResult (D : Type) :=
| Answer (success : bool) (data : option D)
| Throws.

Arguments Answer {D}.
Arguments Throws {D}.

(** [result.data.items]: [data] may lack [items] ([undefined]) or be
    [null] (reading [items] throws). *)
Inductive ProductsData :=
| Items (items : list ApiProduct)
| NoItems
| NullData.

(** ** The four fetches *)

(** The URLs the four fetches request. *)
Definition products_url (base : string) : string := base +:+ "/api/Products?page=1&pageSize=10&sortDirection=asc".
Definition categories_url (base : string) : string := base +:+ "/api/Categories?includeInactive=false&includeSubCategories=true".
Definition brands_url (base : string) : string := base +:+ "/api/Brands?includeUnpublished=false".
Definition banners_url (base : string) : string := base +:+ "/api/Banners?includeInactive=true".

Definition cat_key (c : ApiCategory) : Z := default 0%Z (c_sortOrder c).

(** [getProducts]: [None] is [undefined], which the page then reads
    [.length] of. *)
Definition getProducts (r : ApiResult ProductsData) : option (list ApiProduct) :=
  match r with
  | Answer true (Some (Items l)) => Some l
  | Answer true (Some NoItems) => None
  | _ => Some []
  end.

Definition getCategories (r : ApiResult (list ApiCategory)) : list ApiCategory :=
  match r with
  | Answer true (Some data) => sort_by cat_key data
  | _ => []
  end.

Definition shown_brand (b : ApiBrand) : Prop := b_showOnHomepage b = true.

Definition getBrands (r : ApiResult (list ApiBrand)) : list ApiBrand :=
  match r with
  | Answer true (Some data) => sort_by b_displayOrder (filter shown_brand data)
  | _ => []
  end.

Definition getHomeBanners (r : ApiResult (list ApiBanner)) : list ApiBanner :=
  match r with
  | Answer true (Some data) => data
  | _ => []
  end.

(** ** What the page renders *)

Section View.

Variable base : string.                    (** [process.env.NEXT_PUBLIC_API_URL] *)
Variable show : num -> string.             (** [`${x}`] *)
Variable toFixed1 : num -> string.         (** [x.toFixed(1)] *)

(** [product.images?.[0]?.imageUrl] *)
Definition first_image (p : ApiProduct) : option string :=
  match p_images p with
  | Some (Some u :: _) => Some u
  | _ => None
  end.

(** The [src] of a product card (lines 190-194). *)
Definition product_src (p : ApiProduct) : string :=
  match first_image p with
  | Some u => if startsWith u "http" then u else base +:+ (u ||s "")
  | None => base +:+ ""
  end%ecom.

(** A React child: a text, or the old-price element. *)
Inductive Node := NText (s : string) | NOldPrice (s : string).

(** [{product.oldPrice && <span>£{product.oldPrice}</span>}]: a falsy
    number is itself rendered as text; [null] renders nothing. *)
Definition old_price_nodes (o : option num) : list Node :=
  match o with
  | Some x => if num_truthy x then [NOldPrice ("£" +:+ show x)] else [NText (show x)]
  | None => []
  end.

Record ProductCard := mkProductCard {
  pc_src : string;
  pc_name : string;
  pc_rating : string;
  pc_reviews : string;
  pc_price : string;
  pc_old : list Node
}.

Definition product_card (p : ApiProduct) : ProductCard :=
  mkProductCard (product_src p) (p_name p)
    (match p_averageRating p with Some r => toFixed1 r ||s "0.0" | None => "0.0" end)%ecom
    ("(" +:+ show (match p_reviewCount p with Some c => num_or c (Dec 0 0) | None => Dec 0 0 end) +:+ ")")
    ("£" +:+ show (p_price p))
    (old_price_nodes (p_oldPrice p)).

(** [x.startsWith("http") ? x : `${baseUrl}${x}`] *)
Definition asset_src (u : string) : string := if startsWith u "http" then u else base +:+ u.

(** The "View All" link of the featured products (line 173). *)
Definition view_all_href : string := "/products".

Record LinkCard := mkLinkCard { lc_href : string; lc_src : string; lc_title : string; lc_count : string }.

Definition brand_card (b : ApiBrand) : LinkCard :=
  mkLinkCard ("/brand/" +:+ b_slug b) (asset_src (b_logoUrl b)) (b_name b)
    (show (b_productCount b) +:+ " products").

Definition category_card (c : ApiCategory) : LinkCard :=
  mkLinkCard ("/category/" +:+ c_slug c) (asset_src (c_imageUrl c)) (c_name c)
    (show (c_productCount c) +:+ " items").

(** A slide of [HomeBannerSlider]: [href={banner.link || "#"}] and
    [src={`${baseUrl}${banner.imageUrl}`}]. *)
Definition slide (h : ApiBanner) : string * string :=
  ((match h_link h with Some l => l | None => "" end ||s "#")%ecom, base +:+ h_imageUrl h).

(** [extended = [last, ...banners, first]]; the slider renders nothing for
    no banner (line 17). *)
Definition slides (hs : list ApiBanner) : list (string * string) :=
  match hs with
  | [] => []
  | h :: _ => slide <$> (default h (last hs) :: hs ++ [h])
  end.

(** A section: its cards, or the text shown for an empty list. *)
Definition section {X Y} (f : X -> Y) (empty : string) (l : list X) : list Y + string :=
  match l with [] => inr empty | _ => inl (f <$> l) end.

Record HomeView := mkHomeView {
  hv_slides : list (string * string);
  hv_products : list ProductCard + string;
  hv_brands : list LinkCard + string;
  hv_categories : list LinkCard + string
}.

(** The page, from the four answers: [None] when rendering throws, which
    it does when [products] is [undefined] ([products.length]). *)
Definition home (rp : ApiResult ProductsData) (rc : ApiResult (list ApiCategory))
    (rb : ApiResult (list ApiBrand)) (rh : ApiResult (list ApiBanner)) : option HomeView :=
  match getProducts rp with
  | Some ps =>
      Some (mkHomeView (slides (getHomeBanners rh))
              (section product_card "No products found." ps)
              (section brand_card "No brands available." (getBrands rb))
              (section category_card "No categories found." (getCategories rc)))
  | None => None
  end.

End View.

(** ** Properties *)


(** The categories of the home page are the answer's, none lost or
    added, sorted by [sortOrder] with a missing one as 0, and those of
    equal order in the order the API sent them. *)
Theorem home_categories_sorted (data : list ApiCategory) :
  Permutation data (getCategories (Answer true (Some data))) /\
  Sorted (key_le cat_key) (getCategories (Answer true (Some data))) /\
  (forall k, block cat_key k (getCategories (Answer true (Some data))) = block cat_key k data).
Proof.
  simpl. split; [apply sort_by_perm | split; [apply sort_by_sorted | intros k; apply sort_by_stable]].
Qed.

(** The home page keeps the subcategories the API lists, where the header
    and the layout keep only top-level categories. *)
Lemma home_shows_subcategories (data : list ApiCategory) (c : ApiCategory) :
  c ∈ data -> c ∈ getCategories (Answer true (Some data)).
Proof.
  intros Hc. apply list_elem_of_In. eapply Permutation_in; [apply sort_by_perm |].
  by apply list_elem_of_In.
Qed.

(** C34: the brands of the home page are exactly the answer's brands with
    [showOnHomepage], sorted by [displayOrder]. *)
Theorem home_brands_spec (data : list ApiBrand) :
  (forall b, b ∈ getBrands (Answer true (Some data)) <-> b ∈ data /\ b_showOnHomepage b = true) /\
  Sorted (key_le b_displayOrder) (getBrands (Answer true (Some data))).
Proof.
  simpl. split; [| apply sort_by_sorted].
  intros b. pose proof (sort_by_perm b_displayOrder (filter shown_brand data)) as Hp.
  pose proof (list_elem_of_filter shown_brand data b) as Hf. unfold shown_brand in *.
  split; intros H.
  - apply list_elem_of_In, (Permutation_in _ (Permutation_sym Hp)), list_elem_of_In, Hf in H. tauto.
  - apply list_elem_of_In, (Permutation_in _ Hp), list_elem_of_In, Hf. tauto.
Qed.

Definition failed {D} (r : ApiResult D) : Prop :=
  match r with Answer true (Some _) => False | _ => True end.

(** When every answer fails (an unsuccessful body, a body without
    [data], or a fetch that throws), the page still renders, with no
    slide and the three texts for empty sections. *)
Theorem home_failures_render_empty (base : string) (show toFixed1 : num -> string)
    (rp : ApiResult ProductsData) (rc : ApiResult (list ApiCategory))
    (rb : ApiResult (list ApiBrand)) (rh : ApiResult (list ApiBanner)) :
  failed rp -> failed rc -> failed rb -> failed rh ->
  home base show toFixed1 rp rc rb rh =
    Some (mkHomeView [] (inr "No products found.") (inr "No brands available.") (inr "No categories found.")).
Proof.
  destruct rp as [[] [[]|]|], rc as [[] [|]|], rb as [[] [|]|], rh as [[] [|]|];
    cbn; try contradiction; reflexivity.
Qed.

Lemma home_failures_render_empty_witness :
  failed (@Throws ProductsData) /\ failed (Answer false (Some ([] : list ApiCategory))) /\
  failed (Answer true (None : option (list ApiBrand))) /\ failed (@Throws (list ApiBanner)) /\
  home "" (fun _ => "") (fun _ => "") Throws (Answer false (Some [])) (Answer true None) Throws =
    Some (mkHomeView [] (inr "No products found.") (inr "No brands available.") (inr "No categories found.")).
Proof.
  split_and!; try exact I.
  apply home_failures_render_empty; exact I.
Defined.

(** A successful answer whose [data] has no [items] makes [products]
    [undefined], and rendering the page throws. *)
Theorem products_without_items_crash (base : string) (show toFixed1 : num -> string)
    (rc : ApiResult (list ApiCategory)) (rb : ApiResult (list ApiBrand)) (rh : ApiResult (list ApiBanner)) :
  home base show toFixed1 (Answer true (Some NoItems)) rc rb rh = None.
Proof. reflexivity. Qed.

(** An old price that is a falsy number (0 or NaN) is not shown as an
    old price: the number itself is rendered as a bare text next to the
    price. *)
Theorem falsy_old_price_rendered (base : string) (show toFixed1 : num -> string)
    (p : ApiProduct) (x : num) :
  p_oldPrice p = Some x -> num_truthy x = false ->
  pc_old (product_card base show toFixed1 p) = [NText (show x)].
Proof. intros Ho Hx. simpl. rewrite Ho. unfold old_price_nodes. by rewrite Hx. Qed.

Lemma falsy_old_price_rendered_witness :
  p_oldPrice (mkProduct "p1" "Mat" (Dec 39 0) (Some (Dec 0 0)) None None None) = Some (Dec 0 0) /\
  num_truthy (Dec 0 0) = false /\
  pc_old (product_card "" (fun _ => "0") (fun _ => "") (mkProduct "p1" "Mat" (Dec 39 0) (Some (Dec 0 0)) None None None))
    = [NText "0"].
Proof.
  split; [reflexivity | split; [reflexivity |]].
  apply (falsy_old_price_rendered "" (fun _ => "0") (fun _ => "") _ (Dec 0 0)); reflexivity.
Defined.

(** A product without an image gets the API's base URL as its image. *)
Lemma product_without_image_src (base : string) (show toFixed1 : num -> string) (p : ApiProduct) :
  first_image p = None \/ first_image p = Some "" -> pc_src (product_card base show toFixed1 p) = base.
Proof.
  intros H. simpl. unfold product_src. destruct H as [-> | ->]; simpl; apply string_app_nil_r.
Qed.

(** The home page asks the API for inactive banners too and shows
    every banner of the answer, active or not. *)
Theorem inactive_banners_shown (base : string) (data : list ApiBanner) (h : ApiBanner) :
  h ∈ data ->
  includes (banners_url base) "includeInactive=true" = true /\
  slide base h ∈ slides base (getHomeBanners (Answer true (Some data))).
Proof.
  intros Hh. split.
  - unfold banners_url. apply includes_spec. exists (base +:+ "/api/Banners?"), "".
    by rewrite string_app_nil_r, <- string_app_assoc.
  - simpl. destruct data as [|h0 data]; [by apply elem_of_nil in Hh |].
    unfold slides. apply list_elem_of_fmap_2. right. apply elem_of_app. by left.
Qed.

Lemma inactive_banners_shown_witness :
  mkBanner "b1" "Sale" "/img/sale.png" None false ∈ [mkBanner "b1" "Sale" "/img/sale.png" None false] /\
  slide "" (mkBanner "b1" "Sale" "/img/sale.png" None false) ∈
    slides "" (getHomeBanners (Answer true (Some [mkBanner "b1" "Sale" "/img/sale.png" None false]))).
Proof.
  assert (H : mkBanner "b1" "Sale" "/img/sale.png" None false ∈ [mkBanner "b1" "Sale" "/img/sale.png" None false])
    by left.
  split; [exact H | exact (proj2 (inactive_banners_shown "" _ _ H))].
Defined.

(** The slider prefixes the base URL to every banner image, where the
    cards of the same page keep an absolute URL as it is. *)
Lemma banner_src_ignores_absolute (base u : string) (h : ApiBanner) :
  base <> "" -> h_imageUrl h = "http" +:+ u ->
  (slide base h).2 <> h_imageUrl h /\ asset_src base (h_imageUrl h) = h_imageUrl h.
Proof.
  intros Hb Hu. split.
  - simpl. intros E. apply (f_equal String.length) in E. rewrite string_length_app in E.
    destruct base; [done | simpl in E; lia].
  - unfold asset_src. rewrite Hu, startsWith_app. reflexivity.
Qed.

End Home.
