(* ===== verification/StaticPages.v ===== *)
(** * Pages whose data is written in the code

    Five parts of the repository show data that is a literal of their own
    file; what they compute from it is modelled here.

    - [Module ProductsPage]: [src/app/products/page.tsx], the storefront
      catalogue (lines 7-20) and its grid (lines 117-163).  Its filter
      checkboxes, search box, sort select and pagination have no handler,
      so the grid is the whole catalogue whatever they show.
    - [Module Orders]: [src/app/admin/orders/page.tsx], the order list
      (lines 6-13), its search and status filter (lines 16-28), its four
      cards (lines 30-32, 49-113) and the table (lines 141-239).
    - [Module Customers]: [src/app/admin/customers/page.tsx], the customer
      list (lines 8-14), the four cards (lines 31-71), three of them
      printing constants, and the rows of the list (lines 103-161).
    - [Module Footer]: [src/components/Footer.tsx], the accordion state of
      its five sections (lines 9-17).
    - [Module Cart]: [src/app/cart/page.tsx], a page with no state: an
      empty cart, a summary of zeros and a disabled checkout button.

    The dashboard, which repeats orders of the order page, is in
    [Dashboard.v]. *)

From Stdlib Require Import String Ascii ZArith Lia.
From stdpp Require Import base list gmap strings.
From S2P Require Import Prelude JsNumber.

Open Scope string_scope.

(** ** The storefront catalogue *)

Module ProductsPage.

Record Product := mkProduct {
  id : Z; name : string; price : Z; originalPrice : Z; rating : string; reviews : Z;
  image : string; badge : string; discount : Z; category : string
}.

Definition products : list Product := [
  mkProduct 1 "Wireless Headphones Pro" 299 399 "4.8" 234 "🎧" "Best Seller" 25 "Electronics";
  mkProduct 2 "Smart Watch Series 5" 399 499 "4.9" 189 "⌚" "New" 20 "Electronics";
  mkProduct 3 "Premium Yoga Mat" 39 59 "4.7" 567 "🧘" "Hot Deal" 34 "Sports";
  mkProduct 4 "Laptop Stand Pro" 79 99 "4.6" 89 "💻" "Sale" 20 "Accessories";
  mkProduct 5 "Designer T-Shirt" 49 79 "4.5" 345 "👕" "Trending" 38 "Fashion";
  mkProduct 6 "USB-C Hub 7-in-1" 59 89 "4.7" 256 "🔌" "Popular" 34 "Electronics";
  mkProduct 7 "Coffee Maker Deluxe" 129 179 "4.8" 178 "☕" "Featured" 28 "Home";
  mkProduct 8 "Running Shoes Pro" 89 129 "4.6" 423 "👟" "Best Seller" 31 "Sports";
  mkProduct 9 "Bluetooth Speaker" 79 119 "4.7" 312 "🔊" "Hot" 34 "Electronics";
  mkProduct 10 "Desk Lamp LED" 45 69 "4.5" 234 "💡" "New" 35 "Home";
  mkProduct 11 "Water Bottle Steel" 29 45 "4.8" 567 "🍾" "Eco-Friendly" 36 "Sports";
  mkProduct 12 "Backpack Premium" 69 99 "4.6" 189 "🎒" "Sale" 30 "Fashion"].

(** The category checkboxes of the sidebar (line 48). *)
Definition category_options : list string :=
  ["All"; "Electronics"; "Fashion"; "Sports"; "Home"; "Accessories"].

(** What a card shows (lines 119-161): the discount badge only for a
    positive [discount], the price and the struck-out original price. *)
Record Card := mkCard {
  card_badge : option string; card_label : string; card_category : string;
  card_name : string; card_price : string; card_original : string
}.

Definition card (p : Product) : Card :=
  mkCard (if (0 <? discount p)%Z then Some ("-" +:+ JsNumber.nat_to_string (Z.to_nat (discount p)) +:+ "%") else None)
    (badge p) (category p) (name p)
    ("$" +:+ JsNumber.nat_to_string (Z.to_nat (price p))) ("$" +:+ JsNumber.nat_to_string (Z.to_nat (originalPrice p))).

(** The controls of the page hold no state the grid reads. *)
Record Controls := mkControls {
  checked_categories : list string; price_ranges : list string; ratings : list Z;
  search : string; sort : string; page : Z
}.

Definition grid (_ : Controls) : list Card := card <$> products.

(** The percentage off, rounded half up. *)
Definition percent_off (p : Product) : Z :=
  ((200 * (originalPrice p - price p) + originalPrice p) / (2 * originalPrice p))%Z.

(** The grid is the same whatever the controls show. *)
Lemma grid_ignores_controls (c c' : Controls) : grid c = grid c'.
Proof. reflexivity. Qed.

(** The discount badges agree with the prices: every product is cheaper
    than its original price, its [discount] is the percentage off rounded
    to the nearest integer, and its category is one of the sidebar's. *)
Theorem discounts_match_prices :
  Forall (fun p => (0 < price p < originalPrice p)%Z /\ discount p = percent_off p /\
                   category p ∈ category_options) products.
Proof. repeat constructor; vm_compute; lia || discriminate || (repeat constructor). Qed.

End ProductsPage.

(** ** The admin order list *)

Module Orders.

Record Order := mkOrder {
  id : string; customer : string; email : string; items : Z; total : string;
  status : string; date : string; payment : string
}.

Definition orders : list Order := [
  mkOrder "#3210" "John Doe" "john@example.com" 3 "$299" "Delivered" "Oct 1, 2025" "Paid";
  mkOrder "#3209" "Jane Smith" "jane@example.com" 1 "$399" "Processing" "Oct 1, 2025" "Paid";
  mkOrder "#3208" "Bob Johnson" "bob@example.com" 2 "$149" "Pending" "Sep 30, 2025" "Pending";
  mkOrder "#3207" "Alice Brown" "alice@example.com" 1 "$79" "Delivered" "Sep 30, 2025" "Paid";
  mkOrder "#3206" "Charlie Wilson" "charlie@example.com" 4 "$449" "Shipped" "Sep 29, 2025" "Paid";
  mkOrder "#3205" "Diana Prince" "diana@example.com" 2 "$199" "Cancelled" "Sep 29, 2025" "Refunded"].

Record State := mkState { searchTerm : string; statusFilter : string }.

Definition initial : State := mkState "" "All Status".

(** The options of the status select (lines 133-138). *)
Definition status_options : list string :=
  ["All Status"; "Pending"; "Processing"; "Shipped"; "Delivered"; "Cancelled"].

Definition matchesSearch (term : string) (o : Order) : bool :=
  includes (toLowerCase (id o)) (toLowerCase term) ||
  includes (toLowerCase (customer o)) (toLowerCase term) ||
  includes (toLowerCase (email o)) (toLowerCase term).

Definition matchesStatus (filter_ : string) (o : Order) : bool :=
  String.eqb filter_ "All Status" || String.eqb (status o) filter_.

Definition filteredOrders (st : State) : list Order :=
  filter (fun o => matchesSearch (searchTerm st) o && matchesStatus (statusFilter st) o = true) orders.

Definition count_status (s : string) : nat := length (filter (fun o => status o = s) orders).

Definition pendingCount : nat := count_status "Pending".
Definition processingCount : nat := count_status "Processing".
Definition completedCount : nat := count_status "Delivered".

(** [{n} order{n !== 1 ? 's' : ''}] *)
Definition count_label (n : nat) : string :=
  JsNumber.nat_to_string n +:+ " order" +:+ (if (n =? 1)%nat then "" else "s").

(** The four cards (lines 49-113): a title, a number and a caption.
    The "Export Orders" button beside them (lines 43-46) has no handler. *)
Definition order_cards : list (string * nat * string) := [
  ("Total Orders", length orders, "+12%");
  ("Pending", pendingCount, "Awaiting");
  ("Processing", processingCount, "Preparing");
  ("Completed", completedCount, "Delivered")].

(** The table, or the empty text (lines 146-150). *)
Definition table (st : State) : list Order + string :=
  match filteredOrders st with [] => inr "No orders found" | l => inl l end.

Inductive Color := Green | Cyan | Blue | Yellow | Red | Slate.

Definition status_color (s : string) : Color :=
  if String.eqb s "Delivered" then Green else if String.eqb s "Processing" then Cyan
  else if String.eqb s "Shipped" then Blue else if String.eqb s "Pending" then Yellow
  else if String.eqb s "Cancelled" then Red else Slate.

Inductive event := ESearch (t : string) | EStatus (s : string).

Definition step (st : State) (e : event) : State :=
  match e with
  | ESearch t => mkState t (statusFilter st)
  | EStatus s => mkState (searchTerm st) s
  end.

(** The select only offers its options. *)
Definition enabled (e : event) : Prop :=
  match e with EStatus s => s ∈ status_options | ESearch _ => True end.

Inductive reachable : State -> Prop :=
| reach_init : reachable initial
| reach_step st e : reachable st -> enabled e -> reachable (step st e).

(** *** Properties *)

Lemma filteredOrders_case_insensitive (t s : string) :
  filteredOrders (mkState (toLowerCase t) s) = filteredOrders (mkState t s).
Proof. unfold filteredOrders, matchesSearch. simpl. by rewrite toLowerCase_idem. Qed.

(** The five statuses an order can be filtered by. *)
Definition statuses : list string := tail status_options.

Lemma count_split (P : Order -> bool) (l : list Order) :
  Forall (fun o => status o ∈ statuses) l ->
  foldr (fun s n => length (filter (fun o => P o && matchesStatus s o = true) l) + n) 0 statuses =
  length (filter (fun o => P o = true) l).
Proof.
  induction 1 as [|o l Ho _ IH]; [reflexivity |].
  revert IH. cbn [foldr statuses tail status_options]. unfold matchesStatus. rewrite !filter_cons.
  unfold statuses in Ho; cbn in Ho.
  assert (Hs : status o = "Pending" \/ status o = "Processing" \/ status o = "Shipped" \/
               status o = "Delivered" \/ status o = "Cancelled").
  { repeat (apply elem_of_cons in Ho as [Ho | Ho]; [tauto |]). by apply elem_of_nil in Ho. }
  clear Ho. destruct Hs as [Ho | [Ho | [Ho | [Ho | Ho]]]];
  intros IH; simpl in IH; rewrite Ho; destruct (P o); simpl; rewrite <- IH; lia.
Qed.

(** Every order has one of the statuses the select offers, each offered
    once: for any search text, the orders the five status filters show add
    up to those "All Status" shows. *)
Theorem status_filters_partition (t : string) :
  foldr (fun s n => length (filteredOrders (mkState t s)) + n) 0 statuses =
  length (filteredOrders (mkState t "All Status")).
Proof.
  unfold filteredOrders. cbn [searchTerm statusFilter].
  rewrite (list_filter_iff _ (fun o => matchesSearch t o = true))
    by (intros o; unfold matchesStatus; by rewrite String.eqb_refl, orb_true_l, andb_true_r).
  apply count_split. unfold orders. repeat constructor.
Qed.

(** The status select keeps one of its options in every state the page
    reaches. *)
Lemma status_filter_offered (st : State) : reachable st -> statusFilter st ∈ status_options.
Proof.
  induction 1 as [|st e _ IH He]; [by left |]. destruct e; simpl in *; [exact IH | exact He].
Qed.

(** With no search text and "All Status", the table lists every order. *)
Lemma initial_shows_all : filteredOrders initial = orders.
Proof. vm_compute. reflexivity. Qed.

(** The cards count pending, processing and delivered orders: the
    shipped and cancelled ones are in no card. *)
Lemma cards_leave_out :
  (pendingCount + processingCount + completedCount + count_status "Shipped" + count_status "Cancelled"
    = length orders)%nat /\
  (pendingCount + processingCount + completedCount < length orders)%nat.
Proof. vm_compute. split; [reflexivity | lia]. Qed.

(** Each card counts what the table shows with no search text and the
    matching status selected: "Total Orders" under "All Status", and
    "Pending", "Processing" and "Completed" under "Pending",
    "Processing" and "Delivered". *)
Lemma cards_match_filters :
  map (fun c => c.1.2) order_cards =
    map (fun s => length (filteredOrders (mkState "" s))) ["All Status"; "Pending"; "Processing"; "Delivered"].
Proof. vm_compute. reflexivity. Qed.

End Orders.

(** ** The admin customer list *)

Module Customers.

Import JsNumber.

Record Customer := mkCustomer {
  id : string; name : string; email : string; phone : string; orders : Z;
  spent : string;
  status : string; joined : string; avatar : string
}.

Definition customers : list Customer := [
  mkCustomer "1" "John Doe" "john@example.com" "+1 234-567-8901" 12 "$3,456" "Active" "Jan 2025" "JD";
  mkCustomer "2" "Jane Smith" "jane@example.com" "+1 234-567-8902" 8 "$2,890" "Active" "Feb 2025" "JS";
  mkCustomer "3" "Bob Johnson" "bob@example.com" "+1 234-567-8903" 15 "$4,120" "Active" "Dec 2024" "BJ";
  mkCustomer "4" "Alice Brown" "alice@example.com" "+1 234-567-8904" 3 "$890" "New" "Mar 2025" "AB";
  mkCustomer "5" "Charlie Wilson" "charlie@example.com" "+1 234-567-8905" 0 "$0" "Inactive" "Mar 2025" "CW"].

(** The four statistics as the page prints them. *)
Definition total_customers : nat := length customers.
Definition active_customers_shown : Z := 3.
Definition new_this_month_shown : Z := 2.
Definition avg_lifetime_value_shown : Z := 2271.

Definition count_status (s : string) : Z := Z.of_nat (length (filter (fun c => status c = s) customers)).

(** The amount of a ['$3,456'] text: its digits, without ['$'] and [','] *)
Fixpoint strip_money (s : string) : string :=
  match s with
  | String c s' => if Ascii.eqb c "$" || Ascii.eqb c "," then strip_money s' else String c (strip_money s')
  | EmptyString => EmptyString
  end.

Definition dollars (s : string) : Z := parseInt_or (strip_money s) 0.

(** The badge variant (lines 141-145). *)
Inductive Variant := Default | Secondary | Outline.

Definition variant (s : string) : Variant :=
  if String.eqb s "Active" then Default else if String.eqb s "New" then Secondary else Outline.

(** The four cards (lines 31-71): a title, the figure printed and its
    caption; only the first is computed. *)
Definition customer_cards : list (string * string * string) := [
  ("Total Customers", nat_to_string total_customers, "+18% from last month");
  ("Active Customers", "3", "Regular buyers");
  ("New This Month", "2", "Recent signups");
  ("Avg. Lifetime Value", "$2,271", "Per customer")].

(** A row of the list (lines 103-160): avatar, name, e-mail, phone,
    orders, amount spent, the status badge and the join date. *)
Record CustomerRow := mkCustomerRow {
  cr_avatar : string; cr_name : string; cr_email : string; cr_phone : string;
  cr_orders : Z; cr_spent : string; cr_variant : Variant; cr_status : string; cr_joined : string
}.

Definition customer_row (c : Customer) : CustomerRow :=
  mkCustomerRow (avatar c) (name c) (email c) (phone c) (orders c) (spent c)
    (variant (status c)) (status c) (joined c).

(** The list is [customers.map(...)]: the search box and the status
    select are uncontrolled and read by nothing. *)
Definition shown (search status_filter : string) : list CustomerRow := customer_row <$> customers.

(** Of the three statistics written as constants, "Active Customers" and
    "Avg. Lifetime Value" agree with the list, and "New This Month" does
    not count the customers whose badge says "New". *)
Lemma customer_stats :
  active_customers_shown = count_status "Active" /\
  avg_lifetime_value_shown = (foldr (fun c n => dollars (spent c) + n) 0 customers / Z.of_nat total_customers)%Z /\
  new_this_month_shown <> count_status "New".
Proof. vm_compute. split; [reflexivity | split; [reflexivity | discriminate]]. Qed.

(** As printed, the first card counts the rows of the list whatever is
    typed in the search box or chosen in the select, the second prints the
    number of "Active" badges, and the third does not print the number of
    "New" badges. *)
Lemma customer_cards_printed (search status_filter : string) :
  map (fun c => c.1.2) customer_cards !! 0 = Some (nat_to_string (length (shown search status_filter))) /\
  map (fun c => c.1.2) customer_cards !! 1 =
    Some (nat_to_string (length (filter (fun r => cr_status r = "Active") (shown search status_filter)))) /\
  map (fun c => c.1.2) customer_cards !! 2 <>
    Some (nat_to_string (length (filter (fun r => cr_status r = "New") (shown search status_filter)))).
Proof. vm_compute. split; [reflexivity | split; [reflexivity | discriminate]]. Qed.

End Customers.

(** ** The footer's accordions *)

Module Footer.

Definition initial : gmap string bool :=
  <["help" := false]> (<["about" := false]> (<["services" := false]>
    (<["subscribe" := true]> (<["social" := false]> ∅)))).

(** [setOpen(s => ({...s, [key]: !s[key]}))] *)
Definition toggle (key : string) (m : gmap string bool) : gmap string bool :=
  <[key := negb (default false (m !! key))]> m.

(** A section's list is shown on a small screen when [open[key]]. *)
Definition shown (m : gmap string bool) (key : string) : bool := default false (m !! key).

Definition sections : list string := ["help"; "about"; "services"; "subscribe"; "social"].

(** A toggle flips the section it names and no other; initially only the
    subscribe form is open. *)
Lemma footer_toggle (key k : string) (m : gmap string bool) :
  shown (toggle key m) k = if decide (k = key) then negb (shown m key) else shown m k.
Proof.
  unfold shown, toggle. apply lookup_flip.
Qed.

Lemma footer_initial : filter (fun k => shown initial k = true) sections = ["subscribe"].
Proof. reflexivity. Qed.

End Footer.

(** ** The cart page *)

Module Cart.

Record CartView := mkCartView {
  items_message : string;          (** the only content of the item column *)
  continue_href : string;          (** "Continue Shopping" *)
  summary : list (string * string);
  checkout_enabled : bool          (** [<button disabled>] *)
}.

(** [CartPage] (lines 4-55): no hook, no prop, no handler. *)
Definition CartPage : CartView :=
  mkCartView "Your cart is empty" "/products"
    [("Subtotal", "$0.00"); ("Shipping", "$0.00"); ("Total", "$0.00")] false.

(** Nothing can be bought: the page shows an empty cart whatever was
    added elsewhere, and its checkout button is always disabled. *)
Lemma cart_always_empty :
  checkout_enabled CartPage = false /\ Forall (fun kv => kv.2 = "$0.00") (summary CartPage).
Proof. split; [reflexivity | repeat constructor]. Qed.

End Cart.
