(* ===== verification/Dashboard.v ===== *)
(** * The admin dashboard

    [src/app/admin/page.tsx] renders data written in the file:
    [salesData] (lines 29-37), [categoryData] (lines 39-44),
    [recentOrders] (lines 46-51), [topProducts] (lines 53-58) and
    [statsCards] (lines 60-97).  [Module Dashboard] holds these literals
    and what the page computes from them: the statistics cards (lines
    124-170), the two series of the revenue chart (lines 188-213), the
    category pie, its labels and its legend (lines 224-255), the rows of
    the recent orders (lines 275-304) and of the top products (lines
    321-352).  The charts are drawn by [recharts]: the model stops at the
    data each chart receives.  The buttons of the page have no handler.

    The lemmas compare these literals with each other and with the data
    of the other pages: the recent orders repeat the order page's, and the
    top products' revenues do not all follow from the catalogue prices. *)

From Stdlib Require Import String Ascii ZArith Lia Sorted.
From stdpp Require Import base list gmap strings.
From S2P Require Import Prelude JsNumber ProductForm StaticPages.

Open Scope string_scope.

Module Dashboard.

Import JsNumber.

(** ** The literals *)

Record SalesPoint := mkSales { month : string; sales : Z; s_orders : Z; revenue : Z }.

Definition salesData : list SalesPoint := [
  mkSales "Jan" 4000 240 3200; mkSales "Feb" 3000 198 2800; mkSales "Mar" 5000 300 4200;
  mkSales "Apr" 4500 278 3900; mkSales "May" 6000 389 5100; mkSales "Jun" 5500 340 4800;
  mkSales "Jul" 6200 410 5400].

Record TopProduct := mkTop {
  tp_name : string; tp_sales : Z; tp_revenue : string; tp_trend : string; tp_stock : Z;
  tp_rating : string    (** the number literal, as the page prints it *)
}.

Definition topProducts : list TopProduct := [
  mkTop "Wireless Headphones" 234 "$69,866" "+12%" 45 "4.8";
  mkTop "Designer T-Shirt" 567 "$27,783" "+8%" 120 "4.5";
  mkTop "USB-C Hub" 345 "$20,355" "+15%" 89 "4.9";
  mkTop "Premium Yoga Mat" 234 "$9,126" "+5%" 67 "4.7"].

Record StatCard := mkStat {
  title : string; value : string; change : string; trend : string; color : string;
  description : string
}.

Definition statsCards : list StatCard := [
  mkStat "Total Revenue" "$45,231.89" "+20.1%" "up" "violet" "from last month";
  mkStat "Total Orders" "1,745" "+12.5%" "up" "cyan" "from last month";
  mkStat "Active Products" "573" "-2%" "down" "pink" "from last month";
  mkStat "Total Customers" "2,350" "+18.2%" "up" "orange" "from last month"].

(** [const isPositive = stat.trend === 'up'] picks the arrow and the
    colour of the change (lines 126, 158-165). *)
Definition isPositive (c : StatCard) : bool := String.eqb (trend c) "up".

Record Slice := mkSlice { slice_name : string; slice_value : Z; slice_color : string }.

Definition categoryData : list Slice := [
  mkSlice "Electronics" 400 "#8b5cf6"; mkSlice "Fashion" 300 "#06b6d4";
  mkSlice "Home" 200 "#ec4899"; mkSlice "Books" 100 "#f59e0b"].

(** [`${name} ${(percent * 100).toFixed(0)}%`] with [percent] the slice's
    share of the total, rounded half up. *)
Definition pie_percent (total : Z) (s : Slice) : Z := ((200 * slice_value s + total) / (2 * total))%Z.

Definition pie_labels : list string :=
  let total := foldr (fun s n => (slice_value s + n)%Z) 0%Z categoryData in
  (fun s => slice_name s +:+ " " +:+ JsNumber.nat_to_string (Z.to_nat (pie_percent total s)) +:+ "%")
    <$> categoryData.

Record RecentOrder := mkRecent {
  r_id : string; r_customer : string; r_email : string; r_product : string;
  r_amount : string; r_status : string; r_date : string; r_avatar : string
}.

Definition recentOrders : list RecentOrder := [
  mkRecent "#3210" "John Doe" "john@example.com" "Wireless Headphones" "$299" "Delivered" "2 mins ago" "JD";
  mkRecent "#3209" "Jane Smith" "jane@example.com" "Smart Watch Pro" "$399" "Processing" "1 hour ago" "JS";
  mkRecent "#3208" "Bob Johnson" "bob@example.com" "Laptop Stand" "$49" "Pending" "3 hours ago" "BJ";
  mkRecent "#3207" "Alice Brown" "alice@example.com" "USB-C Hub" "$79" "Delivered" "5 hours ago" "AB"].

Inductive Badge := BGreen | BCyan | BOrange.

(** The status badge of a recent order (lines 284-288). *)
Definition recent_badge (s : string) : Badge :=
  if String.eqb s "Delivered" then BGreen else if String.eqb s "Processing" then BCyan else BOrange.

(** The order of the order page with the same id. *)
Definition order_page_entry (id : string) : option Orders.Order :=
  List.find (fun o => String.eqb (Orders.id o) id) Orders.orders.

(** ** What the page renders *)

(** The tint of a card: [stat.color === 'violet' ? ... : stat.color ===
    'cyan' ? ... : stat.color === 'pink' ? ... : 'orange'] (lines 129-151). *)
Definition tint (color : string) : string :=
  if String.eqb color "violet" then "violet"
  else if String.eqb color "cyan" then "cyan"
  else if String.eqb color "pink" then "pink"
  else "orange".

Record CardView := mkCardView {
  cv_title : string; cv_value : string; cv_tint : string;
  cv_up : bool;             (** [TrendingUp] in green, or [TrendingDown] in red *)
  cv_change : string; cv_description : string
}.

(** A card of [statsCards.map] (lines 124-170). *)
Definition stat_view (c : StatCard) : CardView :=
  mkCardView (title c) (value c) (tint (color c)) (isPositive c) (change c) (description c).

(** The data of an [<Area dataKey=...>] over [salesData], along the
    [XAxis dataKey="name"] (lines 188-213). *)
Definition area_series (key : SalesPoint -> Z) : list (string * Z) :=
  (fun p => (month p, key p)) <$> salesData.

(** The revenue chart draws two areas: [revenue] and [orders]. *)
Definition revenue_chart : list (list (string * Z)) := [area_series revenue; area_series s_orders].

(** The legend under the pie: a dot of the slice's colour and its name
    (lines 250-255). *)
Definition pie_legend : list (string * string) := (fun s => (slice_color s, slice_name s)) <$> categoryData.

Record RecentRow := mkRecentRow {
  rr_avatar : string; rr_customer : string; rr_badge : Badge; rr_status : string;
  rr_product : string; rr_date : string; rr_amount : string; rr_id : string
}.

(** A row of [recentOrders.map] (lines 275-304). *)
Definition recent_row (o : RecentOrder) : RecentRow :=
  mkRecentRow (r_avatar o) (r_customer o) (recent_badge (r_status o)) (r_status o)
    (r_product o) (r_date o) (r_amount o) (r_id o).

Record TopRow := mkTopRow {
  tr_name : string; tr_rating : string; tr_sold : string; tr_left : string;
  tr_revenue : string; tr_trend : string
}.

Definition z_text (z : Z) : string := nat_to_string (Z.to_nat z).

(** A row of [topProducts.map] (lines 321-352): [{product.sales} sold],
    [{product.stock} left]. *)
Definition top_row (p : TopProduct) : TopRow :=
  mkTopRow (tp_name p) (tp_rating p) (z_text (tp_sales p) +:+ " sold")
    (z_text (tp_stock p) +:+ " left") (tp_revenue p) (tp_trend p).

(** The price of a product of the admin catalogue, by name. *)
Definition catalogue_price (name : string) : option Z :=
  (fun p => Customers.dollars (ProductForm.ap_price p)) <$>
    List.find (fun p => String.eqb (ProductForm.ap_name p) name) ProductForm.availableProducts.

(** The revenue of the top products, as numbers. *)
Definition top_revenue (p : TopProduct) : Z := Customers.dollars (tp_revenue p).

(** The arrows agree with the signs: a card points up exactly when its
    change starts with a plus. *)
Lemma trend_matches_sign :
  Forall (fun c => isPositive c = startsWith (change c) "+") statsCards.
Proof. repeat constructor. Qed.

(** The pie's labels give shares that add up to 100%. *)
Lemma pie_shares :
  pie_labels = ["Electronics 40%"; "Fashion 30%"; "Home 20%"; "Books 10%"].
Proof. vm_compute. reflexivity. Qed.

(** The recent orders are orders of the order page, with the same
    customer and status, but the dashboard shows #3208 at $49 where the
    order page shows $149. *)
Lemma recent_orders_disagree :
  Forall (fun r => exists o, order_page_entry (r_id r) = Some o /\
            Orders.customer o = r_customer r /\ Orders.status o = r_status r) recentOrders /\
  exists r o, r ∈ recentOrders /\ order_page_entry (r_id r) = Some o /\ Orders.total o <> r_amount r.
Proof.
  split.
  - apply Forall_forall. intros r Hr.
    repeat (apply elem_of_cons in Hr as [-> | Hr]; [eexists; split; [reflexivity | split; reflexivity] |]).
    by apply elem_of_nil in Hr.
  - eexists _, _. split; [do 2 right; left |]. split; [reflexivity | discriminate].
Qed.

(** Every card gets the tint of its own colour: the four colours are the
    three the page tests and the fallback. *)
Lemma cards_tinted : Forall (fun c => cv_tint (stat_view c) = color c) statsCards.
Proof. repeat constructor. Qed.

(** "Top Selling Products" are listed by revenue, highest first, and not
    by units sold: the T-shirt sold most and comes second. *)
Lemma top_products_by_revenue :
  Sorted (fun a b => top_revenue b <= top_revenue a)%Z topProducts /\
  ~ Sorted (fun a b => tp_sales b <= tp_sales a)%Z topProducts.
Proof.
  split.
  - repeat constructor; vm_compute; discriminate.
  - intros H. inversion H as [|? ? _ Hhd]; subst. inversion Hhd as [|? ? Hle]; subst.
    cbn in Hle. lia.
Qed.

(** Two top products' revenues are not their units sold times their
    catalogue price: the headphones ($299) show $69,866 for 234 sold
    ($69,966), the USB-C hub ($79) shows $20,355 for 345 sold, the
    price of the wireless mouse ($59). *)
Lemma top_revenue_vs_catalogue :
  map (fun p => (tp_name p, (fun q => tp_sales p * q)%Z <$> catalogue_price (tp_name p), top_revenue p))
      topProducts =
  [("Wireless Headphones", Some 69966%Z, 69866%Z); ("Designer T-Shirt", None, 27783%Z);
   ("USB-C Hub", Some 27255%Z, 20355%Z); ("Premium Yoga Mat", None, 9126%Z)].
Proof. vm_compute. reflexivity. Qed.

(** The chart's months add up to 2,155 orders and $29,400 of revenue, where
    the cards print 1,745 orders and $45,231.89. *)
Lemma chart_totals :
  foldr (fun p n => (s_orders p + n)%Z) 0%Z salesData = 2155%Z /\
  foldr (fun p n => (revenue p + n)%Z) 0%Z salesData = 29400%Z.
Proof. split; reflexivity. Qed.

End Dashboard.
