(* ===== verification/Backup.v ===== *)
(** * The backup copy of the product form

    [src/app/admin/products/add/page_old_backup.tsx] is an earlier version
    of the product-creation page.  Next.js serves only files named
    [page.tsx], so no route reaches it; it is modelled to state what
    changed between the two versions.

    [Module ProductBackup] holds its [handleSubmit] (lines 156-217): the
    body [ProductSubmit.productData_old], posted without validation and
    without an [Authorization] header to a fixed URL, and the alerts of
    the outcome.  Its editors (lines 219-320) are, line for line, the text
    of lines 301-399 of [page.tsx]: [old_editor] runs the handlers of
    [ProductForm] for the controls the backup has.  Its state lacks
    the image, video and specification lists of the current page; the
    editors leave those lists as they are.

    Its state (lines 17-154) is the current page's literal without those
    lists ([old_initial_page]); its header (lines 321-357) has a "Cancel"
    button and a "Save & Continue" button that calls [handleSubmit]
    ([old_button_action]).  Its form (lines 360-1672) has, section by
    section, the inputs of the current page's first four tabs
    ([old_product_info_inputs] ... [old_shipping_inputs], made of the
    sections of [ProductInputs]), a right column of SEO inputs and
    product-type flags, and a tab bar whose "Product Info" entry is a
    plain button: [old_step] runs the page with its active tab, and
    [backup_info_tab_lost] shows that tab cannot be reopened.  (The tab
    bar opens a [<div>] and closes it with [</TabsList>], line 393: the
    file is not valid TSX, which no build notices since no route or
    import reaches it.) *)

From Stdlib Require Import String ZArith.
From stdpp Require Import base list gmap strings.
From S2P Require Import Prelude Json JsNumber Api ProductForm ProductSubmit ProductInputs.

Open Scope string_scope.

Module ProductBackup.

Import JsNumber Api ProductForm ProductSubmit ProductInputs.

(** ** [handleSubmit] *)

(** The answer as the backup reads it: [response.ok], then
    [response.json()] (which may throw) and, on an error, its [message]. *)
Inductive OldResponse :=
| OOkJson                              (** ok, with a JSON body *)
| OOkNotJson                           (** ok, the body is not JSON: [response.json()] throws *)
| OErrJson (message : Json.jval)       (** an error status with a JSON body *)
| OErrNotJson                          (** an error status, the body is not JSON *)
| ONetwork.                            (** [fetch] rejects *)

Definition catch_alert : string := "Error submitting form. Please check console for details.".

(** The alert and whether the router moves to the product list. *)
Definition after_post_old (r : OldResponse) : string * bool :=
  match r with
  | OOkJson => ("Product created successfully!", true)
  | OErrJson m => ("Error creating product: " +:+ (Json.jval_or_empty m ||s "Unknown error"), false)%ecom
  | OOkNotJson | OErrNotJson | ONetwork => (catch_alert, false)
  end.

Definition old_url : string := "http://localhost:5285/api/products".

Definition old_request (fd : FormData) (attrs : list Attribute) : Request :=
  mkRequest POST old_url None (Some (productData_old fd attrs)).

(** The request is sent whatever the form holds; the outcome follows the
    answer. *)
Definition handleSubmit_old (fd : FormData) (attrs : list Attribute) (r : OldResponse) :
    Request * (string * bool) :=
  (old_request fd attrs, after_post_old r).

(** ** The form and its tabs *)

(** The tab bar (lines 363-393): "Product Info" is a [<button>] without
    a handler; the five others are [TabsTrigger]s. *)
Definition old_triggers : list Tab := [Prices; Inventory; Shipping; RelatedProducts; AttributesTab].

(** The state of the backup (lines 18-20, 23-32, 34-154): the same search
    terms, attribute list, catalogue ([availableProducts]) and [formData]
    literal ([initial_fields]) as the current page, without its image,
    video and specification lists. *)
Definition old_initial_page : PageState := initial_page.

(** Lines 396-1228 are, but for class names, the text of lines 528-1360 of
    [page.tsx]: the same sections, inputs, conditions and options. *)
Definition old_product_info_inputs : list Input :=
  basic_info_inputs ++ publishing_inputs ++ admin_comment_inputs.
Definition old_prices_inputs (fd : FormData) : list Input :=
  price_section fd ++ pre_order_section fd ++ mark_as_new_section fd ++ tax_section.
Definition old_inventory_inputs (fd : FormData) : list Input :=
  inventory_method_inputs ++
  shown_if (String.eqb (get_str fd "manageInventory") "track") stock_inputs ++
  cart_settings_inputs.
Definition old_shipping_inputs (fd : FormData) : list Input := shipping_inputs fd.

Definition old_tab_inputs (t : Tab) (fd : FormData) : list Input :=
  match t with
  | ProductInfo => old_product_info_inputs
  | Prices => old_prices_inputs fd
  | Inventory => old_inventory_inputs fd
  | Shipping => old_shipping_inputs fd
  | _ => []
  end.

(** The header's buttons (lines 343-355): "Cancel" goes back to the list
    and "Save & Continue" calls [handleSubmit]; "Draft" is a badge, not
    a button. *)
Inductive OldButton := OldCancel | OldSave.

Definition old_button_action (b : OldButton) (fd : FormData) (attrs : list Attribute)
    (r : OldResponse) : option (Request * (string * bool)) :=
  match b with
  | OldCancel => None
  | OldSave => Some (handleSubmit_old fd attrs r)
  end.

(** The right column (lines 1574-1672), rendered whatever the tab: the
    SEO inputs and the product-type flags. *)
Definition sidebar_inputs : list Input := [
  inp CText "metaTitle" "metaTitle"; inp CTextArea "metaDescription" "metaDescription";
  inp CText "searchEngineFriendlyPageName" "searchEngineFriendlyPageName";
  inp CCheckbox "isDownload" "isDownload"; inp CCheckbox "isRecurring" "isRecurring";
  inp CCheckbox "isRental" "isRental"; inp CCheckbox "isGiftCard" "isGiftCard"].

Definition old_inputs (t : Tab) (fd : FormData) : list Input := old_tab_inputs t fd ++ sidebar_inputs.

Record OldView := mkOldView { old_page : PageState; old_active : Tab }.

Definition old_initial : OldView := mkOldView initial_page ProductInfo.

Inductive OldEvent :=
| OTab (t : Tab) | OInput (i : Input) (value : string) | OOther (e : FormEvent).

(** The controls of the related-product and attribute tabs (lines
    1230-1530); the backup has no image, video or specification editor. *)
Definition old_control (e : FormEvent) : bool :=
  match e with
  | ESearch _ | ESearchCross _ | EAddRelated _ | ERemoveRelated _ | EAddCross _
  | ERemoveCross _ | EAddAttribute _ | ERemoveAttribute _ | EAttrName _ _
  | EAttrValue _ _ _ | EAddAttrValue _ | ERemoveAttrValue _ _ => true
  | _ => false
  end.

(** The editors (lines 221-319), line for line the text of lines 301-399
    of [page.tsx]: [handleChange], the related and cross-sell pickers and
    the attribute editors, which are the handlers of [ProductForm]; a
    control the backup lacks edits nothing. *)
Definition old_editor (e : FormEvent) (st : PageState) : option PageState :=
  if old_control e then Some (form_step st e) else None.

Definition old_step (v : OldView) (e : OldEvent) : OldView :=
  match e with
  | OTab t => mkOldView (old_page v) t
  | OInput i x => mkOldView (form_step (old_page v) (input_event (formData (old_page v)) i x)) (old_active v)
  | OOther e => mkOldView (default (old_page v) (old_editor e (old_page v))) (old_active v)
  end.

Definition old_enabled (v : OldView) (e : OldEvent) : Prop :=
  match e with
  | OTab t => t ∈ old_triggers
  | OInput i x => i ∈ old_inputs (old_active v) (formData (old_page v)) /\ allowed i x
  | OOther e => old_control e = true /\ form_enabled (old_page v) e
  end.

(** The runs of the page from one view to another. *)
Inductive old_steps : OldView -> OldView -> Prop :=
| old_refl v : old_steps v v
| old_next v e v' : old_enabled v e -> old_steps (old_step v e) v' -> old_steps v v'.

Definition name_input : Input := inp CText "name" "name".
Definition sku_input : Input := inp CText "sku" "sku".

Lemma old_active_stays (v v' : OldView) :
  old_steps v v' -> old_active v <> ProductInfo -> old_active v' <> ProductInfo.
Proof.
  induction 1 as [v|v e v' He Hs IH]; [done |]. intros Hv. apply IH.
  destruct e as [t | i x | e]; cbn [old_step old_active old_enabled] in *; [| exact Hv | exact Hv].
  intros ->. revert He. change (ProductInfo ∉ old_triggers). by_eval.
Qed.

Lemma info_inputs_only_on_info (t : Tab) (fd : FormData) :
  t <> ProductInfo -> (name_input ∉ old_inputs t fd) /\ (sku_input ∉ old_inputs t fd).
Proof.
  intros Ht. destruct t; [done | ..]; unfold old_inputs, old_tab_inputs;
    unfold old_product_info_inputs, old_prices_inputs, old_inventory_inputs,
      old_shipping_inputs, prices_inputs, price_section, pre_order_section, mark_as_new_section,
      inventory_inputs, shipping_inputs, shown_if;
    repeat case_match; split; by_eval.
Qed.

(** ** Properties *)

(** In the backup form, "Product Info" is a button without a handler:
    once the user has opened another tab, no run of the page shows the
    product-information tab again, and with it the name and SKU inputs. *)
Theorem backup_info_tab_lost (v v' : OldView) :
  old_steps v v' -> old_active v <> ProductInfo ->
  (name_input ∉ old_inputs (old_active v') (formData (old_page v'))) /\
  (sku_input ∉ old_inputs (old_active v') (formData (old_page v'))).
Proof. intros Hs Hv. apply info_inputs_only_on_info. by apply (old_active_stays v). Qed.

Lemma backup_info_tab_lost_witness :
  old_steps (old_step old_initial (OTab Prices)) (old_step old_initial (OTab Prices)) /\
  old_active (old_step old_initial (OTab Prices)) <> ProductInfo /\
  (name_input ∉ old_inputs Prices (formData initial_page)) /\
  (sku_input ∉ old_inputs Prices (formData initial_page)).
Proof.
  split; [constructor | split; [discriminate |]].
  apply (backup_info_tab_lost (old_step old_initial (OTab Prices)) (old_step old_initial (OTab Prices)));
    [constructor | discriminate].
Defined.


(** The backup posts a product with an empty name, which the
    current page refuses with an alert, and it posts it without an
    [Authorization] header to a fixed local URL. *)
Theorem backup_posts_unchecked (b : bool) (fd : FormData) (attrs : list Attribute) (r : OldResponse) :
  get_str fd "name" = "" ->
  ProductSubmit.handleSubmit b fd = SAlert required_alert /\
  (handleSubmit_old fd attrs r).1 = mkRequest POST "http://localhost:5285/api/products" None
                                      (Some (productData_old fd attrs)).
Proof. intros H. unfold ProductSubmit.handleSubmit. rewrite H. split; reflexivity. Qed.

Lemma backup_posts_unchecked_witness :
  get_str initial_form "name" = "" /\
  ProductSubmit.handleSubmit false initial_form = SAlert required_alert /\
  (handleSubmit_old initial_form [] OOkJson).1 =
    mkRequest POST "http://localhost:5285/api/products" None (Some (productData_old initial_form [])).
Proof. split; [reflexivity |]. apply (backup_posts_unchecked false initial_form [] OOkJson). reflexivity. Defined.

(** A creation whose answer is ok but not JSON is reported by the
    backup as a failure and the page stays, where the current page
    reports success and moves to the list; on every other answer the two
    agree on whether to move. *)
Theorem backup_ok_not_json_reported_failed (b : bool) :
  after_post_old OOkNotJson = (catch_alert, false) /\ (after_post b ROk).2 = true /\
  (forall r, r <> OOkNotJson -> (after_post_old r).2 = true <-> r = OOkJson).
Proof.
  split; [reflexivity | split; [reflexivity |]].
  intros r Hr. destruct r; simpl; split; congruence.
Qed.

(** The category text is sent as it is: the backup has no GUID check. *)
Lemma backup_category_unchecked (fd : FormData) (attrs : list Attribute) :
  field (productData_old fd attrs) "categoryId" = Some (str_or_null (get_str fd "categories")).
Proof. reflexivity. Qed.

End ProductBackup.
