(* ===== verification/Routes.v ===== *)
(** * The routes of the application and the links that lead to them

    Next.js's App Router serves a path when a directory of [src/app] holds
    a [page.tsx]; the application has no dynamic segment ([[id]]), so the
    twelve directories listed in [app_pages] are all its pages.  A link
    ([<Link href>] or [<a href>]) is resolved by the browser against the
    current URL: its path is split into segments, the dot segments ["."]
    and [".."] are removed (RFC 3986, section 5.2.4), and a trailing
    slash is dropped by the router ([trailingSlash] is not set in
    [next.config.ts]).  An [href] of ["#"] stays on the page.

    [Module Routes] models this resolution ([path_segments], [resolves])
    and gathers the links of the other components: the admin sidebar,
    the product pages, the header and its drawer, the mega menu, the home
    page, the cart and the login page.  [internal_links_resolve] shows
    that the admin and checkout links reach pages; [dead_links] shows that
    every category, brand, delivery, account, order-history, product-edit
    and password-reset link reaches none, whatever the slug or id, as
    long as it is a plain path segment. *)

From Stdlib Require Import String Ascii List.
From stdpp Require Import base list strings.
From S2P Require Import Prelude JsNumber Middleware Header MegaMenu Home AdminLayout.
From S2P Require Import AdminProducts ProductSubmit LoginPage StaticPages.

Open Scope string_scope.

Module Routes.

(** ** Paths *)

Definition slash : ascii := "/".

(** The segments between the ['/'] of a path. *)
Fixpoint split_path (s : string) : list string :=
  match s with
  | EmptyString => [""]
  | String c s' =>
      if Ascii.eqb c slash then "" :: split_path s'
      else match split_path s' with
           | h :: t => String c h :: t
           | [] => [String c ""]
           end
  end.

(** One step of the removal of dot segments, on the output reversed. *)
Definition dot_step (acc : list string) (seg : string) : list string :=
  if String.eqb seg "." then acc
  else if String.eqb seg ".." then tail acc
  else seg :: acc.

(** The segments of the path a link leads to: the empty segment before
    the leading ['/'] dropped, dot segments removed, a trailing empty
    segment (a trailing slash) dropped. *)
Definition path_segments (href : string) : list string :=
  let segs := rev (foldl dot_step [] (tail (split_path href))) in
  match last segs with
  | Some "" => removelast segs
  | _ => segs
  end.

(** The directories of [src/app] that hold a [page.tsx]. *)
Definition app_pages : list string :=
  ["/"; "/admin"; "/admin/brands"; "/admin/categories"; "/admin/customers";
   "/admin/manufacturers"; "/admin/orders"; "/admin/products"; "/admin/products/add";
   "/cart"; "/login"; "/products"].

Definition page_segments : list (list string) := Eval vm_compute in path_segments <$> app_pages.

Definition resolves (href : string) : bool :=
  String.eqb href "#" || bool_decide (path_segments href ∈ page_segments).

(** A slug or id that is one plain path segment: not empty, no ['/'],
    ['?'] or ['#'], and not a dot segment. *)
Definition plain_segment (s : string) : bool :=
  negb (String.eqb s "") && negb (String.eqb s ".") && negb (String.eqb s "..") &&
  forallb (fun c => negb (Ascii.eqb c "/" || Ascii.eqb c "?" || Ascii.eqb c "#"))
    (list_ascii_of_string s).

(** The path of a list of segments. *)
Fixpoint join_path (segs : list string) : string :=
  match segs with
  | [] => ""
  | [seg] => String slash seg
  | seg :: rest => String slash (seg +:+ join_path rest)
  end.

(** ** Lemmas on paths *)

Lemma split_path_nonempty (s : string) : split_path s <> [].
Proof. induction s as [|c s IH]; simpl; [done |]. case_match; [done |]. by case_match. Qed.

Lemma split_path_app (s t : string) :
  split_path (s +:+ String slash t) = (split_path s ++ split_path t)%list.
Proof.
  induction s as [|c s IH]; [reflexivity |]. rewrite string_app_cons. cbn [split_path]. rewrite IH.
  destruct (Ascii.eqb c slash); [reflexivity |].
  destruct (split_path s) eqn:E; [by destruct (split_path_nonempty s) |]. reflexivity.
Qed.

Lemma plain_no_slash (s : string) :
  plain_segment s = true -> forallb (fun c => negb (Ascii.eqb c slash)) (list_ascii_of_string s) = true.
Proof.
  unfold plain_segment. rewrite !andb_true_iff. intros [_ H].
  rewrite forallb_forall in H |- *. intros c Hc. specialize (H c Hc).
  apply negb_true_iff in H. rewrite !orb_false_iff in H. apply negb_true_iff. exact (proj1 (proj1 H)).
Qed.

Lemma split_path_plain (s : string) :
  forallb (fun c => negb (Ascii.eqb c slash)) (list_ascii_of_string s) = true -> split_path s = [s].
Proof.
  induction s as [|c s IH]; [reflexivity |]. cbn. rewrite andb_true_iff. intros [Hc Hs].
  apply negb_true_iff in Hc. rewrite Hc, (IH Hs). reflexivity.
Qed.

Lemma split_join (s : string) (segs : list string) :
  Forall (fun seg => plain_segment seg = true) segs ->
  split_path (s +:+ join_path segs) = (split_path s ++ segs)%list.
Proof.
  intros H. revert s. induction H as [|seg segs Hseg Hs IH]; intros s.
  - rewrite string_app_nil_r, app_nil_r. reflexivity.
  - destruct segs as [|r rs].
    + cbn [join_path]. rewrite split_path_app, (split_path_plain seg (plain_no_slash seg Hseg)).
      reflexivity.
    + change (join_path (seg :: r :: rs)) with (String slash (seg +:+ join_path (r :: rs))).
      rewrite split_path_app, IH, (split_path_plain seg (plain_no_slash seg Hseg)). reflexivity.
Qed.

Lemma foldl_dot_plain (acc segs : list string) :
  Forall (fun seg => plain_segment seg = true) segs -> foldl dot_step acc segs = (rev segs ++ acc)%list.
Proof.
  intros H. revert acc. induction H as [|seg segs Hseg _ IH]; intros acc; [reflexivity |].
  cbn [foldl]. rewrite IH. unfold dot_step.
  unfold plain_segment in Hseg. rewrite !andb_true_iff, !negb_true_iff in Hseg.
  destruct Hseg as [[[_ H1] H2] _]. rewrite H1, H2. cbn. by rewrite <- app_assoc.
Qed.

(** A path of plain segments leads to those segments. *)
Lemma path_segments_join (segs : list string) :
  Forall (fun seg => plain_segment seg = true) segs -> path_segments (join_path segs) = segs.
Proof.
  intros H. unfold path_segments.
  rewrite <- (string_app_nil_l (join_path segs)), split_join by exact H.
  cbn [split_path app tail]. rewrite foldl_dot_plain, app_nil_r, rev_involutive by exact H.
  destruct (last segs) as [l|] eqn:E; [| reflexivity].
  apply last_Some_elem_of in E. rewrite Forall_forall in H. specialize (H l E).
  destruct l; [discriminate | reflexivity].
Qed.

(** A link whose segments are no page's resolves to none. *)
Lemma resolves_join (segs : list string) :
  Forall (fun seg => plain_segment seg = true) segs -> segs ∉ page_segments ->
  resolves (join_path segs) = false.
Proof.
  intros H Hn. unfold resolves. rewrite path_segments_join by exact H.
  rewrite bool_decide_false by exact Hn. by destruct segs as [|s [|r rs]].
Qed.

(** A link made of a prefix no page starts with, followed by plain
    segments, resolves to no page. *)
Lemma resolves_under (pre segs : list string) :
  Forall (fun ps => take (length pre) ps <> pre) page_segments ->
  Forall (fun seg => plain_segment seg = true) (pre ++ segs) ->
  resolves (join_path (pre ++ segs)) = false.
Proof.
  intros Hp Hs. apply resolves_join; [exact Hs |]. intros Hin.
  rewrite Forall_forall in Hp. apply (Hp _ Hin). by rewrite take_app_length.
Qed.

(** The prefixes of the dead links: no page lies under them. *)
Lemma dead_prefixes :
  Forall (fun pre => Forall (fun ps => take (length pre) ps <> pre) page_segments)
    [["category"]; ["brand"]; ["delivery"]; ["admin"; "products"; "edit"]].
Proof. by_eval. Qed.

(** The href of a drawer item, ["#"] for an accordion button. *)
Definition item_href (i : Header.DrawerItem) : string :=
  match i with Header.DLink h _ => h | Header.DButton _ _ => "#" end.

Ltac plain_segs :=
  cbn [app]; repeat apply Forall_cons_2; try apply Forall_nil_2; first [assumption | reflexivity].

(** The category links of the desktop bar lead to no page, for every
    state of the header whose categories have plain slugs. *)
Lemma header_nav_dead (st : Header.State) :
  Forall (fun c => plain_segment (Header.cat_slug c) = true) (Header.categories st) ->
  Forall (fun l => resolves l.1 = false) (Header.nav_links st).
Proof.
  intros H. apply Forall_fmap. eapply Forall_impl; [exact H |]. intros c Hc. simpl.
  pose proof dead_prefixes as Hd. apply Forall_cons in Hd as [Dc _].
  exact (resolves_under ["category"] [Header.cat_slug c] Dc ltac:(plain_segs)).
Qed.

(** C22: the storefront's category links (the drawer's, the mega menu's
    two levels and the home page's cards), its brand links (the home page's
    and the mega menu's), the admin list's product-edit links, the header's
    delivery, account and order links and the login page's password-reset
    link all lead to no page of the application, for every slug and id
    that is a plain path segment. *)
Theorem dead_links (main sub child : Header.Category) (hb : Home.ApiBrand) (hc : Home.ApiCategory)
    (mb : MegaMenu.MenuBrand) (p : AdminProducts.Product) (env : option string) (base : string)
    (show : JsNumber.num -> string) :
  Forall (fun s => plain_segment s = true)
    [Header.cat_slug main; Header.cat_slug sub; Header.cat_slug child; Home.b_slug hb;
     Home.c_slug hc; MegaMenu.mb_slug mb; AdminProducts.id p] ->
  Forall (fun h => resolves h = false)
    ([item_href (Header.catLink main); Header.subLink main sub; Header.childLink main sub child;
      Home.lc_href (Home.brand_card base show hb); Home.lc_href (Home.category_card base show hc);
      MegaMenu.bl_href (MegaMenu.brand_link env mb); AdminProducts.edit_href p; LoginPage.forgot_href] ++
     ((fun l => l.2) <$> Header.desktopTopLinks) ++ (fst <$> take 2 Header.drawer_footer_links))%list.
Proof.
  intros H. apply Forall_cons in H as [H1 H]. apply Forall_cons in H as [H2 H].
  apply Forall_cons in H as [H3 H]. apply Forall_cons in H as [H4 H].
  apply Forall_cons in H as [H5 H]. apply Forall_cons in H as [H6 H]. apply Forall_cons in H as [H7 _].
  pose proof dead_prefixes as Hd. apply Forall_cons in Hd as [Dc Hd]. apply Forall_cons in Hd as [Db Hd].
  apply Forall_cons in Hd as [_ Hd]. apply Forall_cons in Hd as [De _].
  apply Forall_app; split; [| by_eval].
  repeat apply Forall_cons_2; try apply Forall_nil_2.
  - exact (resolves_under ["category"] [Header.cat_slug main] Dc ltac:(plain_segs)).
  - exact (resolves_under ["category"] [Header.cat_slug main; Header.cat_slug sub] Dc ltac:(plain_segs)).
  - exact (resolves_under ["category"] [Header.cat_slug main; Header.cat_slug sub; Header.cat_slug child]
             Dc ltac:(plain_segs)).
  - exact (resolves_under ["brand"] [Home.b_slug hb] Db ltac:(plain_segs)).
  - exact (resolves_under ["category"] [Home.c_slug hc] Dc ltac:(plain_segs)).
  - exact (resolves_under ["brand"] [MegaMenu.mb_slug mb] Db ltac:(plain_segs)).
  - exact (resolves_under ["admin"; "products"; "edit"] [AdminProducts.id p] De ltac:(plain_segs)).
  - reflexivity.
Qed.

Lemma dead_links_witness :
  Forall (fun s => plain_segment s = true)
    [Header.cat_slug Header.home; Header.cat_slug Header.lighting; Header.cat_slug Header.lamp;
     Home.b_slug (Home.mkBrand "b1" "Acme" "acme" "/acme.png" true 1 (JsNumber.Dec 3 0));
     Home.c_slug (Home.mkCategory "c1" "Home" "home" "/home.png" (JsNumber.Dec 5 0) None None);
     MegaMenu.mb_slug (MegaMenu.mkMenuBrand "b1" "Acme" "acme" "/acme.png");
     AdminProducts.id (AdminProducts.mkProduct "p1" "Lamp" "Home" (JsNumber.Dec 10 0) 3 "Low Stock"
       "" 0 "" "L-1" "" "" "N/A" None None)] /\
  Forall (fun h => resolves h = false)
    ([item_href (Header.catLink Header.home); Header.subLink Header.home Header.lighting;
      Header.childLink Header.home Header.lighting Header.lamp;
      Home.lc_href (Home.brand_card "" (fun _ => "3") (Home.mkBrand "b1" "Acme" "acme" "/acme.png" true 1 (JsNumber.Dec 3 0)));
      Home.lc_href (Home.category_card "" (fun _ => "3")
        (Home.mkCategory "c1" "Home" "home" "/home.png" (JsNumber.Dec 5 0) None None));
      MegaMenu.bl_href (MegaMenu.brand_link None (MegaMenu.mkMenuBrand "b1" "Acme" "acme" "/acme.png"));
      AdminProducts.edit_href (AdminProducts.mkProduct "p1" "Lamp" "Home" (JsNumber.Dec 10 0) 3 "Low Stock"
        "" 0 "" "L-1" "" "" "N/A" None None); LoginPage.forgot_href] ++
     ((fun l => l.2) <$> Header.desktopTopLinks) ++ (fst <$> take 2 Header.drawer_footer_links))%list.
Proof.
  assert (H : Forall (fun s => plain_segment s = true)
    [Header.cat_slug Header.home; Header.cat_slug Header.lighting; Header.cat_slug Header.lamp;
     Home.b_slug (Home.mkBrand "b1" "Acme" "acme" "/acme.png" true 1 (JsNumber.Dec 3 0));
     Home.c_slug (Home.mkCategory "c1" "Home" "home" "/home.png" (JsNumber.Dec 5 0) None None);
     MegaMenu.mb_slug (MegaMenu.mkMenuBrand "b1" "Acme" "acme" "/acme.png");
     AdminProducts.id (AdminProducts.mkProduct "p1" "Lamp" "Home" (JsNumber.Dec 10 0) 3 "Low Stock"
       "" 0 "" "L-1" "" "" "N/A" None None)]) by by_eval.
  split; [exact H | exact (dead_links _ _ _ _ _ _ _ None "" (fun _ => "3") H)].
Defined.

(** The links of the admin pages, the storefront's home, cart and logo
    links and the guard's redirects all lead to pages of the application. *)
Lemma internal_links_resolve :
  Forall (fun h => resolves h = true)
    ((snd <$> AdminLayout.navigation) ++
     [AdminLayout.store_href; AdminProducts.add_href; ProductSubmit.list_href; Header.logo_href;
      Home.view_all_href; Cart.continue_href Cart.CartPage; LoginPage.store_href] ++
     (fst <$> drop 2 Header.drawer_footer_links))%list /\
  (forall req p, Middleware.handle_request req = Middleware.Redirect p -> resolves p = true).
Proof.
  split; [by_eval |]. intros req p.
  unfold Middleware.handle_request, Middleware.middleware.
  repeat case_match; intros E; simplify_eq; reflexivity.
Qed.

End Routes.
