(* ===== verification/RootLayout.v ===== *)
(** * The root layout and its server-side category fetch

    [src/app/layout.tsx] is the layout of every route of the application,
    the admin pages and the login page included.  Before it renders, it
    fetches the category tree on the server (lines 22-32): it requests
    [`${process.env.NEXT_PUBLIC_API_URL}/api/Categories?...`], parses the
    body with [res.json()] without looking at [res.ok], and keeps the
    top-level categories when [json.success] holds ([json.data.filter]).
    It then renders [ClientLayout] (line 38), which shows the storefront
    [Header] and [Footer] on every route but the admin ones
    ([src/app/ClientLayout.tsx], lines 14-22).  [HeaderServer]
    ([src/components/HeaderServer.tsx]) has the same fetch and is imported
    by no file.

    An exception in an async server layout is not caught by the layout:
    Next.js renders its error page instead of the route.  The fetch throws
    when the URL is not an absolute [http:] or [https:] URL (an unset
    variable prints ["undefined"], an empty one leaves the relative path
    ["/api/..."]) or when the server cannot be reached, [res.json()] throws
    on a body that is not JSON, and [json.data.filter] throws when a
    successful answer has no [data].

    [Module RootLayout] models the metadata, the answer of the fetch, the
    layout as a function that returns [None] where it throws, and
    [ClientLayout].  [layout_failure_takes_every_route] shows that every
    such failure takes down every route, although the admin routes do not
    show the categories. *)

From Stdlib Require Import String.
From stdpp Require Import base list strings.
From S2P Require Import Prelude Api Header Home.

Open Scope string_scope.

Module RootLayout.

Import Header.

(** [metadata] (lines 8-14). *)
Record Metadata := mkMetadata { md_title : string; md_description : string; md_icon : string }.

Definition metadata : Metadata :=
  mkMetadata "Direct Care | E-Commerce Platform"
    "Shop healthcare and wellness products online at great prices." "/favicon.ico".

(** What the fetch of line 23 and [res.json()] of line 28 give: a parsed
    body with its [success] and [data] members ([data] absent or [null] is
    [None]), a body that is not JSON, or a fetch that rejects. *)
Inductive CategoriesAnswer :=
| AJson (success : bool) (data : option (list Category))
| ANotJson
| ANetwork.

(** The server-side [fetch] accepts only absolute [http:] and [https:]
    URLs. *)
Definition fetchable (url : string) : bool := startsWith url "http://" || startsWith url "https://".

(** The URL of line 24, as the storefront's other category fetch builds it. *)
Definition layout_url (env : option string) : string := Home.categories_url (Api.env_text env).

(** Lines 22-32: the categories passed to [ClientLayout], [None] where the
    layout throws. *)
Definition root_categories (env : option string) (ans : CategoriesAnswer) : option (list Category) :=
  if fetchable (layout_url env) then
    match ans with
    | AJson true (Some data) => Some (filter top_level data)
    | AJson true None => None
    | AJson false _ => Some []
    | ANotJson | ANetwork => None
    end
  else None.

(** [HeaderServer] (lines 3-16): the same fetch and filter. *)
Definition HeaderServer (env : option string) (ans : CategoriesAnswer) : option (list Category) :=
  root_categories env ans.

(** What [ClientLayout] renders around a page (lines 14-22): the header
    with the categories and the footer, except on admin routes. *)
Record Chrome := mkChrome { ch_header : option (list Category); ch_footer : bool }.

Definition ClientLayout (pathname : string) (categories : list Category) : Chrome :=
  if isAdminRoute pathname then mkChrome None false else mkChrome (Some categories) true.

(** A route as the root layout renders it, [None] for the error page. *)
Definition render_route (env : option string) (ans : CategoriesAnswer) (pathname : string) : option Chrome :=
  ClientLayout pathname <$> root_categories env ans.

(** ** Properties *)

(** The layout passes on what [Header.ssrCategories] computes from a
    parsed answer with data, when the URL can be fetched. *)
Lemma root_categories_ssr (env : option string) (b : bool) (data : list Category) :
  fetchable (layout_url env) = true ->
  root_categories env (AJson b (Some data)) = Some (ssrCategories (Some (b, data))).
Proof. intros H. unfold root_categories. rewrite H. by destruct b. Qed.

(** C23: the root layout throws, and every route shows the error page
    instead of its content, exactly when the API variable is not an
    absolute http(s) URL, the server cannot be reached, the body is not
    JSON, or a successful answer has no data; the admin routes fail with
    the others although what they render does not depend on the
    categories. *)
Theorem layout_failure_takes_every_route (env : option string) (ans : CategoriesAnswer) (pathname : string) :
  (render_route env ans pathname = None <->
   fetchable (layout_url env) = false \/ ans = ANetwork \/ ans = ANotJson \/ ans = AJson true None) /\
  (isAdminRoute pathname = true -> forall cs cs', ClientLayout pathname cs = ClientLayout pathname cs').
Proof.
  split.
  - unfold render_route, root_categories.
    destruct (fetchable (layout_url env)), ans as [[] [data|] | |]; cbn; intuition congruence.
  - intros H cs cs'. unfold ClientLayout. by rewrite H.
Qed.

Lemma layout_failure_takes_every_route_witness :
  isAdminRoute "/admin/products" = true /\
  render_route (Some "https://localhost:7196") ANetwork "/admin/products" = None.
Proof.
  split; [reflexivity |].
  apply (proj1 (layout_failure_takes_every_route (Some "https://localhost:7196") ANetwork "/admin/products")).
  right; left; reflexivity.
Defined.

(** With [NEXT_PUBLIC_API_URL] unset, no route of the application
    renders, whatever the API would answer. *)
Lemma unset_env_no_route (ans : CategoriesAnswer) (pathname : string) :
  render_route None ans pathname = None.
Proof. reflexivity. Qed.

End RootLayout.
