(* ===== verification/NextConfig.v ===== *)
(** * The image allow-list of the build configuration

    [src/next.config.ts] sets [images.remotePatterns] (lines 10-27): the
    [next/image] component loads a remote image only from a URL that one
    of the patterns matches, an [https] URL of [localhost:7196] or of
    [testapi.knowledgemarkg.com] (any port).  A [src] that starts with one
    ['/'] is a local image and is always allowed; any other [src] that is
    not an absolute URL is refused.  A refused [src] makes [next/image]
    throw during development and makes the image optimizer answer 400 in
    production: either way the image is not shown.  The configuration's
    other options ([eslint.ignoreDuringBuilds], [typescript.ignoreBuildErrors])
    act on the build only.

    [Module NextConfig] models the configuration ([remotePatterns]), the
    parts of a URL that Next.js compares ([parse_url], after the WHATWG
    URL parser: scheme, lower-case host name, port without the scheme's
    default, path) and the matching of [next/image]
    ([match_remote], for the two glob shapes the configuration uses: a
    literal host name and ["/**"]).  The only [next/image] with a remote
    [src] is the brand logo of the mega menu ([MegaMenu.brand_link]):
    [brand_logos_need_https_origin] shows which API variables let it load. *)

From Stdlib Require Import String Ascii.
From stdpp Require Import base list strings.
From S2P Require Import Prelude Api MegaMenu.

Open Scope string_scope.

Module NextConfig.

Import MegaMenu.

(** ** The configuration *)

(** An entry of [images.remotePatterns]; an absent member is [None]. *)
Record RemotePattern := mkPattern {
  rp_protocol : option string;
  rp_hostname : string;
  rp_port : option string;
  rp_pathname : option string
}.

Definition remotePatterns : list RemotePattern :=
  [mkPattern (Some "https") "localhost" (Some "7196") (Some "/**");
   mkPattern (Some "https") "testapi.knowledgemarkg.com" None (Some "/**")].

(** ** URLs *)

Record Url := mkUrl { u_protocol : string; u_hostname : string; u_port : string; u_pathname : string }.

(** The text before the first [c], and the rest from [c] on. *)
Fixpoint split_first (c : ascii) (s : string) : string * string :=
  match s with
  | EmptyString => ("", "")
  | String d s' => if Ascii.eqb d c then ("", s) else let (a, b) := split_first c s' in (String d a, b)
  end.

(** [s] without the prefix [p], if it has it. *)
Fixpoint drop_prefix (p s : string) : option string :=
  match p, s with
  | EmptyString, _ => Some s
  | String c p', String d s' => if Ascii.eqb c d then drop_prefix p' s' else None
  | String _ _, EmptyString => None
  end.

(** The port of a URL: the scheme's default port is written as [""]. *)
Definition norm_port (protocol port : string) : string :=
  if (String.eqb protocol "https" && String.eqb port "443") ||
     (String.eqb protocol "http" && String.eqb port "80") then "" else port.

(** An absolute [http:] or [https:] URL: scheme, authority up to the
    first ['/'] (host, then [:port]), and the path, ["/"] when empty. *)
Definition parse_hier (protocol rest : string) : Url :=
  let (auth, path) := split_first "/" rest in
  let (host, port) := split_first ":" auth in
  mkUrl protocol (toLowerCase host) (norm_port protocol (match port with String _ p => p | "" => "" end))
    (match path with "" => "/" | _ => path end).

Definition parse_url (u : string) : option Url :=
  match drop_prefix "https://" u with
  | Some rest => Some (parse_hier "https" rest)
  | None => parse_hier "http" <$> drop_prefix "http://" u
  end.

(** ** The matching of [next/image] *)

(** A glob of the configuration: [P ++ "/**"] matches [P] and every path
    below it; any other pattern matches itself. *)
Definition glob_match (pat s : string) : bool :=
  let n := String.length pat in
  if (3 <=? n)%nat && String.eqb (substring (n - 3) 3 pat) "/**" then
    let p := substring 0 (n - 3) pat in String.eqb s p || startsWith s (p +:+ "/")
  else String.eqb s pat.

(** [matchRemotePattern]: protocol, port, host name and path name, each
    checked when the pattern names it (the path name defaults to ["**"],
    which matches every path). *)
Definition match_remote (p : RemotePattern) (u : Url) : bool :=
  match rp_protocol p with Some pr => String.eqb pr (u_protocol u) | None => true end &&
  match rp_port p with Some pt => String.eqb pt (u_port u) | None => true end &&
  glob_match (rp_hostname p) (u_hostname u) &&
  match rp_pathname p with Some pn => glob_match pn (u_pathname u) | None => true end.

Inductive ImageSrc := LocalSrc (path : string) | RemoteSrc (u : Url) | InvalidSrc.

Definition classify_src (src : string) : ImageSrc :=
  if startsWith src "/" && negb (startsWith src "//") then LocalSrc src
  else match parse_url src with Some u => RemoteSrc u | None => InvalidSrc end.

(** Whether [next/image] shows [src]. *)
Definition image_allowed (src : string) : bool :=
  match classify_src src with
  | LocalSrc _ => true
  | RemoteSrc u => existsb (fun p => match_remote p u) remotePatterns
  | InvalidSrc => false
  end.

(** ** Properties *)

Lemma startsWith_slash (p : string) : startsWith p "/" = true -> exists p', p = String "/" p'.
Proof.
  destruct p as [|c p']; [discriminate |]. cbn [startsWith]. rewrite andb_true_r.
  intros H. apply Ascii.eqb_eq in H. subst c. by exists p'.
Qed.

(** C24: the mega menu's brand logo, [`${NEXT_PUBLIC_API_URL}${brand.logoUrl}`],
    loads when the variable is one of the two https origins the
    configuration allows, and is refused when the variable is the API's
    default [http://localhost:5285] or is unset, for every logo path the
    API returns (a path from the root). *)
Theorem brand_logos_need_https_origin (b : MenuBrand) :
  startsWith (mb_logoUrl b) "/" = true ->
  image_allowed (bl_src (brand_link (Some "https://localhost:7196") b)) = true /\
  image_allowed (bl_src (brand_link (Some "https://testapi.knowledgemarkg.com") b)) = true /\
  image_allowed (bl_src (brand_link (Some Api.default_api_url) b)) = false /\
  image_allowed (bl_src (brand_link None b)) = false.
Proof.
  intros H. destruct (startsWith_slash _ H) as [p' Hp].
  destruct b as [i n s l]; cbn in Hp; subst l. split_and!; reflexivity.
Qed.

Lemma brand_logos_need_https_origin_witness :
  startsWith (mb_logoUrl (mkMenuBrand "1" "Acme" "acme" "/uploads/acme.png")) "/" = true /\
  image_allowed (bl_src (brand_link None (mkMenuBrand "1" "Acme" "acme" "/uploads/acme.png"))) = false.
Proof.
  split; [reflexivity |].
  exact (proj2 (proj2 (proj2 (brand_logos_need_https_origin (mkMenuBrand "1" "Acme" "acme" "/uploads/acme.png")
    eq_refl)))).
Defined.

End NextConfig.
